(** * Submission bot: a shallow embedding of [bot.py] and [main.py]

    The repository holds two stand-alone variants of the same Telegram
    bot.  [bot.py] (PostgreSQL, built-in word list) is embedded in
    [Module Bot], [main.py] (SQLite, word list read from a file, extra
    navigation) in [Module Main], and the publication path of [main.py]
    once more, with its [await]s, in [Module Aio], for the runs of the
    moderation handler and of the publisher that overlap on the event
    loop.  Definitions keep the names of the
    Python functions they embed; the shared prelude models the parts of
    the Python runtime the two programs rely on ([str], [re],
    [datetime]). *)

From stdpp Require Import base numbers list strings gmap.
From Stdlib Require Import ZArith Lia Ascii String DecimalString DecimalZ.

Local Open Scope Z_scope.

(** ** Python [str]: a sequence of Unicode code points *)

Abbreviation str := (list Z).

Fixpoint bytes_of (s : string) : list Z :=
  match s with
  | EmptyString => []
  | String a s' => Z.of_N (N_of_ascii a) :: bytes_of s'
  end.

(** UTF-8 decoding, so that the literals of the sources can be written
    as they are. *)
Fixpoint utf8_decode (bs : list Z) : str :=
  match bs with
  | [] => []
  | b0 :: r0 =>
      if b0 <? 0x80 then b0 :: utf8_decode r0
      else if b0 <? 0xE0 then
        match r0 with
        | b1 :: r1 => ((b0 - 0xC0) * 64 + (b1 - 0x80)) :: utf8_decode r1
        | _ => []
        end
      else if b0 <? 0xF0 then
        match r0 with
        | b1 :: b2 :: r2 =>
            ((b0 - 0xE0) * 4096 + (b1 - 0x80) * 64 + (b2 - 0x80))
              :: utf8_decode r2
        | _ => []
        end
      else
        match r0 with
        | b1 :: b2 :: b3 :: r3 =>
            ((b0 - 0xF0) * 262144 + (b1 - 0x80) * 4096
             + (b2 - 0x80) * 64 + (b3 - 0x80)) :: utf8_decode r3
        | _ => []
        end
  end.

Definition u (s : string) : str := utf8_decode (bytes_of s).

Definition HYPHEN : Z := 45.
Definition SPACE : Z := 32.
Definition STAR : Z := 42.

(** ** Python [re], as far as the two programs use it

    The programs only build patterns with [re.escape], i.e. literal
    patterns, apart from one fixed pattern of [main.py] that is embedded
    next to its use.  A literal pattern is represented by the literal
    itself.  The [flags] argument is the comparison of a pattern
    character with a text character. *)
Module Re.

(** The simple lowercase mapping of the regular expression engine
    ([_sre.unicode_tolower]), given here on every code point whose
    lowercase is a Basic Latin letter or lies in U+0430..U+045F (the
    Russian alphabet and the rest of the basic Cyrillic small letters);
    on the other code points the model is the identity, which the
    engine is not on the capital letters of the other alphabets. *)
Definition lower (c : Z) : Z :=
  if (0x41 <=? c) && (c <=? 0x5A) then c + 32
  else if (0x410 <=? c) && (c <=? 0x42F) then c + 32
  else if (0x400 <=? c) && (c <=? 0x40F) then c + 80
  else if c =? 0x130 then 0x69
  else if c =? 0x212A then 0x6B
  else c.

(** the classes of [re._casefix._EXTRA_CASES] (Python 3.11): lowercase
    letters that match each other when case is ignored *)
Definition extra_cases : list (list Z) :=
  [ [0x69; 0x131]; [0x73; 0x17f]; [0xb5; 0x3bc]; [0x345; 0x3b9; 0x1fbe];
    [0x390; 0x1fd3]; [0x3b0; 0x1fe3]; [0x3b2; 0x3d0]; [0x3b5; 0x3f5];
    [0x3b8; 0x3d1]; [0x3ba; 0x3f0]; [0x3c0; 0x3d6]; [0x3c1; 0x3f1];
    [0x3c2; 0x3c3]; [0x3c6; 0x3d5]; [0x432; 0x1c80]; [0x434; 0x1c81];
    [0x43e; 0x1c82]; [0x441; 0x1c83]; [0x442; 0x1c84; 0x1c85];
    [0x44a; 0x1c86]; [0x463; 0x1c87]; [0x1c88; 0xa64b]; [0x1e61; 0x1e9b];
    [0xfb05; 0xfb06] ].

(** [re.IGNORECASE] (with or without [re.UNICODE]) on a literal
    character [p] of the pattern: the text character [c] is lowered and
    compared with the lowered [p] and with the letters of its class. *)
Definition IGNORECASE (p c : Z) : bool :=
  let lo := lower p in
  let lc := lower c in
  (lo =? lc)
  || existsb (fun cls => existsb (Z.eqb lo) cls && existsb (Z.eqb lc) cls)
       extra_cases.

(** The pattern characters on which [IGNORECASE] is the comparison of
    the engine whatever the text character is: U+0000..U+00B4 (Basic
    Latin with the signs that follow it) and U+0400..U+045F (basic
    Cyrillic).  Both built-in word lists, the alternatives of the
    contact pattern and the letters allowed in names lie in it; a word
    list read from a file need not. *)
Definition covered (p : Z) : bool :=
  ((0 <=? p) && (p <=? 0xB4)) || ((0x400 <=? p) && (p <=? 0x45F)).

Definition escape (word : str) : str := word.

Definition in_ranges (c : Z) (ranges : list (Z * Z)) : bool :=
  existsb (fun r => (fst r <=? c) && (c <=? snd r)) ranges.

(** [\d] on [str] patterns: the decimal digits of Unicode (category
    Nd), ten code points from each of these (Unicode 14, the database
    of Python 3.11). *)
Definition decimal_zeros : list Z :=
  [ 0x30; 0x660; 0x6F0; 0x7C0; 0x966; 0x9E6; 0xA66; 0xAE6; 0xB66; 0xBE6;
    0xC66; 0xCE6; 0xD66; 0xDE6; 0xE50; 0xED0; 0xF20; 0x1040; 0x1090;
    0x17E0; 0x1810; 0x1946; 0x19D0; 0x1A80; 0x1A90; 0x1B50; 0x1BB0;
    0x1C40; 0x1C50; 0xA620; 0xA8D0; 0xA900; 0xA9D0; 0xA9F0; 0xAA50;
    0xABF0; 0xFF10; 0x104A0; 0x10D30; 0x11066; 0x110F0; 0x11136;
    0x111D0; 0x112F0; 0x11450; 0x114D0; 0x11650; 0x116C0; 0x11730;
    0x118E0; 0x11950; 0x11C50; 0x11D50; 0x11DA0; 0x16A60; 0x16AC0;
    0x16B50; 0x1D7CE; 0x1D7D8; 0x1D7E2; 0x1D7EC; 0x1D7F6; 0x1E140;
    0x1E2F0; 0x1E950; 0x1FBF0 ].

Definition is_decimal (c : Z) : bool :=
  in_ranges c (map (fun z => (z, z + 9)) decimal_zeros).

(** the value of a decimal digit ([unicodedata.decimal]): its place in
    its block of ten *)
Definition decimal_value (c : Z) : option Z :=
  match List.find (fun z => (z <=? c) && (c <=? z + 9)) decimal_zeros with
  | Some z => Some (c - z)
  | None => None
  end.

Section Literal.
Variable flags : Z -> Z -> bool.

(** the literal [p] matches at the start of [s] *)
Fixpoint match_at (p s : str) {struct p} : bool :=
  match p, s with
  | [], _ => true
  | x :: p', c :: s' => flags x c && match_at p' s'
  | _ :: _, [] => false
  end.

(** [re.search(p, s, flags)] is not [None] *)
Fixpoint search (p s : str) : bool :=
  match_at p s || match s with [] => false | _ :: s' => search p s' end.

(** [re.sub(p, repl, s, flags=flags)]: the matches are found from left
    to right and do not overlap; [skip] counts the characters of the
    current match that are still to be consumed. *)
Fixpoint sub_from (p repl : str) (skip : nat) (s : str) : str :=
  match s with
  | [] =>
      match skip with
      | O => if match_at p [] then repl else []
      | S _ => []
      end
  | c :: s' =>
      match skip with
      | S k => sub_from p repl k s'
      | O =>
          if match_at p s then
            match List.length p with
            | O => repl ++ c :: sub_from p repl 0 s'
            | S k => repl ++ sub_from p repl k s'
            end
          else c :: sub_from p repl 0 s'
      end
  end.

Definition sub (p repl s : str) : str := sub_from p repl 0 s.

End Literal.

End Re.

Module Py.

(** [str.isspace] on one code point: the characters [str.strip()]
    removes and the regular expression class [\s] matches. *)
Definition isspace (c : Z) : bool :=
  ((0x09 <=? c) && (c <=? 0x0D)) || ((0x1C <=? c) && (c <=? 0x20))
  || (c =? 0x85) || (c =? 0xA0) || (c =? 0x1680)
  || ((0x2000 <=? c) && (c <=? 0x200A))
  || (c =? 0x2028) || (c =? 0x2029) || (c =? 0x202F) || (c =? 0x205F)
  || (c =? 0x3000).

Fixpoint lstrip (s : str) : str :=
  match s with
  | c :: s' => if isspace c then lstrip s' else s
  | [] => []
  end.

Definition rstrip (s : str) : str := rev (lstrip (rev s)).

Definition strip (s : str) : str := rstrip (lstrip s).

(** [len(s)] *)
Definition len (s : str) : nat := List.length s.

(** Truth value of a string: [bool(s)]. *)
Definition truthy (s : str) : bool :=
  match s with [] => false | _ :: _ => true end.

Fixpoint startswith (s p : str) {struct p} : bool :=
  match p, s with
  | [], _ => true
  | x :: p', c :: s' => (c =? x) && startswith s' p'
  | _ :: _, [] => false
  end.

Definition endswith (s p : str) : bool := startswith (rev s) (rev p).

(** [p in s] for strings: [p] occurs as a substring of [s]. *)
Fixpoint contains (p s : str) : bool :=
  startswith s p || match s with [] => false | _ :: s' => contains p s' end.

(** [c in set(chars)] *)
Definition char_in (c : Z) (chars : str) : bool := existsb (Z.eqb c) chars.

Definition str_eqb (a b : str) : bool := bool_decide (a = b).

(** [s.replace(old, new)] *)
Definition replace (s old new : str) : str := Re.sub Z.eqb old new s.

(** [s.split(sep)] for a one-character separator *)
Fixpoint split (sep : Z) (s : str) : list str :=
  match s with
  | [] => [[]]
  | c :: s' =>
      if c =? sep then [] :: split sep s'
      else match split sep s' with
           | piece :: rest => (c :: piece) :: rest
           | [] => [[c]]
           end
  end.

(** [s.split(sep, 1)]: at most one split, at the first separator *)
Fixpoint split1 (sep : Z) (s : str) : list str :=
  match s with
  | [] => [[]]
  | c :: s' =>
      if c =? sep then [[]; s']
      else match split1 sep s' with
           | piece :: rest => (c :: piece) :: rest
           | [] => [[c]]
           end
  end.

Definition is_digit (c : Z) : bool := (48 <=? c) && (c <=? 57).

(** value of a string of ASCII digits *)
Fixpoint digits_value (acc : Z) (s : str) : option Z :=
  match s with
  | [] => Some acc
  | c :: s' =>
      if is_digit c then digits_value (acc * 10 + (c - 48)) s' else None
  end.

(** value of a string of decimal digits of any script, as [int] reads
    the digits a [\d] of [strptime] matched *)
Fixpoint decimals_value (acc : Z) (s : str) : option Z :=
  match s with
  | [] => Some acc
  | c :: s' =>
      match Re.decimal_value c with
      | Some v => decimals_value (acc * 10 + v) s'
      | None => None
      end
  end.

(** [int(s)] on the decimal numerals the programs write into callback
    data; [None] stands for [ValueError]. *)
Definition int (s : str) : option Z :=
  match s with
  | [] => None
  | _ :: _ => digits_value 0 s
  end.

(** [d.get(key)] / [key in d] for a dictionary literal *)
Fixpoint dict_get {V} (key : str) (d : list (str * V)) : option V :=
  match d with
  | [] => None
  | (k, v) :: d' => if str_eqb k key then Some v else dict_get key d'
  end.

(** [s.lower()], on the alphabets covered by [Re.lower] *)
Definition lower (s : str) : str := map Re.lower s.

(** [str(n)] / [f"{n}"] for an integer. *)
Definition str_of_int (n : Z) : str :=
  bytes_of (NilEmpty.string_of_int (Z.to_int n)).

End Py.

(** ** Python [datetime], as far as the two programs use it *)
Module Dt.

Record date := Date { year : Z; month : Z; day : Z }.

Definition is_leap (y : Z) : bool :=
  (y mod 4 =? 0) && (negb (y mod 100 =? 0) || (y mod 400 =? 0)).

Definition days_in_month (y m : Z) : Z :=
  if m =? 2 then (if is_leap y then 29 else 28)
  else if (m =? 4) || (m =? 6) || (m =? 9) || (m =? 11) then 30
  else 31.

Definition days_before_year (y : Z) : Z :=
  let y1 := y - 1 in y1 * 365 + y1 / 4 - y1 / 100 + y1 / 400.

Fixpoint days_before_month_aux (y : Z) (n : nat) : Z :=
  match n with
  | O => 0
  | S k => days_before_month_aux y k + days_in_month y (Z.of_nat (S k))
  end.

(** number of days of year [y] before the first day of month [m] *)
Definition days_before_month (y m : Z) : Z :=
  days_before_month_aux y (Z.to_nat (m - 1)).

(** [date.toordinal()]: 1 is 0001-01-01 *)
Definition toordinal (d : date) : Z :=
  days_before_year (year d) + days_before_month (year d) (month d) + day d.

Definition MINYEAR : Z := 1.
Definition MAXYEAR : Z := 9999.
(** [date.max.toordinal()] *)
Definition MAXORDINAL : Z := 3652059.

(** the checks of the [date] constructor *)
Definition valid (d : date) : bool :=
  (MINYEAR <=? year d) && (year d <=? MAXYEAR)
  && (1 <=? month d) && (month d <=? 12)
  && (1 <=? day d) && (day d <=? days_in_month (year d) (month d)).

(** Dates are compared through their ordinals, and [d - timedelta(n)]
    is the date of ordinal [toordinal d - n]; it raises [OverflowError]
    outside [1 .. MAXORDINAL]. *)
Definition ordinal_in_range (o : Z) : bool := (1 <=? o) && (o <=? MAXORDINAL).

(** splits at the first occurrence of [sep] *)
Fixpoint split_at (sep : Z) (s : str) : option (str * str) :=
  match s with
  | [] => None
  | c :: s' =>
      if c =? sep then Some ([], s')
      else match split_at sep s' with
           | Some (a, b) => Some (c :: a, b)
           | None => None
           end
  end.

(** a field of one or two ASCII digits with a value in [1 .. hi]: the
    directive [%m], [1[0-2]|0[1-9]|[1-9]], with [hi = 12], and the
    alternatives [3[0-1]], [0[1-9]] and [[1-9]] of [%d] with [hi = 31] *)
Definition field12 (hi : Z) (s : str) : option Z :=
  match s with
  | [_] | [_; _] =>
      match Py.digits_value 0 s with
      | Some v => if (1 <=? v) && (v <=? hi) then Some v else None
      | None => None
      end
  | _ => None
  end.

(** [%d], [3[0-1]|[1-2]\d|0[1-9]|[1-9]| [1-9]]: after a 1 or a 2 the
    second digit may be a decimal digit of any script, and a space may
    stand before a single digit *)
Definition field_day (s : str) : option Z :=
  match s with
  | [a; c] =>
      if (a =? 49) || (a =? 50) then
        match Re.decimal_value c with
        | Some v => Some ((a - 48) * 10 + v)
        | None => None
        end
      else if a =? SPACE then field12 31 [c]
      else field12 31 s
  | _ => field12 31 s
  end.

(** [%Y], [\d\d\d\d]: exactly four decimal digits, of any script *)
Definition field_year (s : str) : option Z :=
  match s with
  | [_; _; _; _] => Py.decimals_value 0 s
  | _ => None
  end.

(** [datetime.strptime(s, "%Y-%m-%d").date()]; [None] stands for
    [ValueError]. *)
Definition strptime_Ymd (s : str) : option date :=
  match split_at HYPHEN s with
  | Some (ys, rest) =>
      match split_at HYPHEN rest with
      | Some (ms, ds) =>
          match field_year ys, field12 12 ms, field_day ds with
          | Some y, Some m, Some d =>
              let r := Date y m d in
              if valid r then Some r else None
          | _, _, _ => None
          end
      | None => None
      end
  | None => None
  end.

(** [datetime.strptime(s, "%d<sep>%m<sep>%Y").date()] for a
    one-character separator *)
Definition strptime_dmY (sep : Z) (s : str) : option date :=
  match split_at sep s with
  | Some (ds, rest) =>
      match split_at sep rest with
      | Some (ms, ys) =>
          match field_year ys, field12 12 ms, field_day ds with
          | Some y, Some m, Some d =>
              let r := Date y m d in
              if valid r then Some r else None
          | _, _, _ => None
          end
      | None => None
      end
  | None => None
  end.

(** two decimal digits, zero padded ([%m], [%d] of [strftime]) *)
Definition pad2 (n : Z) : str := [48 + n / 10; 48 + n mod 10].
(** four decimal digits, zero padded ([%Y] of [strftime]) *)
Definition pad4 (n : Z) : str :=
  [48 + n / 1000; 48 + (n / 100) mod 10; 48 + (n / 10) mod 10; 48 + n mod 10].

(** [d.strftime("%Y-%m-%d")] *)
Definition strftime_Ymd (d : date) : str :=
  pad4 (year d) ++ [HYPHEN] ++ pad2 (month d) ++ [HYPHEN] ++ pad2 (day d).

(** [a <= b] on dates *)
Definition le (a b : date) : bool := toordinal a <=? toordinal b.

(** [a < b] on dates *)
Definition lt (a b : date) : bool := toordinal a <? toordinal b.

End Dt.

(** ** The runtime the handlers run in

    Both programs keep their submissions in one SQL table
    [applications], talk to Telegram through a [Bot] object and read the
    clock.  The table is a finite map from the primary key to the row;
    every call to the database or to Telegram may fail, which the
    environment decides: [db_ok e n] (resp. [send_ok e n]) tells whether
    the call made at tick [n] succeeds.  Everything sent is recorded. *)
Module Rt.

(** a row of the table [applications] (the same columns in both files) *)
Record application := Application {
  app_id : Z;
  user_id : Z;
  username : option str;
  type : str;
  subtype : option str;
  from_name : option str;
  to_name : option str;
  text : str;
  status : str;
  created_at : Z;
  publish_date : option str;
  published_at : option Z;
  congrat_type : option str
}.

Definition set_status (s : str) (r : application) : application :=
  Application (app_id r) (user_id r) (username r) (type r) (subtype r)
    (from_name r) (to_name r) (text r) s (created_at r) (publish_date r)
    (published_at r) (congrat_type r).

(** [SET published_at = CURRENT_TIMESTAMP, status = 'published'] *)
Definition set_published (now : Z) (r : application) : application :=
  Application (app_id r) (user_id r) (username r) (type r) (subtype r)
    (from_name r) (to_name r) (text r) (u "published") (created_at r)
    (publish_date r) (Some now) (congrat_type r).

(** the argument [data] of [add_application] *)
Record app_data := AppData {
  d_user_id : Z;
  d_username : option str;
  d_type : str;
  d_subtype : option str;
  d_from_name : option str;
  d_to_name : option str;
  d_text : str;
  d_publish_date : option str;
  d_congrat_type : option str
}.

(** the row an [INSERT] creates: [status] defaults to ['pending'],
    [created_at] to the current time, [published_at] to [NULL] *)
Definition new_row (key now : Z) (d : app_data) : application :=
  Application key (d_user_id d) (d_username d) (d_type d) (d_subtype d)
    (d_from_name d) (d_to_name d) (d_text d) (u "pending") now
    (d_publish_date d) None (d_congrat_type d).

Record env := Env {
  today : Dt.date;            (* [datetime.now().date()] *)
  now : Z;                    (* [CURRENT_TIMESTAMP] *)
  db_ok : nat -> bool;
  send_ok : nat -> bool
}.

(** one call to Telegram, with its outcome *)
Inductive event (Msg : Type) :=
| SendMessage (chat : Z) (m : Msg) (ok : bool)   (* [bot.send_message] *)
| EditMessage (m : Msg) (ok : bool)     (* [query.edit_message_text] *)
| ReplyText (m : Msg) (ok : bool)       (* [update.message.reply_text] *)
| AnswerQuery (ok : bool).              (* [query.answer] *)
Arguments SendMessage {Msg}.
Arguments EditMessage {Msg}.
Arguments ReplyText {Msg}.
Arguments AnswerQuery {Msg}.

(** an incoming [Update] *)
Record update := Update {
  from_id : Z;                      (* [effective_user.id] *)
  from_username : option str;       (* [effective_user.username] *)
  from_full_name : str;
  callback_data : option str;       (* [callback_query.data] *)
  query_message : bool;             (* [callback_query.message] is set *)
  message_text : option str         (* [message.text] *)
}.

Section World.
Context {UD Msg : Type}.

Record world := World {
  db : gmap Z application;
  next_id : Z;                    (* the key the next [INSERT] gets *)
  tick : nat;
  sent : list (event Msg);
  user_data : UD                  (* [context.user_data] *)
}.

Definition M (A : Type) : Type := world -> A * world.

Definition ret {A} (a : A) : M A := fun w => (a, w).
Definition bind {A B} (c : M A) (k : A -> M B) : M B :=
  fun w => let (a, w') := c w in k a w'.

Definition db_call (e : env) : M bool := fun w =>
  (db_ok e (tick w),
   World (db w) (next_id w) (S (tick w)) (sent w) (user_data w)).

Definition tg_call (e : env) : M bool := fun w =>
  (send_ok e (tick w),
   World (db w) (next_id w) (S (tick w)) (sent w) (user_data w)).

Definition emit (ev : event Msg) : M unit := fun w =>
  (tt, World (db w) (next_id w) (tick w) (sent w ++ [ev]) (user_data w)).

Definition get_db : M (gmap Z application) := fun w => (db w, w).

Definition put_db (d : gmap Z application) : M unit := fun w =>
  (tt, World d (next_id w) (tick w) (sent w) (user_data w)).

Definition get_ud : M UD := fun w => (user_data w, w).

Definition put_ud (x : UD) : M unit := fun w =>
  (tt, World (db w) (next_id w) (tick w) (sent w) x).

Definition fresh_id : M Z := fun w =>
  (next_id w,
   World (db w) (next_id w + 1) (tick w) (sent w) (user_data w)).

(** [for x in l: body(x)]; the body returns [false] when it raised, which
    leaves the loop *)
Fixpoint for_each {A} (l : list A) (body : A -> M bool) : M unit :=
  match l with
  | [] => ret tt
  | x :: l' =>
      bind (body x) (fun continue =>
        if continue : bool then for_each l' body else ret tt)
  end.

End World.
Arguments world : clear implicits.
Arguments M : clear implicits.

End Rt.

Notation "x <- c ;; k" := (Rt.bind c (fun x => k))
  (at level 100, c at next level, right associativity).
Notation "c ;;; k" := (Rt.bind c (fun _ => k))
  (at level 100, right associativity).

(** Conversation states (the same tuple of constants in both files) and
    [ConversationHandler.END]. *)
Inductive state :=
| TYPE_SELECTION
| SENDER_NAME_INPUT
| RECIPIENT_NAME_INPUT
| CONGRAT_HOLIDAY_CHOICE
| CUSTOM_CONGRAT_MESSAGE_INPUT
| CONGRAT_DATE_INPUT
| ANNOUNCE_SUBTYPE_SELECTION
| ANNOUNCE_TEXT_INPUT
| WAIT_CENSOR_APPROVAL
| END.

(** ** Constants shared by the two programs *)

Definition MAX_NAME_LENGTH : nat := 50.
Definition MAX_CONGRAT_TEXT_LENGTH : nat := 500.
Definition MAX_ANNOUNCE_NEWS_TEXT_LENGTH : nat := 300.

(** [allowed_chars] of [validate_name] (the same literal in both files) *)
Definition allowed_chars : str :=
  u "абвгдеёжзийклмнопрстуфхцчшщъыьэюяАБВГДЕЁЖЗИЙКЛМНОПРСТУФХЦЧШЩЪЫЬЭЮЯ -".


Definition REQUEST_TYPES : list (str * (str * str)) :=
  [ (u "congrat", (u "Поздравление", u "🎉"));
    (u "announcement", (u "Объявление", u "📢"));
    (u "news", (u "Новость от жителя", u "🗞️")) ].

Definition ANNOUNCE_SUBTYPES : list (str * str) :=
  [ (u "ride", u "🚗 Попутка");
    (u "offer", u "💡 Предложение");
    (u "lost", u "🔍 Потеряли/Нашли") ].

Definition HOLIDAYS : list (str * str) :=
  [ (u "🎄 Новый год", u "01-01");
    (u "🪖 23 Февраля", u "02-23");
    (u "💐 8 Марта", u "03-08");
    (u "🏅 9 Мая", u "05-09");
    (u "🇷🇺 12 Июня", u "06-12");
    (u "🤝 4 Ноября", u "11-04") ].

Definition NL : Z := 10.

Definition HOLIDAY_TEMPLATES : list (str * str) :=
  [ (u "🎄 Новый год",
     u "С Новым годом!" ++ [NL] ++ u "Пусть исполняются все ваши желания!");
    (u "🪖 23 Февраля",
     u "С Днём защитника Отечества!" ++ [NL]
       ++ u "Мужества, отваги и мирного неба над головой!");
    (u "💐 8 Марта",
     u "С 8 Марта!" ++ [NL] ++ u "Красоты, счастья и весеннего настроения!");
    (u "🏅 9 Мая", u "С Днём Победы!" ++ [NL] ++ u "Вечная память героям!");
    (u "🇷🇺 12 Июня",
     u "С Днём России!" ++ [NL]
       ++ u "Мира, благополучия и процветания нашей стране!");
    (u "🤝 4 Ноября",
     u "С Днём народного единства!" ++ [NL] ++ u "Согласия, мира и добра!") ].

(** the mask [censor_text] puts in place of a listed word *)
Definition MASK : str := u "***".

(** values kept in [context.user_data] *)
Inductive value :=
| VStr (s : str)
| VBool (b : bool)
| VNone.

(** [d.get(key)] read as a string: [None] when the key is missing or the
    value is [None] *)
Definition get_str (d : gmap string value) (key : string) : option str :=
  match d !! key with
  | Some (VStr s) => Some s
  | _ => None
  end.

(** truth value of [d.get(key)] *)
Definition get_truthy (d : gmap string value) (key : string) : bool :=
  match d !! key with
  | Some (VStr s) => Py.truthy s
  | Some (VBool b) => b
  | _ => false
  end.

Definition opt_value (o : option str) : value :=
  match o with Some s => VStr s | None => VNone end.

(** truth value of an optional integer ([None] and [0] are false) *)
Definition truthy_id (o : option Z) : bool :=
  match o with Some n => negb (n =? 0) | None => false end.

(** * bot.py *)
Module Bot.
Import Rt.

Definition DEFAULT_BAD_WORDS : list str :=
[
  u "хуй"; u "пизда"; u "блять"; u "блядь"; u "ебать"; u "сука";
  u "номер"; u "телефон"; u "звоните"; u "пишите"; u "контакт"; u "минет";
  u "минетчик"; u "минетчица"; u "мокрощелка"; u "мокрощёлка"; u "манда";
  u "мандавошка"; u "мандавошки"; u "мандей"; u "мандень"; u "мандеть";
  u "мандища"; u "мандой"; u "манду"; u "мандюк"; u "мандюга"; u "мудоеб";
  u "мудозвон"; u "мудоклюй"; u "наебать"; u "наебет"; u "наебнуть";
  u "наебывать"; u "обосрать"; u "обосцать"; u "обосцаться";
  u "обдристаться"; u "объебос"; u "обьебать"; u "обьебос"; u "отпиздить";
  u "отпиздячить"; u "отпороть"; u "отъебись"; u "остоебенить";
  u "остопиздеть"; u "охуеть"; u "охуенно"; u "охуевать"; u "охуевающий";
  u "паскуда"; u "падла"; u "паскудник"; u "нахер"; u "нахрен"; u "нахуй";
  u "нехера"; u "нехрен"; u "нехуй"; u "никуя"; u "нихуя"; u "нихера";
  u "непизда"; u "нипизда"; u "нипизду"; u "напиздел"; u "напиздили";
  u "наебнулся"; u "наебался"; u "пердеж"; u "пердение"; u "пердеть";
  u "пердильник"; u "пердун"; u "пердунец"; u "пердунья"; u "пердуха";
  u "пердульки"; u "перднуть"; u "пёрнуть"; u "пернуть"; u "пердят";
  u "пиздят"; u "пиздить"; u "пиздишь"; u "пиздится"; u "заебал";
  u "заебло"; u "пидар"; u "пидарас"; u "пидор"; u "пидорас"; u "пидик";
  u "педрик"; u "педераст"; u "пидрас"; u "пидры"; u "пидрилы";
  u "пидрило"; u "педрило"; u "блядина"; u "блядь"; u "блядство";
  u "блядствующие"; u "блядствует"; u "шалава"; u "шалавость";
  u "шалавиться"
].

Definition MAX_TEXT_LENGTH : nat := 4000.

(** the settings read from the environment at start-up *)
Record config := Config {
  CHANNEL_ID : option Z;
  ADMIN_CHAT_ID : option Z
}.

(** Texts sent to Telegram.  Each constructor stands for one literal or
    f-string of bot.py and carries the values interpolated into it. *)
Inductive message :=
| ChannelPost (app : Z) (text : str)
    (* [publish_to_channel]: the text of application [app] *)
| NoRights            (* "У вас нет прав для выполнения этого действия." *)
| NotFound (app : Z)  (* "Заявка #{app_id} не найдена или уже обработана." *)
| HasStatus (app : Z) (status : str)
    (* "Заявка #{app_id} уже имеет статус '{status}'." *)
| Approved (app : Z)        (* "✅ Заявка #{app_id} одобрена." *)
| UserApproved (app : Z)    (* "✅ Ваша заявка #{app_id} одобрена и ..." *)
| ApproveError (app : Z)    (* "❌ Ошибка при одобрении заявки #{app_id}." *)
| Rejected (app : Z)        (* "❌ Заявка #{app_id} отклонена." *)
| UserRejected (app : Z)    (* "❌ Ваша заявка #{app_id} отклонена. ..." *)
| RejectError (app : Z)     (* "❌ Ошибка при отклонении заявки #{app_id}." *)
| Greeting (full_name : str)      (* "Привет, {user.full_name}! ..." *)
| ChooseHoliday           (* "Вы выбрали «Поздравление». Выберите ..." *)
| ChooseSubtype           (* "Вы выбрали «Объявление». Выберите ..." *)
| EnterNews               (* "... Введите текст новости (до 300 символов)." *)
| EnterCustomCongrat      (* "Введите свой текст поздравления (до 500 ...)" *)
| HolidayChosen (name : str)      (* "Вы выбрали {holiday_name}. ..." *)
| HolidayInactive (name : str)
    (* "Праздник {holiday_name} неактивен для публикации. ..." *)
| EnterCongratPlease      (* "Пожалуйста, введите текст поздравления." *)
| CongratTooLong          (* "Текст поздравления слишком длинный. ..." *)
| EnterSender             (* "Введите имя отправителя ..." *)
| BadSender               (* "Некорректное имя отправителя. ..." *)
| EnterRecipient          (* "Введите имя получателя ..." *)
| BadRecipient            (* "Некорректное имя получателя. ..." *)
| EnterDate               (* "Введите дату публикации поздравления ..." *)
| DateInPast              (* "Дата публикации не может быть в прошлом. ..." *)
| BadDateFormat           (* "Неверный формат даты. ..." *)
| CensorPreview (censored : str)
    (* "Ваш текст содержит нецензурные выражения ...{censored_text}..." *)
| EnterAnnounce (subtype : str)   (* "Вы выбрали «{...}». Введите текст ..." *)
| EnterTextPlease         (* "Пожалуйста, введите текст." *)
| TextTooLong (max_len : nat)
    (* "Текст слишком длинный. Максимум {max_len} символов." *)
| RetypeCongrat           (* "Введите свой текст поздравления заново ..." *)
| RetypeText (max_len : nat)
    (* "Введите текст заново (до {max_len} символов)." *)
| Accepted                (* "✅ Ваша заявка принята и отправлена ..." *)
| SaveError               (* "❌ Произошла ошибка при сохранении заявки. ..." *)
| NewApplication (app : Z) (data : app_data)
    (* "🆕 Новая заявка #{app_id} от ..." with the two admin buttons *)
| Cancelled.              (* "Действие отменено. Чем могу еще помочь?" *)

Abbreviation W := (world (gmap string value) message).
Abbreviation Cmd := (M (gmap string value) message).

(** ** Validation and censorship *)

Definition validate_name (name : str) : bool :=
  if negb (Py.truthy name) || negb (Py.truthy (Py.strip name)) then false
  else
    let name := Py.strip name in
    (2 <=? Py.len name)%nat && (Py.len name <=? MAX_NAME_LENGTH)%nat
    && forallb (fun c => Py.char_in c allowed_chars) name
    && negb (Py.startswith name [HYPHEN])
    && negb (Py.endswith name [HYPHEN])
    && negb (Py.contains [HYPHEN; HYPHEN] name).

(** [today] is [datetime.now().date()]; any exception gives [False]. *)
Definition is_holiday_active (today : Dt.date) (holiday_date_str : str)
  : bool :=
  let current_year := Dt.year today in
  match Dt.strptime_Ymd
          (Py.str_of_int current_year ++ [HYPHEN] ++ holiday_date_str) with
  | None => false
  | Some holiday_date =>
      let start := Dt.toordinal holiday_date - 5 in
      let end_ := Dt.toordinal holiday_date + 5 in
      if Dt.ordinal_in_range start && Dt.ordinal_in_range end_ then
        (start <=? Dt.toordinal today) && (Dt.toordinal today <=? end_)
      else false
  end.

Definition load_bad_words : list str := DEFAULT_BAD_WORDS.

(** the body of the loop of [censor_text], for one word *)
Definition censor_step (acc : str * bool) (word : str) : str * bool :=
  let (censored, has_bad) := acc in
  if Re.search Re.IGNORECASE (Re.escape word) censored then
    (Re.sub Re.IGNORECASE (Re.escape word) MASK censored, true)
  else (censored, has_bad).

Definition censor_text (text : str) : str * bool :=
  let bad_words := load_bad_words in
  fold_left censor_step bad_words (text, false).

Section Handlers.
Variable cfg : config.
Variable e : env.

(** ** Database *)

Definition add_application (data : app_data) : Cmd (option Z) :=
  ok <- db_call e ;;
  if ok then
    key <- fresh_id ;;
    d <- get_db ;;
    put_db (<[key := new_row key (now e) data]> d) ;;;
    ret (Some key)
  else ret None.

Definition get_application_details (app : Z) : Cmd (option application) :=
  ok <- db_call e ;;
  if ok then d <- get_db ;; ret (d !! app) else ret None.

Definition approved_unpublished (r : application) : bool :=
  Py.str_eqb (status r) (u "approved")
  && match published_at r with None => true | Some _ => false end.

Definition get_approved_unpublished_applications : Cmd (list application) :=
  ok <- db_call e ;;
  if ok then
    d <- get_db ;;
    ret (List.filter approved_unpublished (snd <$> map_to_list d))
  else ret [].

Definition update_application_status (app : Z) (status : str) : Cmd bool :=
  ok <- db_call e ;;
  if ok then
    d <- get_db ;; put_db (alter (set_status status) app d) ;;; ret true
  else ret false.

Definition mark_application_as_published (app : Z) : Cmd bool :=
  ok <- db_call e ;;
  if ok then
    d <- get_db ;; put_db (alter (set_published (now e)) app d) ;;; ret true
  else ret false.

(** ** Telegram *)

(** [bot.send_message]; [false] when it raises *)
Definition send_message (chat : Z) (m : message) : Cmd bool :=
  ok <- tg_call e ;; emit (SendMessage chat m ok) ;;; ret ok.

Definition safe_send_message (chat : Z) (m : message) : Cmd bool :=
  send_message chat m.

Definition safe_edit_message_text (upd : update) (m : message) : Cmd unit :=
  match callback_data upd with
  | Some _ =>
      if query_message upd then
        ok <- tg_call e ;; emit (EditMessage m ok)
      else ret tt
  | None => ret tt
  end.

Definition safe_reply_text (upd : update) (m : message) : Cmd unit :=
  match callback_data upd with
  | Some _ => safe_edit_message_text upd m
  | None =>
      match message_text upd with
      | Some _ => ok <- tg_call e ;; emit (ReplyText m ok)
      | None => ret tt
      end
  end.

(** [await query.answer()]; [false] when it raises *)
Definition answer : Cmd bool :=
  ok <- tg_call e ;; emit (AnswerQuery ok) ;;; ret ok.

(** ** Publication *)

Definition publish_to_channel (app : Z) : Cmd bool :=
  match CHANNEL_ID cfg with
  | None => ret false
  | Some channel =>
      if channel =? 0 then ret false
      else
        app_details <- get_application_details app ;;
        match app_details with
        | None => ret false
        | Some r =>
            sent_ok <- send_message channel (ChannelPost app (text r)) ;;
            if sent_ok then
              mark_application_as_published app ;;; ret true
            else ret false
        end
  end.

(** the condition of the loop of [check_pending_applications]; [None]
    when [strptime] raises *)
Definition due (app : application) : option bool :=
  if Py.str_eqb (type app) (u "news")
     || Py.str_eqb (type app) (u "announcement") then Some true
  else
    match publish_date app with
    | None => Some false
    | Some s =>
        if Py.truthy s then
          match Dt.strptime_Ymd s with
          | Some d => Some (Dt.le d (today e))
          | None => None
          end
        else Some false
    end.

Definition check_pending_applications : Cmd unit :=
  applications <- get_approved_unpublished_applications ;;
  for_each applications (fun app =>
    match due app with
    | None => ret false
    | Some true => publish_to_channel (app_id app) ;;; ret true
    | Some false => ret true
    end).

(** ** Moderation *)

Definition is_admin (actor : Z) : bool :=
  match ADMIN_CHAT_ID cfg with
  | Some a => actor =? a
  | None => false
  end.

(** [data.split("_")[1], data.split("_")[2]] and [int(app_id_str)];
    [None] when one of them raises *)
Definition parse_admin_data (data : str) : option (str * Z) :=
  match Py.split 95 data with
  | _ :: action :: app_id_str :: _ =>
      match Py.int app_id_str with
      | Some n => Some (action, n)
      | None => None
      end
  | _ => None
  end.

Definition admin_callback_handler (upd : update) : Cmd unit :=
  answered <- answer ;;
  if negb answered then ret tt
  else if negb (is_admin (from_id upd)) then safe_reply_text upd NoRights
  else
    match callback_data upd with
    | None => ret tt
    | Some data =>
        match parse_admin_data data with
        | None => ret tt
        | Some (action, app) =>
            app_details <- get_application_details app ;;
            match app_details with
            | None => safe_edit_message_text upd (NotFound app)
            | Some r =>
                if negb (Py.str_eqb (status r) (u "pending")) then
                  safe_edit_message_text upd (HasStatus app (status r))
                else if Py.str_eqb action (u "approve") then
                  success <- update_application_status app (u "approved") ;;
                  if success then
                    safe_edit_message_text upd (Approved app) ;;;
                    safe_send_message (user_id r) (UserApproved app) ;;;
                    ret tt
                  else safe_edit_message_text upd (ApproveError app)
                else if Py.str_eqb action (u "reject") then
                  success <- update_application_status app (u "rejected") ;;
                  if success then
                    safe_edit_message_text upd (Rejected app) ;;;
                    safe_send_message (user_id r) (UserRejected app) ;;;
                    ret tt
                  else safe_edit_message_text upd (RejectError app)
                else ret tt
            end
        end
    end.

(** ** Conversation

    A handler returns the next state; [None] means that the state of
    the conversation does not change (the handler returned nothing or
    raised). *)

Definition set_key (key : string) (v : value) : Cmd unit :=
  ud <- get_ud ;; put_ud (<[key := v]> ud).

Definition start (upd : update) : Cmd (option state) :=
  safe_reply_text upd (Greeting (from_full_name upd)) ;;;
  ret (Some TYPE_SELECTION).

Definition data_of (upd : update) : str :=
  match callback_data upd with Some d => d | None => [] end.

Definition text_of (upd : update) : str :=
  match message_text upd with Some t => t | None => [] end.

Definition select_type (upd : update) : Cmd (option state) :=
  answered <- answer ;;
  if negb answered then ret None
  else
    let request_type := Py.replace (data_of upd) (u "type_") [] in
    set_key "request_type" (VStr request_type) ;;;
    if Py.str_eqb request_type (u "congrat") then
      safe_edit_message_text upd ChooseHoliday ;;;
      ret (Some CONGRAT_HOLIDAY_CHOICE)
    else if Py.str_eqb request_type (u "announcement") then
      safe_edit_message_text upd ChooseSubtype ;;;
      ret (Some ANNOUNCE_SUBTYPE_SELECTION)
    else if Py.str_eqb request_type (u "news") then
      set_key "subtype" VNone ;;;
      safe_edit_message_text upd EnterNews ;;;
      ret (Some ANNOUNCE_TEXT_INPUT)
    else ret None.

(** [next((name for name, date in HOLIDAYS.items() if date == d), default)]
    with the empty string as the default *)
Definition holiday_name_of (d : str) : str :=
  match List.find (fun nd => Py.str_eqb (snd nd) d) HOLIDAYS with
  | Some nd => fst nd
  | None => []
  end.

Definition template_of (holiday_name : str) : str :=
  match Py.dict_get holiday_name HOLIDAY_TEMPLATES with
  | Some t => t
  | None => []
  end.

Definition select_congrat_holiday (upd : update) : Cmd (option state) :=
  answered <- answer ;;
  if negb answered then ret None
  else
    let data := data_of upd in
    if Py.str_eqb data (u "custom_congrat_text") then
      set_key "congrat_type" (VStr (u "custom")) ;;;
      safe_edit_message_text upd EnterCustomCongrat ;;;
      ret (Some CUSTOM_CONGRAT_MESSAGE_INPUT)
    else if Py.startswith data (u "holiday_") then
      let holiday_date_str := Py.replace data (u "holiday_") [] in
      let holiday_name := holiday_name_of holiday_date_str in
      set_key "congrat_type" (VStr holiday_name) ;;;
      if is_holiday_active (today e) holiday_date_str then
        set_key "text" (VStr (template_of holiday_name)) ;;;
        safe_edit_message_text upd (HolidayChosen holiday_name) ;;;
        ret (Some SENDER_NAME_INPUT)
      else
        safe_edit_message_text upd (HolidayInactive holiday_name) ;;;
        ret (Some CONGRAT_HOLIDAY_CHOICE)
    else ret (Some END).

Definition process_custom_congrat_text (upd : update) : Cmd (option state) :=
  let text := text_of upd in
  if negb (Py.truthy text) || negb (Py.truthy (Py.strip text)) then
    safe_reply_text upd EnterCongratPlease ;;;
    ret (Some CUSTOM_CONGRAT_MESSAGE_INPUT)
  else if (MAX_CONGRAT_TEXT_LENGTH <? Py.len text)%nat then
    safe_reply_text upd CongratTooLong ;;;
    ret (Some CUSTOM_CONGRAT_MESSAGE_INPUT)
  else
    set_key "text" (VStr text) ;;;
    safe_reply_text upd EnterSender ;;;
    ret (Some SENDER_NAME_INPUT).

Definition process_sender_name (upd : update) : Cmd (option state) :=
  let sender_name := text_of upd in
  if negb (validate_name sender_name) then
    safe_reply_text upd BadSender ;;; ret (Some SENDER_NAME_INPUT)
  else
    set_key "from_name" (VStr sender_name) ;;;
    safe_reply_text upd EnterRecipient ;;;
    ret (Some RECIPIENT_NAME_INPUT).

Definition process_recipient_name (upd : update) : Cmd (option state) :=
  let recipient_name := text_of upd in
  if negb (validate_name recipient_name) then
    safe_reply_text upd BadRecipient ;;; ret (Some RECIPIENT_NAME_INPUT)
  else
    set_key "to_name" (VStr recipient_name) ;;;
    ud <- get_ud ;;
    (if negb (get_truthy ud "text") then
       let holiday_name :=
         match get_str ud "congrat_type" with Some n => n | None => [] end in
       let template := template_of holiday_name in
       if Py.truthy template then
         set_key "text" (VStr (template ++ [NL; NL]))
       else set_key "text" (VStr [])
     else ret tt) ;;;
    ud <- get_ud ;;
    let final_text :=
      match get_str ud "text" with Some t => t | None => [] end in
    let final_text :=
      match get_str ud "from_name" with
      | Some n => if Py.truthy n then final_text ++ [NL] ++ u "От: " ++ n
                  else final_text
      | None => final_text
      end in
    let final_text :=
      match get_str ud "to_name" with
      | Some n => if Py.truthy n then final_text ++ [NL] ++ u "Для: " ++ n
                  else final_text
      | None => final_text
      end in
    set_key "text" (VStr final_text) ;;;
    safe_reply_text upd EnterDate ;;;
    ret (Some CONGRAT_DATE_INPUT).

Definition notify_admin_new_application (app : Z) (data : app_data)
  : Cmd unit :=
  if negb (truthy_id (ADMIN_CHAT_ID cfg)) then ret tt
  else
    match ADMIN_CHAT_ID cfg with
    | Some admin =>
        safe_send_message admin (NewApplication app data) ;;; ret tt
    | None => ret tt
    end.

Definition complete_request (upd : update) : Cmd (option state) :=
  user_data <- get_ud ;;
  match get_str user_data "request_type", get_str user_data "text" with
  | Some request_type, Some text =>
      let app_data :=
        AppData (from_id upd)
          (match from_username upd with
           | Some n => if Py.truthy n then Some n
                       else Some (from_full_name upd)
           | None => Some (from_full_name upd)
           end)
          request_type
          (get_str user_data "subtype")
          (get_str user_data "from_name")
          (get_str user_data "to_name")
          text
          (get_str user_data "publish_date")
          None in
      app <- add_application app_data ;;
      (if truthy_id app then
         safe_reply_text upd Accepted ;;;
         match app with
         | Some key => notify_admin_new_application key app_data
         | None => ret tt
         end
       else safe_reply_text upd SaveError) ;;;
      put_ud ∅ ;;;
      ret (Some END)
  | _, _ => ret None
  end.

(** the censorship check shared by [process_congrat_date] and
    [process_announce_text] *)
Definition censor_and_confirm (upd : update) : Cmd (option state) :=
  ud <- get_ud ;;
  match get_str ud "text" with
  | None => ret None
  | Some original_text =>
      let (censored_text, has_bad_words) := censor_text original_text in
      set_key "censored_text" (VStr censored_text) ;;;
      set_key "has_bad_words" (VBool has_bad_words) ;;;
      if has_bad_words then
        safe_reply_text upd (CensorPreview censored_text) ;;;
        ret (Some WAIT_CENSOR_APPROVAL)
      else complete_request upd
  end.

Definition process_congrat_date (upd : update) : Cmd (option state) :=
  let date_str := text_of upd in
  match Dt.strptime_dmY 46 date_str with
  | Some publish_date =>
      if Dt.lt publish_date (today e) then
        safe_reply_text upd DateInPast ;;; ret (Some CONGRAT_DATE_INPUT)
      else
        set_key "publish_date" (VStr (Dt.strftime_Ymd publish_date)) ;;;
        censor_and_confirm upd
  | None =>
      safe_reply_text upd BadDateFormat ;;; ret (Some CONGRAT_DATE_INPUT)
  end.

Definition select_announce_subtype (upd : update) : Cmd (option state) :=
  answered <- answer ;;
  if negb answered then ret None
  else
    let subtype := Py.replace (data_of upd) (u "subtype_") [] in
    set_key "subtype" (VStr subtype) ;;;
    match Py.dict_get subtype ANNOUNCE_SUBTYPES with
    | None => ret None
    | Some name =>
        safe_edit_message_text upd (EnterAnnounce name) ;;;
        ret (Some ANNOUNCE_TEXT_INPUT)
    end.

(** [MAX_ANNOUNCE_NEWS_TEXT_LENGTH if request_type == 'news' else
    MAX_CONGRAT_TEXT_LENGTH] *)
Definition max_len_of (request_type : str) : nat :=
  if Py.str_eqb request_type (u "news") then MAX_ANNOUNCE_NEWS_TEXT_LENGTH
  else MAX_CONGRAT_TEXT_LENGTH.

Definition process_announce_text (upd : update) : Cmd (option state) :=
  let text := text_of upd in
  if negb (Py.truthy text) || negb (Py.truthy (Py.strip text)) then
    safe_reply_text upd EnterTextPlease ;;; ret (Some ANNOUNCE_TEXT_INPUT)
  else
    ud <- get_ud ;;
    match get_str ud "request_type" with
    | None => ret None
    | Some request_type =>
        let max_len := max_len_of request_type in
        if (max_len <? Py.len text)%nat then
          safe_reply_text upd (TextTooLong max_len) ;;;
          ret (Some ANNOUNCE_TEXT_INPUT)
        else
          set_key "text" (VStr text) ;;;
          censor_and_confirm upd
    end.

Definition handle_censor_approval (upd : update) : Cmd (option state) :=
  answered <- answer ;;
  if negb answered then ret None
  else
    let data := data_of upd in
    if Py.str_eqb data (u "approve_censor") then
      ud <- get_ud ;;
      match get_str ud "censored_text" with
      | None => ret None
      | Some censored =>
          set_key "text" (VStr censored) ;;;
          complete_request upd
      end
    else if Py.str_eqb data (u "edit_text") then
      ud <- get_ud ;;
      match get_str ud "request_type" with
      | None => ret None
      | Some request_type =>
          if Py.str_eqb request_type (u "congrat") then
            safe_edit_message_text upd RetypeCongrat ;;;
            ret (Some CUSTOM_CONGRAT_MESSAGE_INPUT)
          else if Py.str_eqb request_type (u "announcement")
                  || Py.str_eqb request_type (u "news") then
            safe_edit_message_text upd
              (RetypeText (max_len_of request_type)) ;;;
            ret (Some ANNOUNCE_TEXT_INPUT)
          else ret (Some END)
      end
    else if Py.str_eqb data (u "back_to_start") then start upd
    else ret (Some END).

Definition cancel (upd : update) : Cmd (option state) :=
  safe_reply_text upd Cancelled ;;;
  put_ud ∅ ;;;
  ret (Some END).

End Handlers.

End Bot.

(** * main.py *)
Module Main.
Import Rt.

Definition DEFAULT_BAD_WORDS : list str :=
  [ u "хуй"; u "пизда"; u "блять"; u "блядь"; u "ебать"; u "сука" ].

Definition MAX_DB_TEXT_LENGTH : nat := 4000.

(** The settings fixed at start-up.  [GROUP_ID] is [None] when the
    variable is unset or not an integer.  [BAD_WORDS_LIST] is the result
    of [load_bad_words()]: the words of the file [bad_words.txt], which
    is not part of the sources, or [DEFAULT_BAD_WORDS] when the file
    cannot be read. *)
Record config := Config {
  ADMIN_CHAT_ID : option Z;
  GROUP_ID : option Z;
  BAD_WORDS_LIST : list str
}.

(** set to [True] exactly when [GROUP_ID] is read successfully *)
Definition IS_PUBLISHING_ENABLED (cfg : config) : bool :=
  match GROUP_ID cfg with Some _ => true | None => false end.

(** Texts sent to Telegram.  Each constructor stands for one literal or
    f-string of main.py and carries the values interpolated into it. *)
Inductive message :=
| ChannelPost (app : application)
    (* [message_to_publish], rendered from the row [app] *)
| UserPublished (app : Z)
    (* "✅ Ваша заявка #{app_id} опубликована в канале {CHANNEL_NAME}!" *)
| BadFormat         (* "❌ Ошибка: неверный формат данных." *)
| NotFound (app : Z)         (* "❌ Заявка #{app_id} не найдена в базе." *)
| AlreadyApproved (app : Z)  (* "ℹ️ Заявка #{app_id} уже одобрена/опубликована." *)
| Approved (app : Z) (type : str)  (* "✅ Заявка #{app_id} ({type}) одобрена." *)
| ApproveDbError (app : Z)   (* "❌ Ошибка БД при одобрении заявки #{app_id}." *)
| AlreadyRejected (app : Z)  (* "ℹ️ Заявка #{app_id} уже отклонена." *)
| Rejected (app : Z) (type : str)  (* "❌ Заявка #{app_id} ({type}) отклонена." *)
| UserRejected (app : Z)
    (* "❌ Ваша заявка #{app_id} была отклонена модератором." *)
| RejectDbError (app : Z)    (* "❌ Ошибка БД при отклонении заявки #{app_id}." *)
| UnknownAction (action : str) (app : Z)
    (* "❌ Неизвестное действие '{action}' для заявки #{app_id}." *)
| Welcome                 (* "Добро пожаловать в ...! Выберите тип заявки:" *)
| AskSender               (* "Как вас зовут? (кто поздравляет, ...)" *)
| ChooseSubtype           (* "Выберите тип объявления:" *)
| EnterNews               (* "Введите вашу новость (до 300 символов):" *)
| UnknownType             (* "❌ Неизвестный тип заявки." *)
| BadSender               (* "Пожалуйста, введите корректное имя отправителя ..." *)
| BadWordsInSender        (* "⚠️ В вашем имени обнаружены запрещенные слова. ..." *)
| AskRecipient (sender : str)   (* "Имя отправителя: ... Кого вы хотите ..." *)
| RetypeSender            (* "Введите исправленное имя отправителя ..." *)
| BadRecipient            (* "Пожалуйста, введите корректное имя получателя ..." *)
| BadWordsInRecipient     (* "⚠️ В имени получателя обнаружены запрещенные ..." *)
| ChooseHoliday (recipient : str)  (* "Имя получателя: ... Выберите праздник ..." *)
| RetypeRecipient         (* "Введите исправленное имя получателя ..." *)
| EnterCustomCongrat      (* "Введите ваш текст поздравления (до 500 ...):" *)
| HolidayInactive (name : str)
    (* "❗️Праздник '{holiday_name}' сейчас не актуален. Обратитесь позже. ..." *)
| HolidayDateError        (* "❌ Ошибка определения даты праздника. ..." *)
| BadHolidayChoice        (* "❌ Некорректный выбор праздника." *)
| ChooseHolidayAgain      (* "Выберите праздник или тип поздравления:" *)
| EmptyCongrat            (* "Текст поздравления не может быть пустым. ..." *)
| TooLong (max_len : nat) (* "Сообщение слишком длинное. Максимум {max_len} ..." *)
| BadWordsClosed
    (* "⚠️ В вашем сообщении обнаружены запрещенные слова. Заявка
       автоматически закрыта. ..." *)
| FilterEdited (censored : str)
    (* "⚠️ Наш фильтр отредактировал ваше сообщение: ... Выберите действие:" *)
| AskDate                 (* "📅 Укажите дату публикации (ДД-ММ-ГГГГ или ...):" *)
| DateInPast              (* "Нельзя указать прошедшую дату. ..." *)
| BadDateFormat           (* "Неверный формат даты. ..." *)
| EnterAnnounce (subtype : str)   (* the guidance text of the subtype *)
| EmptyText               (* "Текст не может быть пустым. ..." *)
| AcceptedAskDate         (* "Текст принят с изменениями фильтра. 📅 ..." *)
| RetypeCongrat           (* "Введите исправленный текст поздравления ..." *)
| RetypeText (max_len : nat)   (* "Введите исправленный текст (до ...):" *)
| BadChoice               (* "Некорректный выбор." *)
| NoText                  (* "❌ Произошла внутренняя ошибка: отсутствует текст ..." *)
| SaveError               (* "❌ Произошла ошибка при сохранении вашей заявки. ..." *)
| SentToModeration        (* "✅ Ваша заявка отправлена на модерацию!" *)
| NewApplication (app : Z) (data : app_data)
    (* "Новая заявка #{app_id} ..." with the two admin buttons *)
| Cancelled.              (* "❌ Действие отменено." *)

Abbreviation W := (world (gmap string value) message).
Abbreviation Cmd := (M (gmap string value) message).

(** ** Validation and censorship *)

(** The Python function returns the value of [name and ...], which is
    the empty string for an empty name; its callers only test it with
    [not], so the embedding returns its truth value. *)
Definition validate_name (name : str) : bool :=
  let name := Py.strip name in
  Py.truthy name
  && (2 <=? Py.len name)%nat && (Py.len name <=? MAX_NAME_LENGTH)%nat
  && forallb (fun c => Py.char_in c allowed_chars) name.

(** [today] is [datetime.now().date()]; any exception gives [False]. *)
Definition is_holiday_active (today : Dt.date) (holiday_date_str : str)
  : bool :=
  let current_year := Dt.year today in
  match Dt.strptime_Ymd
          (Py.str_of_int current_year ++ [HYPHEN] ++ holiday_date_str) with
  | None => false
  | Some holiday_date =>
      let start_active_period := Dt.toordinal holiday_date - 5 in
      let end_active_period := Dt.toordinal holiday_date + 5 in
      if Dt.ordinal_in_range start_active_period
         && Dt.ordinal_in_range end_active_period then
        (start_active_period <=? Dt.toordinal today)
        && (Dt.toordinal today <=? end_active_period)
      else false
  end.

(** the text [censor_text] puts in place of contact details *)
Definition CONTACT_HIDDEN : str :=
  u "Контактная информация скрыта (пишите в ЛС)".

(** [contact_pattern]:
    [(звоните|пишите|телефон|номер|тел\.?|т\.)[:;\s]*([\+\d\(\).\s-]{7,})].
    The alternatives of the first group in the order in which the
    engine tries them; [тел\.?] first with the dot, then without. *)
Definition contact_triggers : list str :=
  [ u "звоните"; u "пишите"; u "телефон"; u "номер"; u "тел."; u "тел";
    u "т." ].

(** [[:;\s]] *)
Definition contact_sep (c : Z) : bool :=
  (c =? 58) || (c =? 59) || Py.isspace c.

(** [[\+\d\(\).\s-]] *)
Definition contact_tail (c : Z) : bool :=
  (c =? 43) || Re.is_decimal c || (c =? 40) || (c =? 41) || (c =? 46)
  || Py.isspace c || (c =? 45).

(** length of the longest prefix of [s] whose characters satisfy [f] *)
Fixpoint run (f : Z -> bool) (s : str) : nat :=
  match s with
  | c :: s' => if f c then S (run f s') else O
  | [] => O
  end.

(** [[:;\s]*] is greedy: it first takes [k] separators, then gives them
    back one by one until at least seven characters of the second group
    follow; the second group takes all it can. *)
Fixpoint tail_after (k : nat) (rest : str) : option nat :=
  let n := run contact_tail (skipn k rest) in
  if (7 <=? n)%nat then Some (k + n)%nat
  else match k with
       | O => None
       | S k' => tail_after k' rest
       end.

(** length of the match of [contact_pattern] at the start of [s] that
    begins with the alternative [trig] *)
Definition match_trigger (trig s : str) : option nat :=
  if Re.match_at Re.IGNORECASE trig s then
    let rest := skipn (List.length trig) s in
    match tail_after (run contact_sep rest) rest with
    | Some n => Some (List.length trig + n)%nat
    | None => None
    end
  else None.

Fixpoint first_match (trigs : list str) (s : str) : option nat :=
  match trigs with
  | [] => None
  | t :: ts =>
      match match_trigger t s with
      | Some n => Some n
      | None => first_match ts s
      end
  end.

(** length of the match of [contact_pattern] at the start of [s] *)
Definition contact_match (s : str) : option nat :=
  first_match contact_triggers s.

(** [re.sub(contact_pattern, CONTACT_HIDDEN, s, flags=...)] *)
Fixpoint contact_sub_from (skip : nat) (s : str) : str :=
  match s with
  | [] => []
  | c :: s' =>
      match skip with
      | S k => contact_sub_from k s'
      | O =>
          match contact_match s with
          | Some n => CONTACT_HIDDEN ++ contact_sub_from (Nat.pred n) s'
          | None => c :: contact_sub_from 0 s'
          end
      end
  end.

Definition contact_sub (s : str) : str := contact_sub_from 0 s.

(** the body of the loop of [censor_text], for one word *)
Definition censor_step (acc : str * bool) (word : str) : str * bool :=
  let (censored_text, contains_bad_words) := acc in
  let pattern := Re.escape word in
  if Re.search Re.IGNORECASE pattern censored_text then
    (Re.sub Re.IGNORECASE pattern MASK censored_text, true)
  else (censored_text, contains_bad_words).

Definition censor_text (cfg : config) (text : str) : str * bool :=
  let (censored_text, contains_bad_words) :=
    fold_left censor_step (BAD_WORDS_LIST cfg) (text, false) in
  (contact_sub censored_text, contains_bad_words).

Section Handlers.
Variable cfg : config.
Variable e : env.

(** ** Database *)

(** the checks [add_application] makes before it opens the database *)
Definition insertable (data : app_data) : bool :=
  match d_from_name data with
  | Some n => (Py.len n <=? MAX_NAME_LENGTH)%nat
  | None => true
  end
  && match d_to_name data with
     | Some n => (Py.len n <=? MAX_NAME_LENGTH)%nat
     | None => true
     end
  && (Py.len (d_text data) <=? MAX_DB_TEXT_LENGTH)%nat.

Definition add_application (data : app_data) : Cmd (option Z) :=
  if negb (insertable data) then ret None
  else
    ok <- db_call e ;;
    if ok then
      key <- fresh_id ;;
      d <- get_db ;;
      put_db (<[key := new_row key (now e) data]> d) ;;;
      ret (Some key)
    else ret None.

Definition get_application_details (app : Z) : Cmd (option application) :=
  ok <- db_call e ;;
  if ok then d <- get_db ;; ret (d !! app) else ret None.

Definition approved_unpublished (r : application) : bool :=
  Py.str_eqb (status r) (u "approved")
  && match published_at r with None => true | Some _ => false end.

Definition get_approved_unpublished_applications : Cmd (list application) :=
  ok <- db_call e ;;
  if ok then
    d <- get_db ;;
    ret (List.filter approved_unpublished (snd <$> map_to_list d))
  else ret [].

Definition update_application_status (app : Z) (status : str) : Cmd bool :=
  ok <- db_call e ;;
  if ok then
    d <- get_db ;; put_db (alter (set_status status) app d) ;;; ret true
  else ret false.

Definition mark_application_as_published (app : Z) : Cmd bool :=
  ok <- db_call e ;;
  if ok then
    d <- get_db ;; put_db (alter (set_published (now e)) app d) ;;; ret true
  else ret false.

(** ** Telegram *)

(** every exception of [bot.send_message] is caught and logged; nothing
    is returned *)
Definition safe_send_message (chat : Z) (m : message) : Cmd unit :=
  ok <- tg_call e ;; emit (SendMessage chat m ok).

Definition safe_edit_message_text (upd : update) (m : message) : Cmd unit :=
  match callback_data upd with
  | Some _ =>
      if query_message upd then
        ok <- tg_call e ;; emit (EditMessage m ok)
      else ret tt
  | None => ret tt
  end.

Definition safe_reply_text (upd : update) (m : message) : Cmd unit :=
  match callback_data upd with
  | Some _ => safe_edit_message_text upd m
  | None =>
      match message_text upd with
      | Some _ => ok <- tg_call e ;; emit (ReplyText m ok)
      | None => ret tt
      end
  end.

(** [try: await query.answer() except: pass] *)
Definition answer : Cmd unit :=
  ok <- tg_call e ;; emit (AnswerQuery ok).

(** ** Publication *)

Definition known_type (t : str) : bool :=
  Py.str_eqb t (u "congrat") || Py.str_eqb t (u "announcement")
  || Py.str_eqb t (u "news").

Definition publish_application_to_channel (app_data : application)
  : Cmd unit :=
  let app := app_id app_data in
  if negb (IS_PUBLISHING_ENABLED cfg) || negb (truthy_id (GROUP_ID cfg))
  then ret tt
  else if negb (Py.str_eqb (status app_data) (u "approved")) then ret tt
  else
    match published_at app_data with
    | Some _ =>
        if negb (Py.str_eqb (status app_data) (u "published")) then
          update_application_status app (u "published") ;;; ret tt
        else ret tt
    | None =>
        if negb (known_type (type app_data)) then ret tt
        else
          match GROUP_ID cfg with
          | None => ret tt
          | Some group =>
              safe_send_message group (ChannelPost app_data) ;;;
              marked <- mark_application_as_published app ;;
              if marked then
                if negb (user_id app_data =? 0) then
                  safe_send_message (user_id app_data) (UserPublished app)
                else ret tt
              else ret tt
          end
    end.

(** the body of the loop of [scheduled_publication_check] *)
Definition publish_if_due (app_data : application) : Cmd bool :=
  if negb (Py.str_eqb (status app_data) (u "approved"))
     || match published_at app_data with Some _ => true | None => false end
  then ret true
  else
    match publish_date app_data with
    | None => ret true
    | Some publish_date_str =>
        if negb (Py.truthy publish_date_str) then ret true
        else
          match Dt.strptime_Ymd publish_date_str with
          | Some publish_date_obj =>
              if Dt.le publish_date_obj (today e) then
                publish_application_to_channel app_data ;;; ret true
              else ret true
          | None => ret true
          end
    end.

Definition scheduled_publication_check : Cmd unit :=
  if negb (IS_PUBLISHING_ENABLED cfg) then ret tt
  else
    approved_apps <- get_approved_unpublished_applications ;;
    for_each approved_apps publish_if_due.

(** ** Moderation *)

(** [action, app_id_str = query.data.split('_', 1)] and
    [int(app_id_str)]; [None] when one of them raises *)
Definition parse_admin_data (data : str) : option (str * Z) :=
  match Py.split1 95 data with
  | [action; app_id_str] =>
      match Py.int app_id_str with
      | Some n => Some (action, n)
      | None => None
      end
  | _ => None
  end.

(** the attempt at immediate publication after an approval *)
Definition publish_now (app : Z) (app_details : application) : Cmd unit :=
  match publish_date app_details, published_at app_details with
  | Some publish_date_str, None =>
      if IS_PUBLISHING_ENABLED cfg && Py.truthy publish_date_str then
        match Dt.strptime_Ymd publish_date_str with
        | Some publish_date_obj =>
            if Dt.le publish_date_obj (today e) then
              fresh_details <- get_application_details app ;;
              match fresh_details with
              | Some fresh => publish_application_to_channel fresh
              | None => ret tt
              end
            else ret tt
        | None => ret tt
        end
      else ret tt
  | _, _ => ret tt
  end.

Definition handle_admin_decision (upd : update) : Cmd unit :=
  match callback_data upd with
  | None => ret tt
  | Some data =>
      if negb (Py.truthy data) then ret tt
      else
        answer ;;;
        match parse_admin_data data with
        | None => safe_edit_message_text upd BadFormat
        | Some (action, app) =>
            app_details <- get_application_details app ;;
            match app_details with
            | None => safe_edit_message_text upd (NotFound app)
            | Some r =>
                if Py.str_eqb action (u "approve") then
                  if Py.str_eqb (status r) (u "approved")
                     || Py.str_eqb (status r) (u "published") then
                    safe_edit_message_text upd (AlreadyApproved app)
                  else
                    updated <- update_application_status app (u "approved") ;;
                    if updated then
                      publish_now app r ;;;
                      safe_edit_message_text upd (Approved app (type r))
                    else safe_edit_message_text upd (ApproveDbError app)
                else if Py.str_eqb action (u "reject") then
                  if Py.str_eqb (status r) (u "rejected") then
                    safe_edit_message_text upd (AlreadyRejected app)
                  else
                    updated <- update_application_status app (u "rejected") ;;
                    if updated then
                      safe_edit_message_text upd (Rejected app (type r)) ;;;
                      if negb (user_id r =? 0) then
                        safe_send_message (user_id r) (UserRejected app)
                      else ret tt
                    else safe_edit_message_text upd (RejectDbError app)
                else safe_edit_message_text upd (UnknownAction action app)
            end
        end
  end.

(** ** Conversation

    A handler returns the next state ([Some END] for
    [ConversationHandler.END]); [update.message] is taken to be present
    exactly when [message_text] is. *)

Definition set_key (key : string) (v : value) : Cmd unit :=
  ud <- get_ud ;; put_ud (<[key := v]> ud).

Definition has_data (upd : update) (d : str) : bool :=
  match callback_data upd with
  | Some x => Py.str_eqb x d
  | None => false
  end.

Definition start_command (upd : update) : Cmd (option state) :=
  match message_text upd with
  | None => ret (Some END)
  | Some _ =>
      put_ud ∅ ;;;
      safe_reply_text upd Welcome ;;;
      ret (Some TYPE_SELECTION)
  end.

Definition handle_type_selection (upd : update) : Cmd (option state) :=
  match callback_data upd with
  | None => ret (Some END)
  | Some data =>
      if negb (Py.truthy data) then ret (Some END)
      else
        answer ;;;
        set_key "type" (VStr data) ;;;
        let request_type := data in
        if Py.str_eqb request_type (u "congrat") then
          safe_edit_message_text upd AskSender ;;;
          ret (Some SENDER_NAME_INPUT)
        else if Py.str_eqb request_type (u "announcement") then
          safe_edit_message_text upd ChooseSubtype ;;;
          ret (Some ANNOUNCE_SUBTYPE_SELECTION)
        else if Py.str_eqb request_type (u "news") then
          safe_edit_message_text upd EnterNews ;;;
          ret (Some ANNOUNCE_TEXT_INPUT)
        else
          safe_edit_message_text upd UnknownType ;;; ret (Some END)
  end.

Definition edit_sender_name (upd : update) : Cmd (option state) :=
  match callback_data upd with
  | None => ret (Some SENDER_NAME_INPUT)
  | Some _ =>
      answer ;;;
      safe_edit_message_text upd RetypeSender ;;;
      ret (Some SENDER_NAME_INPUT)
  end.

Definition edit_recipient_name (upd : update) : Cmd (option state) :=
  match callback_data upd with
  | None => ret (Some RECIPIENT_NAME_INPUT)
  | Some _ =>
      answer ;;;
      safe_edit_message_text upd RetypeRecipient ;;;
      ret (Some RECIPIENT_NAME_INPUT)
  end.

Definition back_to_holiday_choice (upd : update) : Cmd (option state) :=
  match callback_data upd with
  | None => ret (Some CONGRAT_HOLIDAY_CHOICE)
  | Some _ =>
      answer ;;;
      safe_edit_message_text upd ChooseHolidayAgain ;;;
      ret (Some CONGRAT_HOLIDAY_CHOICE)
  end.

Definition back_to_custom_message (upd : update) : Cmd (option state) :=
  match callback_data upd with
  | None => ret (Some CUSTOM_CONGRAT_MESSAGE_INPUT)
  | Some _ =>
      answer ;;;
      safe_edit_message_text upd EnterCustomCongrat ;;;
      ret (Some CUSTOM_CONGRAT_MESSAGE_INPUT)
  end.

Definition back_to_subtype (upd : update) : Cmd (option state) :=
  match callback_data upd with
  | None => ret (Some ANNOUNCE_SUBTYPE_SELECTION)
  | Some _ =>
      answer ;;;
      safe_edit_message_text upd ChooseSubtype ;;;
      ret (Some ANNOUNCE_SUBTYPE_SELECTION)
  end.

(** the text of a message handler's update, after the checks every
    text handler of main.py starts with: [inl] is the state the handler
    returns at once, [inr] the text to process *)
Definition incoming_text (upd : update) (here : state)
  : Cmd (option state + str) :=
  match message_text upd with
  | None => ret (inl (Some here))
  | Some t =>
      if negb (Py.truthy t) then ret (inl (Some here))
      else if Py.startswith t (u "/start") then
        s <- start_command upd ;; ret (inl s)
      else ret (inr t)
  end.

Definition get_sender_name (upd : update) : Cmd (option state) :=
  if has_data upd (u "back_to_start") then answer ;;; start_command upd
  else
    r <- incoming_text upd SENDER_NAME_INPUT ;;
    match r with
    | inl s => ret s
    | inr t =>
        let name := Py.strip t in
        if negb (validate_name name) then
          safe_reply_text upd BadSender ;;; ret (Some SENDER_NAME_INPUT)
        else
          let (censored_name, contains_bad_words) := censor_text cfg name in
          if contains_bad_words then
            safe_reply_text upd BadWordsInSender ;;; ret (Some END)
          else
            set_key "from_name" (VStr name) ;;;
            safe_reply_text upd (AskRecipient name) ;;;
            ret (Some RECIPIENT_NAME_INPUT)
    end.

Definition get_recipient_name (upd : update) : Cmd (option state) :=
  if has_data upd (u "back_to_start") then answer ;;; start_command upd
  else if has_data upd (u "edit_sender_name") then edit_sender_name upd
  else
    r <- incoming_text upd RECIPIENT_NAME_INPUT ;;
    match r with
    | inl s => ret s
    | inr t =>
        let name := Py.strip t in
        if negb (validate_name name) then
          safe_reply_text upd BadRecipient ;;;
          ret (Some RECIPIENT_NAME_INPUT)
        else
          let (censored_name, contains_bad_words) := censor_text cfg name in
          if contains_bad_words then
            safe_reply_text upd BadWordsInRecipient ;;; ret (Some END)
          else
            set_key "to_name" (VStr name) ;;;
            safe_reply_text upd (ChooseHoliday name) ;;;
            ret (Some CONGRAT_HOLIDAY_CHOICE)
    end.

Definition send_to_admin_for_moderation (app : Z) (data : app_data)
  : Cmd unit :=
  if negb (truthy_id (ADMIN_CHAT_ID cfg)) then ret tt
  else
    match ADMIN_CHAT_ID cfg with
    | Some admin => safe_send_message admin (NewApplication app data)
    | None => ret tt
    end.

Definition complete_request (upd : update) : Cmd (option state) :=
  user_data <- get_ud ;;
  match user_data !! "text" with
  | Some (VStr final_text) =>
      let (censored_text, contains_bad_words) :=
        censor_text cfg final_text in
      if contains_bad_words then
        safe_reply_text upd BadWordsClosed ;;; ret (Some END)
      else
        set_key "text" (VStr censored_text) ;;;
        user_data <- get_ud ;;
        match get_str user_data "type" with
        | None =>
            (* the column [type] is NOT NULL: the INSERT is refused *)
            safe_reply_text upd SaveError ;;; ret (Some END)
        | Some type =>
            let data_to_save :=
              AppData (from_id upd) (from_username upd) type
                (get_str user_data "subtype")
                (get_str user_data "from_name")
                (get_str user_data "to_name")
                censored_text
                (get_str user_data "publish_date")
                (get_str user_data "congrat_type") in
            app <- add_application data_to_save ;;
            match app with
            | None => safe_reply_text upd SaveError ;;; ret (Some END)
            | Some key =>
                send_to_admin_for_moderation key data_to_save ;;;
                safe_reply_text upd SentToModeration ;;;
                put_ud ∅ ;;;
                ret (Some END)
            end
        end
  | _ => safe_reply_text upd NoText ;;; ret (Some END)
  end.

Definition template_of (holiday_name : str) : str :=
  match Py.dict_get holiday_name HOLIDAY_TEMPLATES with
  | Some t => t
  | None => []
  end.

Definition handle_congrat_holiday_choice (upd : update)
  : Cmd (option state) :=
  match callback_data upd with
  | None => ret (Some END)
  | Some data =>
      if negb (Py.truthy data) then ret (Some END)
      else
        answer ;;;
        if Py.str_eqb data (u "back_to_start") then start_command upd
        else if Py.str_eqb data (u "edit_sender_name") then
          edit_sender_name upd
        else if Py.str_eqb data (u "edit_recipient_name") then
          edit_recipient_name upd
        else
          let selected_choice := data in
          set_key "congrat_type" (VStr selected_choice) ;;;
          if Py.str_eqb selected_choice (u "custom") then
            safe_edit_message_text upd EnterCustomCongrat ;;;
            ret (Some CUSTOM_CONGRAT_MESSAGE_INPUT)
          else
            match Py.dict_get selected_choice HOLIDAYS with
            | Some holiday_date_short =>
                let holiday_name := selected_choice in
                if negb (is_holiday_active (today e) holiday_date_short)
                then
                  safe_edit_message_text upd (HolidayInactive holiday_name) ;;;
                  ret (Some CONGRAT_HOLIDAY_CHOICE)
                else
                  set_key "text" (VStr (template_of holiday_name)) ;;;
                  match Dt.strptime_Ymd
                          (Py.str_of_int (Dt.year (today e)) ++ [HYPHEN]
                             ++ holiday_date_short) with
                  | Some holiday_date_obj =>
                      set_key "publish_date"
                        (VStr (Dt.strftime_Ymd holiday_date_obj)) ;;;
                      complete_request upd
                  | None =>
                      safe_edit_message_text upd HolidayDateError ;;;
                      ret (Some CONGRAT_HOLIDAY_CHOICE)
                  end
            | None =>
                safe_edit_message_text upd BadHolidayChoice ;;;
                ret (Some CONGRAT_HOLIDAY_CHOICE)
            end
  end.

Definition process_custom_congrat_message (upd : update)
  : Cmd (option state) :=
  if has_data upd (u "back_to_start") then answer ;;; start_command upd
  else if has_data upd (u "back_to_holiday_choice") then
    answer ;;; back_to_holiday_choice upd
  else
    r <- incoming_text upd CUSTOM_CONGRAT_MESSAGE_INPUT ;;
    match r with
    | inl s => ret s
    | inr t =>
        let user_text := Py.strip t in
        if negb (Py.truthy user_text) then
          safe_reply_text upd EmptyCongrat ;;;
          ret (Some CUSTOM_CONGRAT_MESSAGE_INPUT)
        else if (MAX_CONGRAT_TEXT_LENGTH <? Py.len user_text)%nat then
          safe_reply_text upd (TooLong MAX_CONGRAT_TEXT_LENGTH) ;;;
          ret (Some CUSTOM_CONGRAT_MESSAGE_INPUT)
        else
          let (censored_text, contains_bad_words) :=
            censor_text cfg user_text in
          if contains_bad_words then
            safe_reply_text upd BadWordsClosed ;;; ret (Some END)
          else
            set_key "original_text" (VStr user_text) ;;;
            set_key "censored_text" (VStr censored_text) ;;;
            set_key "text" (VStr censored_text) ;;;
            if negb (Py.str_eqb censored_text user_text) then
              safe_reply_text upd (FilterEdited censored_text) ;;;
              ret (Some WAIT_CENSOR_APPROVAL)
            else
              safe_reply_text upd AskDate ;;;
              ret (Some CONGRAT_DATE_INPUT)
    end.

Definition process_congrat_date (upd : update) : Cmd (option state) :=
  if has_data upd (u "back_to_start") then answer ;;; start_command upd
  else if has_data upd (u "back_to_holiday_choice") then
    answer ;;; back_to_holiday_choice upd
  else if has_data upd (u "back_to_custom_message") then
    answer ;;; back_to_custom_message upd
  else
    r <- incoming_text upd CONGRAT_DATE_INPUT ;;
    match r with
    | inl s => ret s
    | inr t =>
        let date_str := Py.lower (Py.strip t) in
        if Py.str_eqb date_str (u "сегодня") then
          set_key "publish_date" (VStr (Dt.strftime_Ymd (today e))) ;;;
          complete_request upd
        else
          match Dt.strptime_dmY HYPHEN date_str with
          | Some publish_date =>
              if Dt.lt publish_date (today e) then
                safe_reply_text upd DateInPast ;;;
                ret (Some CONGRAT_DATE_INPUT)
              else
                set_key "publish_date"
                  (VStr (Dt.strftime_Ymd publish_date)) ;;;
                complete_request upd
          | None =>
              safe_reply_text upd BadDateFormat ;;;
              ret (Some CONGRAT_DATE_INPUT)
          end
    end.

Definition handle_announce_subtype_selection (upd : update)
  : Cmd (option state) :=
  match callback_data upd with
  | None => ret (Some END)
  | Some data =>
      if negb (Py.truthy data) then ret (Some END)
      else
        answer ;;;
        if Py.str_eqb data (u "back_to_start") then start_command upd
        else
          set_key "subtype" (VStr data) ;;;
          safe_edit_message_text upd (EnterAnnounce data) ;;;
          ret (Some ANNOUNCE_TEXT_INPUT)
  end.

Definition process_announce_news_text (upd : update)
  : Cmd (option state) :=
  if has_data upd (u "back_to_start") then answer ;;; start_command upd
  else
    ud <- get_ud ;;
    if has_data upd (u "back_to_subtype")
       && match get_str ud "type" with
          | Some t => Py.str_eqb t (u "announcement")
          | None => false
          end
    then answer ;;; back_to_subtype upd
    else
      r <- incoming_text upd ANNOUNCE_TEXT_INPUT ;;
      match r with
      | inl s => ret s
      | inr t =>
          let user_text := Py.strip t in
          let max_len := MAX_ANNOUNCE_NEWS_TEXT_LENGTH in
          if negb (Py.truthy user_text) then
            safe_reply_text upd EmptyText ;;; ret (Some ANNOUNCE_TEXT_INPUT)
          else if (max_len <? Py.len user_text)%nat then
            safe_reply_text upd (TooLong max_len) ;;;
            ret (Some ANNOUNCE_TEXT_INPUT)
          else
            let (censored_text, contains_bad_words) :=
              censor_text cfg user_text in
            if contains_bad_words then
              safe_reply_text upd BadWordsClosed ;;; ret (Some END)
            else
              set_key "original_text" (VStr user_text) ;;;
              set_key "censored_text" (VStr censored_text) ;;;
              set_key "text" (VStr censored_text) ;;;
              if negb (Py.str_eqb censored_text user_text) then
                safe_reply_text upd (FilterEdited censored_text) ;;;
                ret (Some WAIT_CENSOR_APPROVAL)
              else
                set_key "publish_date"
                  (VStr (Dt.strftime_Ymd (today e))) ;;;
                complete_request upd
      end.

Definition handle_censor_choice (upd : update) : Cmd (option state) :=
  match callback_data upd with
  | None => ret (Some END)
  | Some choice =>
      if negb (Py.truthy choice) then ret (Some END)
      else
        answer ;;;
        ud <- get_ud ;;
        let current_type := get_str ud "type" in
        let is_type t :=
          match current_type with
          | Some x => Py.str_eqb x (u t)
          | None => false
          end in
        let custom_congrat :=
          is_type "congrat"
          && match get_str ud "congrat_type" with
             | Some x => Py.str_eqb x (u "custom")
             | None => false
             end in
        if Py.str_eqb choice (u "back_to_start") then start_command upd
        else if Py.str_eqb choice (u "back_to_holiday_choice")
                && is_type "congrat" then back_to_holiday_choice upd
        else if Py.str_eqb choice (u "back_to_subtype")
                && is_type "announcement" then back_to_subtype upd
        else if Py.str_eqb choice (u "accept_censor") then
          if custom_congrat then
            safe_edit_message_text upd AcceptedAskDate ;;;
            ret (Some CONGRAT_DATE_INPUT)
          else
            set_key "publish_date" (VStr (Dt.strftime_Ymd (today e))) ;;;
            complete_request upd
        else if Py.str_eqb choice (u "edit_censor") then
          if custom_congrat then
            safe_edit_message_text upd RetypeCongrat ;;;
            ret (Some CUSTOM_CONGRAT_MESSAGE_INPUT)
          else
            safe_edit_message_text upd
              (RetypeText MAX_ANNOUNCE_NEWS_TEXT_LENGTH) ;;;
            ret (Some ANNOUNCE_TEXT_INPUT)
        else
          safe_edit_message_text upd BadChoice ;;;
          ret (Some WAIT_CENSOR_APPROVAL)
  end.

Definition cancel_command (upd : update) : Cmd (option state) :=
  put_ud ∅ ;;;
  safe_reply_text upd Cancelled ;;;
  ret (Some END).

End Handlers.

End Main.

(** * main.py on the event loop

    The moderation handler and the publisher of main.py are coroutines
    of one asyncio event loop: [handle_admin_decision] runs for an
    update, [scheduled_publication_check] is a job of an
    [AsyncIOScheduler] on the same loop.  A coroutine runs without
    interruption up to an [await] of a call to Telegram; while it waits
    for the answer the loop runs the other coroutines.  The calls to
    SQLite are ordinary calls and give no control away.

    [Module Main] gives each function as what it does when it runs to
    its end with nothing in between.  [Module Aio] gives the same
    functions of the publication path with their [await]s, so that runs
    that overlap can be followed; [Aio.alone] forgets the [await]s
    again. *)
Module Aio.
Import Rt.

(** what a coroutine has come to when it gives the control back: its
    result, or an [await] with what is left to run when the awaited call
    has returned *)
#[local] Unset Elimination Schemes.
Inductive pending (A : Type) : Type :=
| Done (a : A)
| Await (k : Main.W -> pending A * Main.W).
#[local] Set Elimination Schemes.
Arguments Done {A}.
Arguments Await {A}.

(** a coroutine: run from a state of the world up to its next [await] *)
Definition Co (A : Type) : Type := Main.W -> pending A * Main.W.

Definition ret {A} (a : A) : Co A := fun w => (Done a, w).

(** [p], and then [f] on its result *)
Fixpoint and_then {A B} (p : pending A) (f : A -> Co B) : Co B :=
  fun w =>
    match p with
    | Done a => f a w
    | Await k =>
        (Await (fun w1 => let (p1, w2) := k w1 in and_then p1 f w2), w)
    end.

Definition bind {A B} (c : Co A) (f : A -> Co B) : Co B :=
  fun w => let (p, w') := c w in and_then p f w'.

(** ordinary code, and calls that are not awaited on the network: run
    at once *)
Definition atomic {A} (c : Main.Cmd A) : Co A :=
  fun w => let (a, w') := c w in (Done a, w').

(** [await] of a call to Telegram: the coroutine is suspended, and the
    outcome of the call is there when it is resumed *)
Definition await {A} (c : Main.Cmd A) : Co A :=
  fun w => (Await (fun w1 => let (a, w2) := c w1 in (Done a, w2)), w).

(** a coroutine resumed again and again until its end, with no other
    coroutine in between *)
Fixpoint finish {A} (p : pending A) (w : Main.W) : A * Main.W :=
  match p with
  | Done a => (a, w)
  | Await k => let (p1, w1) := k w in finish p1 w1
  end.

Definition alone {A} (c : Co A) : Main.Cmd A :=
  fun w => let (p, w') := c w in finish p w'.

Declare Scope aio_scope.
Notation "x <- c ;; k" := (bind c (fun x => k))
  (at level 100, c at next level, right associativity) : aio_scope.
Notation "c ;;; k" := (bind c (fun _ => k))
  (at level 100, right associativity) : aio_scope.
Local Open Scope aio_scope.

Fixpoint for_each {A} (l : list A) (body : A -> Co bool) : Co unit :=
  match l with
  | [] => ret tt
  | x :: l' =>
      continue <- body x ;;
      if continue : bool then for_each l' body else ret tt
  end.

Section Coroutines.
Variable cfg : Main.config.
Variable e : env.

(** ** Telegram *)

Definition safe_send_message (chat : Z) (m : Main.message) : Co unit :=
  await (Main.safe_send_message e chat m).

(** nothing is awaited when there is no message to edit *)
Definition safe_edit_message_text (upd : update) (m : Main.message)
  : Co unit :=
  match callback_data upd with
  | Some _ =>
      if query_message upd then await (Main.safe_edit_message_text e upd m)
      else ret tt
  | None => ret tt
  end.

Definition answer : Co unit := await (Main.answer e).

(** ** Publication *)

Definition publish_application_to_channel (app_data : application)
  : Co unit :=
  let app := app_id app_data in
  if negb (Main.IS_PUBLISHING_ENABLED cfg)
     || negb (truthy_id (Main.GROUP_ID cfg))
  then ret tt
  else if negb (Py.str_eqb (status app_data) (u "approved")) then ret tt
  else
    match published_at app_data with
    | Some _ =>
        if negb (Py.str_eqb (status app_data) (u "published")) then
          atomic (Main.update_application_status e app (u "published")) ;;;
          ret tt
        else ret tt
    | None =>
        if negb (Main.known_type (type app_data)) then ret tt
        else
          match Main.GROUP_ID cfg with
          | None => ret tt
          | Some group =>
              safe_send_message group (Main.ChannelPost app_data) ;;;
              marked <- atomic (Main.mark_application_as_published e app) ;;
              if marked then
                if negb (user_id app_data =? 0) then
                  safe_send_message (user_id app_data)
                    (Main.UserPublished app)
                else ret tt
              else ret tt
          end
    end.

(** the body of the loop of [scheduled_publication_check] *)
Definition publish_if_due (app_data : application) : Co bool :=
  if negb (Py.str_eqb (status app_data) (u "approved"))
     || match published_at app_data with Some _ => true | None => false end
  then ret true
  else
    match publish_date app_data with
    | None => ret true
    | Some publish_date_str =>
        if negb (Py.truthy publish_date_str) then ret true
        else
          match Dt.strptime_Ymd publish_date_str with
          | Some publish_date_obj =>
              if Dt.le publish_date_obj (today e) then
                publish_application_to_channel app_data ;;; ret true
              else ret true
          | None => ret true
          end
    end.

Definition scheduled_publication_check : Co unit :=
  if negb (Main.IS_PUBLISHING_ENABLED cfg) then ret tt
  else
    approved_apps <- atomic (Main.get_approved_unpublished_applications e) ;;
    for_each approved_apps publish_if_due.

(** ** Moderation *)

(** the attempt at immediate publication after an approval *)
Definition publish_now (app : Z) (app_details : application) : Co unit :=
  match publish_date app_details, published_at app_details with
  | Some publish_date_str, None =>
      if Main.IS_PUBLISHING_ENABLED cfg && Py.truthy publish_date_str then
        match Dt.strptime_Ymd publish_date_str with
        | Some publish_date_obj =>
            if Dt.le publish_date_obj (today e) then
              fresh_details <- atomic (Main.get_application_details e app) ;;
              match fresh_details with
              | Some fresh => publish_application_to_channel fresh
              | None => ret tt
              end
            else ret tt
        | None => ret tt
        end
      else ret tt
  | _, _ => ret tt
  end.

Definition handle_admin_decision (upd : update) : Co unit :=
  match callback_data upd with
  | None => ret tt
  | Some data =>
      if negb (Py.truthy data) then ret tt
      else
        answer ;;;
        match Main.parse_admin_data data with
        | None => safe_edit_message_text upd Main.BadFormat
        | Some (action, app) =>
            app_details <- atomic (Main.get_application_details e app) ;;
            match app_details with
            | None => safe_edit_message_text upd (Main.NotFound app)
            | Some r =>
                if Py.str_eqb action (u "approve") then
                  if Py.str_eqb (status r) (u "approved")
                     || Py.str_eqb (status r) (u "published") then
                    safe_edit_message_text upd (Main.AlreadyApproved app)
                  else
                    updated <-
                      atomic (Main.update_application_status e app
                                (u "approved")) ;;
                    if updated then
                      publish_now app r ;;;
                      safe_edit_message_text upd
                        (Main.Approved app (type r))
                    else
                      safe_edit_message_text upd (Main.ApproveDbError app)
                else if Py.str_eqb action (u "reject") then
                  if Py.str_eqb (status r) (u "rejected") then
                    safe_edit_message_text upd (Main.AlreadyRejected app)
                  else
                    updated <-
                      atomic (Main.update_application_status e app
                                (u "rejected")) ;;
                    if updated then
                      safe_edit_message_text upd
                        (Main.Rejected app (type r)) ;;;
                      if negb (user_id r =? 0) then
                        safe_send_message (user_id r) (Main.UserRejected app)
                      else ret tt
                    else
                      safe_edit_message_text upd (Main.RejectDbError app)
                else
                  safe_edit_message_text upd (Main.UnknownAction action app)
            end
        end
  end.

End Coroutines.

End Aio.

(** * What the specification says, in the vocabulary of the embedding *)

(** ** Names *)

(** the letters of the Russian alphabet, both cases, with Ё and ё *)
Definition russian_letter (c : Z) : Prop :=
  0x410 <= c <= 0x44F \/ c = 0x401 \/ c = 0x451.

Definition name_char (c : Z) : Prop :=
  russian_letter c \/ c = SPACE \/ c = HYPHEN.

(** "the trimmed value has length 2-50, consists only of allowed-language
    letters, spaces, and hyphens, does not start or end with a hyphen, and
    contains no doubled hyphen" *)
Definition name_rule (name : str) : Prop :=
  let t := Py.strip name in
  (2 <= List.length t <= 50)%nat
  /\ Forall name_char t
  /\ head t <> Some HYPHEN
  /\ last t <> Some HYPHEN
  /\ ~ (exists l r, t = l ++ [HYPHEN; HYPHEN] ++ r).

(** "length and characters" (the docstring of main.py's
    [validate_name]): the trimmed value has length 2-50 and consists
    only of Russian letters, spaces and hyphens *)
Definition plain_name_rule (name : str) : Prop :=
  let t := Py.strip name in
  (2 <= List.length t <= 50)%nat /\ Forall name_char t.

(** ** Definitions used by the proofs *)

(** [name_char] as a test *)
Definition name_charb (c : Z) : bool :=
  ((0x410 <=? c) && (c <=? 0x44F)) || (c =? 0x401) || (c =? 0x451)
  || (c =? SPACE) || (c =? HYPHEN).


(** arithmetic with division by a constant *)
Ltac zdiv := Z.to_euclidean_division_equations; lia.

(** [f"{k}-01-01"] is read back by [strptime] as the first of January
    of year [k] *)
Definition parses_to_new_year (k : Z) : bool :=
  match Dt.strptime_Ymd (Py.str_of_int k ++ [HYPHEN] ++ u "01-01") with
  | Some d => (Dt.year d =? k) && (Dt.month d =? 1) && (Dt.day d =? 1)
  | None => false
  end.

Definition digits10 : list Z := [0; 1; 2; 3; 4; 5; 6; 7; 8; 9].

(** the years of four digits *)
Definition years4 : list Z :=
  a ← [1; 2; 3; 4; 5; 6; 7; 8; 9];
  b ← digits10; c ← digits10; d ← digits10;
  [1000 * a + 100 * b + 10 * c + d].


(** no character of the pattern [p] matches a character of [repl] *)
Definition unmatched (flags : Z -> Z -> bool) (p repl : str) : bool :=
  forallb (fun x => forallb (fun c => negb (flags x c)) repl) p.

(** a word that can be masked once and for all: it is not empty and none
    of its characters matches a character of the mask *)
Definition maskable (flags : Z -> Z -> bool) (repl p : str) : bool :=
  Py.truthy p && unmatched flags p repl.

(** [w] and [r], laid side by side, differ at a position both have *)
Fixpoint conflict (flags : Z -> Z -> bool) (w r : str) : bool :=
  match w, r with
  | x :: w', c :: r' => negb (flags x c) || conflict flags w' r'
  | _, _ => false
  end.

(** the suffixes [drop 0 s], ..., [drop (n-1) s] *)
Fixpoint suffixes (n : nat) (s : str) : list str :=
  match n with
  | O => []
  | S k => s :: suffixes k (tl s)
  end.

(** [w] cannot lie across a copy of [r] put into a text: it differs from
    [r] wherever it starts inside [r], and each of its suffixes differs
    from the start of [r] *)
Definition apart (flags : Z -> Z -> bool) (r w : str) : bool :=
  Py.truthy w
  && forallb (fun r' => conflict flags w r') (suffixes (List.length r) r)
  && forallb (fun w' => conflict flags w' r) (suffixes (List.length w) w).

(** [contact_pattern] matches somewhere in [s] *)
Fixpoint contact_search (s : str) : bool :=
  match Main.contact_match s with
  | Some _ => true
  | None => match s with [] => false | _ :: s' => contact_search s' end
  end.

(** [a] is [b] up to a point where [a] goes on with [r] *)
Inductive agree (r : str) : str -> str -> Prop :=
| agree_nil : agree r [] []
| agree_cons c a b : agree r a b -> agree r (c :: a) (c :: b)
| agree_cut X b : agree r (r ++ X) b.


(** ** Runs of the publisher and of the moderation handler *)

(** the primary key of a row is its [id] *)
Definition keyed (d : gmap Z Rt.application) : Prop :=
  forall k r, d !! k = Some r -> Rt.app_id r = k.

(** the row [k] exists and its [published_at] is not [NULL] *)
Definition is_published (d : gmap Z Rt.application) (k : Z) : Prop :=
  exists r, d !! k = Some r /\ Rt.published_at r <> None.

(** what runs between two observations of the table: one run of the
    scheduled publisher, or the moderation handler on one callback *)
Inductive op :=
| Cycle
| Callback (upd : Rt.update).

Definition bot_op (cfg : Bot.config) (x : Rt.env * op) : Bot.Cmd unit :=
  match snd x with
  | Cycle => Bot.check_pending_applications cfg (fst x)
  | Callback upd => Bot.admin_callback_handler cfg (fst x) upd
  end.

Definition main_op (cfg : Main.config) (x : Rt.env * op) : Main.Cmd unit :=
  match snd x with
  | Cycle => Main.scheduled_publication_check cfg (fst x)
  | Callback upd => Main.handle_admin_decision cfg (fst x) upd
  end.

(** a sequence of operations, each in the environment it meets and run
    to its end before the next one starts: the runs of the event loop in
    which no coroutine is started while another waits in an [await]
    (for main.py, [Aio.alone] of the coroutines; the runs that overlap
    are those of [main_loop] below) *)
Definition bot_run (cfg : Bot.config) (tr : list (Rt.env * op)) (w : Bot.W)
  : Bot.W :=
  fold_left (fun w x => snd (bot_op cfg x w)) tr w.

Definition main_run (cfg : Main.config) (tr : list (Rt.env * op))
  (w : Main.W) : Main.W :=
  fold_left (fun w x => snd (main_op cfg x w)) tr w.

(** ** Runs that overlap (main.py) *)

(** what the event loop does next: it starts a run of the publisher or
    the handler of a callback, in the environment the run meets, or it
    resumes the coroutine at place [i] of those it holds, the awaited
    call of which has returned *)
Inductive move :=
| Start (x : Rt.env * op)
| Resume (i : nat).

Definition main_task (cfg : Main.config) (x : Rt.env * op) : Aio.Co unit :=
  match snd x with
  | Cycle => Aio.scheduled_publication_check cfg (fst x)
  | Callback upd => Aio.handle_admin_decision cfg (fst x) upd
  end.

(** the coroutines the loop holds, each as far as it has come, and the
    world; a coroutine that is started runs up to its first [await], one
    that is resumed up to its next *)
Definition loop_step (cfg : Main.config)
    (st : list (Aio.pending unit) * Main.W) (m : move)
  : list (Aio.pending unit) * Main.W :=
  let (tasks, w) := st in
  match m with
  | Start x => let (p, w') := main_task cfg x w in (tasks ++ [p], w')
  | Resume i =>
      match tasks !! i with
      | Some (Aio.Await k) => let (p, w') := k w in (<[i := p]> tasks, w')
      | _ => (tasks, w)
      end
  end.

(** the loop, from a moment at which no coroutine is under way *)
Definition main_loop (cfg : Main.config) (ms : list move) (w : Main.W)
  : list (Aio.pending unit) * Main.W :=
  fold_left (loop_step cfg) ms ([], w).

(** the coroutine [p] keeps [I] at every step, in whatever world that
    satisfies [I] it is resumed, and its result satisfies [Q] *)
Fixpoint keeps {A} (I : Main.W -> Prop) (Q : A -> Prop)
    (p : Aio.pending A) : Prop :=
  match p with
  | Aio.Done a => Q a
  | Aio.Await k => forall w, I w -> I (snd (k w)) /\ keeps I Q (fst (k w))
  end.


(** the event is a send of the broadcast message of application [k] *)
Definition bot_post_of (k : Z) (ev : Rt.event Bot.message) : bool :=
  match ev with
  | Rt.SendMessage _ (Bot.ChannelPost a _) _ => a =? k
  | _ => false
  end.

Definition main_post_of (k : Z) (ev : Rt.event Main.message) : bool :=
  match ev with
  | Rt.SendMessage _ (Main.ChannelPost r) _ => Rt.app_id r =? k
  | _ => false
  end.

(** the event is a send of the success notification for application [k]
    (only main.py has one) *)
Definition main_notice_of (k : Z) (ev : Rt.event Main.message) : bool :=
  match ev with
  | Rt.SendMessage _ (Main.UserPublished a) _ => a =? k
  | _ => false
  end.

(** the send went through *)
Definition delivered {Msg} (ev : Rt.event Msg) : bool :=
  match ev with
  | Rt.SendMessage _ _ ok => ok
  | _ => false
  end.

Definition count {A} (f : A -> bool) (l : list A) : nat :=
  List.length (List.filter f l).

(** the moves of the lifecycle: none, pending to approved or rejected,
    approved to published *)
Definition lifecycle_step (s s' : str) : Prop :=
  s' = s
  \/ (s = u "pending" /\ (s' = u "approved" \/ s' = u "rejected"))
  \/ (s = u "approved" /\ s' = u "published").


(** the same for main.py, with the number of sends of the success
    notification for [k] *)
Definition main_kept (k : Z) (n0 m0 : nat) (w : Main.W) : Prop :=
  count (main_post_of k) (Rt.sent w) = n0
  /\ count (main_notice_of k) (Rt.sent w) = m0
  /\ keyed (Rt.db w) /\ is_published (Rt.db w) k.



(** ** Sample data *)

Definition sample_row (key : Z) (type status : str)
  (publish_date : option str) (published_at : option Z) : Rt.application :=
  Rt.Application key 700 None type None None None (u "text") status 0
    publish_date published_at None.

(** an environment in which the calls to the database succeed when [db]
    says so, and the calls to Telegram when [tg] says so *)
Definition sample_env (db tg : nat -> bool) : Rt.env :=
  Rt.Env (Dt.Date 2025 6 15) 1000 db tg.

Definition always (b : bool) : nat -> bool := fun _ => b.

(** a callback query with the given data, pressed by [actor] *)
Definition press (actor : Z) (data : str) : Rt.update :=
  Rt.Update actor None (u "user") (Some data) true None.

Definition bot_world (rows : list Rt.application) : Bot.W :=
  Rt.World (list_to_map ((fun r => (Rt.app_id r, r)) <$> rows)) 100 0 [] ∅.

Definition main_world (rows : list Rt.application) : Main.W :=
  Rt.World (list_to_map ((fun r => (Rt.app_id r, r)) <$> rows)) 100 0 [] ∅.

(** ** Tactics for running the handlers *)

(** unfold the primitives of the runtime *)
Ltac run_rt :=
  cbv [Rt.bind Rt.ret Rt.db_call Rt.tg_call Rt.emit Rt.get_db Rt.put_db
       Rt.get_ud Rt.put_ud Rt.fresh_id
       Rt.db Rt.sent Rt.tick Rt.next_id Rt.user_data fst snd].

(** follow every path of a handler: split on each test it makes *)
Ltac branch :=
  repeat (run_rt; cbn [negb andb orb];
          match goal with
          | |- context [if negb ?b then _ else _] => destruct b eqn:?
          | |- context [if ?b then _ else _] => destruct b eqn:?
          | |- context [match ?x with Some _ => _ | None => _ end] =>
              destruct x eqn:?
          | |- context [let (_, _) := ?p in _] => is_var p; destruct p
          end);
  run_rt; cbn [negb andb orb].

(** the log of the result is the log of the start followed by new
    events *)
Ltac log_tail :=
  rewrite <- ?app_assoc;
  first [ exists []; split; [symmetry; apply app_nil_r |]
        | eexists; split; [reflexivity | cbn [app]] ].

(** the world after one call to the database or to Telegram *)
Definition bump {UD Msg} (w : Rt.world UD Msg) : Rt.world UD Msg :=
  Rt.World (Rt.db w) (Rt.next_id w) (S (Rt.tick w)) (Rt.sent w)
    (Rt.user_data w).

(** settings: the channel is chat -100, the moderator is user 1 *)
Definition bot_cfg : Bot.config := Bot.Config (Some (-100)) (Some 1).

Definition main_cfg : Main.config :=
  Main.Config (Some 1) (Some (-100)) Main.DEFAULT_BAD_WORDS.

(** every call succeeds *)
Definition fair : Rt.env := sample_env (always true) (always true).

(** every call succeeds, on the day [d] *)
Definition on_day (d : Dt.date) : Rt.env :=
  Rt.Env d 1000 (always true) (always true).


(** the database works, Telegram refuses every call *)
Definition telegram_down : Rt.env := sample_env (always true) (always false).

(** a news item that is due since 1 June 2025 *)
Definition news_row (key : Z) (status : str) (published_at : option Z)
  : Rt.application :=
  sample_row key (u "news") status (Some (u "2025-06-01")) published_at.

(** the broadcast of application [k] went through *)
Definition bot_posted (k : Z) (ev : Rt.event Bot.message) : bool :=
  bot_post_of k ev && delivered ev.

Definition main_posted (k : Z) (ev : Rt.event Main.message) : bool :=
  main_post_of k ev && delivered ev.



(** a text message sent by [actor] *)
Definition say (actor : Z) (text : str) : Rt.update :=
  Rt.Update actor None (u "user") None false (Some text).

(** ** Tactics for the conversation handlers *)

(** the test a compound condition starts with *)
Ltac first_test b :=
  lazymatch b with
  | negb ?a => first_test a
  | orb ?a _ => first_test a
  | andb ?a _ => first_test a
  | _ => b
  end.

(** unfold what the handlers read of an update and of [user_data] *)
Ltac run_ud :=
  cbv [Bot.set_key Bot.text_of Bot.data_of Main.set_key Main.has_data
       Main.incoming_text say press Rt.callback_data Rt.message_text
       Rt.query_message Rt.from_id Rt.from_username Rt.from_full_name].

(** reduce as far as what is known allows; [known] rewrites with what
    is known of the tests *)
Ltac settle known :=
  repeat (progress (run_rt; run_ud; cbn [negb andb orb]; known)).

(** follow every path of a handler *)
Ltac walk known :=
  repeat (settle known;
          match goal with
          | |- context [Py.str_eqb (u ?a) (u ?b)] =>
              let v := eval vm_compute in (Py.str_eqb (u a) (u b)) in
              change (Py.str_eqb (u a) (u b)) with v
          | |- context [Py.truthy (u ?a)] =>
              let v := eval vm_compute in (Py.truthy (u a)) in
              change (Py.truthy (u a)) with v
          | |- context [Py.startswith (u ?a) (u ?b)] =>
              let v := eval vm_compute in (Py.startswith (u a) (u b)) in
              change (Py.startswith (u a) (u b)) with v
          | |- context [if ?b then _ else _] =>
              let a := first_test b in destruct a eqn:?
          | |- context [match ?x with Some _ => _ | None => _ end] =>
              destruct x eqn:?
          | |- context [let (_, _) := ?p in _] => is_var p; destruct p
          | |- context [let (_, _) := Bot.censor_text ?t in _] =>
              destruct (Bot.censor_text t) eqn:?
          | |- context [let (_, _) := Main.censor_text ?c ?t in _] =>
              destruct (Main.censor_text c t) eqn:?
          end);
  settle known.

(** unfold the store and the Telegram calls of each program *)
Ltac run_bot :=
  cbv [Bot.publish_to_channel Bot.get_application_details
       Bot.mark_application_as_published Bot.update_application_status
       Bot.get_approved_unpublished_applications
       Bot.send_message Bot.safe_send_message Bot.safe_edit_message_text
       Bot.safe_reply_text Bot.answer Bot.admin_callback_handler
       Bot.check_pending_applications].

Ltac run_main :=
  cbv [Main.publish_application_to_channel Main.get_application_details
       Main.mark_application_as_published Main.update_application_status
       Main.get_approved_unpublished_applications
       Main.safe_send_message Main.safe_edit_message_text
       Main.safe_reply_text Main.answer].

(** unfold the text handlers of each program *)
Ltac open_bot :=
  unfold Bot.process_announce_text, Bot.process_custom_congrat_text,
    Bot.process_congrat_date, Bot.handle_censor_approval,
    Bot.censor_and_confirm, Bot.complete_request, Bot.add_application,
    Bot.notify_admin_new_application, Bot.start, Bot.answer,
    Bot.safe_send_message, Bot.send_message,
    Bot.safe_reply_text, Bot.safe_edit_message_text.

Ltac open_main :=
  unfold Main.process_announce_news_text,
    Main.process_custom_congrat_message, Main.handle_censor_choice,
    Main.start_command, Main.back_to_holiday_choice, Main.back_to_subtype,
    Main.answer, Main.safe_reply_text, Main.safe_edit_message_text.

(** comparisons of lengths, as propositions *)
Ltac arith_hyps :=
  repeat match goal with
         | H : (_ <? _)%nat = true |- _ => apply Nat.ltb_lt in H
         | H : (_ <? _)%nat = false |- _ => apply Nat.ltb_ge in H
         end.


(** ** The conversation: what the handlers do with a text *)

(** a conversation of bot.py in which the type of the request is [rt] *)
Definition bot_chat (rt : str) : Bot.W :=
  Rt.World ∅ 100 0 [] (<["request_type" := VStr rt]> ∅).

(** a conversation of main.py in which the type of the request is [ty] *)
Definition main_chat (ty : str) : Main.W :=
  Rt.World ∅ 100 0 [] (<["type" := VStr ty]> ∅).

(** the letter а, [n] times *)
Definition letters (n : nat) : str := repeat 1072 n.

(** the handler [h] asks again for the text: it returns the state
    [here] it is the handler of, and keeps nothing of the text *)
Definition asks_again {Msg} (here : state)
    (w : Rt.world (gmap string value) Msg)
    (r : option state * Rt.world (gmap string value) Msg) : Prop :=
  fst r = Some here
  /\ Rt.user_data (snd r) = Rt.user_data w /\ Rt.db (snd r) = Rt.db w.

(** bot.py, announcements and news: a text that passes the checks is
    censored at once, and a violation leads to the approval state with
    the masked text kept for the approval *)
Definition bot_censors_announcement : Prop :=
  forall cfg e actor text rt masked (w : Bot.W),
    Py.truthy (Py.strip text) = true ->
    get_str (Rt.user_data w) "request_type" = Some rt ->
    (Py.len text <= Bot.max_len_of rt)%nat ->
    Bot.censor_text text = (masked, true) ->
    let r := Bot.process_announce_text cfg e (say actor text) w in
    fst r = Some WAIT_CENSOR_APPROVAL
    /\ get_str (Rt.user_data (snd r)) "censored_text" = Some masked
    /\ Rt.db (snd r) = Rt.db w.

(** bot.py, custom congratulation: a text that passes the checks is kept
    as it was typed and the conversation goes on to the name of the
    sender, whatever the censor would say *)
Definition bot_keeps_congratulation : Prop :=
  forall e actor text (w : Bot.W),
    Py.truthy (Py.strip text) = true ->
    (Py.len text <= MAX_CONGRAT_TEXT_LENGTH)%nat ->
    let r := Bot.process_custom_congrat_text e (say actor text) w in
    fst r = Some SENDER_NAME_INPUT
    /\ get_str (Rt.user_data (snd r)) "text" = Some text.

(** bot.py, congratulation: the text is censored when the date of
    publication is accepted, and a violation leads to the approval
    state *)
Definition bot_censors_congratulation_at_date : Prop :=
  forall cfg e actor date_str text masked publish_date (w : Bot.W),
    Dt.strptime_dmY 46 date_str = Some publish_date ->
    Dt.lt publish_date (Rt.today e) = false ->
    get_str (Rt.user_data w) "text" = Some text ->
    Bot.censor_text text = (masked, true) ->
    let r := Bot.process_congrat_date cfg e (say actor date_str) w in
    fst r = Some WAIT_CENSOR_APPROVAL
    /\ get_str (Rt.user_data (snd r)) "censored_text" = Some masked
    /\ Rt.db (snd r) = Rt.db w.

(** bot.py, approval state: accepting goes on with [complete_request] on
    the masked text; editing leads back to the text input of the type of
    the request *)
Definition bot_approval_state : Prop :=
  forall cfg e actor (w : Bot.W),
    Rt.send_ok e (Rt.tick w) = true ->
    (forall masked,
       get_str (Rt.user_data w) "censored_text" = Some masked ->
       Bot.handle_censor_approval cfg e (press actor (u "approve_censor")) w
       = Bot.complete_request cfg e (press actor (u "approve_censor"))
           (Rt.World (Rt.db w) (Rt.next_id w) (S (Rt.tick w))
              (Rt.sent w ++ [Rt.AnswerQuery true])
              (<["text" := VStr masked]> (Rt.user_data w))))
    /\ (forall rt,
          get_str (Rt.user_data w) "request_type" = Some rt ->
          fst (Bot.handle_censor_approval cfg e
                 (press actor (u "edit_text")) w)
          = Some (if Py.str_eqb rt (u "congrat")
                  then CUSTOM_CONGRAT_MESSAGE_INPUT
                  else if Py.str_eqb rt (u "announcement")
                          || Py.str_eqb rt (u "news")
                  then ANNOUNCE_TEXT_INPUT
                  else END)).

(** main.py, all three kinds of text: a text that passes the checks and
    in which the censor reports a violation ends the conversation, and
    nothing is kept of it *)
Definition main_ends_on_violation : Prop :=
  forall cfg e actor text masked (w : Main.W),
    Py.startswith text (u "/start") = false ->
    Py.truthy (Py.strip text) = true ->
    Main.censor_text cfg (Py.strip text) = (masked, true) ->
    ((Py.len (Py.strip text) <= MAX_ANNOUNCE_NEWS_TEXT_LENGTH)%nat ->
     let r := Main.process_announce_news_text cfg e (say actor text) w in
     fst r = Some END
     /\ Rt.user_data (snd r) = Rt.user_data w /\ Rt.db (snd r) = Rt.db w)
    /\ ((Py.len (Py.strip text) <= MAX_CONGRAT_TEXT_LENGTH)%nat ->
        let r :=
          Main.process_custom_congrat_message cfg e (say actor text) w in
        fst r = Some END
        /\ Rt.user_data (snd r) = Rt.user_data w
        /\ Rt.db (snd r) = Rt.db w).

(** main.py: the approval state is entered when the filter changed the
    text without reporting a violation; the filtered text is kept as the
    text of the request *)
Definition main_asks_after_filter : Prop :=
  forall cfg e actor text filtered (w : Main.W),
    Py.startswith text (u "/start") = false ->
    Py.truthy (Py.strip text) = true ->
    Main.censor_text cfg (Py.strip text) = (filtered, false) ->
    filtered <> Py.strip text ->
    ((Py.len (Py.strip text) <= MAX_ANNOUNCE_NEWS_TEXT_LENGTH)%nat ->
     let r := Main.process_announce_news_text cfg e (say actor text) w in
     fst r = Some WAIT_CENSOR_APPROVAL
     /\ get_str (Rt.user_data (snd r)) "text" = Some filtered
     /\ Rt.db (snd r) = Rt.db w)
    /\ ((Py.len (Py.strip text) <= MAX_CONGRAT_TEXT_LENGTH)%nat ->
        let r :=
          Main.process_custom_congrat_message cfg e (say actor text) w in
        fst r = Some WAIT_CENSOR_APPROVAL
        /\ get_str (Rt.user_data (snd r)) "text" = Some filtered
        /\ Rt.db (snd r) = Rt.db w).

(** main.py, approval state: for an announcement or a news item,
    accepting goes on with [complete_request] and editing leads back to
    the text input; for a custom congratulation, accepting leads to the
    date input and editing back to the text input *)
Definition main_approval_state : Prop :=
  forall cfg e actor (w : Main.W),
    (forall ty,
       get_str (Rt.user_data w) "type" = Some ty ->
       ty = u "announcement" \/ ty = u "news" ->
       Main.handle_censor_choice cfg e (press actor (u "accept_censor")) w
       = Main.complete_request cfg e (press actor (u "accept_censor"))
           (Rt.World (Rt.db w) (Rt.next_id w) (S (Rt.tick w))
              (Rt.sent w ++ [Rt.AnswerQuery (Rt.send_ok e (Rt.tick w))])
              (<["publish_date" := VStr (Dt.strftime_Ymd (Rt.today e))]>
                 (Rt.user_data w)))
       /\ fst (Main.handle_censor_choice cfg e
                 (press actor (u "edit_censor")) w)
          = Some ANNOUNCE_TEXT_INPUT)
    /\ (get_str (Rt.user_data w) "type" = Some (u "congrat") ->
        get_str (Rt.user_data w) "congrat_type" = Some (u "custom") ->
        fst (Main.handle_censor_choice cfg e
               (press actor (u "accept_censor")) w)
        = Some CONGRAT_DATE_INPUT
        /\ fst (Main.handle_censor_choice cfg e
                  (press actor (u "edit_censor")) w)
           = Some CUSTOM_CONGRAT_MESSAGE_INPUT).

(** ** The conversation: when a text is accepted *)

(** bot.py takes the text of an announcement or of a news item: it
    keeps the text as typed and runs the censor on it; with a listed
    word in it the masked text is kept beside it and the approval state
    is entered, otherwise the request is completed with the text as
    typed *)
Definition bot_takes (cfg : Bot.config) (e : Rt.env) (actor : Z)
    (text : str) (w : Bot.W) (r : option state * Bot.W) : Prop :=
  match Bot.censor_text text with
  | (masked, true) =>
      fst r = Some WAIT_CENSOR_APPROVAL
      /\ get_str (Rt.user_data (snd r)) "text" = Some text
      /\ get_str (Rt.user_data (snd r)) "censored_text" = Some masked
      /\ Rt.db (snd r) = Rt.db w
  | (censored, false) =>
      r = Bot.complete_request cfg e (say actor text)
            (Rt.World (Rt.db w) (Rt.next_id w) (Rt.tick w) (Rt.sent w)
               (<["has_bad_words" := VBool false]>
                  (<["censored_text" := VStr censored]>
                     (<["text" := VStr text]> (Rt.user_data w)))))
  end.

(** bot.py: the length is that of the text as typed; the limit is 300
    for news and 500 for announcements and custom congratulations.  A
    text that is blank or too long is asked for again; any other is
    taken: an announcement or a news item as [bot_takes] says, a custom
    congratulation is kept as typed and the name of the sender is asked
    for. *)
Definition bot_text_limits : Prop :=
  forall cfg e actor text (w : Bot.W),
    (forall rt,
       get_str (Rt.user_data w) "request_type" = Some rt ->
       let r := Bot.process_announce_text cfg e (say actor text) w in
       (Py.truthy (Py.strip text) = false
        \/ (Bot.max_len_of rt < Py.len text)%nat
        -> asks_again ANNOUNCE_TEXT_INPUT w r)
       /\ (Py.truthy (Py.strip text) = true
           /\ (Py.len text <= Bot.max_len_of rt)%nat
           -> fst r <> Some ANNOUNCE_TEXT_INPUT
              /\ bot_takes cfg e actor text w r))
    /\ (let r := Bot.process_custom_congrat_text e (say actor text) w in
        (Py.truthy (Py.strip text) = false
         \/ (MAX_CONGRAT_TEXT_LENGTH < Py.len text)%nat
         -> asks_again CUSTOM_CONGRAT_MESSAGE_INPUT w r)
        /\ (Py.truthy (Py.strip text) = true
            /\ (Py.len text <= MAX_CONGRAT_TEXT_LENGTH)%nat
            -> fst r = Some SENDER_NAME_INPUT
               /\ get_str (Rt.user_data (snd r)) "text" = Some text
               /\ Rt.db (snd r) = Rt.db w)).

(** what main.py keeps of a text [t] that the filter turned into
    [filtered] *)
Definition main_kept_text (filtered t : str) (ud : gmap string value)
  : gmap string value :=
  <["text" := VStr filtered]>
    (<["censored_text" := VStr filtered]>
       (<["original_text" := VStr t]> ud)).

(** main.py takes a text: the filter is run on the trimmed text [t].
    With a listed word in it the conversation ends and nothing is kept.
    When the filter changed it otherwise, the filtered text is kept and
    the approval state is entered.  When the filter left it as it is,
    it is kept and the handler goes on as [next] says. *)
Definition main_takes (cfg : Main.config) (text : str) (w : Main.W)
    (r : option state * Main.W)
    (next : gmap string value -> Prop) : Prop :=
  let t := Py.strip text in
  match Main.censor_text cfg t with
  | (_, true) =>
      fst r = Some END
      /\ Rt.user_data (snd r) = Rt.user_data w /\ Rt.db (snd r) = Rt.db w
  | (filtered, false) =>
      if Py.str_eqb filtered t then next (main_kept_text t t (Rt.user_data w))
      else
        fst r = Some WAIT_CENSOR_APPROVAL
        /\ Rt.user_data (snd r) = main_kept_text filtered t (Rt.user_data w)
        /\ Rt.db (snd r) = Rt.db w
  end.

(** main.py: the length is that of the trimmed text; the limit is 300
    for announcements and news and 500 for custom congratulations.  A
    text that is empty or too long is asked for again; any other is
    taken as [main_takes] says, where a text the filter left as it is
    completes the request, with today as the date of publication, when
    it is an announcement or a news item, and leads to the question for
    the date when it is a custom congratulation. *)
Definition main_text_limits : Prop :=
  forall cfg e actor text (w : Main.W),
    Py.startswith text (u "/start") = false ->
    (let r := Main.process_announce_news_text cfg e (say actor text) w in
     (Py.truthy (Py.strip text) = false
      \/ (MAX_ANNOUNCE_NEWS_TEXT_LENGTH < Py.len (Py.strip text))%nat
      -> asks_again ANNOUNCE_TEXT_INPUT w r)
     /\ (Py.truthy (Py.strip text) = true
         /\ (Py.len (Py.strip text) <= MAX_ANNOUNCE_NEWS_TEXT_LENGTH)%nat
         -> (fst r = Some END \/ fst r = Some WAIT_CENSOR_APPROVAL)
            /\ main_takes cfg text w r (fun kept =>
                 r = Main.complete_request cfg e (say actor text)
                       (Rt.World (Rt.db w) (Rt.next_id w) (Rt.tick w)
                          (Rt.sent w)
                          (<["publish_date"
                             := VStr (Dt.strftime_Ymd (Rt.today e))]>
                             kept)))))
    /\ (let r :=
          Main.process_custom_congrat_message cfg e (say actor text) w in
        (Py.truthy (Py.strip text) = false
         \/ (MAX_CONGRAT_TEXT_LENGTH < Py.len (Py.strip text))%nat
         -> asks_again CUSTOM_CONGRAT_MESSAGE_INPUT w r)
        /\ (Py.truthy (Py.strip text) = true
            /\ (Py.len (Py.strip text) <= MAX_CONGRAT_TEXT_LENGTH)%nat
            -> (fst r = Some END \/ fst r = Some WAIT_CENSOR_APPROVAL
                \/ fst r = Some CONGRAT_DATE_INPUT)
               /\ main_takes cfg text w r (fun kept =>
                    fst r = Some CONGRAT_DATE_INPUT
                    /\ Rt.user_data (snd r) = kept
                    /\ Rt.db (snd r) = Rt.db w))).

(** main.py: a request whose text is longer than 4000 is not stored *)
Definition main_storage_ceiling : Prop :=
  forall e data (w : Main.W),
    (Main.MAX_DB_TEXT_LENGTH < Py.len (Rt.d_text data))%nat ->
    Main.add_application e data w = (None, w).

(** ** Further vocabulary *)

(** one of the words [ws] occurs in the text [t], case ignored *)
Definition occurs (ws : list str) (t : str) : bool :=
  existsb (fun w => Re.search Re.IGNORECASE w t) ws.

(** a word list written in the characters on which [Re.IGNORECASE] is
    the comparison of the engine for every character of a text *)
Definition covered_words (ws : list str) : bool :=
  forallb (forallb Re.covered) ws.

(** the day [today] is one of the days [lo] to [hi] of month [m] *)
Definition in_month (today : Dt.date) (m lo hi : Z) : bool :=
  (Dt.month today =? m) && (lo <=? Dt.day today) && (Dt.day today <=? hi).

(** [f"{k}"] is the year [k] as [strftime] writes it with [%Y] *)
Definition year_written (k : Z) : bool :=
  Py.str_eqb (Py.str_of_int k) (Dt.pad4 k).

(** the row [r'] is the request [r]: the key, the author, what was
    submitted and the time of submission are the same; the status and
    the publication time may differ *)
Definition same_request (r r' : Rt.application) : Prop :=
  Rt.app_id r' = Rt.app_id r /\ Rt.user_id r' = Rt.user_id r
  /\ Rt.username r' = Rt.username r /\ Rt.type r' = Rt.type r
  /\ Rt.subtype r' = Rt.subtype r /\ Rt.from_name r' = Rt.from_name r
  /\ Rt.to_name r' = Rt.to_name r /\ Rt.text r' = Rt.text r
  /\ Rt.created_at r' = Rt.created_at r
  /\ Rt.publish_date r' = Rt.publish_date r
  /\ Rt.congrat_type r' = Rt.congrat_type r.

(** the status [s'] is [s] or comes after it: pending is followed by
    approved and rejected, approved by published *)
Definition lifecycle_reach (s s' : str) : Prop :=
  s' = s
  \/ (s = u "pending"
      /\ (s' = u "approved" \/ s' = u "rejected" \/ s' = u "published"))
  \/ (s = u "approved" /\ s' = u "published").

(** the table [d'] has the rows of [d], each one the same request with
    a status that did not go back *)
Definition advanced (d d' : gmap Z Rt.application) : Prop :=
  forall k,
    match d !! k with
    | Some r =>
        exists r', d' !! k = Some r' /\ same_request r r'
                   /\ lifecycle_reach (Rt.status r) (Rt.status r')
    | None => d' !! k = None
    end.

(** what the steps of bot.py keep of an application [k] that had no
    publication time when [n0] broadcasts of [k] had been delivered:
    none gets lost, and one more is delivered before [k] has a
    publication time *)
Definition bot_owed (k : Z) (n0 : nat) (w : Bot.W) : Prop :=
  (n0 <= count (bot_posted k) (Rt.sent w))%nat
  /\ (is_published (Rt.db w) k ->
      (n0 < count (bot_posted k) (Rt.sent w))%nat).

(** the operation is a moderation callback of somebody who is not the
    moderator of bot.py *)
Definition from_stranger (cfg : Bot.config) (x : Rt.env * op) : bool :=
  match snd x with
  | Callback upd => negb (Bot.is_admin cfg (Rt.from_id upd))
  | Cycle => false
  end.

(** the event is the broadcast, to the channel of bot.py, of the text of
    a row of [d] that is approved, has no publication time and is due on
    the day of [e] *)
Definition bot_due_post (cfg : Bot.config) (e : Rt.env)
    (d : gmap Z Rt.application) (ev : Rt.event Bot.message) : Prop :=
  match ev with
  | Rt.SendMessage ch (Bot.ChannelPost j text) _ =>
      Bot.CHANNEL_ID cfg = Some ch
      /\ exists r, d !! j = Some r /\ text = Rt.text r
                   /\ Rt.status r = u "approved"
                   /\ Rt.published_at r = None
                   /\ Bot.due e r = Some true
  | _ => False
  end.

(** the row [r] of [d] is approved, has no publication time, and has a
    publication date that is not after the day of [e] *)
Definition main_due_row (e : Rt.env) (d : gmap Z Rt.application)
    (r : Rt.application) : Prop :=
  d !! Rt.app_id r = Some r
  /\ Rt.status r = u "approved" /\ Rt.published_at r = None
  /\ exists s day,
       Rt.publish_date r = Some s /\ Dt.strptime_Ymd s = Some day
       /\ Dt.le day (Rt.today e) = true.

(** the event is the broadcast, to the channel of main.py, of a row of
    [d] that is due, or the notification of the author of such a row *)
Definition main_due_post (cfg : Main.config) (e : Rt.env)
    (d : gmap Z Rt.application) (ev : Rt.event Main.message) : Prop :=
  match ev with
  | Rt.SendMessage ch (Main.ChannelPost r) _ =>
      Main.GROUP_ID cfg = Some ch /\ main_due_row e d r
  | Rt.SendMessage ch (Main.UserPublished a) _ =>
      exists r, Rt.app_id r = a /\ Rt.user_id r = ch /\ main_due_row e d r
  | _ => False
  end.

(** a name that main.py keeps: two to fifty letters of the Russian
    alphabet, spaces and hyphens, without a word of the list [ws] *)
Definition kept_name (ws : list str) (n : str) : Prop :=
  (2 <= Py.len n <= MAX_NAME_LENGTH)%nat
  /\ Forall name_char n
  /\ occurs ws n = false.

(** the handlers of main.py that are given the button "back to start" *)
Definition main_back_handlers (cfg : Main.config) (e : Rt.env)
  : list (Rt.update -> Main.Cmd (option state)) :=
  [ Main.start_command e; Main.get_sender_name cfg e;
    Main.get_recipient_name cfg e; Main.handle_congrat_holiday_choice cfg e;
    Main.process_custom_congrat_message cfg e; Main.process_congrat_date cfg e;
    Main.handle_announce_subtype_selection e;
    Main.process_announce_news_text cfg e; Main.handle_censor_choice cfg e ].

(** the event is the answer to a callback query *)
Definition is_answer {Msg} (ev : Rt.event Msg) : bool :=
  match ev with Rt.AnswerQuery _ => true | _ => false end.

(** what main.py relies on for an entry of [HOLIDAYS]: the name is none
    of the navigation buttons, it is the key of its date and of a
    template, and the censor with the default list returns the template
    as it is *)
Definition holiday_entry_ok (nd : str * str) : bool :=
  let (name, date) := nd in
  let cfg := Main.Config None None Main.DEFAULT_BAD_WORDS in
  let template := Main.template_of name in
  Py.truthy name
  && negb (Py.str_eqb name (u "back_to_start"))
  && negb (Py.str_eqb name (u "edit_sender_name"))
  && negb (Py.str_eqb name (u "edit_recipient_name"))
  && negb (Py.str_eqb name (u "custom"))
  && match Py.dict_get name HOLIDAYS with
     | Some d => Py.str_eqb d date
     | None => false
     end
  && Py.truthy template
  && Py.str_eqb (fst (Main.censor_text cfg template)) template
  && negb (snd (Main.censor_text cfg template))
  && match Dt.split_at HYPHEN date with
     | Some (ms, ds) =>
         match Dt.field12 12 ms, Dt.field_day ds with
         | Some m, Some d =>
             (m <=? 11) && (d <=? 28)
             && Py.str_eqb (Dt.pad2 m ++ [HYPHEN] ++ Dt.pad2 d) date
         | _, _ => false
         end
     | None => false
     end.

(** the table [d'] has the rows of [d], each one the same request *)
Definition kept_requests (d d' : gmap Z Rt.application) : Prop :=
  forall k,
    match d !! k with
    | Some r => exists r', d' !! k = Some r' /\ same_request r r'
    | None => d' !! k = None
    end.

(** the row is one that the publisher of main.py publishes on the day
    of [e]: approved, without a publication time, of a known type, and
    with a publication date that is not after today *)
Definition main_due (e : Rt.env) (r : Rt.application) : bool :=
  Main.approved_unpublished r && Main.known_type (Rt.type r)
  && match Rt.publish_date r with
     | Some s =>
         Py.truthy s
         && match Dt.strptime_Ymd s with
            | Some d => Dt.le d (Rt.today e)
            | None => false
            end
     | None => false
     end.

(** the number that the decimal digits [d] stand for, after the digits
    that gave [acc] *)
Fixpoint uint_value (acc : Z) (d : Decimal.uint) : Z :=
  match d with
  | Decimal.Nil => acc
  | Decimal.D0 l => uint_value (acc * 10 + 0) l
  | Decimal.D1 l => uint_value (acc * 10 + 1) l
  | Decimal.D2 l => uint_value (acc * 10 + 2) l
  | Decimal.D3 l => uint_value (acc * 10 + 3) l
  | Decimal.D4 l => uint_value (acc * 10 + 4) l
  | Decimal.D5 l => uint_value (acc * 10 + 5) l
  | Decimal.D6 l => uint_value (acc * 10 + 6) l
  | Decimal.D7 l => uint_value (acc * 10 + 7) l
  | Decimal.D8 l => uint_value (acc * 10 + 8) l
  | Decimal.D9 l => uint_value (acc * 10 + 9) l
  end.

(** what bot.py relies on for an entry of [HOLIDAYS]: the data on the
    button of the holiday starts with [holiday_] and is not the data of
    another button, the date is read back from it, and the name and a
    template are found from the date *)
Definition bot_holiday_entry_ok (nd : str * str) : bool :=
  let (name, date) := nd in
  let data := u "holiday_" ++ date in
  negb (Py.str_eqb data (u "custom_congrat_text"))
  && Py.startswith data (u "holiday_")
  && Py.str_eqb (Py.replace data (u "holiday_") []) date
  && Py.str_eqb (Bot.holiday_name_of date) name
  && Py.truthy (Bot.template_of name).
(** * Properties *)

(** ** Python strings *)

Lemma startswith_one (s : str) (c : Z) :
  Py.startswith s [c] = true <-> head s = Some c.
Proof.
  destruct s as [|x s]; simpl.
  - split; discriminate.
  - rewrite andb_true_r, Z.eqb_eq. split; congruence.
Qed.

Lemma head_rev_last (s : str) : head (rev s) = last s.
Proof.
  induction s as [|x s IH]; [reflexivity|].
  simpl. destruct s as [|y s]; [reflexivity|].
  simpl in *. destruct (rev s ++ [y]) eqn:E.
  - destruct (rev s); discriminate.
  - simpl in *. exact IH.
Qed.

Lemma endswith_one (s : str) (c : Z) :
  Py.endswith s [c] = true <-> last s = Some c.
Proof.
  unfold Py.endswith. simpl rev. rewrite startswith_one, head_rev_last.
  reflexivity.
Qed.

Lemma startswith_app (s p : str) :
  Py.startswith s p = true <-> exists r, s = p ++ r.
Proof.
  revert s. induction p as [|x p IH]; intros s; simpl.
  - split; [intros _; by exists s | done].
  - destruct s as [|c s].
    + split; [discriminate | intros [r Hr]; discriminate].
    + rewrite andb_true_iff, Z.eqb_eq, IH. split.
      * intros [-> [r ->]]. by exists r.
      * intros [r Hr]. injection Hr as -> ->. split; [done | by exists r].
Qed.

Lemma contains_app (p s : str) :
  Py.contains p s = true <-> exists l r, s = l ++ p ++ r.
Proof.
  induction s as [|c s IH].
  - simpl. rewrite orb_false_r, startswith_app. split.
    + intros [r Hr]. by exists [], r.
    + intros [l [r Hr]]. destruct l; [by exists r | discriminate].
  - cbn [Py.contains]. rewrite orb_true_iff, IH, startswith_app. split.
    + intros [[r Hr] | [l [r Hr]]].
      * by exists [], r.
      * exists (c :: l), r. by rewrite Hr.
    + intros [l [r Hr]]. destruct l as [|x l].
      * left. by exists r.
      * right. injection Hr as -> ->. by exists l, r.
Qed.

(** ** Names (C6) *)

Lemma name_charb_spec (c : Z) : name_charb c = true <-> name_char c.
Proof.
  unfold name_charb, name_char, russian_letter, SPACE, HYPHEN.
  rewrite !orb_true_iff, andb_true_iff, !Z.eqb_eq, !Z.leb_le. tauto.
Qed.

(** the literal of [validate_name] lists exactly the characters of the rule *)
Lemma char_in_allowed (c : Z) :
  Py.char_in c allowed_chars = name_charb c.
Proof.
  destruct (decide (0 <= c < 0x460)) as [Hin | Hout].
  - assert (Hall : forallb (fun k => Bool.eqb (Py.char_in k allowed_chars)
                                        (name_charb k))
                     (map Z.of_nat (seq 0 0x460)) = true) by (vm_compute; reflexivity).
    rewrite forallb_forall in Hall.
    specialize (Hall c). apply Bool.eqb_prop, Hall.
    apply in_map_iff. exists (Z.to_nat c). split; [lia|].
    apply in_seq. lia.
  - assert (Hb : forallb (fun k => (0 <=? k) && (k <? 0x460)) allowed_chars = true)
      by (vm_compute; reflexivity).
    rewrite forallb_forall in Hb.
    transitivity false.
    + unfold Py.char_in. apply not_true_is_false. intros Hex.
      apply existsb_exists in Hex as [k [Hk Heq]].
      apply Z.eqb_eq in Heq. subst k.
      specialize (Hb c Hk). lia.
    + symmetry. apply not_true_is_false. intros H.
      apply name_charb_spec in H.
      unfold name_char, russian_letter, SPACE, HYPHEN in H. lia.
Qed.

Lemma strip_nil_truthy (name : str) :
  Py.truthy name = false -> Py.strip name = [].
Proof. destruct name; [reflexivity | discriminate]. Qed.

(** bot.py's [validate_name] decides the rule of the specification. *)
Lemma bot_validate_name_spec (name : str) :
  Bot.validate_name name = true <-> name_rule name.
Proof.
  unfold Bot.validate_name, name_rule.
  destruct (Py.truthy name) eqn:Hname; cbn [negb orb].
  2:{ rewrite (strip_nil_truthy _ Hname). cbn. split; [discriminate | lia]. }
  destruct (Py.truthy (Py.strip name)) eqn:Hstrip; cbn [negb orb].
  2:{ destruct (Py.strip name); [cbn | discriminate].
      split; [discriminate | lia]. }
  rewrite !andb_true_iff, !negb_true_iff.
  rewrite Nat.leb_le, Nat.leb_le.
  rewrite forallb_forall, List.Forall_forall.
  unfold Py.len, MAX_NAME_LENGTH.
  rewrite <- !not_true_iff_false, startswith_one, endswith_one, contains_app.
  split.
  - intros [[[[[H2 H50] Hall] Hs] He] Hd]. repeat split; try done.
    intros c Hc. apply name_charb_spec. rewrite <- char_in_allowed. by apply Hall.
  - intros [[H2 H50] [Hall [Hs [He Hd]]]]. repeat split; try done.
    intros c Hc. rewrite char_in_allowed. apply name_charb_spec. by apply Hall.
Qed.

(** main.py's [validate_name] checks the length and the characters, and
    nothing else. *)
Lemma main_validate_name_spec (name : str) :
  Main.validate_name name = true <-> plain_name_rule name.
Proof.
  unfold Main.validate_name, plain_name_rule. cbv zeta.
  destruct (Py.truthy (Py.strip name)) eqn:Hstrip; cbn [andb].
  2:{ destruct (Py.strip name); [cbn | discriminate].
      split; [discriminate | lia]. }
  rewrite !andb_true_iff, !Nat.leb_le.
  rewrite forallb_forall, List.Forall_forall.
  unfold Py.len, MAX_NAME_LENGTH.
  split.
  - intros [[H2 H50] Hall]. repeat split; try done.
    intros c Hc. apply name_charb_spec. rewrite <- char_in_allowed.
    by apply Hall.
  - intros [[H2 H50] Hall]. repeat split; try done.
    intros c Hc. rewrite char_in_allowed. apply name_charb_spec.
    by apply Hall.
Qed.

(** ** Holidays (C10) *)

Lemma main_is_holiday_active_eq (today : Dt.date) (s : str) :
  Main.is_holiday_active today s = Bot.is_holiday_active today s.
Proof. reflexivity. Qed.

(** [f"{current_year}-01-01"] parses to the first of January for every
    year that [%Y] can read back. *)
Lemma in_digits10 (d : Z) : 0 <= d <= 9 -> d ∈ digits10.
Proof.
  intros H. unfold digits10.
  apply list_elem_of_In. simpl. lia.
Qed.

Lemma in_years4 (y : Z) : 1000 <= y <= 9999 -> y ∈ years4.
Proof.
  intros Hy. unfold years4.
  apply list_elem_of_bind. exists (y / 1000). split.
  2:{ assert (forall a, 1 <= a <= 9 -> a ∈ [1; 2; 3; 4; 5; 6; 7; 8; 9]) as Ha.
      { intros a Ha. apply list_elem_of_In. simpl. lia. }
      apply Ha. zdiv. }
  apply list_elem_of_bind. exists (y / 100 mod 10). split; [|apply in_digits10; zdiv].
  apply list_elem_of_bind. exists (y / 10 mod 10). split; [|apply in_digits10; zdiv].
  apply list_elem_of_bind. exists (y mod 10). split; [|apply in_digits10; zdiv].
  apply list_elem_of_singleton. zdiv.
Qed.

Lemma strptime_new_year (y : Z) :
  1000 <= y <= 9999 ->
  Dt.strptime_Ymd (Py.str_of_int y ++ [HYPHEN] ++ u "01-01")
  = Some (Dt.Date y 1 1).
Proof.
  intros Hy.
  assert (Hall : forallb parses_to_new_year years4 = true)
    by (vm_compute; reflexivity).
  rewrite forallb_forall in Hall.
  specialize (Hall y (proj1 (list_elem_of_In _ _) (in_years4 y Hy))).
  unfold parses_to_new_year in Hall.
  destruct (Dt.strptime_Ymd _) as [[yy mm dd]|]; [|discriminate Hall].
  cbn [Dt.year Dt.month Dt.day] in Hall.
  rewrite !andb_true_iff, !Z.eqb_eq in Hall.
  destruct Hall as [[-> ->] ->]. reflexivity.
Qed.

Lemma days_before_year_bounds (y : Z) :
  1000 <= y <= 9999 -> 364000 <= Dt.days_before_year y <= 3652000.
Proof. unfold Dt.days_before_year. intros Hy. cbv zeta. zdiv. Qed.

Lemma days_before_month_cases (y m : Z) :
  1 <= m <= 12 ->
  (m = 1 /\ Dt.days_before_month y m = 0)
  \/ (2 <= m /\ 31 <= Dt.days_before_month y m).
Proof.
  intros Hm.
  assert (Hc : m = 1 \/ m = 2 \/ m = 3 \/ m = 4 \/ m = 5 \/ m = 6 \/ m = 7
               \/ m = 8 \/ m = 9 \/ m = 10 \/ m = 11 \/ m = 12) by lia.
  unfold Dt.days_before_month.
  destruct Hc as [->|Hc]; [left; split; reflexivity|].
  right. split; [lia|].
  repeat (destruct Hc as [->|Hc]); try subst m;
    cbv [Dt.days_before_month_aux Dt.days_in_month Z.to_nat Z.sub Z.add Z.opp
         Z.pos_sub Pos.to_nat Pos.iter_op Nat.add Z.of_nat Pos.of_succ_nat
         Pos.succ Z.eqb Pos.eqb orb Pos.pred_double Z.succ_double
         Z.pred_double Z.double Init.Nat.add];
    destruct (Dt.is_leap y); lia.
Qed.

(** On a valid day of a year with four digits, the holiday "01-01" is
    active exactly from the first to the sixth of January. *)
Lemma new_year_active_iff (today : Dt.date) :
  Dt.valid today = true -> 1000 <= Dt.year today ->
  Bot.is_holiday_active today (u "01-01") = true
  <-> Dt.month today = 1 /\ Dt.day today <= 6.
Proof.
  intros Hv Hy. unfold Dt.valid, Dt.MINYEAR, Dt.MAXYEAR in Hv.
  rewrite !andb_true_iff, !Z.leb_le in Hv.
  destruct Hv as [[[[[_ Hmax] Hm1] Hm12] Hd1] Hdn].
  unfold Bot.is_holiday_active.
  rewrite strptime_new_year by lia. cbv zeta.
  pose proof (days_before_year_bounds (Dt.year today) ltac:(lia)) as Hb.
  unfold Dt.toordinal, Dt.ordinal_in_range, Dt.MAXORDINAL. cbn [Dt.year Dt.month Dt.day].
  change (Dt.days_before_month (Dt.year today) 1) with 0.
  destruct (days_before_month_cases (Dt.year today) (Dt.month today) ltac:(lia))
    as [[Hm Hdbm] | [Hm Hdbm]].
  - rewrite Hdbm.
    replace ((1 <=? Dt.days_before_year (Dt.year today) + 0 + 1 - 5)
             && (Dt.days_before_year (Dt.year today) + 0 + 1 - 5 <=? 3652059)
             && ((1 <=? Dt.days_before_year (Dt.year today) + 0 + 1 + 5)
                 && (Dt.days_before_year (Dt.year today) + 0 + 1 + 5 <=? 3652059)))
      with true by (symmetry; rewrite !andb_true_iff, !Z.leb_le; lia).
    rewrite andb_true_iff, !Z.leb_le. lia.
  - replace ((1 <=? Dt.days_before_year (Dt.year today) + 0 + 1 - 5)
             && (Dt.days_before_year (Dt.year today) + 0 + 1 - 5 <=? 3652059)
             && ((1 <=? Dt.days_before_year (Dt.year today) + 0 + 1 + 5)
                 && (Dt.days_before_year (Dt.year today) + 0 + 1 + 5 <=? 3652059)))
      with true by (symmetry; rewrite !andb_true_iff, !Z.leb_le; lia).
    rewrite andb_true_iff, !Z.leb_le. lia.
Qed.

(** ** Literal search and replacement *)

Section LiteralFacts.
Variable flags : Z -> Z -> bool.
Variable repl : str.

Local Abbreviation match_at := (Re.match_at flags).
Local Abbreviation search := (Re.search flags).
Local Abbreviation sub_from := (Re.sub_from flags).

Lemma search_cons (p : str) (c : Z) (s : str) :
  search p (c :: s) = match_at p (c :: s) || search p s.
Proof. reflexivity. Qed.

Lemma search_tail (p : str) (c : Z) (s : str) :
  search p s = true -> search p (c :: s) = true.
Proof. intros H. rewrite search_cons, H. apply orb_true_r. Qed.

Lemma search_skipn (p : str) (k : nat) (s : str) :
  search p (skipn k s) = true -> search p s = true.
Proof.
  revert s. induction k as [|k IH]; intros s; [done|].
  destruct s as [|c s]; [done|]. cbn [skipn]. intros H.
  apply search_tail, IH, H.
Qed.

Lemma unmatched_cons (x : Z) (p : str) :
  unmatched flags (x :: p) repl = true ->
  (forall c, In c repl -> flags x c = false)
  /\ unmatched flags p repl = true.
Proof.
  unfold unmatched. cbn [forallb]. rewrite andb_true_iff, forallb_forall.
  intros [Hx Hp]. split; [|done].
  intros c Hc. apply negb_true_iff, Hx, Hc.
Qed.

Lemma match_at_head (x : Z) (q r X : str) :
  r <> [] -> (forall c, In c r -> flags x c = false) ->
  match_at (x :: q) (r ++ X) = false.
Proof.
  intros Hr Hx. destruct r as [|c r]; [done|].
  cbn. rewrite (Hx c); [done | by left].
Qed.

(** a maskable pattern does not match where the mask starts *)
Lemma match_at_mask (p r X : str) :
  maskable flags repl p = true -> r <> [] -> incl r repl ->
  match_at p (r ++ X) = false.
Proof.
  unfold maskable. rewrite andb_true_iff. intros [Hne Hun] Hr Hincl.
  destruct p as [|x p]; [discriminate|].
  apply unmatched_cons in Hun as [Hx _].
  apply match_at_head; [done|]. intros c Hc. apply Hx, Hincl, Hc.
Qed.

Lemma search_mask_app (p r X : str) :
  maskable flags repl p = true -> incl r repl ->
  search p (r ++ X) = search p X.
Proof.
  intros Hp. induction r as [|c r IH]; intros Hincl; [done|].
  cbn [app]. rewrite search_cons.
  change (c :: r ++ X) with ((c :: r) ++ X).
  rewrite (match_at_mask p (c :: r) X Hp); [|done|done].
  apply IH. intros y Hy. apply Hincl. right. exact Hy.
Qed.

Section OneWord.
Variable p : str.
Hypothesis p_nonempty : p <> [].
Hypothesis repl_nonempty : repl <> [].

Lemma sub_from_skip (k : nat) (c : Z) (s : str) :
  sub_from p repl (S k) (c :: s) = sub_from p repl k s.
Proof. reflexivity. Qed.

Lemma sub_from_hit (c : Z) (s : str) :
  match_at p (c :: s) = true ->
  sub_from p repl 0 (c :: s)
  = repl ++ sub_from p repl (Nat.pred (List.length p)) s.
Proof.
  intros H. cbn [Re.sub_from]. rewrite H.
  destruct p; [done | reflexivity].
Qed.

Lemma sub_from_miss (c : Z) (s : str) :
  match_at p (c :: s) = false ->
  sub_from p repl 0 (c :: s) = c :: sub_from p repl 0 s.
Proof. intros H. cbn [Re.sub_from]. by rewrite H. Qed.

Lemma sub_from_nil (k : nat) : sub_from p repl k [] = [].
Proof. destruct k; [|done]. cbn. destruct p; [done | reflexivity]. Qed.

(** what a maskable word matches at the start of a masked text, it
    matched in the text *)
Lemma match_at_sub (q : str) (s : str) :
  unmatched flags q repl = true ->
  match_at q (sub_from p repl 0 s) = true -> match_at q s = true.
Proof.
  revert s. induction q as [|x q IH]; intros s Hq; [done|].
  apply unmatched_cons in Hq as [Hx Hq].
  destruct s as [|c s].
  - rewrite sub_from_nil. done.
  - destruct (match_at p (c :: s)) eqn:Hhit.
    + rewrite (sub_from_hit _ _ Hhit), match_at_head; done.
    + rewrite (sub_from_miss _ _ Hhit). cbn.
      rewrite !andb_true_iff. intros [Hc Hm]. split; [done|].
      by apply IH.
Qed.

(** masking one word does not bring up another maskable word *)
Lemma search_sub_other (q : str) (s : str) (k : nat) :
  maskable flags repl q = true ->
  search q (sub_from p repl k s) = true -> search q (skipn k s) = true.
Proof.
  intros Hq. pose proof Hq as Hq'. unfold maskable in Hq'.
  apply andb_true_iff in Hq' as [Hqne Hqun].
  revert k. induction s as [|c s IH]; intros k.
  - rewrite sub_from_nil. by destruct k.
  - destruct k as [|k].
    + destruct (match_at p (c :: s)) eqn:Hhit.
      * rewrite (sub_from_hit _ _ Hhit), (search_mask_app q repl _ Hq);
          [|apply incl_refl].
        intros H. apply IH in H. cbn [skipn].
        apply search_tail. by apply (search_skipn _ _ _ H).
      * rewrite (sub_from_miss _ _ Hhit), search_cons, orb_true_iff.
        intros [H | H].
        -- cbn [skipn]. rewrite search_cons.
           rewrite <- (sub_from_miss _ _ Hhit) in H.
           by rewrite (match_at_sub q _ Hqun H).
        -- cbn [skipn]. apply search_tail. by apply (IH 0%nat).
    + rewrite sub_from_skip. cbn [skipn]. apply IH.
Qed.

(** after masking, the word itself is gone *)
Lemma search_sub_self (s : str) (k : nat) :
  unmatched flags p repl = true ->
  search p (sub_from p repl k s) = false.
Proof.
  intros Hun.
  assert (Hp : maskable flags repl p = true).
  { unfold maskable. rewrite Hun. by destruct p. }
  revert k. induction s as [|c s IH]; intros k.
  - rewrite sub_from_nil. cbn. destruct p; [done | reflexivity].
  - destruct k as [|k]; [|apply IH].
    destruct (match_at p (c :: s)) eqn:Hhit.
    + rewrite (sub_from_hit _ _ Hhit), (search_mask_app p repl _ Hp);
        [apply IH | apply incl_refl].
    + rewrite (sub_from_miss _ _ Hhit), search_cons, IH, orb_false_r.
      apply not_true_is_false. intros H.
      rewrite <- (sub_from_miss _ _ Hhit) in H.
      apply (match_at_sub p _ Hun) in H. congruence.
Qed.

End OneWord.

End LiteralFacts.

(** ** The censor (C7, C8) *)

Lemma main_censor_step_eq (acc : str * bool) (word : str) :
  Main.censor_step acc word = Bot.censor_step acc word.
Proof. destruct acc. reflexivity. Qed.

Lemma main_fold_censor_eq (ws : list str) (acc : str * bool) :
  fold_left Main.censor_step ws acc = fold_left Bot.censor_step ws acc.
Proof.
  revert acc. induction ws as [|w ws IH]; intros acc; [done|].
  cbn [fold_left]. rewrite main_censor_step_eq. apply IH.
Qed.

Lemma mask_nonempty : MASK <> [].
Proof. vm_compute. discriminate. Qed.

Lemma maskable_nonempty (w : str) :
  maskable Re.IGNORECASE MASK w = true -> w <> [].
Proof. unfold maskable. by destruct w. Qed.

Lemma maskable_unmatched (w : str) :
  maskable Re.IGNORECASE MASK w = true ->
  unmatched Re.IGNORECASE w MASK = true.
Proof. unfold maskable. rewrite andb_true_iff. tauto. Qed.

(** One pass over a list of maskable words leaves none of them in the
    text; [seen] are words already known to be absent. *)
Lemma censor_pass_clean (ws seen : list str) (t : str) (b : bool) :
  forallb (maskable Re.IGNORECASE MASK) (seen ++ ws) = true ->
  (forall w, In w seen -> Re.search Re.IGNORECASE w t = false) ->
  forall w, In w (seen ++ ws) ->
    Re.search Re.IGNORECASE w (fst (fold_left Bot.censor_step ws (t, b)))
    = false.
Proof.
  revert seen t b. induction ws as [|w0 ws IH]; intros seen t b Hok Hseen w Hw.
  - rewrite app_nil_r in Hw. cbn. by apply Hseen.
  - cbn [fold_left]. unfold Bot.censor_step at 2. unfold Re.escape.
    rewrite forallb_forall in Hok.
    assert (Hw0 : maskable Re.IGNORECASE MASK w0 = true).
    { apply Hok, in_or_app. right. by left. }
    replace (seen ++ w0 :: ws) with ((seen ++ [w0]) ++ ws) in Hw, Hok
      by (by rewrite <- app_assoc).
    destruct (Re.search Re.IGNORECASE w0 t) eqn:Hfound.
    + apply (IH (seen ++ [w0])); [by apply forallb_forall | | done].
      intros w' Hw'. apply in_app_or in Hw' as [Hw' | [<- | []]].
      * apply not_true_is_false. intros H. unfold Re.sub in H.
        assert (Hw'ok : maskable Re.IGNORECASE MASK w' = true).
        { apply Hok, in_or_app. left. apply in_or_app. by left. }
        pose proof (search_sub_other Re.IGNORECASE MASK w0
                      (maskable_nonempty _ Hw0) mask_nonempty w' t 0%nat
                      Hw'ok H) as H'.
        rewrite drop_0, (Hseen w' Hw') in H'. discriminate.
      * apply (search_sub_self Re.IGNORECASE MASK w0
                 (maskable_nonempty _ Hw0) mask_nonempty t 0%nat).
        by apply maskable_unmatched.
    + apply (IH (seen ++ [w0])); [by apply forallb_forall | | done].
      intros w' Hw'. apply in_app_or in Hw' as [Hw' | [<- | []]];
        [by apply Hseen | done].
Qed.

(** A text without any of the words goes through the pass unchanged. *)
Lemma censor_pass_id (ws : list str) (t : str) (b : bool) :
  (forall w, In w ws -> Re.search Re.IGNORECASE w t = false) ->
  fold_left Bot.censor_step ws (t, b) = (t, b).
Proof.
  induction ws as [|w0 ws IH]; intros Hclean; [done|].
  cbn [fold_left]. unfold Bot.censor_step at 2. unfold Re.escape.
  rewrite (Hclean w0) by (by left).
  apply IH. intros w Hw. apply Hclean. by right.
Qed.

Lemma censor_pass_twice (ws : list str) (t : str) (b : bool) :
  forallb (maskable Re.IGNORECASE MASK) ws = true ->
  fold_left Bot.censor_step ws
    (fst (fold_left Bot.censor_step ws (t, b)), false)
  = (fst (fold_left Bot.censor_step ws (t, b)), false).
Proof.
  intros Hok. apply censor_pass_id. intros w Hw.
  apply (censor_pass_clean ws [] t b); [done | | done].
  intros w' [].
Qed.

Lemma bot_words_maskable :
  forallb (maskable Re.IGNORECASE MASK) Bot.DEFAULT_BAD_WORDS = true.
Proof. vm_compute. reflexivity. Qed.

(** ** The contact pattern of main.py *)

Lemma contact_sub_from_nil (k : nat) : Main.contact_sub_from k [] = [].
Proof. by destruct k. Qed.

Lemma contact_sub_from_skip (k : nat) (c : Z) (s : str) :
  Main.contact_sub_from (S k) (c :: s) = Main.contact_sub_from k s.
Proof. reflexivity. Qed.

Lemma contact_sub_from_hit (n : nat) (c : Z) (s : str) :
  Main.contact_match (c :: s) = Some n ->
  Main.contact_sub_from 0 (c :: s)
  = Main.CONTACT_HIDDEN ++ Main.contact_sub_from (Nat.pred n) s.
Proof. intros H. cbn [Main.contact_sub_from]. by rewrite H. Qed.

Lemma contact_sub_from_miss (c : Z) (s : str) :
  Main.contact_match (c :: s) = None ->
  Main.contact_sub_from 0 (c :: s) = c :: Main.contact_sub_from 0 s.
Proof. intros H. cbn [Main.contact_sub_from]. by rewrite H. Qed.

Section Apart.
Variable flags : Z -> Z -> bool.

Lemma conflict_no_match (w r X : str) :
  conflict flags w r = true -> Re.match_at flags w (r ++ X) = false.
Proof.
  revert r. induction w as [|x w IH]; intros r; [done|].
  destruct r as [|c r]; [done|]. cbn.
  destruct (flags x c); cbn; [apply IH | done].
Qed.

Lemma suffixes_tl (n : nat) (s : str) :
  suffixes n (tl s) = tl (suffixes (S n) s).
Proof. reflexivity. Qed.

(** a word that differs from every suffix of [r] is found in [r ++ X]
    only inside [X] *)
Lemma search_over (w r X : str) (n : nat) :
  w <> [] -> List.length r = n ->
  forallb (fun r' => conflict flags w r') (suffixes n r) = true ->
  Re.search flags w (r ++ X) = Re.search flags w X.
Proof.
  intros Hw. revert r. induction n as [|n IH]; intros r Hn Hall.
  - by destruct r.
  - destruct r as [|c r]; [done|].
    cbn [suffixes forallb tl] in Hall. apply andb_true_iff in Hall as [H0 Hall].
    change ((c :: r) ++ X) with (c :: (r ++ X)).
    rewrite search_cons.
    change (c :: (r ++ X)) with ((c :: r) ++ X).
    rewrite (conflict_no_match _ _ _ H0). cbn [orb].
    apply IH; [by injection Hn | done].
Qed.

End Apart.

(** The notice is taken as a variable [R], so that proofs do not compute
    with its text. *)
Section ApartFromNotice.
Variable R : str.
Hypothesis R_eq : Main.CONTACT_HIDDEN = R.
Variable w : str.
Hypothesis w_apart : apart Re.IGNORECASE R w = true.

Lemma contact_sub_from_hit_R (n : nat) (c : Z) (s : str) :
  Main.contact_match (c :: s) = Some n ->
  Main.contact_sub_from 0 (c :: s)
  = R ++ Main.contact_sub_from (Nat.pred n) s.
Proof. rewrite <- R_eq. apply contact_sub_from_hit. Qed.

Lemma apart_nonempty : w <> [].
Proof.
  pose proof w_apart as Hap. unfold apart in Hap.
  rewrite !andb_true_iff in Hap.
  destruct Hap as [[H _] _]. intros E. by rewrite E in H.
Qed.

Lemma search_notice_app (X : str) :
  Re.search Re.IGNORECASE w (R ++ X) = Re.search Re.IGNORECASE w X.
Proof.
  pose proof w_apart as Hap. unfold apart in Hap.
  rewrite !andb_true_iff in Hap.
  destruct Hap as [[_ H] _].
  exact (search_over _ _ _ _ (List.length R) apart_nonempty eq_refl H).
Qed.

(** what a suffix of [w] matches at the start of the result, it matched
    in the text *)
Lemma match_at_contact_sub (q : str) (n : nat) (s : str) :
  List.length q = n ->
  forallb (fun q' => conflict Re.IGNORECASE q' R) (suffixes n q) = true ->
  Re.match_at Re.IGNORECASE q (Main.contact_sub_from 0 s) = true ->
  Re.match_at Re.IGNORECASE q s = true.
Proof.
  revert q s. induction n as [|n IH]; intros q s Hn Hall.
  - by destruct q.
  - destruct q as [|x q]; [done|].
    cbn [suffixes forallb tl] in Hall.
    apply andb_true_iff in Hall as [H0 Hall].
    destruct s as [|c s]; [rewrite contact_sub_from_nil; exact id|].
    destruct (Main.contact_match (c :: s)) as [m|] eqn:Hm.
    + rewrite (contact_sub_from_hit_R _ _ _ Hm),
        (conflict_no_match _ _ _ _ H0).
      intros Hf. discriminate Hf.
    + rewrite (contact_sub_from_miss _ _ Hm). cbn [Re.match_at].
      rewrite !andb_true_iff. intros [Hc Hq]. split; [exact Hc|].
      apply (IH q s); [by injection Hn | exact Hall | exact Hq].
Qed.

(** hiding contact details does not bring up the word [w] *)
Lemma search_contact_sub (s : str) (k : nat) :
  Re.search Re.IGNORECASE w (Main.contact_sub_from k s) = true ->
  Re.search Re.IGNORECASE w (drop k s) = true.
Proof.
  pose proof w_apart as Hap. unfold apart in Hap.
  rewrite !andb_true_iff in Hap. destruct Hap as [[_ Ha] Hb].
  revert k. induction s as [|c s IH]; intros k.
  - rewrite contact_sub_from_nil. by destruct k.
  - destruct k as [|k].
    + rewrite drop_0.
      destruct (Main.contact_match (c :: s)) as [m|] eqn:Hm.
      * rewrite (contact_sub_from_hit_R _ _ _ Hm), search_notice_app.
        intros H. apply IH in H.
        apply search_tail. exact (search_skipn _ _ _ _ H).
      * rewrite (contact_sub_from_miss _ _ Hm), !search_cons, orb_true_iff.
        intros [H | H].
        -- rewrite <- (contact_sub_from_miss _ _ Hm) in H.
           by rewrite (match_at_contact_sub w _ _ eq_refl Hb H).
        -- apply IH in H. rewrite drop_0 in H. rewrite H. apply orb_true_r.
    + rewrite contact_sub_from_skip. cbn [skipn]. apply IH.
Qed.

End ApartFromNotice.

(** *** The pattern does not match in its own replacement *)

Lemma notice_head : Main.CONTACT_HIDDEN = 1050 :: tl Main.CONTACT_HIDDEN.
Proof. vm_compute. reflexivity. Qed.

Lemma notice_inside :
  Forall (fun r' => forall X, Main.contact_match (r' ++ X) = None)
    (suffixes (List.length Main.CONTACT_HIDDEN) Main.CONTACT_HIDDEN).
Proof.
  assert (E : suffixes (List.length Main.CONTACT_HIDDEN) Main.CONTACT_HIDDEN
              = ltac:(let v := eval vm_compute in
                        (suffixes (List.length Main.CONTACT_HIDDEN)
                           Main.CONTACT_HIDDEN) in exact v))
    by (vm_compute; reflexivity).
  rewrite E. clear E.
  repeat (apply Forall_cons; split; [intros X; vm_compute; reflexivity|]).
  apply Forall_nil. done.
Qed.

Lemma contact_search_over (r X : str) (n : nat) :
  List.length r = n ->
  Forall (fun r' => forall X, Main.contact_match (r' ++ X) = None)
    (suffixes n r) ->
  contact_search (r ++ X) = contact_search X.
Proof.
  revert r. induction n as [|n IH]; intros r Hn Hall.
  - by destruct r.
  - destruct r as [|c r]; [done|].
    cbn [suffixes tl] in Hall. apply Forall_cons in Hall as [H0 Hall].
    change ((c :: r) ++ X) with (c :: (r ++ X)).
    cbn [contact_search].
    change (c :: (r ++ X)) with ((c :: r) ++ X). rewrite H0.
    apply IH; [by injection Hn | done].
Qed.

(** *** Texts that agree up to a replacement *)

Section Agree.
Variable r0 : Z.
Variable r' : str.
Local Abbreviation r := (r0 :: r').

Lemma agree_match_at (q a b : str) :
  agree r a b ->
  (forall x, In x q -> Re.IGNORECASE x r0 = false) ->
  Re.match_at Re.IGNORECASE q a = true ->
  Re.match_at Re.IGNORECASE q b = true
  /\ agree r (drop (List.length q) a) (drop (List.length q) b).
Proof.
  revert a b. induction q as [|x q IH]; intros a b Hab Hq Hm.
  - by rewrite !drop_0.
  - inversion Hab as [|c a1 b1 Hab1|X b1]; subst.
    + done.
    + cbn in Hm. apply andb_true_iff in Hm as [Hc Hm].
      destruct (IH a1 b1 Hab1) as [Hb Hd]; [|done|].
      { intros y Hy. apply Hq. by right. }
      split; [|done]. cbn. by rewrite Hc.
    + cbn in Hm. rewrite (Hq x) in Hm; [done | by left].
Qed.

Lemma agree_run (f : Z -> bool) (a b : str) :
  agree r a b -> f r0 = false -> (Main.run f a <= Main.run f b)%nat.
Proof.
  intros Hab Hf. induction Hab as [|c a b Hab IH|X b].
  - done.
  - cbn. destruct (f c); lia.
  - cbn. by rewrite Hf; lia.
Qed.

Lemma agree_drop_run (f : Z -> bool) (k : nat) (a b : str) :
  agree r a b -> f r0 = false -> (k <= Main.run f a)%nat ->
  agree r (drop k a) (drop k b).
Proof.
  intros Hab Hf. revert a b Hab. induction k as [|k IH]; intros a b Hab Hk.
  - by rewrite !drop_0.
  - inversion Hab as [|c a1 b1 Hab1|X b1]; subst.
    + cbn in Hk. lia.
    + cbn in Hk. destruct (f c); [|lia]. cbn [skipn]. apply IH; [done | lia].
    + cbn in Hk. rewrite Hf in Hk. lia.
Qed.

End Agree.

Lemma tail_after_some (K : nat) (rest : str) :
  Main.tail_after K rest <> None
  <-> exists k, (k <= K)%nat /\ (7 <= Main.run Main.contact_tail (drop k rest))%nat.
Proof.
  induction K as [|K IH]; cbn [Main.tail_after].
  - destruct (7 <=? Main.run Main.contact_tail (drop 0 rest))%nat eqn:E.
    + split; [|done]. intros _. exists 0%nat. split; [lia|].
      by apply Nat.leb_le.
    + split; [done|]. intros [k [Hk H7]]. assert (k = 0%nat) as -> by lia.
      apply Nat.leb_le in H7. congruence.
  - destruct (7 <=? Main.run Main.contact_tail (drop (S K) rest))%nat eqn:E.
    + split; [|done]. intros _. exists (S K). split; [lia|].
      by apply Nat.leb_le.
    + rewrite IH. split.
      * intros [k [Hk H7]]. exists k. split; [lia | done].
      * intros [k [Hk H7]]. destruct (decide (k = S K)) as [->|Hne].
        -- apply Nat.leb_le in H7. congruence.
        -- exists k. split; [lia | done].
Qed.

Lemma match_trigger_some (trig t : str) :
  Main.match_trigger trig t <> None
  <-> Re.match_at Re.IGNORECASE trig t = true
      /\ Main.tail_after
           (Main.run Main.contact_sep (drop (List.length trig) t))
           (drop (List.length trig) t) <> None.
Proof.
  unfold Main.match_trigger.
  destruct (Re.match_at Re.IGNORECASE trig t); [|split; [done | by intros []]].
  destruct (Main.tail_after _ _); split; try done. by intros [].
Qed.

Lemma first_match_some (trigs : list str) (t : str) :
  Main.first_match trigs t <> None
  <-> exists trig, In trig trigs /\ Main.match_trigger trig t <> None.
Proof.
  induction trigs as [|t0 ts IH]; cbn [Main.first_match].
  - split; [done | by intros [? []]].
  - destruct (Main.match_trigger t0 t) eqn:E.
    + split; [|done]. intros _. exists t0. split; [by left | by rewrite E].
    + rewrite IH. split.
      * intros [trig [Hin H]]. exists trig. split; [by right | done].
      * intros [trig [[<- | Hin] H]]; [congruence|]. by exists trig.
Qed.

Lemma triggers_avoid_notice :
  forallb (fun trig => forallb (fun x => negb (Re.IGNORECASE x 1050)) trig)
    Main.contact_triggers = true.
Proof. vm_compute. reflexivity. Qed.

Lemma contact_match_nil : Main.contact_match [] = None.
Proof. vm_compute. reflexivity. Qed.

(** The notice is again a variable [R]; what is used of it: it starts with
    the letter K (1050), and the pattern matches at none of its
    positions. *)
Section ReplacedOnce.
Variable R r' : str.
Hypothesis R_eq : Main.CONTACT_HIDDEN = R.
Hypothesis R_head : R = 1050 :: r'.
Hypothesis R_inside :
  Forall (fun x => forall X, Main.contact_match (x ++ X) = None)
    (suffixes (List.length R) R).

Lemma contact_search_notice_app (X : str) :
  contact_search (R ++ X) = contact_search X.
Proof. exact (contact_search_over _ _ _ eq_refl R_inside). Qed.

(** a match in the result of the replacement was a match in the text *)
Lemma contact_match_agree (a b : str) :
  agree R a b ->
  Main.contact_match a <> None -> Main.contact_match b <> None.
Proof.
  rewrite R_head. intros Hab. unfold Main.contact_match.
  rewrite !first_match_some. intros [trig [Hin H]]. exists trig.
  split; [done|].
  apply match_trigger_some in H as [Hm Ht]. apply match_trigger_some.
  pose proof triggers_avoid_notice as Hav. rewrite forallb_forall in Hav.
  specialize (Hav trig Hin). rewrite forallb_forall in Hav.
  destruct (agree_match_at _ _ trig a b Hab) as [Hmb Hrest]; [|done|].
  { intros x Hx. apply negb_true_iff, Hav, Hx. }
  split; [done|].
  apply tail_after_some in Ht as [k [Hk H7]]. apply tail_after_some.
  exists k. split.
  - pose proof (agree_run _ _ Main.contact_sep _ _ Hrest eq_refl). lia.
  - pose proof (agree_drop_run _ _ Main.contact_sep k _ _ Hrest eq_refl Hk)
      as Hd.
    pose proof (agree_run _ _ Main.contact_tail _ _ Hd eq_refl). lia.
Qed.

Lemma agree_contact_sub (s : str) :
  agree R (Main.contact_sub_from 0 s) s.
Proof.
  induction s as [|c s IH]; [constructor|].
  destruct (Main.contact_match (c :: s)) as [m|] eqn:Hm.
  - rewrite (contact_sub_from_hit_R R R_eq _ _ _ Hm). constructor.
  - rewrite (contact_sub_from_miss _ _ Hm). by constructor.
Qed.

(** after the replacement the pattern matches nowhere *)
Lemma contact_search_sub (s : str) (k : nat) :
  contact_search (Main.contact_sub_from k s) = false.
Proof.
  revert k. induction s as [|c s IH]; intros k.
  - rewrite contact_sub_from_nil. cbn [contact_search].
    by rewrite contact_match_nil.
  - destruct k as [|k]; [|apply IH].
    destruct (Main.contact_match (c :: s)) as [m|] eqn:Hm.
    + rewrite (contact_sub_from_hit_R R R_eq _ _ _ Hm),
        contact_search_notice_app.
      apply IH.
    + pose proof (agree_contact_sub (c :: s)) as Hag.
      rewrite (contact_sub_from_miss _ _ Hm) in Hag |- *.
      cbn [contact_search].
      destruct (Main.contact_match (c :: Main.contact_sub_from 0 s)) eqn:E.
      * exfalso. apply (contact_match_agree _ _ Hag); [by rewrite E | done].
      * apply IH.
Qed.

End ReplacedOnce.

Lemma contact_sub_clean (t : str) :
  contact_search t = false -> Main.contact_sub_from 0 t = t.
Proof.
  induction t as [|c t IH]; [done|].
  cbn [contact_search].
  destruct (Main.contact_match (c :: t)) eqn:E; [done|].
  intros H. rewrite (contact_sub_from_miss _ _ E). f_equal. by apply IH.
Qed.

Lemma main_words_maskable :
  forallb (maskable Re.IGNORECASE MASK) Main.DEFAULT_BAD_WORDS = true.
Proof. vm_compute. reflexivity. Qed.

Lemma main_words_apart :
  forallb (apart Re.IGNORECASE Main.CONTACT_HIDDEN) Main.DEFAULT_BAD_WORDS
  = true.
Proof. vm_compute. reflexivity. Qed.

(** main.py's censor, run on its own result, changes nothing and raises
    no flag, for every word list whose words can be masked and cannot
    lie across the contact notice. *)
Lemma main_censor_twice (cfg : Main.config) (t : str) :
  forallb (maskable Re.IGNORECASE MASK) (Main.BAD_WORDS_LIST cfg) = true ->
  forallb (apart Re.IGNORECASE Main.CONTACT_HIDDEN) (Main.BAD_WORDS_LIST cfg)
  = true ->
  Main.censor_text cfg (fst (Main.censor_text cfg t))
  = (fst (Main.censor_text cfg t), false).
Proof.
  intros Hmask Hapart. unfold Main.censor_text.
  rewrite (main_fold_censor_eq _ (t, false)).
  destruct (fold_left Bot.censor_step (Main.BAD_WORDS_LIST cfg) (t, false))
    as [t1 b1] eqn:E1.
  cbn [fst]. rewrite main_fold_censor_eq. unfold Main.contact_sub.
  set (t2 := Main.contact_sub_from 0 t1).
  assert (Hclean : forall w, In w (Main.BAD_WORDS_LIST cfg) ->
                     Re.search Re.IGNORECASE w t2 = false).
  { intros w Hw. apply not_true_is_false. intros H.
    rewrite forallb_forall in Hapart.
    apply (search_contact_sub _ eq_refl w (Hapart w Hw)) in H.
    rewrite drop_0 in H.
    pose proof (censor_pass_clean (Main.BAD_WORDS_LIST cfg) [] t false
                  Hmask (fun _ F => match F with end) w Hw) as Hc.
    rewrite E1 in Hc. cbn [fst] in Hc. congruence. }
  rewrite (censor_pass_id _ _ _ Hclean).
  f_equal. apply contact_sub_clean.
  exact (contact_search_sub _ _ eq_refl notice_head notice_inside t1 0%nat).
Qed.


(** * The table, the publisher and the moderation handler *)

(** ** Generalities *)

Lemma count_app {A} (f : A -> bool) (l l' : list A) :
  count f (l ++ l') = (count f l + count f l')%nat.
Proof. unfold count. by rewrite List.filter_app, length_app. Qed.

Lemma count_none {A} (f : A -> bool) (l : list A) :
  Forall (fun x => f x = false) l -> count f l = 0%nat.
Proof.
  unfold count. induction 1 as [|x l Hx _ IH]; [done|].
  cbn [List.filter]. by rewrite Hx.
Qed.

Lemma for_each_inv {UD Msg A} (P : Rt.world UD Msg -> Prop) (l : list A)
    (body : A -> Rt.M UD Msg bool) :
  (forall x w, In x l -> P w -> P (snd (body x w))) ->
  forall w, P w -> P (snd (Rt.for_each l body w)).
Proof.
  induction l as [|x l IH]; intros Hbody w Hw; [exact Hw|].
  cbn [Rt.for_each]. unfold Rt.bind.
  pose proof (Hbody x w (or_introl eq_refl) Hw) as Hx.
  destruct (body x w) as [[] w1]; cbn [snd] in Hx |- *.
  - apply IH; [|exact Hx]. intros y w2 Hy. apply Hbody. by right.
  - exact Hx.
Qed.

Lemma keyed_alter (f : Rt.application -> Rt.application) (j : Z)
    (d : gmap Z Rt.application) :
  (forall r, Rt.app_id (f r) = Rt.app_id r) ->
  keyed d -> keyed (alter f j d).
Proof.
  intros Hf Hd k r. destruct (decide (j = k)) as [->|Hne].
  - rewrite lookup_alter_eq. destruct (d !! k) as [r0|] eqn:E; [|done].
    intros [= <-]. rewrite Hf. by apply Hd.
  - rewrite lookup_alter_ne by done. apply Hd.
Qed.

Lemma is_published_alter (f : Rt.application -> Rt.application) (j k : Z)
    (d : gmap Z Rt.application) :
  (forall r, Rt.published_at r <> None -> Rt.published_at (f r) <> None) ->
  is_published d k -> is_published (alter f j d) k.
Proof.
  intros Hf [r [Hr Hp]]. destruct (decide (j = k)) as [->|Hne].
  - exists (f r). rewrite lookup_alter_eq, Hr. split; [done|]. by apply Hf.
  - exists r. by rewrite lookup_alter_ne.
Qed.

(** the rows selected by the publisher, in a keyed table *)
Lemma selected_rows (sel : Rt.application -> bool)
    (d : gmap Z Rt.application) (app : Rt.application) :
  keyed d ->
  In app (List.filter sel (snd <$> map_to_list d)) ->
  d !! Rt.app_id app = Some app /\ sel app = true.
Proof.
  intros Hd Hin. apply List.filter_In in Hin as [Hin Hsel].
  split; [|done].
  apply list_elem_of_In, list_elem_of_fmap in Hin as [[j r] [-> Hjr]].
  apply elem_of_map_to_list in Hjr. cbn [snd].
  by rewrite (Hd _ _ Hjr).
Qed.

Lemma bind_run {UD Msg A B} (c : Rt.M UD Msg A) (k : A -> Rt.M UD Msg B)
    (w : Rt.world UD Msg) :
  Rt.bind c k w = k (fst (c w)) (snd (c w)).
Proof. unfold Rt.bind. by destruct (c w). Qed.

(** a row that is selected for publication is not yet published *)
Lemma selected_not_published (sel : Rt.application -> bool)
    (d : gmap Z Rt.application) (app : Rt.application) (k : Z) :
  (forall r, sel r = true -> Rt.published_at r = None) ->
  keyed d -> is_published d k ->
  In app (List.filter sel (snd <$> map_to_list d)) ->
  Rt.app_id app <> k.
Proof.
  intros Hsel Hd [r [Hr Hp]] Hin Heq.
  apply (selected_rows _ _ _ Hd) in Hin as [Hl Hs].
  rewrite Heq, Hr in Hl. injection Hl as <-. by apply Hp, Hsel.
Qed.

(** ** bot.py *)


(** [publish_to_channel]: nothing happens, or the text of the row is sent
    to the channel; the row is marked only after a send that went
    through. *)
Lemma bot_publish_cases (cfg : Bot.config) (e : Rt.env) (j : Z) (w : Bot.W) :
  let w' := snd (Bot.publish_to_channel cfg e j w) in
  (Rt.db w' = Rt.db w /\ Rt.sent w' = Rt.sent w)
  \/ (exists ch r ok,
        Rt.db w !! j = Some r
        /\ Rt.sent w'
           = Rt.sent w ++ [Rt.SendMessage ch (Bot.ChannelPost j (Rt.text r)) ok]
        /\ (Rt.db w' = Rt.db w
            \/ (ok = true
                /\ Rt.db w'
                   = alter (Rt.set_published (Rt.now e)) j (Rt.db w)))).
Proof.
  destruct w as [d n t s ud]. run_bot. branch.
  all: try (left; split; reflexivity).
  all: right; eexists _, _, _; split; [reflexivity|]; split; [reflexivity|].
  all: try (left; reflexivity); right; split; reflexivity.
Qed.

(** [admin_callback_handler]: the table is left as it is, or the
    moderator moves one pending row to approved or rejected; no
    broadcast is sent. *)
Lemma bot_decision_cases (cfg : Bot.config) (e : Rt.env) (upd : Rt.update)
    (w : Bot.W) :
  let w' := snd (Bot.admin_callback_handler cfg e upd w) in
  (Rt.db w' = Rt.db w
   \/ exists app r st,
        Bot.is_admin cfg (Rt.from_id upd) = true
        /\ Rt.db w !! app = Some r
        /\ Rt.status r = u "pending"
        /\ (st = u "approved" \/ st = u "rejected")
        /\ Rt.db w' = alter (Rt.set_status st) app (Rt.db w))
  /\ exists evs,
       Rt.sent w' = Rt.sent w ++ evs
       /\ Forall (fun ev => forall k, bot_post_of k ev = false) evs.
Proof.
  destruct w as [d n t s ud]. run_bot. branch.
  all: split; [|log_tail; repeat constructor].
  all: try (left; reflexivity).
  all: right; eexists _, _, _.
  all: split; [reflexivity|]; split; [eassumption|].
  all: match goal with
       | H : Py.str_eqb _ (u "pending") = true |- _ =>
           apply bool_decide_eq_true in H
       end.
  all: split; [assumption|].
  all: split; [|reflexivity]; auto.
Qed.

Lemma bot_selected (cfg : Bot.config) (e : Rt.env) (w : Bot.W) :
  Bot.get_approved_unpublished_applications e w
  = ((if Rt.db_ok e (Rt.tick w)
      then List.filter Bot.approved_unpublished
             (snd <$> map_to_list (Rt.db w))
      else []),
     bump w).
Proof.
  destruct w as [d n t s ud].
  unfold Bot.get_approved_unpublished_applications, bump. run_rt.
  by destruct (Rt.db_ok e t).
Qed.

Lemma bot_approved_unpublished (r : Rt.application) :
  Bot.approved_unpublished r = true ->
  Rt.status r = u "approved" /\ Rt.published_at r = None.
Proof.
  unfold Bot.approved_unpublished. intros [Hs Hp]%andb_true_iff.
  apply bool_decide_eq_true in Hs. split; [done|].
  by destruct (Rt.published_at r).
Qed.

(** ** Once published, never sent again (bot.py) *)

Section BotPublished.
Variable cfg : Bot.config.
Variable k : Z.





End BotPublished.

(** ** main.py *)


(** [publish_application_to_channel]: the table is left as it is, or the
    status of the row is set, or the row is marked; what is sent is the
    broadcast of the row and the notification of its author, and
    nothing when the row has a publication time. *)
Lemma main_publish_cases (cfg : Main.config) (e : Rt.env)
    (app_data : Rt.application) (w : Main.W) :
  let w' := snd (Main.publish_application_to_channel cfg e app_data w) in
  let a := Rt.app_id app_data in
  (Rt.db w' = Rt.db w
   \/ Rt.db w' = alter (Rt.set_status (u "published")) a (Rt.db w)
   \/ Rt.db w' = alter (Rt.set_published (Rt.now e)) a (Rt.db w))
  /\ exists evs,
       Rt.sent w' = Rt.sent w ++ evs
       /\ (evs = [] \/ Rt.published_at app_data = None)
       /\ Forall (fun ev => forall k, k <> a ->
                    main_post_of k ev = false /\ main_notice_of k ev = false)
            evs.
Proof.
  destruct w as [d n t s ud]. run_main. branch.
  all: split; [auto|].
  all: log_tail.
  all: try (split; [left; reflexivity | constructor]).
  all: split; [right; reflexivity|].
  all: repeat constructor.
  all: cbn [main_post_of main_notice_of]; try reflexivity.
  all: by apply Z.eqb_neq.
Qed.

Lemma main_selected (cfg : Main.config) (e : Rt.env) (w : Main.W) :
  Main.get_approved_unpublished_applications e w
  = ((if Rt.db_ok e (Rt.tick w)
      then List.filter Main.approved_unpublished
             (snd <$> map_to_list (Rt.db w))
      else []),
     bump w).
Proof.
  destruct w as [d n t s ud].
  unfold Main.get_approved_unpublished_applications, bump. run_rt.
  by destruct (Rt.db_ok e t).
Qed.

Lemma main_approved_unpublished (r : Rt.application) :
  Main.approved_unpublished r = true ->
  Rt.status r = u "approved" /\ Rt.published_at r = None.
Proof.
  unfold Main.approved_unpublished. intros [Hs Hp]%andb_true_iff.
  apply bool_decide_eq_true in Hs. split; [done|].
  by destruct (Rt.published_at r).
Qed.

Lemma main_details (e : Rt.env) (app : Z) (w : Main.W) :
  Main.get_application_details e app w
  = ((if Rt.db_ok e (Rt.tick w) then Rt.db w !! app else None), bump w).
Proof.
  destruct w as [d n t s ud].
  unfold Main.get_application_details, bump. run_rt.
  by destruct (Rt.db_ok e t).
Qed.

(** ** Once published, never sent again (main.py) *)

Section MainPublished.
Variable cfg : Main.config.
Variable k : Z.

Lemma main_kept_bump (n0 m0 : nat) (w : Main.W) :
  main_kept k n0 m0 w -> main_kept k n0 m0 (bump w).
Proof. by destruct w. Qed.

Lemma main_publish_keeps (e : Rt.env) (app_data : Rt.application)
    (n0 m0 : nat) (w : Main.W) :
  Rt.app_id app_data <> k ->
  main_kept k n0 m0 w ->
  main_kept k n0 m0
    (snd (Main.publish_application_to_channel cfg e app_data w)).
Proof.
  unfold main_kept. intros Hj (Hn & Hm & Hd & Hp).
  destruct (main_publish_cases cfg e app_data w)
    as [Hdb (evs & -> & _ & Hev)].
  rewrite !count_app, Hn, Hm.
  rewrite (count_none (main_post_of k) evs),
    (count_none (main_notice_of k) evs).
  2, 3: eapply Forall_impl; [exact Hev|]; intros ev H;
        by destruct (H k (not_eq_sym Hj)).
  split; [lia|]. split; [lia|].
  destruct Hdb as [->|[->| ->]]; [done| |].
  - split; [by apply keyed_alter | by apply is_published_alter].
  - split; [by apply keyed_alter |].
    apply is_published_alter; [|done]. intros r0 _. discriminate.
Qed.

Lemma main_cycle_keeps (e : Rt.env) (n0 m0 : nat) (w : Main.W) :
  main_kept k n0 m0 w ->
  main_kept k n0 m0 (snd (Main.scheduled_publication_check cfg e w)).
Proof.
  intros Hk. unfold Main.scheduled_publication_check.
  destruct (negb (Main.IS_PUBLISHING_ENABLED cfg)); [exact Hk|].
  rewrite bind_run, main_selected by exact cfg. cbn [fst snd].
  apply (for_each_inv (main_kept k n0 m0)); [|by apply main_kept_bump].
  intros app w1 Hin Hk1.
  assert (Hne : Rt.app_id app <> k).
  { destruct Hk as (_ & _ & Hd & Hp).
    destruct (Rt.db_ok e (Rt.tick w)); [|done].
    apply (selected_not_published Main.approved_unpublished (Rt.db w));
      try done.
    intros r Hr. by apply main_approved_unpublished in Hr as [_ ?]. }
  unfold Main.publish_if_due.
  repeat match goal with
         | |- context [if ?b then _ else _] => destruct b
         | |- context [match ?x with Some _ => _ | None => _ end] =>
             destruct x
         end; try exact Hk1.
  rewrite bind_run. cbn [Rt.ret snd]. by apply main_publish_keeps.
Qed.

(** the immediate publication after an approval of the row [app], read
    as [r] before *)
Lemma main_publish_now_keeps (e : Rt.env) (app : Z) (r : Rt.application)
    (n0 m0 : nat) (w : Main.W) :
  (app = k -> Rt.published_at r <> None) ->
  main_kept k n0 m0 w ->
  main_kept k n0 m0 (snd (Main.publish_now cfg e app r w)).
Proof.
  intros Hr Hk. unfold Main.publish_now.
  destruct (Rt.publish_date r) as [publish_date_str|]; [|exact Hk].
  destruct (Rt.published_at r) eqn:Hp; [exact Hk|].
  destruct (_ && _); [|exact Hk].
  destruct (Dt.strptime_Ymd _) as [publish_date_obj|]; [|exact Hk].
  destruct (Dt.le _ _); [|exact Hk].
  rewrite bind_run, main_details. cbn [fst snd].
  apply main_kept_bump in Hk.
  destruct (Rt.db_ok e (Rt.tick w)); [|exact Hk].
  destruct (Rt.db w !! app) as [fresh|] eqn:Hf; [|exact Hk].
  apply main_publish_keeps; [|exact Hk].
  destruct Hk as (_ & _ & Hd & _). rewrite (Hd _ _ Hf).
  intros ->. by apply Hr.
Qed.

(** a step that alters a row without touching its key or its
    publication time, and sends nothing about [k] *)
Lemma main_kept_frame (n0 m0 : nat) (w w' : Main.W) :
  main_kept k n0 m0 w ->
  (Rt.db w' = Rt.db w
   \/ exists st j, Rt.db w' = alter (Rt.set_status st) j (Rt.db w)) ->
  (exists evs,
     Rt.sent w' = Rt.sent w ++ evs
     /\ Forall (fun ev => main_post_of k ev = false
                          /\ main_notice_of k ev = false) evs) ->
  main_kept k n0 m0 w'.
Proof.
  unfold main_kept. intros (Hn & Hm & Hd & Hp) Hdb (evs & -> & Hev).
  rewrite !count_app, Hn, Hm.
  rewrite (count_none (main_post_of k) evs),
    (count_none (main_notice_of k) evs).
  2, 3: eapply Forall_impl; [exact Hev|]; by intros ev [? ?].
  split; [lia|]. split; [lia|].
  destruct Hdb as [->|(st & j & ->)]; [done|].
  split; [by apply keyed_alter | by apply is_published_alter].
Qed.

Lemma main_decision_keeps (e : Rt.env) (upd : Rt.update) (n0 m0 : nat)
    (w : Main.W) :
  main_kept k n0 m0 w ->
  main_kept k n0 m0 (snd (Main.handle_admin_decision cfg e upd w)).
Proof.
  intros Hk. destruct w as [d n t s ud].
  unfold Main.handle_admin_decision. run_main. branch.
  all: try match goal with
       | |- context [Main.publish_now ?c ?e0 ?a ?r ?w0] =>
           assert (Hnow : main_kept k n0 m0
                            (snd (Main.publish_now c e0 a r w0)));
           [ apply main_publish_now_keeps;
             [ intros ->; destruct Hk as (_ & _ & _ & (r1 & Hr1 & Hp1));
               cbn [Rt.db] in Hr1; congruence
             | eapply main_kept_frame; [exact Hk | cbn [Rt.db]; eauto |];
               cbn [Rt.sent]; log_tail; repeat constructor ]
           | destruct (Main.publish_now c e0 a r w0) as [[] [d2 n2 t2 s2 ud2]];
             cbn [snd] in Hnow; branch;
             (eapply main_kept_frame; [exact Hnow | cbn [Rt.db]; eauto |];
              cbn [Rt.sent]; log_tail; repeat constructor) ]
       end.
  all: eapply main_kept_frame; [exact Hk | cbn [Rt.db]; eauto |].
  all: cbn [Rt.sent]; log_tail; repeat constructor.
Qed.

Lemma main_run_keeps (tr : list (Rt.env * op)) (n0 m0 : nat) (w : Main.W) :
  main_kept k n0 m0 w -> main_kept k n0 m0 (main_run cfg tr w).
Proof.
  revert w. induction tr as [|[e o] tr IH]; intros w Hk; [exact Hk|].
  unfold main_run. cbn [fold_left]. apply IH.
  unfold main_op. cbn [fst snd]. destruct o.
  - by apply main_cycle_keeps.
  - by apply main_decision_keeps.
Qed.

End MainPublished.

(** ** The success notification is sent at most once (main.py) *)




Section MainOnce.
Variable cfg : Main.config.
Variable k : Z.



(** the body of the loop publishes the row, or does nothing *)
Lemma main_publish_if_due_cases (e : Rt.env) (app_data : Rt.application)
    (w : Main.W) :
  let r := Main.publish_if_due cfg e app_data w in
  fst r = true
  /\ (snd r = w
      \/ snd r = snd (Main.publish_application_to_channel cfg e app_data w)).
Proof.
  unfold Main.publish_if_due.
  repeat match goal with
         | |- context [if ?b then _ else _] => destruct b
         | |- context [match ?x with Some _ => _ | None => _ end] =>
             destruct x
         end; try (split; [reflexivity | by left]).
  rewrite bind_run. cbn [Rt.ret fst snd]. split; [reflexivity | by right].
Qed.








End MainOnce.

(** ** Runs that overlap (main.py) *)

Lemma pending_induction {A} (P : Aio.pending A -> Prop) :
  (forall a, P (Aio.Done a)) ->
  (forall k, (forall w, P (fst (k w))) -> P (Aio.Await k)) ->
  forall p, P p.
Proof.
  intros Hd Ha.
  exact (fix IH p :=
           match p with
           | Aio.Done a => Hd a
           | Aio.Await k => Ha k (fun w => IH (fst (k w)))
           end).
Qed.

(** *** Forgetting the awaits *)

Lemma finish_and_then {A B} (f : A -> Aio.Co B) (p : Aio.pending A)
    (w : Main.W) :
  Aio.alone (Aio.and_then p f) w
  = let (a, w') := Aio.finish p w in Aio.alone (f a) w'.
Proof.
  revert w. induction p as [a|k IH] using pending_induction; intros w.
  - reflexivity.
  - unfold Aio.alone. cbn [Aio.and_then Aio.finish].
    specialize (IH w). destruct (k w) as [p1 w1]. cbn [fst] in IH.
    apply IH.
Qed.

Lemma alone_bind {A B} (c : Aio.Co A) (f : A -> Aio.Co B) (w : Main.W) :
  Aio.alone (Aio.bind c f) w
  = Rt.bind (Aio.alone c) (fun a => Aio.alone (f a)) w.
Proof.
  unfold Rt.bind. unfold Aio.alone at 1 2. unfold Aio.bind.
  destruct (c w) as [p w']. apply (finish_and_then f p w').
Qed.

Lemma alone_atomic {A} (c : Main.Cmd A) (w : Main.W) :
  Aio.alone (Aio.atomic c) w = c w.
Proof. unfold Aio.alone, Aio.atomic. by destruct (c w). Qed.

Lemma alone_await {A} (c : Main.Cmd A) (w : Main.W) :
  Aio.alone (Aio.await c) w = c w.
Proof. unfold Aio.alone, Aio.await. cbn [Aio.finish]. by destruct (c w). Qed.

Lemma alone_ret {A} (a : A) (w : Main.W) :
  Aio.alone (Aio.ret a) w = Rt.ret a w.
Proof. reflexivity. Qed.

Lemma alone_bind_ext {A B} (c : Aio.Co A) (f : A -> Aio.Co B)
    (c' : Main.Cmd A) (f' : A -> Main.Cmd B) :
  (forall w, Aio.alone c w = c' w) ->
  (forall a w, Aio.alone (f a) w = f' a w) ->
  forall w, Aio.alone (Aio.bind c f) w = Rt.bind c' f' w.
Proof.
  intros Hc Hf w. rewrite alone_bind. unfold Rt.bind. rewrite Hc.
  destruct (c' w) as [a w']. apply Hf.
Qed.

Lemma alone_for_each {A} (body : A -> Aio.Co bool)
    (body' : A -> Main.Cmd bool) (l : list A) :
  (forall x w, Aio.alone (body x) w = body' x w) ->
  forall w, Aio.alone (Aio.for_each l body) w = Rt.for_each l body' w.
Proof.
  intros Hb. induction l as [|x l IH]; intros w; [reflexivity|].
  cbn [Aio.for_each Rt.for_each].
  apply alone_bind_ext; [apply Hb|]. intros [|] w'; [apply IH | reflexivity].
Qed.

(** follow the code of a coroutine and of the function it is given as
    in [Module Main] side by side *)
Ltac same_code :=
  repeat first
    [ reflexivity
    | apply alone_atomic
    | apply alone_await
    | apply alone_bind_ext; [intros ? | intros ? ?]
    | match goal with
      | |- context [if ?b then _ else _] => destruct b
      | |- context [match ?x with Some _ => _ | None => _ end] => destruct x
      | |- context [let (_, _) := ?x in _] => is_var x; destruct x
      end ].

Section Alone.
Variable cfg : Main.config.
Variable e : Rt.env.

Lemma alone_publish (app_data : Rt.application) (w : Main.W) :
  Aio.alone (Aio.publish_application_to_channel cfg e app_data) w
  = Main.publish_application_to_channel cfg e app_data w.
Proof.
  revert w.
  unfold Aio.publish_application_to_channel,
    Main.publish_application_to_channel, Aio.safe_send_message.
  same_code.
Qed.

Lemma alone_publish_if_due (app_data : Rt.application) (w : Main.W) :
  Aio.alone (Aio.publish_if_due cfg e app_data) w
  = Main.publish_if_due cfg e app_data w.
Proof.
  revert w. unfold Aio.publish_if_due, Main.publish_if_due.
  same_code. apply alone_publish.
Qed.

Lemma alone_cycle (w : Main.W) :
  Aio.alone (Aio.scheduled_publication_check cfg e) w
  = Main.scheduled_publication_check cfg e w.
Proof.
  revert w.
  unfold Aio.scheduled_publication_check, Main.scheduled_publication_check.
  same_code. apply alone_for_each, alone_publish_if_due.
Qed.

Lemma alone_publish_now (app : Z) (r : Rt.application) (w : Main.W) :
  Aio.alone (Aio.publish_now cfg e app r) w = Main.publish_now cfg e app r w.
Proof.
  revert w. unfold Aio.publish_now, Main.publish_now.
  same_code. apply alone_publish.
Qed.

Lemma alone_edit (upd : Rt.update) (m : Main.message) (w : Main.W) :
  Aio.alone (Aio.safe_edit_message_text e upd m) w
  = Main.safe_edit_message_text e upd m w.
Proof.
  revert w. unfold Aio.safe_edit_message_text.
  destruct (Rt.callback_data upd) eqn:Hd;
    [destruct (Rt.query_message upd) eqn:Hq|]; intros w.
  - apply alone_await.
  - unfold Main.safe_edit_message_text. by rewrite Hd, Hq.
  - unfold Main.safe_edit_message_text. by rewrite Hd.
Qed.

Lemma alone_decision (upd : Rt.update) (w : Main.W) :
  Aio.alone (Aio.handle_admin_decision cfg e upd) w
  = Main.handle_admin_decision cfg e upd w.
Proof.
  revert w.
  unfold Aio.handle_admin_decision, Main.handle_admin_decision,
    Aio.answer, Aio.safe_send_message.
  same_code; try apply alone_edit; try apply alone_publish_now.
Qed.

End Alone.

(** a coroutine of main.py that is resumed until its end with no other
    in between does what the operation of [main_run] does *)
Lemma alone_task (cfg : Main.config) (x : Rt.env * op) (w : Main.W) :
  Aio.alone (main_task cfg x) w = main_op cfg x w.
Proof.
  unfold main_task, main_op. destruct (snd x).
  - apply alone_cycle.
  - apply alone_decision.
Qed.

(** *** What every step keeps *)

Lemma keeps_weaken {A} (I : Main.W -> Prop) (Q R : A -> Prop)
    (p : Aio.pending A) :
  (forall a, Q a -> R a) -> keeps I Q p -> keeps I R p.
Proof.
  intros HQR. induction p as [a|k IH] using pending_induction; cbn [keeps].
  - apply HQR.
  - intros Hk w Hw. destruct (Hk w Hw) as [H1 H2]. split; [done|].
    by apply IH.
Qed.








(** *** Once published, never sent again, however the runs overlap *)

Section MainOverlap.
Variable cfg : Main.config.
Variable k : Z.
Variables n0 m0 : nat.

Local Notation I := (main_kept k n0 m0).














End MainOverlap.

(** *** The runs that do not overlap *)

(** a coroutine the loop holds, resumed until it is done *)
Lemma resume_to_end (cfg : Main.config) (i : nat) (p : Aio.pending unit) :
  forall tasks w,
    tasks !! i = Some p ->
    exists n,
      fold_left (loop_step cfg) (repeat (Resume i) n) (tasks, w)
      = (<[i := Aio.Done (fst (Aio.finish p w))]> tasks,
         snd (Aio.finish p w)).
Proof.
  induction p as [a|k IH] using pending_induction; intros tasks w Hi.
  - exists 0%nat. cbn [repeat fold_left Aio.finish fst snd].
    destruct a. by rewrite list_insert_id.
  - specialize (IH w (<[i := fst (k w)]> tasks) (snd (k w))).
    destruct IH as [n Hn].
    { apply list_lookup_insert_eq. by eapply lookup_lt_Some. }
    exists (S n). cbn [repeat fold_left]. unfold loop_step at 2.
    rewrite Hi. cbn [Aio.finish]. destruct (k w) as [p1 w1].
    cbn [fst snd] in Hn. rewrite Hn. by rewrite list_insert_insert_eq.
Qed.

(** [main_run] gives the runs of the loop in which each coroutine is
    resumed until it is done before the next one is started *)
Lemma main_run_is_loop (cfg : Main.config) (tr : list (Rt.env * op))
    (w : Main.W) :
  exists ms, snd (main_loop cfg ms w) = main_run cfg tr w.
Proof.
  unfold main_loop.
  assert (Hgen : forall tasks w0,
            exists ms tasks',
              fold_left (loop_step cfg) ms (tasks, w0)
              = (tasks', main_run cfg tr w0)).
  { induction tr as [|x tr IH]; intros tasks w0.
    - by exists [], tasks.
    - destruct (main_task cfg x w0) as [p w1] eqn:Ex.
      destruct (resume_to_end cfg (List.length tasks) p (tasks ++ [p]) w1)
        as [n Hn].
      { by rewrite lookup_app_r, Nat.sub_diag by lia. }
      pose proof (alone_task cfg x w0) as Ha. unfold Aio.alone in Ha.
      rewrite Ex in Ha.
      destruct (IH (<[List.length tasks := Aio.Done (fst (Aio.finish p w1))]>
                      (tasks ++ [p]))
                  (snd (Aio.finish p w1))) as (ms & tasks' & Hms).
      exists (Start x :: repeat (Resume (List.length tasks)) n ++ ms), tasks'.
      cbn [fold_left]. unfold loop_step at 2. rewrite Ex.
      rewrite fold_left_app, Hn, Hms. f_equal.
      unfold main_run. cbn [fold_left]. by rewrite <- Ha. }
  destruct (Hgen [] w) as (ms & tasks' & Hms).
  exists ms. by rewrite Hms.
Qed.

(** ** The lifecycle in bot.py *)

Lemma lifecycle_refl (s : str) : lifecycle_step s s.
Proof. by left. Qed.

(** one callback of the moderation handler of bot.py moves every row
    along the lifecycle *)
Lemma bot_decision_lifecycle (cfg : Bot.config) (e : Rt.env)
    (upd : Rt.update) (w : Bot.W) (k : Z) (r : Rt.application) :
  Rt.db w !! k = Some r ->
  exists r',
    Rt.db (snd (Bot.admin_callback_handler cfg e upd w)) !! k = Some r'
    /\ lifecycle_step (Rt.status r) (Rt.status r').
Proof.
  intros Hr.
  destruct (bot_decision_cases cfg e upd w)
    as [[->|(app & r0 & st & _ & Hr0 & Hs & Hst & ->)] _].
  { exists r. split; [done | apply lifecycle_refl]. }
  destruct (decide (app = k)) as [->|Hne].
  - exists (Rt.set_status st r). rewrite lookup_alter_eq, Hr. split; [done|].
    rewrite Hr in Hr0. injection Hr0 as <-. right. left. by split.
  - exists r. rewrite lookup_alter_ne by done.
    split; [done | apply lifecycle_refl].
Qed.

(** one run of the publisher of bot.py moves every row along the
    lifecycle *)
Lemma bot_cycle_lifecycle (cfg : Bot.config) (e : Rt.env) (w : Bot.W)
    (k : Z) (r : Rt.application) :
  keyed (Rt.db w) ->
  Rt.db w !! k = Some r ->
  exists r',
    Rt.db (snd (Bot.check_pending_applications cfg e w)) !! k = Some r'
    /\ lifecycle_step (Rt.status r) (Rt.status r').
Proof.
  intros Hd Hr.
  set (P := fun w1 : Bot.W =>
    forall j r0, Rt.db w !! j = Some r0 ->
      exists r1, Rt.db w1 !! j = Some r1
        /\ (Rt.status r1 = Rt.status r0
            \/ (Rt.status r0 = u "approved"
                /\ Rt.status r1 = u "published"))).
  assert (HP : P (snd (Bot.check_pending_applications cfg e w))).
  { unfold Bot.check_pending_applications.
    rewrite bind_run, (bot_selected cfg). cbn [fst snd].
    apply (for_each_inv P).
    2:{ intros j r0 H0. exists r0. destruct w. split; [exact H0 | by left]. }
    intros app w1 Hin HP1.
    assert (Happ : Rt.db w !! Rt.app_id app = Some app
                   /\ Rt.status app = u "approved").
    { destruct (Rt.db_ok e (Rt.tick w)); [|done].
      apply (selected_rows _ _ _ Hd) in Hin as [Hl Hs].
      by apply bot_approved_unpublished in Hs as [? _]. }
    destruct Happ as [Hl Hs].
    destruct (Bot.due e app) as [[]|]; try exact HP1.
    rewrite bind_run. cbn [Rt.ret snd].
    destruct (bot_publish_cases cfg e (Rt.app_id app) w1)
      as [[Hdb _]|(ch & r1 & ok & _ & _ & [Hdb|[_ Hdb]])].
    1, 2: intros j r0 H0; rewrite Hdb; by apply HP1.
    intros j r0 H0. rewrite Hdb.
    destruct (HP1 j r0 H0) as (r2 & Hr2 & Hst).
    destruct (decide (Rt.app_id app = j)) as [Hj|Hne].
    - exists (Rt.set_published (Rt.now e) r2).
      rewrite Hj, lookup_alter_eq, Hr2. split; [done|]. right.
      rewrite Hj, H0 in Hl. injection Hl as ->. by split.
    - exists r2. by rewrite lookup_alter_ne. }
  destruct (HP k r Hr) as (r' & Hr' & Hst). exists r'. split; [done|].
  destruct Hst as [->|[Ha Hp]]; [apply lifecycle_refl|].
  right. right. by split.
Qed.

(** ** Marking after the send in bot.py *)

(** [publish_to_channel] of bot.py alters the table only after a send
    that went through, and then by the one update that sets the status
    and the publication time of the row. *)
Lemma bot_publish_after_send (cfg : Bot.config) (e : Rt.env) (j : Z)
    (w : Bot.W) :
  let w' := snd (Bot.publish_to_channel cfg e j w) in
  Rt.db w' = Rt.db w
  \/ exists ch r,
       Rt.db w !! j = Some r
       /\ Rt.sent w'
          = Rt.sent w
            ++ [Rt.SendMessage ch (Bot.ChannelPost j (Rt.text r)) true]
       /\ Rt.db w' = alter (Rt.set_published (Rt.now e)) j (Rt.db w).
Proof.
  destruct (bot_publish_cases cfg e j w)
    as [[H _]|(ch & r & ok & Hr & Hs & [H|[-> H]])]; [by left | by left |].
  right. by exists ch, r.
Qed.

(** ** Strangers in bot.py *)

(** a callback of somebody who is not the moderator changes no row in
    bot.py; the answer to the query apart, all that is sent is the
    refusal, shown in place of the message the button was under *)
Lemma bot_refuses_strangers (cfg : Bot.config) (e : Rt.env)
    (upd : Rt.update) (w : Bot.W) :
  Bot.is_admin cfg (Rt.from_id upd) = false ->
  let w' := snd (Bot.admin_callback_handler cfg e upd w) in
  Rt.db w' = Rt.db w
  /\ (Rt.send_ok e (Rt.tick w) = true ->
      Rt.callback_data upd <> None -> Rt.query_message upd = true ->
      exists ok,
        Rt.sent w'
        = Rt.sent w ++ [Rt.AnswerQuery true; Rt.EditMessage Bot.NoRights ok]).
Proof.
  intros Hna. destruct w as [d n t s ud].
  unfold Bot.admin_callback_handler. rewrite Hna. run_bot. branch.
  all: split; [reflexivity|]; intros Hok Hcb Hq; try done.
  rewrite <- app_assoc. by eexists.
Qed.

(** * The claims about the pure functions *)

(** C6, as the claim states it, fails for main.py: its name validation
    accepts the three characters hyphen, а, б, which the rule of the
    claim refuses for the hyphen at the start. *)
Lemma C6_main_accepts_leading_hyphen :
  Main.validate_name (u "-аб") = true /\ ~ name_rule (u "-аб").
Proof.
  split; [vm_compute; reflexivity|].
  intros H. apply bot_validate_name_spec in H. vm_compute in H.
  discriminate H.
Qed.

(** C6, amended.  bot.py's name validation returns true iff the trimmed
    value has length 2-50, consists only of Russian letters, spaces and
    hyphens, does not start or end with a hyphen and contains no doubled
    hyphen.  main.py's name validation checks the length and the
    characters only: it returns true iff the trimmed value has length
    2-50 and consists only of Russian letters, spaces and hyphens,
    wherever the hyphens stand; so it accepts every name bot.py
    accepts. *)
Theorem C6_validate_name :
  (forall name, Bot.validate_name name = true <-> name_rule name)
  /\ (forall name, Main.validate_name name = true <-> plain_name_rule name)
  /\ (forall name,
        Bot.validate_name name = true -> Main.validate_name name = true).
Proof.
  split; [exact bot_validate_name_spec|].
  split; [exact main_validate_name_spec|].
  intros name H. apply main_validate_name_spec.
  apply bot_validate_name_spec in H as (Hlen & Hall & _). by split.
Qed.

(** C7, as the claim states it, fails for main.py with a word list read
    from the file bad_words.txt.  With the word "пишите" on the list,
    the censor turns "звоните 89991234567" into the contact notice and
    reports nothing; run on that notice, it finds the listed word in
    it, reports a violation and masks it. *)
Lemma C7_main_loaded_list_not_idempotent :
  let cfg := Main.Config None None [u "пишите"] in
  let once := Main.censor_text cfg (u "звоните 89991234567") in
  once = (u "Контактная информация скрыта (пишите в ЛС)", false)
  /\ Main.censor_text cfg (fst once)
     = (u "Контактная информация скрыта (*** в ЛС)", true).
Proof. split; vm_compute; reflexivity. Qed.

(** C7, amended: the censor, applied to a text it has already censored,
    returns that text unchanged with no violation reported, for every
    text: for bot.py, whose list is built in, and for main.py with the
    word list it has when there is no file bad_words.txt (the list
    [DEFAULT_BAD_WORDS]), whatever the other settings are.  Both censors
    are functions of the text and of the word list alone. *)
Theorem C7_censor_idempotent (t : str) :
  Bot.censor_text (fst (Bot.censor_text t))
  = (fst (Bot.censor_text t), false)
  /\ forall admin group,
      let cfg := Main.Config admin group Main.DEFAULT_BAD_WORDS in
      Main.censor_text cfg (fst (Main.censor_text cfg t))
      = (fst (Main.censor_text cfg t), false).
Proof.
  split.
  - unfold Bot.censor_text, Bot.load_bad_words.
    apply censor_pass_twice, bot_words_maskable.
  - intros admin group cfg. apply main_censor_twice.
    + exact main_words_maskable.
    + exact main_words_apart.
Qed.

(** C8, as the claim states it, fails for [main.py]: with its default
    word list the censor reports no violation on this input. *)
Lemma C8_main_reports_no_violation :
  snd (Main.censor_text (Main.Config None None Main.DEFAULT_BAD_WORDS)
         (u "звоните 89991234567"))
  <> true.
Proof. vm_compute. discriminate. Qed.

(** C8, amended: on the input "звоните 89991234567", [bot.py]'s censor
    reports a violation and returns "*** 89991234567", in which no word
    of its list is left; [main.py]'s censor with its default word list
    reports no violation and returns the contact notice in place of the
    whole phrase. *)
Theorem C8_censor_phone_call :
  Bot.censor_text (u "звоните 89991234567") = (u "*** 89991234567", true)
  /\ forallb (fun w => negb (Re.search Re.IGNORECASE w (u "*** 89991234567")))
       Bot.DEFAULT_BAD_WORDS = true
  /\ forall admin group,
      Main.censor_text (Main.Config admin group Main.DEFAULT_BAD_WORDS)
        (u "звоните 89991234567")
      = (Main.CONTACT_HIDDEN, false).
Proof.
  split; [vm_compute; reflexivity|].
  split; [vm_compute; reflexivity|].
  intros admin group. vm_compute. reflexivity.
Qed.

(** ** The claims about the table *)

Lemma keyed_rows (rows : list Rt.application) :
  keyed (list_to_map ((fun r => (Rt.app_id r, r)) <$> rows)).
Proof.
  induction rows as [|r0 rows IH]; intros k r.
  - by rewrite fmap_nil, list_to_map_nil, lookup_empty.
  - rewrite fmap_cons, list_to_map_cons. cbn [fst snd].
    intros [[<- <-]|[_ H]]%lookup_insert_Some; [done | by apply IH].
Qed.




(** C2: the moderation handler of main.py leaves the lifecycle.  A
    rejection of a published row sets its status to rejected (the
    publication time stays).  An approval of a rejected row sets its
    status to approved and, the row being due, publishes it at once: the
    row ends published and its broadcast is sent.  (In bot.py the
    handler acts on pending rows only: [bot_decision_lifecycle],
    [bot_cycle_lifecycle].) *)
Theorem C2_main_leaves_final_states :
  let rejected :=
    snd (Main.handle_admin_decision main_cfg fair (press 1 (u "reject_1"))
           (main_world [news_row 1 (u "published") (Some 5)])) in
  let approved :=
    snd (Main.handle_admin_decision main_cfg fair (press 1 (u "approve_1"))
           (main_world [news_row 1 (u "rejected") None])) in
  Rt.status <$> (Rt.db rejected !! 1) = Some (u "rejected")
  /\ Rt.status <$> (Rt.db approved !! 1) = Some (u "published")
  /\ count (main_posted 1) (Rt.sent approved) = 1%nat.
Proof. repeat split; vm_compute; reflexivity. Qed.

(** C3: the publish routine of main.py marks the row though the send
    failed.  With Telegram refusing every call, the row ends with the
    status published and a publication time; the log holds the failed
    send to the channel and the failed notification of the author.
    (In bot.py the row is marked only after a send that went through:
    [bot_publish_after_send].) *)
Theorem C3_main_marks_after_failed_send :
  let row := news_row 1 (u "approved") None in
  let w' := snd (Main.publish_application_to_channel main_cfg telegram_down
                   row (main_world [row])) in
  Rt.db w' !! 1 = Some (Rt.set_published 1000 row)
  /\ Rt.sent w'
     = [Rt.SendMessage (-100) (Main.ChannelPost row) false;
        Rt.SendMessage 700 (Main.UserPublished 1) false].
Proof. split; vm_compute; reflexivity. Qed.

(** C4: the moderation handler of main.py does not look at who pressed
    the button.  The moderator is user 1; the approval pressed by user
    999 sets the pending row to approved, and what is shown is the
    confirmation, not a refusal.  (bot.py refuses:
    [bot_refuses_strangers].) *)
Theorem C4_main_obeys_strangers :
  let row := sample_row 1 (u "news") (u "pending") None None in
  let w' := snd (Main.handle_admin_decision main_cfg fair
                   (press 999 (u "approve_1")) (main_world [row])) in
  Rt.db w' !! 1 = Some (Rt.set_status (u "approved") row)
  /\ Rt.sent w'
     = [Rt.AnswerQuery true;
        Rt.EditMessage (Main.Approved 1 (u "news")) true].
Proof. split; vm_compute; reflexivity. Qed.

(** * The conversation *)

Lemma get_str_insert (d : gmap string value) (k : string) (s : str) :
  get_str (<[k := VStr s]> d) k = Some s.
Proof. unfold get_str. by rewrite lookup_insert_eq. Qed.

Lemma get_str_insert_ne (d : gmap string value) (k k' : string) (v : value) :
  k' <> k -> get_str (<[k' := v]> d) k = get_str d k.
Proof. intros H. unfold get_str. by rewrite lookup_insert_ne. Qed.

Ltac ud_facts :=
  repeat first [ rewrite get_str_insert
               | rewrite get_str_insert_ne by discriminate ].

Lemma strip_truthy (t : str) :
  Py.truthy (Py.strip t) = true -> Py.truthy t = true.
Proof.
  destruct (Py.truthy t) eqn:E; [done|].
  rewrite (strip_nil_truthy t E). done.
Qed.

Lemma strip_falsy (t : str) :
  Py.truthy t = false -> Py.truthy (Py.strip t) = false.
Proof. intros E. by rewrite (strip_nil_truthy t E). Qed.

(** ** bot.py *)

(** an announcement or a news item that is accepted is censored at
    once; with a violation the masked text is kept and the user is
    asked *)
Lemma bot_announce_violation (cfg : Bot.config) (e : Rt.env) (actor : Z)
    (text rt masked : str) (w : Bot.W) :
  Py.truthy (Py.strip text) = true ->
  get_str (Rt.user_data w) "request_type" = Some rt ->
  (Py.len text <= Bot.max_len_of rt)%nat ->
  Bot.censor_text text = (masked, true) ->
  let r := Bot.process_announce_text cfg e (say actor text) w in
  fst r = Some WAIT_CENSOR_APPROVAL
  /\ get_str (Rt.user_data (snd r)) "censored_text" = Some masked
  /\ Rt.db (snd r) = Rt.db w.
Proof.
  intros Hs Hrt Hlen Hc. pose proof (strip_truthy _ Hs) as Ht.
  apply Nat.ltb_ge in Hlen.
  destruct w as [d n t s ud]. cbn [Rt.user_data] in Hrt.
  unfold Bot.process_announce_text, Bot.censor_and_confirm,
    Bot.safe_reply_text, Bot.safe_edit_message_text.
  walk ltac:(rewrite ?Hs, ?Ht, ?Hrt, ?Hlen, ?Hc; ud_facts).
  by ud_facts.
Qed.


(** [complete_request] ends the conversation, or leaves its state as it
    is when it raises *)
Lemma bot_complete_state (cfg : Bot.config) (e : Rt.env) (upd : Rt.update)
    (w : Bot.W) :
  fst (Bot.complete_request cfg e upd w) = Some END
  \/ fst (Bot.complete_request cfg e upd w) = None.
Proof.
  destruct w as [d n t s ud]. destruct upd as [a un fn cb qm mt].
  open_bot. walk idtac; auto.
Qed.


(** name the state [complete_request] returns *)
Ltac bot_completed :=
  try match goal with
      | |- context [Bot.complete_request ?c ?e ?x ?w] =>
          let H := fresh "Hdone" in
          destruct (bot_complete_state c e x w) as [H|H];
          destruct (Bot.complete_request c e x w) as [? ?];
          cbn [fst] in H; subst
      end.

(** the text input for announcements and news asks again exactly when
    the text is blank or longer than the limit of the type, counted with
    the blanks around it; nothing is kept of such a text *)
Lemma bot_announce_asks_again (cfg : Bot.config) (e : Rt.env) (actor : Z)
    (text rt : str) (w : Bot.W) :
  get_str (Rt.user_data w) "request_type" = Some rt ->
  let r := Bot.process_announce_text cfg e (say actor text) w in
  (fst r = Some ANNOUNCE_TEXT_INPUT
   <-> Py.truthy (Py.strip text) = false
       \/ (Bot.max_len_of rt < Py.len text)%nat)
  /\ (fst r = Some ANNOUNCE_TEXT_INPUT ->
      Rt.user_data (snd r) = Rt.user_data w /\ Rt.db (snd r) = Rt.db w).
Proof.
  intros Hrt. destruct w as [d n t s ud]. cbn [Rt.user_data] in Hrt.
  pose proof (strip_falsy text) as Hst.
  unfold Bot.process_announce_text, Bot.censor_and_confirm,
    Bot.safe_reply_text, Bot.safe_edit_message_text.
  walk ltac:(rewrite ?Hrt; ud_facts).
  all: bot_completed; settle idtac; arith_hyps.
  all: intuition (try discriminate; try lia; try congruence).
Qed.

(** the text input for a custom congratulation asks again exactly when
    the text is blank or longer than 500, counted with the blanks around
    it; a text that is accepted is kept as it was typed, and the censor
    is not run on it at this step *)
Lemma bot_congrat_asks_again (e : Rt.env) (actor : Z) (text : str)
    (w : Bot.W) :
  let r := Bot.process_custom_congrat_text e (say actor text) w in
  (fst r = Some CUSTOM_CONGRAT_MESSAGE_INPUT
   <-> Py.truthy (Py.strip text) = false
       \/ (MAX_CONGRAT_TEXT_LENGTH < Py.len text)%nat)
  /\ (fst r = Some CUSTOM_CONGRAT_MESSAGE_INPUT ->
      Rt.user_data (snd r) = Rt.user_data w /\ Rt.db (snd r) = Rt.db w)
  /\ (fst r <> Some CUSTOM_CONGRAT_MESSAGE_INPUT ->
      fst r = Some SENDER_NAME_INPUT
      /\ get_str (Rt.user_data (snd r)) "text" = Some text).
Proof.
  destruct w as [d n t s ud].
  pose proof (strip_falsy text) as Hst.
  open_bot. walk ud_facts.
  all: arith_hyps.
  all: intuition (try discriminate; try lia; try congruence).
Qed.

(** the text of a congratulation is censored when the date is entered;
    with a violation the masked text is kept and the user is asked *)
Lemma bot_date_violation (cfg : Bot.config) (e : Rt.env) (actor : Z)
    (date_str text masked : str) (publish_date : Dt.date) (w : Bot.W) :
  Dt.strptime_dmY 46 date_str = Some publish_date ->
  Dt.lt publish_date (Rt.today e) = false ->
  get_str (Rt.user_data w) "text" = Some text ->
  Bot.censor_text text = (masked, true) ->
  let r := Bot.process_congrat_date cfg e (say actor date_str) w in
  fst r = Some WAIT_CENSOR_APPROVAL
  /\ get_str (Rt.user_data (snd r)) "censored_text" = Some masked
  /\ Rt.db (snd r) = Rt.db w.
Proof.
  intros Hd Hlt Ht Hc. destruct w as [d n t s ud].
  cbn [Rt.user_data] in Ht.
  unfold Bot.process_congrat_date, Bot.censor_and_confirm,
    Bot.safe_reply_text, Bot.safe_edit_message_text.
  walk ltac:(rewrite ?Hd, ?Hlt, ?Ht, ?Hc; ud_facts).
  by ud_facts.
Qed.

(** in the approval state, the button that accepts the censored text
    puts the masked text in place of the text and goes on with
    [complete_request] *)
Lemma bot_approve_censor (cfg : Bot.config) (e : Rt.env) (actor : Z)
    (masked : str) (w : Bot.W) :
  Rt.send_ok e (Rt.tick w) = true ->
  get_str (Rt.user_data w) "censored_text" = Some masked ->
  Bot.handle_censor_approval cfg e (press actor (u "approve_censor")) w
  = Bot.complete_request cfg e (press actor (u "approve_censor"))
      (Rt.World (Rt.db w) (Rt.next_id w) (S (Rt.tick w))
         (Rt.sent w ++ [Rt.AnswerQuery true])
         (<["text" := VStr masked]> (Rt.user_data w))).
Proof.
  intros Hok Hc. destruct w as [d n t s ud].
  cbn [Rt.user_data Rt.tick] in Hok, Hc.
  unfold Bot.handle_censor_approval, Bot.answer.
  walk ltac:(rewrite ?Hok, ?Hc). reflexivity.
Qed.

(** in the approval state, the button that edits the text leads back to
    the text input of the type of the request *)
Lemma bot_edit_text (cfg : Bot.config) (e : Rt.env) (actor : Z)
    (rt : str) (w : Bot.W) :
  Rt.send_ok e (Rt.tick w) = true ->
  get_str (Rt.user_data w) "request_type" = Some rt ->
  let r := Bot.handle_censor_approval cfg e (press actor (u "edit_text")) w in
  fst r
  = Some (if Py.str_eqb rt (u "congrat") then CUSTOM_CONGRAT_MESSAGE_INPUT
          else if Py.str_eqb rt (u "announcement")
                  || Py.str_eqb rt (u "news") then ANNOUNCE_TEXT_INPUT
          else END)
  /\ Rt.user_data (snd r) = Rt.user_data w /\ Rt.db (snd r) = Rt.db w.
Proof.
  intros Hok Hrt. destruct w as [d n t s ud].
  cbn [Rt.user_data Rt.tick] in Hok, Hrt.
  unfold Bot.handle_censor_approval, Bot.answer,
    Bot.safe_edit_message_text.
  walk ltac:(rewrite ?Hok, ?Hrt); auto.
Qed.

(** ** main.py *)


(** [complete_request] always ends the conversation *)
Lemma main_complete_state (cfg : Main.config) (e : Rt.env)
    (upd : Rt.update) (w : Main.W) :
  fst (Main.complete_request cfg e upd w) = Some END.
Proof.
  destruct w as [d n t s ud]. destruct upd as [a un fn cb qm mt].
  unfold Main.complete_request, Main.add_application,
    Main.send_to_admin_for_moderation, Main.safe_send_message,
    Main.safe_reply_text, Main.safe_edit_message_text.
  walk idtac; try reflexivity.
  all: repeat match goal with
              | |- context [match ?x with VStr _ => _ | _ => _ end] =>
                  destruct x
              end.
  all: walk idtac; reflexivity.
Qed.

Ltac main_completed :=
  try match goal with
      | |- context [Main.complete_request ?c ?e ?x ?w] =>
          let H := fresh "Hdone" in
          pose proof (main_complete_state c e x w) as H;
          destruct (Main.complete_request c e x w) as [? ?];
          cbn [fst] in H; subst
      end.

(** the text input for announcements and news asks again exactly when
    the trimmed text is empty or longer than 300; nothing is kept of
    such a text.  A text that is accepted ends the conversation (the
    request is completed, or the censor reported a violation) or leads
    to the approval state. *)
Lemma main_announce_asks_again (cfg : Main.config) (e : Rt.env)
    (actor : Z) (text : str) (w : Main.W) :
  Py.startswith text (u "/start") = false ->
  let r := Main.process_announce_news_text cfg e (say actor text) w in
  (fst r = Some ANNOUNCE_TEXT_INPUT
   <-> Py.truthy (Py.strip text) = false
       \/ (MAX_ANNOUNCE_NEWS_TEXT_LENGTH < Py.len (Py.strip text))%nat)
  /\ (fst r = Some ANNOUNCE_TEXT_INPUT ->
      Rt.user_data (snd r) = Rt.user_data w /\ Rt.db (snd r) = Rt.db w)
  /\ (fst r <> Some ANNOUNCE_TEXT_INPUT ->
      fst r = Some END \/ fst r = Some WAIT_CENSOR_APPROVAL).
Proof.
  intros Hstart. destruct w as [d n t s ud].
  pose proof (strip_falsy text) as Hst.
  open_main. walk ltac:(rewrite ?Hstart; ud_facts).
  all: main_completed; settle idtac; arith_hyps.
  all: intuition (try discriminate; try lia; try congruence).
Qed.

(** the same for the text input of a custom congratulation, with the
    limit of 500 *)
Lemma main_congrat_asks_again (cfg : Main.config) (e : Rt.env)
    (actor : Z) (text : str) (w : Main.W) :
  Py.startswith text (u "/start") = false ->
  let r := Main.process_custom_congrat_message cfg e (say actor text) w in
  (fst r = Some CUSTOM_CONGRAT_MESSAGE_INPUT
   <-> Py.truthy (Py.strip text) = false
       \/ (MAX_CONGRAT_TEXT_LENGTH < Py.len (Py.strip text))%nat)
  /\ (fst r = Some CUSTOM_CONGRAT_MESSAGE_INPUT ->
      Rt.user_data (snd r) = Rt.user_data w /\ Rt.db (snd r) = Rt.db w)
  /\ (fst r <> Some CUSTOM_CONGRAT_MESSAGE_INPUT ->
      fst r = Some END \/ fst r = Some WAIT_CENSOR_APPROVAL
      \/ fst r = Some CONGRAT_DATE_INPUT).
Proof.
  intros Hstart. destruct w as [d n t s ud].
  pose proof (strip_falsy text) as Hst.
  open_main. walk ltac:(rewrite ?Hstart; ud_facts).
  all: arith_hyps.
  all: intuition (try discriminate; try lia; try congruence).
Qed.

(** a text that is accepted and in which the censor reports a violation
    ends the conversation at once; nothing is kept of it *)
Lemma main_announce_violation (cfg : Main.config) (e : Rt.env)
    (actor : Z) (text masked : str) (w : Main.W) :
  Py.startswith text (u "/start") = false ->
  Py.truthy (Py.strip text) = true ->
  (Py.len (Py.strip text) <= MAX_ANNOUNCE_NEWS_TEXT_LENGTH)%nat ->
  Main.censor_text cfg (Py.strip text) = (masked, true) ->
  let r := Main.process_announce_news_text cfg e (say actor text) w in
  fst r = Some END
  /\ Rt.user_data (snd r) = Rt.user_data w /\ Rt.db (snd r) = Rt.db w.
Proof.
  intros Hstart Hs Hlen Hc. pose proof (strip_truthy _ Hs) as Ht.
  apply Nat.ltb_ge in Hlen. destruct w as [d n t s ud].
  open_main. walk ltac:(rewrite ?Hstart, ?Hs, ?Ht, ?Hlen, ?Hc); auto.
Qed.

Lemma main_congrat_violation (cfg : Main.config) (e : Rt.env)
    (actor : Z) (text masked : str) (w : Main.W) :
  Py.startswith text (u "/start") = false ->
  Py.truthy (Py.strip text) = true ->
  (Py.len (Py.strip text) <= MAX_CONGRAT_TEXT_LENGTH)%nat ->
  Main.censor_text cfg (Py.strip text) = (masked, true) ->
  let r := Main.process_custom_congrat_message cfg e (say actor text) w in
  fst r = Some END
  /\ Rt.user_data (snd r) = Rt.user_data w /\ Rt.db (snd r) = Rt.db w.
Proof.
  intros Hstart Hs Hlen Hc. pose proof (strip_truthy _ Hs) as Ht.
  apply Nat.ltb_ge in Hlen. destruct w as [d n t s ud].
  open_main. walk ltac:(rewrite ?Hstart, ?Hs, ?Ht, ?Hlen, ?Hc); auto.
Qed.

(** a text that is accepted and that the filter changed without
    reporting a violation leads to the approval state; the filtered text
    is kept as the text *)
Lemma main_announce_filtered (cfg : Main.config) (e : Rt.env)
    (actor : Z) (text filtered : str) (w : Main.W) :
  Py.startswith text (u "/start") = false ->
  Py.truthy (Py.strip text) = true ->
  (Py.len (Py.strip text) <= MAX_ANNOUNCE_NEWS_TEXT_LENGTH)%nat ->
  Main.censor_text cfg (Py.strip text) = (filtered, false) ->
  filtered <> Py.strip text ->
  let r := Main.process_announce_news_text cfg e (say actor text) w in
  fst r = Some WAIT_CENSOR_APPROVAL
  /\ get_str (Rt.user_data (snd r)) "text" = Some filtered
  /\ Rt.db (snd r) = Rt.db w.
Proof.
  intros Hstart Hs Hlen Hc Hne. pose proof (strip_truthy _ Hs) as Ht.
  apply Nat.ltb_ge in Hlen. destruct w as [d n t s ud].
  assert (Heq : Py.str_eqb filtered (Py.strip text) = false)
    by (by apply bool_decide_eq_false).
  open_main.
  walk ltac:(rewrite ?Hstart, ?Hs, ?Ht, ?Hlen, ?Hc, ?Heq; ud_facts); auto.
Qed.

Lemma main_congrat_filtered (cfg : Main.config) (e : Rt.env)
    (actor : Z) (text filtered : str) (w : Main.W) :
  Py.startswith text (u "/start") = false ->
  Py.truthy (Py.strip text) = true ->
  (Py.len (Py.strip text) <= MAX_CONGRAT_TEXT_LENGTH)%nat ->
  Main.censor_text cfg (Py.strip text) = (filtered, false) ->
  filtered <> Py.strip text ->
  let r := Main.process_custom_congrat_message cfg e (say actor text) w in
  fst r = Some WAIT_CENSOR_APPROVAL
  /\ get_str (Rt.user_data (snd r)) "text" = Some filtered
  /\ Rt.db (snd r) = Rt.db w.
Proof.
  intros Hstart Hs Hlen Hc Hne. pose proof (strip_truthy _ Hs) as Ht.
  apply Nat.ltb_ge in Hlen. destruct w as [d n t s ud].
  assert (Heq : Py.str_eqb filtered (Py.strip text) = false)
    by (by apply bool_decide_eq_false).
  open_main.
  walk ltac:(rewrite ?Hstart, ?Hs, ?Ht, ?Hlen, ?Hc, ?Heq; ud_facts); auto.
Qed.

(** in the approval state, for an announcement or a news item: the
    button that accepts sets the date of publication to today and goes on
    with [complete_request], the text being the filtered one already;
    the button that edits leads back to the text input *)
Lemma main_censor_choice_announce (cfg : Main.config) (e : Rt.env)
    (actor : Z) (ty : str) (w : Main.W) :
  get_str (Rt.user_data w) "type" = Some ty ->
  ty = u "announcement" \/ ty = u "news" ->
  Main.handle_censor_choice cfg e (press actor (u "accept_censor")) w
  = Main.complete_request cfg e (press actor (u "accept_censor"))
      (Rt.World (Rt.db w) (Rt.next_id w) (S (Rt.tick w))
         (Rt.sent w ++ [Rt.AnswerQuery (Rt.send_ok e (Rt.tick w))])
         (<["publish_date" := VStr (Dt.strftime_Ymd (Rt.today e))]>
            (Rt.user_data w)))
  /\ fst (Main.handle_censor_choice cfg e (press actor (u "edit_censor")) w)
     = Some ANNOUNCE_TEXT_INPUT.
Proof.
  intros Hty Hcase. destruct w as [d n t s ud]. cbn [Rt.user_data] in Hty.
  destruct Hcase as [-> | ->].
  all: split; open_main; walk ltac:(rewrite ?Hty); reflexivity.
Qed.

(** in the approval state, for a custom congratulation: the button that
    accepts leads to the date input, the text being the filtered one
    already; the button that edits leads back to the text input *)
Lemma main_censor_choice_congrat (cfg : Main.config) (e : Rt.env)
    (actor : Z) (w : Main.W) :
  get_str (Rt.user_data w) "type" = Some (u "congrat") ->
  get_str (Rt.user_data w) "congrat_type" = Some (u "custom") ->
  let accept :=
    Main.handle_censor_choice cfg e (press actor (u "accept_censor")) w in
  let edit :=
    Main.handle_censor_choice cfg e (press actor (u "edit_censor")) w in
  (fst accept = Some CONGRAT_DATE_INPUT
   /\ Rt.user_data (snd accept) = Rt.user_data w)
  /\ fst edit = Some CUSTOM_CONGRAT_MESSAGE_INPUT.
Proof.
  intros Hty Hct. destruct w as [d n t s ud].
  cbn [Rt.user_data] in Hty, Hct.
  repeat split; open_main; walk ltac:(rewrite ?Hty, ?Hct); reflexivity.
Qed.

(** ** What becomes of a text that passes the checks *)

Lemma bot_announce_takes (cfg : Bot.config) (e : Rt.env) (actor : Z)
    (text rt : str) (w : Bot.W) :
  Py.truthy (Py.strip text) = true ->
  get_str (Rt.user_data w) "request_type" = Some rt ->
  (Py.len text <= Bot.max_len_of rt)%nat ->
  bot_takes cfg e actor text w
    (Bot.process_announce_text cfg e (say actor text) w).
Proof.
  intros Hs Hrt Hlen. pose proof (strip_truthy _ Hs) as Ht.
  apply Nat.ltb_ge in Hlen. unfold bot_takes.
  destruct (Bot.censor_text text) as [c b] eqn:Hc.
  destruct w as [d n t s ud]. cbn [Rt.user_data] in Hrt.
  unfold Bot.process_announce_text, Bot.censor_and_confirm,
    Bot.safe_reply_text, Bot.safe_edit_message_text.
  destruct b; walk ltac:(rewrite ?Hs, ?Ht, ?Hrt, ?Hlen, ?Hc; ud_facts).
  - by ud_facts.
  - reflexivity.
Qed.

Lemma bot_congrat_takes (e : Rt.env) (actor : Z) (text : str) (w : Bot.W) :
  Py.truthy (Py.strip text) = true ->
  (Py.len text <= MAX_CONGRAT_TEXT_LENGTH)%nat ->
  let r := Bot.process_custom_congrat_text e (say actor text) w in
  fst r = Some SENDER_NAME_INPUT
  /\ get_str (Rt.user_data (snd r)) "text" = Some text
  /\ Rt.db (snd r) = Rt.db w.
Proof.
  intros Hs Hlen. pose proof (strip_truthy _ Hs) as Ht.
  apply Nat.ltb_ge in Hlen. destruct w as [d n t s ud].
  open_bot. walk ltac:(rewrite ?Hs, ?Ht, ?Hlen; ud_facts); auto.
Qed.

Lemma main_announce_takes (cfg : Main.config) (e : Rt.env) (actor : Z)
    (text : str) (w : Main.W) :
  Py.startswith text (u "/start") = false ->
  Py.truthy (Py.strip text) = true ->
  (Py.len (Py.strip text) <= MAX_ANNOUNCE_NEWS_TEXT_LENGTH)%nat ->
  let r := Main.process_announce_news_text cfg e (say actor text) w in
  main_takes cfg text w r (fun kept =>
    r = Main.complete_request cfg e (say actor text)
          (Rt.World (Rt.db w) (Rt.next_id w) (Rt.tick w) (Rt.sent w)
             (<["publish_date" := VStr (Dt.strftime_Ymd (Rt.today e))]>
                kept))).
Proof.
  intros Hstart Hs Hlen. pose proof (strip_truthy _ Hs) as Ht.
  apply Nat.ltb_ge in Hlen. unfold main_takes, main_kept_text. cbv zeta.
  destruct (Main.censor_text cfg (Py.strip text)) as [c b] eqn:Hc.
  destruct w as [d n t s ud].
  destruct b.
  { open_main. walk ltac:(rewrite ?Hstart, ?Hs, ?Ht, ?Hlen, ?Hc); auto. }
  destruct (Py.str_eqb c (Py.strip text)) eqn:Heq.
  - pose proof Heq as Hceq. apply bool_decide_eq_true in Hceq. subst c.
    open_main.
    walk ltac:(rewrite ?Hstart, ?Hs, ?Ht, ?Hlen, ?Hc, ?Heq; ud_facts).
    reflexivity.
  - open_main.
    walk ltac:(rewrite ?Hstart, ?Hs, ?Ht, ?Hlen, ?Hc, ?Heq; ud_facts); auto.
Qed.

Lemma main_congrat_takes (cfg : Main.config) (e : Rt.env) (actor : Z)
    (text : str) (w : Main.W) :
  Py.startswith text (u "/start") = false ->
  Py.truthy (Py.strip text) = true ->
  (Py.len (Py.strip text) <= MAX_CONGRAT_TEXT_LENGTH)%nat ->
  let r := Main.process_custom_congrat_message cfg e (say actor text) w in
  main_takes cfg text w r (fun kept =>
    fst r = Some CONGRAT_DATE_INPUT
    /\ Rt.user_data (snd r) = kept /\ Rt.db (snd r) = Rt.db w).
Proof.
  intros Hstart Hs Hlen. pose proof (strip_truthy _ Hs) as Ht.
  apply Nat.ltb_ge in Hlen. unfold main_takes, main_kept_text. cbv zeta.
  destruct (Main.censor_text cfg (Py.strip text)) as [c b] eqn:Hc.
  destruct w as [d n t s ud].
  destruct b.
  { open_main. walk ltac:(rewrite ?Hstart, ?Hs, ?Ht, ?Hlen, ?Hc); auto. }
  destruct (Py.str_eqb c (Py.strip text)) eqn:Heq.
  - pose proof Heq as Hceq. apply bool_decide_eq_true in Hceq. subst c.
    open_main.
    walk ltac:(rewrite ?Hstart, ?Hs, ?Ht, ?Hlen, ?Hc, ?Heq; ud_facts); auto.
  - open_main.
    walk ltac:(rewrite ?Hstart, ?Hs, ?Ht, ?Hlen, ?Hc, ?Heq; ud_facts); auto.
Qed.

(** ** The choice of the New Year *)

Lemma bot_new_year_choice (e : Rt.env) (actor : Z) (w : Bot.W) :
  Rt.send_ok e (Rt.tick w) = true ->
  fst (Bot.select_congrat_holiday e (press actor (u "holiday_01-01")) w)
  = Some (if Bot.is_holiday_active (Rt.today e) (u "01-01")
          then SENDER_NAME_INPUT else CONGRAT_HOLIDAY_CHOICE).
Proof.
  intros Hok. destruct w as [d n t s ud]. cbn [Rt.tick] in Hok.
  assert (E : Py.replace (u "holiday_01-01") (u "holiday_") [] = u "01-01")
    by (vm_compute; reflexivity).
  unfold Bot.select_congrat_holiday, Bot.answer, Bot.safe_edit_message_text.
  walk ltac:(rewrite ?Hok, ?E); reflexivity.
Qed.

Lemma main_new_year_choice (cfg : Main.config) (e : Rt.env) (actor : Z)
    (w : Main.W) :
  Main.is_holiday_active (Rt.today e) (u "01-01") = false ->
  fst (Main.handle_congrat_holiday_choice cfg e
         (press actor (u "🎄 Новый год")) w)
  = Some CONGRAT_HOLIDAY_CHOICE.
Proof.
  intros Hoff. destruct w as [d n t s ud].
  assert (E : Py.dict_get (u "🎄 Новый год") HOLIDAYS = Some (u "01-01"))
    by (vm_compute; reflexivity).
  unfold Main.handle_congrat_holiday_choice, Main.answer,
    Main.safe_edit_message_text.
  walk ltac:(rewrite ?E, ?Hoff); reflexivity.
Qed.

(** ** The claims about the conversation *)

(** C5, as the claim states it, fails for main.py: the news item "вот
    сука" passes the checks of the text input, the censor reports a
    violation in it, and the conversation ends; the same for a custom
    congratulation. *)
Lemma C5_main_ends_the_session :
  snd (Main.censor_text main_cfg (u "вот сука")) = true
  /\ fst (Main.process_announce_news_text main_cfg fair
            (say 7 (u "вот сука")) (main_chat (u "news")))
     = Some END
  /\ fst (Main.process_custom_congrat_message main_cfg fair
            (say 7 (u "вот сука")) (main_chat (u "congrat")))
     = Some END.
Proof. repeat split; vm_compute; reflexivity. Qed.

(** C5, amended.  bot.py: an announcement or a news item that passes
    the checks is censored at once and a violation leads to the approval
    state; a custom congratulation is kept as typed and censored only
    when the date is accepted, where a violation leads to the approval
    state; in the approval state accepting completes the request with the
    masked text and editing leads back to the text input of the type.
    main.py: a text that passes the checks and in which the censor
    reports a violation ends the conversation; the approval state is
    entered when the filter changed the text without reporting a
    violation, and there accepting goes on with the filtered text and
    editing leads back to the text input. *)
Theorem C5_censor_after_text :
  bot_censors_announcement
  /\ bot_keeps_congratulation
  /\ bot_censors_congratulation_at_date
  /\ bot_approval_state
  /\ main_ends_on_violation
  /\ main_asks_after_filter
  /\ main_approval_state.
Proof.
  repeat apply conj.
  - intros cfg e actor text rt masked w. apply bot_announce_violation.
  - intros e actor text w Hs Hlen r.
    destruct (bot_congrat_asks_again e actor text w) as (Hiff & _ & Hacc).
    apply Hacc. intros H. apply Hiff in H as [H|H]; [congruence | lia].
  - intros cfg e actor date_str text masked publish_date w.
    apply bot_date_violation.
  - intros cfg e actor w Hok. split.
    + intros masked. by apply bot_approve_censor.
    + intros rt Hrt. by apply bot_edit_text.
  - intros cfg e actor text masked w Hstart Hs Hc. split; intros Hlen.
    + by apply (main_announce_violation cfg e actor text masked).
    + by apply (main_congrat_violation cfg e actor text masked).
  - intros cfg e actor text filtered w Hstart Hs Hc Hne. split; intros Hlen.
    + by apply main_announce_filtered.
    + by apply main_congrat_filtered.
  - intros cfg e actor w. split.
    + intros ty. apply main_censor_choice_announce.
    + intros Hty Hct.
      destruct (main_censor_choice_congrat cfg e actor w Hty Hct)
        as [[Ha _] He].
      by split.
Qed.

(** C5 on the news item "вот сука": bot.py goes to the approval state
    with the masked text "вот ***", main.py ends the conversation; and on
    the news item "звоните 89991234567" main.py goes to the approval
    state with the contact notice as the text. *)
Lemma C5_censor_after_text_witness :
  (let r := Bot.process_announce_text bot_cfg fair (say 7 (u "вот сука"))
              (bot_chat (u "news")) in
   fst r = Some WAIT_CENSOR_APPROVAL
   /\ get_str (Rt.user_data (snd r)) "censored_text" = Some (u "вот ***")
   /\ Rt.db (snd r) = Rt.db (bot_chat (u "news")))
  /\ (let r := Main.process_announce_news_text main_cfg fair
                 (say 7 (u "вот сука")) (main_chat (u "news")) in
      fst r = Some END
      /\ Rt.user_data (snd r) = Rt.user_data (main_chat (u "news"))
      /\ Rt.db (snd r) = Rt.db (main_chat (u "news")))
  /\ (let r := Main.process_announce_news_text main_cfg fair
                 (say 7 (u "звоните 89991234567")) (main_chat (u "news")) in
      fst r = Some WAIT_CENSOR_APPROVAL
      /\ get_str (Rt.user_data (snd r)) "text" = Some Main.CONTACT_HIDDEN
      /\ Rt.db (snd r) = Rt.db (main_chat (u "news"))).
Proof.
  destruct C5_censor_after_text as (Hb & _ & _ & _ & Hm & Hf & _).
  split; [|split].
  - assert (H1 : Py.truthy (Py.strip (u "вот сука")) = true)
      by (vm_compute; reflexivity).
    assert (H2 : get_str (Rt.user_data (bot_chat (u "news"))) "request_type"
                 = Some (u "news")) by (vm_compute; reflexivity).
    assert (H3 : (Py.len (u "вот сука") <= Bot.max_len_of (u "news"))%nat)
      by (vm_compute; lia).
    assert (H4 : Bot.censor_text (u "вот сука") = (u "вот ***", true))
      by (vm_compute; reflexivity).
    exact (Hb bot_cfg fair 7 _ _ _ _ H1 H2 H3 H4).
  - assert (H1 : Py.startswith (u "вот сука") (u "/start") = false)
      by (vm_compute; reflexivity).
    assert (H2 : Py.truthy (Py.strip (u "вот сука")) = true)
      by (vm_compute; reflexivity).
    assert (H3 : Main.censor_text main_cfg (Py.strip (u "вот сука"))
                 = (u "вот ***", true)) by (vm_compute; reflexivity).
    assert (H4 : (Py.len (Py.strip (u "вот сука"))
                  <= MAX_ANNOUNCE_NEWS_TEXT_LENGTH)%nat)
      by (vm_compute; lia).
    exact (proj1 (Hm main_cfg fair 7 _ _ (main_chat (u "news")) H1 H2 H3) H4).
  - assert (H1 : Py.startswith (u "звоните 89991234567") (u "/start") = false)
      by (vm_compute; reflexivity).
    assert (H2 : Py.truthy (Py.strip (u "звоните 89991234567")) = true)
      by (vm_compute; reflexivity).
    assert (H3 : Main.censor_text main_cfg
                   (Py.strip (u "звоните 89991234567"))
                 = (Main.CONTACT_HIDDEN, false))
      by (vm_compute; reflexivity).
    assert (H4 : Main.CONTACT_HIDDEN <> Py.strip (u "звоните 89991234567"))
      by (vm_compute; discriminate).
    assert (H5 : (Py.len (Py.strip (u "звоните 89991234567"))
                  <= MAX_ANNOUNCE_NEWS_TEXT_LENGTH)%nat)
      by (vm_compute; lia).
    exact (proj1 (Hf main_cfg fair 7 _ _ (main_chat (u "news")) H1 H2 H3 H4)
             H5).
Defined.

(** C9, as the claim states it, fails for bot.py: an announcement of
    301 letters is taken (the request is stored and the conversation
    ends), and a news item of 300 letters followed by a blank is refused
    though its trimmed length is 300. *)
Lemma C9_bot_other_limits :
  (let r := Bot.process_announce_text bot_cfg fair
              (say 7 (letters 301)) (bot_chat (u "announcement")) in
   fst r = Some END
   /\ Rt.text <$> (Rt.db (snd r) !! 100) = Some (letters 301))
  /\ (let text := letters 300 ++ [SPACE] in
      Py.len (Py.strip text) = 300%nat
      /\ fst (Bot.process_announce_text bot_cfg fair (say 7 text)
                (bot_chat (u "news")))
         = Some ANNOUNCE_TEXT_INPUT).
Proof. repeat split; vm_compute; reflexivity. Qed.

(** C9, amended.  A text is refused, and asked for again in the same
    state with nothing kept, exactly when it is blank or too long; any
    other text is taken.  In bot.py the length is that of the text as
    typed and the limit is 300 for news and 500 for announcements and
    custom congratulations; an announcement or a news item that is taken
    is kept as typed and censored (a listed word leads to the approval
    state with the masked text kept, otherwise the request is completed
    with the text), a custom congratulation is kept as typed and the
    name of the sender is asked for.  In main.py the length is that of
    the trimmed text and the limit is 300 for announcements and news
    and 500 for custom congratulations (a text that starts with /start
    restarts the conversation instead); a text that is taken goes
    through the filter: a listed word ends the conversation and nothing
    is kept, a text the filter changed otherwise is kept as filtered
    and leads to the approval state, and a text the filter left as it
    is is kept, and the request is completed (announcement, news) or
    the date is asked for (custom congratulation).  main.py stores no
    request whose text is longer than 4000. *)
Theorem C9_text_limits :
  bot_text_limits /\ main_text_limits /\ main_storage_ceiling.
Proof.
  repeat apply conj.
  - intros cfg e actor text w. split.
    + intros rt Hrt r.
      destruct (bot_announce_asks_again cfg e actor text rt w Hrt)
        as [Hiff Hsame].
      split.
      * intros H. apply Hiff in H. split; [exact H | by apply Hsame].
      * intros [Hs Hlen]. split.
        -- intros H. apply Hiff in H as [H|H]; [congruence | lia].
        -- subst r.
           exact (bot_announce_takes cfg e actor text rt w Hs Hrt Hlen).
    + intros r.
      destruct (bot_congrat_asks_again e actor text w)
        as (Hiff & Hsame & Hacc).
      split.
      * intros H. apply Hiff in H. split; [exact H | by apply Hsame].
      * intros [Hs Hlen]. subst r.
        exact (bot_congrat_takes e actor text w Hs Hlen).
  - intros cfg e actor text w Hstart. split.
    + intros r.
      destruct (main_announce_asks_again cfg e actor text w Hstart)
        as (Hiff & Hsame & Hacc).
      split.
      * intros H. apply Hiff in H. split; [exact H | by apply Hsame].
      * intros [Hs Hlen]. split.
        -- apply Hacc. intros H.
           apply Hiff in H as [H|H]; [congruence | lia].
        -- subst r.
           exact (main_announce_takes cfg e actor text w Hstart Hs Hlen).
    + intros r.
      destruct (main_congrat_asks_again cfg e actor text w Hstart)
        as (Hiff & Hsame & Hacc).
      split.
      * intros H. apply Hiff in H. split; [exact H | by apply Hsame].
      * intros [Hs Hlen]. split.
        -- apply Hacc. intros H.
           apply Hiff in H as [H|H]; [congruence | lia].
        -- subst r.
           exact (main_congrat_takes cfg e actor text w Hstart Hs Hlen).
  - intros e data w Hlen. unfold Main.add_application, Main.insertable.
    apply Nat.leb_gt in Hlen. rewrite Hlen, !andb_false_r. reflexivity.
Qed.

(** C9 on texts of 301 letters: bot.py refuses the news item, main.py
    refuses the announcement; on the news item "привет", which both
    take: bot.py and main.py complete the request with the text; and
    main.py does not store a text of 4001 letters. *)
Lemma C9_text_limits_witness :
  asks_again ANNOUNCE_TEXT_INPUT (bot_chat (u "news"))
    (Bot.process_announce_text bot_cfg fair (say 7 (letters 301))
       (bot_chat (u "news")))
  /\ asks_again ANNOUNCE_TEXT_INPUT (main_chat (u "announcement"))
       (Main.process_announce_news_text main_cfg fair
          (say 7 (letters 301)) (main_chat (u "announcement")))
  /\ bot_takes bot_cfg fair 7 (u "привет") (bot_chat (u "news"))
       (Bot.process_announce_text bot_cfg fair (say 7 (u "привет"))
          (bot_chat (u "news")))
  /\ (let w := main_chat (u "news") in
      let r := Main.process_announce_news_text main_cfg fair
                 (say 7 (u "привет")) w in
      main_takes main_cfg (u "привет") w r (fun kept =>
        r = Main.complete_request main_cfg fair (say 7 (u "привет"))
              (Rt.World (Rt.db w) (Rt.next_id w) (Rt.tick w) (Rt.sent w)
                 (<["publish_date"
                    := VStr (Dt.strftime_Ymd (Rt.today fair))]> kept))))
  /\ (let data := Rt.AppData 7 None (u "news") None None None
                    (letters 4001) None None in
      Main.add_application fair data (main_chat (u "news"))
      = (None, main_chat (u "news"))).
Proof.
  destruct C9_text_limits as (Hb & Hm & Hs).
  assert (B1 : get_str (Rt.user_data (bot_chat (u "news"))) "request_type"
               = Some (u "news")) by (vm_compute; reflexivity).
  assert (T1 : Py.truthy (Py.strip (u "привет")) = true)
    by (vm_compute; reflexivity).
  assert (S1 : Py.startswith (u "привет") (u "/start") = false)
    by (vm_compute; reflexivity).
  split; [|split; [|split; [|split]]].
  - assert (H2 : (Bot.max_len_of (u "news") < Py.len (letters 301))%nat)
      by (vm_compute; lia).
    exact (proj1 (proj1 (Hb bot_cfg fair 7 _ (bot_chat (u "news"))) _ B1)
             (or_intror H2)).
  - assert (H1 : Py.startswith (letters 301) (u "/start") = false)
      by (vm_compute; reflexivity).
    assert (H2 : (MAX_ANNOUNCE_NEWS_TEXT_LENGTH
                  < Py.len (Py.strip (letters 301)))%nat)
      by (vm_compute; lia).
    exact (proj1 (proj1 (Hm main_cfg fair 7 _ (main_chat (u "announcement"))
                           H1))
             (or_intror H2)).
  - assert (H2 : (Py.len (u "привет") <= Bot.max_len_of (u "news"))%nat)
      by (vm_compute; lia).
    exact (proj2 (proj2 (proj1 (Hb bot_cfg fair 7 _ (bot_chat (u "news")))
                           _ B1)
                    (conj T1 H2))).
  - assert (H2 : (Py.len (Py.strip (u "привет"))
                  <= MAX_ANNOUNCE_NEWS_TEXT_LENGTH)%nat)
      by (vm_compute; lia).
    exact (proj2 (proj2 (proj1 (Hm main_cfg fair 7 _ (main_chat (u "news"))
                                  S1))
                    (conj T1 H2))).
  - apply Hs. vm_compute. lia.
Defined.

(** C10: on every day [today] of a year of four digits, both programs
    take the holiday of 01-01 as active exactly on the first six days of
    January, and on every other day the choice of the New Year asks for
    the holiday again.  The days from 27 to 31 December, which the
    window of the claim contains, are among these other days: the window
    is computed around the first of January of the current year. *)
Theorem C10_new_year_window (cfg : Main.config) (e : Rt.env) (actor : Z)
    (wb : Bot.W) (wm : Main.W) :
  Dt.valid (Rt.today e) = true -> 1000 <= Dt.year (Rt.today e) ->
  let january := Dt.month (Rt.today e) = 1 /\ Dt.day (Rt.today e) <= 6 in
  (Bot.is_holiday_active (Rt.today e) (u "01-01") = true <-> january)
  /\ (Main.is_holiday_active (Rt.today e) (u "01-01") = true <-> january)
  /\ (~ january ->
      Rt.send_ok e (Rt.tick wb) = true ->
      fst (Bot.select_congrat_holiday e (press actor (u "holiday_01-01")) wb)
      = Some CONGRAT_HOLIDAY_CHOICE)
  /\ (~ january ->
      fst (Main.handle_congrat_holiday_choice cfg e
             (press actor (u "🎄 Новый год")) wm)
      = Some CONGRAT_HOLIDAY_CHOICE).
Proof.
  intros Hv Hy january.
  pose proof (new_year_active_iff (Rt.today e) Hv Hy) as Hb.
  assert (Hm : Main.is_holiday_active (Rt.today e) (u "01-01") = true
               <-> january).
  { by rewrite (main_is_holiday_active_eq (Rt.today e) (u "01-01")). }
  split; [exact Hb|]. split; [exact Hm|]. split.
  - intros Hn Hok. rewrite (bot_new_year_choice e actor wb Hok).
    destruct (Bot.is_holiday_active (Rt.today e) (u "01-01")); [|done].
    destruct Hn. by apply Hb.
  - intros Hn. apply main_new_year_choice.
    destruct (Main.is_holiday_active (Rt.today e) (u "01-01")); [|done].
    destruct Hn. by apply Hm.
Qed.

(** C10 on 28 December 2025: the New Year is not active in either
    program, and choosing it asks for the holiday again. *)
Lemma C10_new_year_window_witness :
  let e := on_day (Dt.Date 2025 12 28) in
  Bot.is_holiday_active (Rt.today e) (u "01-01") = false
  /\ Main.is_holiday_active (Rt.today e) (u "01-01") = false
  /\ fst (Bot.select_congrat_holiday e (press 7 (u "holiday_01-01"))
            (bot_chat (u "congrat")))
     = Some CONGRAT_HOLIDAY_CHOICE
  /\ fst (Main.handle_congrat_holiday_choice main_cfg e
            (press 7 (u "🎄 Новый год")) (main_chat (u "congrat")))
     = Some CONGRAT_HOLIDAY_CHOICE.
Proof.
  intros e.
  assert (Hv : Dt.valid (Rt.today e) = true) by reflexivity.
  assert (Hy : 1000 <= Dt.year (Rt.today e)) by (simpl; lia).
  assert (Hn : ~ (Dt.month (Rt.today e) = 1 /\ Dt.day (Rt.today e) <= 6))
    by (simpl; lia).
  assert (Hok : Rt.send_ok e (Rt.tick (bot_chat (u "congrat"))) = true)
    by reflexivity.
  destruct (C10_new_year_window main_cfg e 7 (bot_chat (u "congrat"))
              (main_chat (u "congrat")) Hv Hy) as (Hb & Hm & Hsb & Hsm).
  split; [|split; [|split]].
  - apply not_true_is_false. intros H. by apply Hn, Hb.
  - apply not_true_is_false. intros H. by apply Hn, Hm.
  - exact (Hsb Hn Hok).
  - exact (Hsm Hn).
Defined.

(** * Further properties *)

(** ** The censor *)

Lemma censor_pass_flagged (ws : list str) (t : str) :
  snd (fold_left Bot.censor_step ws (t, true)) = true.
Proof.
  revert t. induction ws as [|w ws IH]; intros t; [done|].
  cbn [fold_left]. unfold Bot.censor_step at 2.
  destruct (Re.search _ _ _); apply IH.
Qed.

Lemma censor_pass_flag (ws : list str) (t : str) :
  snd (fold_left Bot.censor_step ws (t, false)) = occurs ws t.
Proof.
  induction ws as [|w ws IH]; [done|].
  cbn [fold_left occurs existsb]. unfold Bot.censor_step at 2.
  unfold Re.escape.
  destruct (Re.search Re.IGNORECASE w t); [apply censor_pass_flagged|].
  exact IH.
Qed.

Lemma occurs_false (ws : list str) (t : str) :
  occurs ws t = false ->
  forall w, In w ws -> Re.search Re.IGNORECASE w t = false.
Proof.
  unfold occurs. intros H w Hw. apply not_true_is_false. intros Hs.
  assert (existsb (fun w => Re.search Re.IGNORECASE w t) ws = true)
    by (apply existsb_exists; by exists w).
  congruence.
Qed.

Lemma occurs_false_intro (ws : list str) (t : str) :
  (forall w, In w ws -> Re.search Re.IGNORECASE w t = false) ->
  occurs ws t = false.
Proof.
  intros H. apply not_true_is_false. intros Ho.
  apply existsb_exists in Ho as (w & Hw & Hs). rewrite (H w Hw) in Hs.
  discriminate.
Qed.

(** X1: the censor reports a violation exactly when one of the listed
    words occurs in the text as it was given, case ignored: in bot.py
    with its built-in list, in main.py with every word list written in
    Basic Latin and basic Cyrillic characters, as both built-in lists
    are (the contact pattern never raises the flag). *)
Theorem censor_reports_listed_words (cfg : Main.config) (t : str) :
  covered_words Bot.DEFAULT_BAD_WORDS = true
  /\ covered_words Main.DEFAULT_BAD_WORDS = true
  /\ snd (Bot.censor_text t) = occurs Bot.DEFAULT_BAD_WORDS t
  /\ (covered_words (Main.BAD_WORDS_LIST cfg) = true ->
      snd (Main.censor_text cfg t) = occurs (Main.BAD_WORDS_LIST cfg) t).
Proof.
  split; [vm_compute; reflexivity|]. split; [vm_compute; reflexivity|].
  split.
  - unfold Bot.censor_text, Bot.load_bad_words.
    apply censor_pass_flag.
  - intros _. unfold Main.censor_text.
    rewrite main_fold_censor_eq.
    rewrite <- (censor_pass_flag (Main.BAD_WORDS_LIST cfg) t).
    by destruct (fold_left _ _ _).
Qed.

(** X1 on the text "Купи SPAM, звоните 89991234567" with the word list
    "пишите", "spam" read from the file: the violation is reported for
    the word in capitals, not for the contact. *)
Lemma censor_reports_listed_words_witness :
  let cfg := Main.Config None None [u "пишите"; u "spam"] in
  let t := u "Купи SPAM, звоните 89991234567" in
  snd (Main.censor_text cfg t) = occurs (Main.BAD_WORDS_LIST cfg) t
  /\ occurs (Main.BAD_WORDS_LIST cfg) t = true.
Proof.
  intros cfg t. split; [|vm_compute; reflexivity].
  apply (proj2 (proj2 (proj2 (censor_reports_listed_words cfg t)))).
  vm_compute. reflexivity.
Defined.

(** X2: a text in which no listed word occurs comes back from bot.py's
    censor as it was given; from main.py's censor, with every word list
    written in Basic Latin and basic Cyrillic characters, it comes back
    with the contact details replaced and nothing else changed. *)
Theorem censor_keeps_clean_text (cfg : Main.config) (t : str) :
  (occurs Bot.DEFAULT_BAD_WORDS t = false ->
   Bot.censor_text t = (t, false))
  /\ (covered_words (Main.BAD_WORDS_LIST cfg) = true ->
      occurs (Main.BAD_WORDS_LIST cfg) t = false ->
      Main.censor_text cfg t = (Main.contact_sub t, false)).
Proof.
  split.
  - intros H. unfold Bot.censor_text, Bot.load_bad_words.
    apply censor_pass_id. by apply occurs_false.
  - intros _ H. unfold Main.censor_text. rewrite main_fold_censor_eq.
    rewrite censor_pass_id; [done|]. by apply occurs_false.
Qed.

(** X2 on two texts without a listed word: bot.py returns "привет" as
    it is, and main.py returns "привет, звоните 89991234567" with the
    contact hidden and no violation reported ("звоните" is on the list
    of bot.py only). *)
Lemma censor_keeps_clean_text_witness :
  Bot.censor_text (u "привет") = (u "привет", false)
  /\ Main.censor_text main_cfg (u "привет, звоните 89991234567")
     = (Main.contact_sub (u "привет, звоните 89991234567"), false).
Proof.
  split.
  - apply (proj1 (censor_keeps_clean_text main_cfg (u "привет"))).
    vm_compute. reflexivity.
  - apply (proj2 (censor_keeps_clean_text main_cfg
                    (u "привет, звоните 89991234567"))).
    + vm_compute. reflexivity.
    + vm_compute. reflexivity.
Defined.

(** what the censor of bot.py returns holds no listed word *)
Lemma bot_censored_clean (t : str) :
  occurs Bot.DEFAULT_BAD_WORDS (fst (Bot.censor_text t)) = false.
Proof.
  apply occurs_false_intro. intros w Hw.
  unfold Bot.censor_text, Bot.load_bad_words.
  apply (censor_pass_clean Bot.DEFAULT_BAD_WORDS [] t false);
    [exact bot_words_maskable | intros w' [] | done].
Qed.

(** what the censor of main.py returns, with the default list, holds no
    listed word and nothing that the contact pattern matches *)
Lemma main_censored_clean (admin group : option Z) (t : str) :
  let cfg := Main.Config admin group Main.DEFAULT_BAD_WORDS in
  occurs Main.DEFAULT_BAD_WORDS (fst (Main.censor_text cfg t)) = false
  /\ contact_search (fst (Main.censor_text cfg t)) = false.
Proof.
  intros cfg. unfold Main.censor_text.
  rewrite main_fold_censor_eq. subst cfg. cbn [Main.BAD_WORDS_LIST].
  destruct (fold_left Bot.censor_step Main.DEFAULT_BAD_WORDS (t, false))
    as [t1 b1] eqn:E1.
  cbn [fst]. unfold Main.contact_sub. split.
  - apply occurs_false_intro. intros w Hw.
    apply not_true_is_false. intros H.
    pose proof main_words_apart as Hap. rewrite forallb_forall in Hap.
    apply (search_contact_sub _ eq_refl w (Hap w Hw)) in H.
    rewrite drop_0 in H.
    pose proof (censor_pass_clean Main.DEFAULT_BAD_WORDS [] t false
                  main_words_maskable (fun _ F => match F with end) w Hw)
      as Hc.
    rewrite E1 in Hc. cbn [fst] in Hc. congruence.
  - exact (contact_search_sub _ _ eq_refl notice_head notice_inside
             t1 0%nat).
Qed.

(** X3: no listed word is left in a text that went through the censor:
    for bot.py, and for main.py with its default list, where the contact
    pattern matches nowhere in the result either. *)
Theorem censored_text_is_clean (t : str) :
  occurs Bot.DEFAULT_BAD_WORDS (fst (Bot.censor_text t)) = false
  /\ forall admin group,
       let cfg := Main.Config admin group Main.DEFAULT_BAD_WORDS in
       occurs Main.DEFAULT_BAD_WORDS (fst (Main.censor_text cfg t)) = false
       /\ contact_search (fst (Main.censor_text cfg t)) = false.
Proof.
  split; [apply bot_censored_clean|].
  intros admin group. apply main_censored_clean.
Qed.

Lemma match_at_length (flags : Z -> Z -> bool) (p s : str) :
  Re.match_at flags p s = true -> (List.length p <= List.length s)%nat.
Proof.
  revert s. induction p as [|x p IH]; intros s; [cbn; lia|].
  destruct s as [|c s]; [discriminate|].
  cbn [Re.match_at List.length]. intros [_ H]%andb_true_iff.
  apply IH in H. lia.
Qed.

(** replacing a word by a text that is not longer does not lengthen *)
Lemma sub_from_length (flags : Z -> Z -> bool) (p repl : str) :
  (List.length repl <= List.length p)%nat -> p <> [] ->
  forall s skip,
    (List.length (Re.sub_from flags p repl skip s)
     + Nat.min skip (List.length s) <= List.length s)%nat.
Proof.
  intros Hlen Hp. induction s as [|c s IH]; intros skip.
  - destruct skip; cbn [Re.sub_from List.length].
    + destruct p; [done|]. cbn. lia.
    + lia.
  - destruct skip as [|k]; cbn [Re.sub_from].
    + destruct (Re.match_at flags p (c :: s)) eqn:Hm.
      * apply match_at_length in Hm. cbn [List.length] in Hm.
        destruct (List.length p) as [|n] eqn:Hn.
        { destruct p; [done | discriminate]. }
        rewrite length_app. specialize (IH n). cbn [List.length]. lia.
      * specialize (IH 0%nat). cbn [List.length]. lia.
    + specialize (IH k). cbn [List.length]. lia.
Qed.

Lemma censor_pass_length (ws : list str) (t : str) (b : bool) :
  forallb (fun w => (List.length MASK <=? List.length w)%nat) ws = true ->
  (List.length MASK > 0)%nat ->
  (List.length (fst (fold_left Bot.censor_step ws (t, b)))
   <= List.length t)%nat.
Proof.
  intros Hws Hm. revert t b.
  induction ws as [|w ws IH]; intros t b; [cbn; lia|].
  cbn [forallb] in Hws. apply andb_true_iff in Hws as [Hw Hws].
  apply Nat.leb_le in Hw.
  cbn [fold_left]. unfold Bot.censor_step at 2. unfold Re.escape.
  destruct (Re.search Re.IGNORECASE w t).
  - etransitivity; [apply IH, Hws|].
    unfold Re.sub.
    assert (Hne : w <> []) by (intros ->; cbn [List.length] in Hw; lia).
    pose proof (sub_from_length Re.IGNORECASE w MASK Hw Hne t 0%nat). lia.
  - apply IH, Hws.
Qed.

(** X4: bot.py's censor never lengthens a text: every word of its list
    has at least the three characters of the mask.  A text that was
    within a length limit is still within it after masking. *)
Theorem bot_censor_never_lengthens (t : str) :
  (Py.len (fst (Bot.censor_text t)) <= Py.len t)%nat.
Proof.
  unfold Bot.censor_text, Bot.load_bad_words, Py.len.
  apply censor_pass_length; [vm_compute; reflexivity | vm_compute; lia].
Qed.

(** ** Dates *)

Lemma split_at_app (sep : Z) (a b : str) :
  Forall (fun c => c <> sep) a ->
  Dt.split_at sep (a ++ sep :: b) = Some (a, b).
Proof.
  induction 1 as [|c a Hc _ IH]; cbn [app Dt.split_at].
  - by rewrite Z.eqb_refl.
  - apply Z.eqb_neq in Hc. by rewrite Hc, IH.
Qed.

Lemma digits_value_digit (acc d : Z) (s : str) :
  0 <= d <= 9 ->
  Py.digits_value acc (48 + d :: s) = Py.digits_value (acc * 10 + d) s.
Proof.
  intros Hd. cbn [Py.digits_value]. unfold Py.is_digit.
  replace (48 <=? 48 + d) with true by (symmetry; apply Z.leb_le; lia).
  replace (48 + d <=? 57) with true by (symmetry; apply Z.leb_le; lia).
  cbn [andb]. by replace (48 + d - 48) with d by lia.
Qed.

(** a decimal digit has a value from 0 to 9 *)
Lemma decimal_value_range (c v : Z) :
  Re.decimal_value c = Some v -> 0 <= v <= 9 /\ Re.is_decimal c = true.
Proof.
  unfold Re.decimal_value, Re.is_decimal, Re.in_ranges.
  destruct (find _ _) as [z|] eqn:E; [|done]. intros [= <-].
  apply find_some in E as [Hin [H1 H2]%andb_true_iff].
  split; [lia|]. apply existsb_exists. exists (z, z + 9).
  split; [|cbn [fst snd]; by rewrite H1, H2].
  apply in_map_iff. by exists z.
Qed.

(** the ASCII digits are decimal digits, with their value *)
Lemma decimal_value_digit (d : Z) :
  0 <= d <= 9 -> Re.decimal_value (48 + d) = Some d.
Proof.
  intros Hd. unfold Re.decimal_value, Re.decimal_zeros. cbn [find].
  replace (48 <=? 48 + d) with true by (symmetry; apply Z.leb_le; lia).
  replace (48 + d <=? 48 + 9) with true by (symmetry; apply Z.leb_le; lia).
  cbn [andb]. f_equal. lia.
Qed.

Lemma decimals_value_digit (acc d : Z) (s : str) :
  0 <= d <= 9 ->
  Py.decimals_value acc (48 + d :: s) = Py.decimals_value (acc * 10 + d) s.
Proof.
  intros Hd. cbn [Py.decimals_value]. by rewrite decimal_value_digit.
Qed.

Lemma field_year_pad4 (y : Z) :
  0 <= y <= 9999 -> Dt.field_year (Dt.pad4 y) = Some y.
Proof.
  intros Hy. unfold Dt.field_year, Dt.pad4.
  rewrite !decimals_value_digit by zdiv. cbn [Py.decimals_value].
  f_equal. zdiv.
Qed.

Lemma field12_pad2 (hi n : Z) :
  1 <= n <= hi -> hi <= 99 -> Dt.field12 hi (Dt.pad2 n) = Some n.
Proof.
  intros Hn Hhi. unfold Dt.field12, Dt.pad2.
  rewrite !digits_value_digit by zdiv. cbn [Py.digits_value].
  replace ((0 * 10 + n / 10) * 10 + n mod 10) with n by zdiv.
  replace (1 <=? n) with true by (symmetry; apply Z.leb_le; lia).
  by replace (n <=? hi) with true by (symmetry; apply Z.leb_le; lia).
Qed.

Lemma field_day_pad2 (n : Z) :
  1 <= n <= 31 -> Dt.field_day (Dt.pad2 n) = Some n.
Proof.
  intros Hn. unfold Dt.field_day.
  change (Dt.pad2 n) with [48 + n / 10; 48 + n mod 10] at 1.
  cbv iota beta.
  destruct ((48 + n / 10 =? 49) || (48 + n / 10 =? 50)) eqn:E.
  - rewrite decimal_value_digit by zdiv. f_equal.
    apply orb_true_iff in E. rewrite !Z.eqb_eq in E. zdiv.
  - replace (48 + n / 10 =? SPACE) with false
      by (symmetry; apply Z.eqb_neq; unfold SPACE; zdiv).
    by apply field12_pad2.
Qed.

Lemma pad4_no_hyphen (y : Z) :
  0 <= y -> Forall (fun c => c <> HYPHEN) (Dt.pad4 y).
Proof.
  intros Hy. unfold Dt.pad4, HYPHEN. repeat constructor; zdiv.
Qed.

Lemma pad2_no_hyphen (n : Z) :
  0 <= n -> Forall (fun c => c <> HYPHEN) (Dt.pad2 n).
Proof.
  intros Hy. unfold Dt.pad2, HYPHEN. repeat constructor; zdiv.
Qed.

Lemma days_in_month_bound (y m : Z) : 28 <= Dt.days_in_month y m <= 31.
Proof.
  unfold Dt.days_in_month.
  destruct (m =? 2); [destruct (Dt.is_leap y); lia|].
  destruct (_ || _); lia.
Qed.

(** what [strftime] writes, [strptime] reads back *)
Lemma strptime_strftime (d : Dt.date) :
  Dt.valid d = true -> 1000 <= Dt.year d ->
  Dt.strptime_Ymd (Dt.strftime_Ymd d) = Some d.
Proof.
  intros Hv Hy. pose proof Hv as Hv'.
  unfold Dt.valid, Dt.MINYEAR, Dt.MAXYEAR in Hv'.
  rewrite !andb_true_iff, !Z.leb_le in Hv'.
  destruct Hv' as [[[[[_ Hmax] Hm1] Hm12] Hd1] Hdn].
  pose proof (days_in_month_bound (Dt.year d) (Dt.month d)) as Hb.
  unfold Dt.strptime_Ymd, Dt.strftime_Ymd. cbn [app].
  rewrite (split_at_app HYPHEN (Dt.pad4 (Dt.year d)))
    by (apply pad4_no_hyphen; lia).
  rewrite (split_at_app HYPHEN (Dt.pad2 (Dt.month d)))
    by (apply pad2_no_hyphen; lia).
  rewrite field_year_pad4, field12_pad2, field_day_pad2 by lia.
  destruct d as [y m dd]. cbn [Dt.year Dt.month Dt.day] in *.
  by rewrite Hv.
Qed.

Lemma str_of_int_pad4 (y : Z) :
  1000 <= y <= 9999 -> Py.str_of_int y = Dt.pad4 y.
Proof.
  intros Hy.
  assert (Hall : forallb year_written years4 = true)
    by (vm_compute; reflexivity).
  rewrite forallb_forall in Hall.
  specialize (Hall y (proj1 (list_elem_of_In _ _) (in_years4 y Hy))).
  unfold year_written, Py.str_eqb in Hall.
  by apply bool_decide_eq_true in Hall.
Qed.

Lemma days_before_year_max (y : Z) :
  1000 <= y <= 9999 -> 364000 <= Dt.days_before_year y <= 3651700.
Proof. unfold Dt.days_before_year. intros Hy. cbv zeta. zdiv. Qed.

Lemma days_before_month_table (y m : Z) :
  1 <= m <= 12 ->
  let l := if Dt.is_leap y then 1 else 0 in
  let dbm := Dt.days_before_month y m in
  let dim := Dt.days_in_month y m in
  (m = 1 /\ dbm = 0 /\ dim = 31) \/ (m = 2 /\ dbm = 31 /\ dim = 28 + l)
  \/ (m = 3 /\ dbm = 59 + l /\ dim = 31) \/ (m = 4 /\ dbm = 90 + l /\ dim = 30)
  \/ (m = 5 /\ dbm = 120 + l /\ dim = 31)
  \/ (m = 6 /\ dbm = 151 + l /\ dim = 30)
  \/ (m = 7 /\ dbm = 181 + l /\ dim = 31)
  \/ (m = 8 /\ dbm = 212 + l /\ dim = 31)
  \/ (m = 9 /\ dbm = 243 + l /\ dim = 30)
  \/ (m = 10 /\ dbm = 273 + l /\ dim = 31)
  \/ (m = 11 /\ dbm = 304 + l /\ dim = 30)
  \/ (m = 12 /\ dbm = 334 + l /\ dim = 31).
Proof.
  intros Hm.
  assert (Hc : m = 1 \/ m = 2 \/ m = 3 \/ m = 4 \/ m = 5 \/ m = 6 \/ m = 7
               \/ m = 8 \/ m = 9 \/ m = 10 \/ m = 11 \/ m = 12) by lia.
  unfold Dt.days_before_month.
  repeat (destruct Hc as [->|Hc]); try subst m;
    cbv [Dt.days_before_month_aux Dt.days_in_month Z.to_nat Z.sub Z.add Z.opp
         Z.pos_sub Pos.to_nat Pos.iter_op Nat.add Z.of_nat Pos.of_succ_nat
         Pos.succ Z.eqb Pos.eqb orb Pos.pred_double Z.succ_double
         Z.pred_double Z.double Init.Nat.add];
    destruct (Dt.is_leap y); lia.
Qed.

(** the date [md] of a holiday, read in the year [y] *)
Lemma strptime_holiday (y m d : Z) (md : str) :
  1000 <= y <= 9999 ->
  match Dt.split_at HYPHEN md with
  | Some (ms, ds) =>
      match Dt.field12 12 ms, Dt.field_day ds with
      | Some m', Some d' => (m' =? m) && (d' =? d) && (d <=? 28)
      | _, _ => false
      end
  | None => false
  end = true ->
  Dt.strptime_Ymd (Py.str_of_int y ++ [HYPHEN] ++ md) = Some (Dt.Date y m d).
Proof.
  intros Hy Hmd. rewrite str_of_int_pad4 by done.
  unfold Dt.strptime_Ymd. cbn [app].
  rewrite (split_at_app HYPHEN (Dt.pad4 y)) by (apply pad4_no_hyphen; lia).
  rewrite field_year_pad4 by lia.
  destruct (Dt.split_at HYPHEN md) as [[ms ds]|]; [|done].
  destruct (Dt.field12 12 ms) as [m'|] eqn:Em; [|done].
  destruct (Dt.field_day ds) as [d'|] eqn:Ed; [|done].
  rewrite !andb_true_iff, !Z.eqb_eq, Z.leb_le in Hmd.
  destruct Hmd as [[-> ->] Hd].
  assert (1 <= m <= 12 /\ 1 <= d) as [Hm Hd1].
  { unfold Dt.field12 in Em. unfold Dt.field_day, Dt.field12 in Ed.
    repeat match goal with
           | H : context [match ?x with _ => _ end] |- _ =>
               destruct x eqn:?; try discriminate H
           end.
    all: repeat match goal with
           | H : Some _ = Some _ |- _ => injection H as <-
           | H : Re.decimal_value _ = Some _ |- _ =>
               apply decimal_value_range in H as [? _]
           | H : _ || _ = true |- _ => apply orb_true_iff in H as [?|?]
           | H : _ && _ = true |- _ => apply andb_true_iff in H as [? ?]
           | H : (_ <=? _) = true |- _ => apply Z.leb_le in H
           | H : (_ =? _) = true |- _ => apply Z.eqb_eq in H
           end; lia. }
  pose proof (days_in_month_bound y m).
  unfold Dt.valid, Dt.MINYEAR, Dt.MAXYEAR. cbn [Dt.year Dt.month Dt.day].
  replace ((1 <=? y) && (y <=? 9999) && (1 <=? m) && (m <=? 12) && (1 <=? d)
           && (d <=? Dt.days_in_month y m)) with true; [done|].
  symmetry. rewrite !andb_true_iff, !Z.leb_le. lia.
Qed.

(** a holiday is active when today is at most five days away from its
    date in the current year *)
Lemma holiday_active_iff (today : Dt.date) (m d : Z) (md : str) :
  Dt.valid today = true -> 1000 <= Dt.year today ->
  Dt.strptime_Ymd (Py.str_of_int (Dt.year today) ++ [HYPHEN] ++ md)
  = Some (Dt.Date (Dt.year today) m d) ->
  1 <= m <= 11 -> 1 <= d <= 31 ->
  Bot.is_holiday_active today md = true
  <-> -5 <= Dt.days_before_month (Dt.year today) (Dt.month today)
            + Dt.day today
            - (Dt.days_before_month (Dt.year today) m + d) <= 5.
Proof.
  intros Hv Hy Hp Hm Hd. unfold Dt.valid, Dt.MINYEAR, Dt.MAXYEAR in Hv.
  rewrite !andb_true_iff, !Z.leb_le in Hv.
  destruct Hv as [[[[[_ Hmax] Hm1] Hm12] Hd1] Hdn].
  unfold Bot.is_holiday_active. rewrite Hp. cbv zeta.
  pose proof (days_before_year_max (Dt.year today) ltac:(lia)) as Hb.
  unfold Dt.toordinal, Dt.ordinal_in_range, Dt.MAXORDINAL.
  cbn [Dt.year Dt.month Dt.day].
  pose proof (days_before_month_table (Dt.year today) m ltac:(lia)) as Ht.
  cbv zeta in Ht.
  set (x := Dt.days_before_year (Dt.year today)
            + Dt.days_before_month (Dt.year today) m + d) in *.
  assert (364000 <= x <= 3652040) by (unfold x; destruct (Dt.is_leap _); lia).
  replace ((1 <=? x - 5) && (x - 5 <=? 3652059)
           && ((1 <=? x + 5) && (x + 5 <=? 3652059)))
    with true by (symmetry; rewrite !andb_true_iff, !Z.leb_le; lia).
  rewrite andb_true_iff, !Z.leb_le. unfold x. lia.
Qed.

(** X5: the five holidays other than New Year are offered from five days
    before to five days after their date: 23 February from 18 to 28
    February, 8 March from 3 to 13 March, 9 May from 4 to 14 May, 12 June
    from 7 to 17 June, 4 November from 30 October to 9 November.  Both
    programs compute the same window. *)
Theorem holiday_windows (today : Dt.date) :
  Dt.valid today = true -> 1000 <= Dt.year today ->
  let active md :=
    Bot.is_holiday_active today (u md) in
  active "02-23" = in_month today 2 18 28
  /\ active "03-08" = in_month today 3 3 13
  /\ active "05-09" = in_month today 5 4 14
  /\ active "06-12" = in_month today 6 7 17
  /\ active "11-04" = in_month today 10 30 31 || in_month today 11 1 9
  /\ forall md, Main.is_holiday_active today md
                = Bot.is_holiday_active today md.
Proof.
  intros Hv Hy active. pose proof Hv as Hv'.
  unfold Dt.valid, Dt.MINYEAR, Dt.MAXYEAR in Hv'.
  rewrite !andb_true_iff, !Z.leb_le in Hv'.
  destruct Hv' as [[[[[_ Hmax] Hm1] Hm12] Hd1] Hdn].
  pose proof (days_before_month_table (Dt.year today) (Dt.month today)
                (conj Hm1 Hm12)) as Ht.
  cbv zeta in Ht.
  assert (Hw : forall (md : string) m d,
    match Dt.split_at HYPHEN (u md) with
    | Some (ms, ds) =>
        match Dt.field12 12 ms, Dt.field_day ds with
        | Some m', Some d' => (m' =? m) && (d' =? d) && (d <=? 28)
        | _, _ => false
        end
    | None => false
    end = true ->
    1 <= m <= 11 -> 1 <= d <= 31 ->
    active md = true
    <-> -5 <= Dt.days_before_month (Dt.year today) (Dt.month today)
              + Dt.day today
              - (Dt.days_before_month (Dt.year today) m + d) <= 5).
  { intros md m d Hmd Hm Hd. apply holiday_active_iff; try done.
    apply strptime_holiday; [lia | done]. }
  unfold in_month.
  repeat split; try reflexivity; apply eq_true_iff_eq;
    rewrite ?orb_true_iff, !andb_true_iff, !Z.leb_le, !Z.eqb_eq.
  - rewrite (Hw "02-23" 2 23) by first [lia | vm_compute; reflexivity].
    change (Dt.days_before_month (Dt.year today) 2) with 31.
    destruct (Dt.is_leap (Dt.year today)); lia.
  - rewrite (Hw "03-08" 3 8) by first [lia | vm_compute; reflexivity].
    pose proof (days_before_month_table (Dt.year today) 3 ltac:(lia)) as H3.
    cbv zeta in H3. destruct (Dt.is_leap (Dt.year today)); lia.
  - rewrite (Hw "05-09" 5 9) by first [lia | vm_compute; reflexivity].
    pose proof (days_before_month_table (Dt.year today) 5 ltac:(lia)) as H3.
    cbv zeta in H3. destruct (Dt.is_leap (Dt.year today)); lia.
  - rewrite (Hw "06-12" 6 12) by first [lia | vm_compute; reflexivity].
    pose proof (days_before_month_table (Dt.year today) 6 ltac:(lia)) as H3.
    cbv zeta in H3. destruct (Dt.is_leap (Dt.year today)); lia.
  - rewrite (Hw "11-04" 11 4) by first [lia | vm_compute; reflexivity].
    pose proof (days_before_month_table (Dt.year today) 11 ltac:(lia)) as H3.
    cbv zeta in H3. destruct (Dt.is_leap (Dt.year today)); lia.
Qed.

(** X5 on 29 February 2024: the holiday of 23 February is over. *)
Lemma holiday_windows_witness :
  let today := Dt.Date 2024 2 29 in
  Dt.valid today = true
  /\ Bot.is_holiday_active today (u "02-23") = in_month today 2 18 28
  /\ in_month today 2 18 28 = false.
Proof.
  intros today. split; [reflexivity|]. split; [|reflexivity].
  apply (holiday_windows today); [reflexivity | cbn; lia].
Defined.

(** ** The table under moderation and publication *)

Lemma same_request_refl (r : Rt.application) : same_request r r.
Proof. by repeat split. Qed.

Lemma same_request_trans (r1 r2 r3 : Rt.application) :
  same_request r1 r2 -> same_request r2 r3 -> same_request r1 r3.
Proof.
  unfold same_request. intros H1 H2.
  repeat match goal with H : _ /\ _ |- _ => destruct H end.
  repeat split; congruence.
Qed.

Lemma same_request_set_status (s : str) (r : Rt.application) :
  same_request r (Rt.set_status s r).
Proof. by repeat split. Qed.

Lemma same_request_set_published (now : Z) (r : Rt.application) :
  same_request r (Rt.set_published now r).
Proof. by repeat split. Qed.

Lemma published_not_pending : u "published" <> u "pending".
Proof. intros H. vm_compute in H. discriminate H. Qed.

Lemma lifecycle_reach_trans (s1 s2 s3 : str) :
  lifecycle_reach s1 s2 -> lifecycle_reach s2 s3 -> lifecycle_reach s1 s3.
Proof.
  unfold lifecycle_reach.
  intros [->|[[-> H1]|[-> ->]]] H2; [done | |].
  - destruct H2 as [->|[[-> H2]|[-> ->]]]; [| |]; right; left; split; auto.
  - destruct H2 as [->|[[H _]|[_ ->]]]; [auto | |auto].
    by destruct published_not_pending.
Qed.

Lemma advanced_refl (d : gmap Z Rt.application) : advanced d d.
Proof.
  intros k. destruct (d !! k) as [r|] eqn:E; [|done].
  exists r. split; [done|]. split; [apply same_request_refl | by left].
Qed.

Lemma advanced_trans (d1 d2 d3 : gmap Z Rt.application) :
  advanced d1 d2 -> advanced d2 d3 -> advanced d1 d3.
Proof.
  intros H1 H2 k. specialize (H1 k). specialize (H2 k).
  destruct (d1 !! k) as [r1|].
  - destruct H1 as (r2 & E2 & Hs & Hl). rewrite E2 in H2.
    destruct H2 as (r3 & E3 & Hs' & Hl'). exists r3. split; [done|].
    split; [by eapply same_request_trans | by eapply lifecycle_reach_trans].
  - by rewrite H1 in H2.
Qed.

Lemma advanced_keyed (d d' : gmap Z Rt.application) :
  advanced d d' -> keyed d -> keyed d'.
Proof.
  intros Ha Hd k r' Hr'. specialize (Ha k).
  destruct (d !! k) as [r|] eqn:E; [|congruence].
  destruct Ha as (r2 & E2 & Hs & _). rewrite Hr' in E2.
  injection E2 as <-. destruct Hs as [-> _]. by apply Hd.
Qed.

(** altering one row by a function that keeps the request and moves the
    status forward *)
Lemma advanced_alter (f : Rt.application -> Rt.application) (j : Z)
    (d : gmap Z Rt.application) :
  (forall r, d !! j = Some r ->
     same_request r (f r) /\ lifecycle_reach (Rt.status r) (Rt.status (f r))) ->
  advanced d (alter f j d).
Proof.
  intros Hf k. destruct (decide (j = k)) as [->|Hne].
  - rewrite lookup_alter_eq. destruct (d !! k) as [r|] eqn:E; [|done].
    exists (f r). split; [done|]. by apply Hf.
  - rewrite lookup_alter_ne by done. destruct (d !! k) as [r|]; [|done].
    exists r. split; [done|]. split; [apply same_request_refl | by left].
Qed.

Lemma bot_decision_advances (cfg : Bot.config) (e : Rt.env)
    (upd : Rt.update) (w : Bot.W) :
  advanced (Rt.db w) (Rt.db (snd (Bot.admin_callback_handler cfg e upd w))).
Proof.
  destruct (bot_decision_cases cfg e upd w)
    as [[->|(app & r0 & st & _ & Hr0 & Hs & Hst & ->)] _];
    [apply advanced_refl|].
  apply advanced_alter. intros r Hr. rewrite Hr0 in Hr. injection Hr as <-.
  split; [apply same_request_set_status|]. right. left.
  split; [done|]. cbn [Rt.set_status Rt.status]. tauto.
Qed.

Lemma bot_cycle_advances (cfg : Bot.config) (e : Rt.env) (w : Bot.W) :
  keyed (Rt.db w) ->
  advanced (Rt.db w) (Rt.db (snd (Bot.check_pending_applications cfg e w))).
Proof.
  intros Hd. unfold Bot.check_pending_applications.
  rewrite bind_run, (bot_selected cfg). cbn [fst snd].
  apply (for_each_inv (fun w1 : Bot.W => advanced (Rt.db w) (Rt.db w1))).
  2:{ destruct w. apply advanced_refl. }
  intros app w1 Hin HP1.
  assert (Happ : Rt.db w !! Rt.app_id app = Some app
                 /\ Rt.status app = u "approved").
  { destruct (Rt.db_ok e (Rt.tick w)); [|done].
    apply (selected_rows _ _ _ Hd) in Hin as [Hl Hs].
    by apply bot_approved_unpublished in Hs as [? _]. }
  destruct Happ as [Hl Hs].
  destruct (Bot.due e app) as [[]|]; try exact HP1.
  rewrite bind_run. cbn [Rt.ret snd].
  destruct (bot_publish_cases cfg e (Rt.app_id app) w1)
    as [[-> _]|(ch & r1 & ok & Hr1 & _ & [->|[_ ->]])]; try exact HP1.
  intros k. specialize (HP1 k).
  destruct (decide (Rt.app_id app = k)) as [<-|Hne].
  - rewrite Hl in HP1 |- *. destruct HP1 as (r2 & E2 & Hsame & Hreach).
    exists (Rt.set_published (Rt.now e) r2).
    rewrite lookup_alter_eq, E2. split; [done|]. split.
    + eapply same_request_trans; [exact Hsame|].
      apply same_request_set_published.
    + right. right. by split.
  - by rewrite lookup_alter_ne.
Qed.

(** X6: whatever the moderator and the publisher of bot.py do, in any
    order and whatever fails, no row appears or disappears, what was
    submitted in a row stays as it was, and the status of a row never
    goes back: pending may become approved or rejected, approved may
    become published, and rejected and published are final. *)
Theorem bot_rows_only_advance (cfg : Bot.config) (tr : list (Rt.env * op))
    (w : Bot.W) :
  keyed (Rt.db w) -> advanced (Rt.db w) (Rt.db (bot_run cfg tr w)).
Proof.
  revert w. induction tr as [|[e o] tr IH]; intros w Hd;
    [apply advanced_refl|].
  unfold bot_run. cbn [fold_left].
  assert (Hstep : advanced (Rt.db w) (Rt.db (snd (bot_op cfg (e, o) w)))).
  { unfold bot_op. cbn [fst snd]. destruct o.
    - by apply bot_cycle_advances.
    - apply bot_decision_advances. }
  eapply advanced_trans; [exact Hstep|].
  apply IH. by eapply advanced_keyed.
Qed.

(** X6 on a news item that is approved, published, and then rejected in
    vain. *)
Lemma bot_rows_only_advance_witness :
  let tr := [(fair, Callback (press 1 (u "admin_approve_1")));
             (fair, Cycle);
             (fair, Callback (press 1 (u "admin_reject_1")))] in
  let w := bot_world [news_row 1 (u "pending") None] in
  advanced (Rt.db w) (Rt.db (bot_run bot_cfg tr w)).
Proof.
  intros tr w. exact (bot_rows_only_advance bot_cfg tr w (keyed_rows _)).
Defined.

(** *** A publication time stands for a delivered broadcast (bot.py) *)

Lemma is_published_set_status (st : str) (j k : Z)
    (d : gmap Z Rt.application) :
  is_published (alter (Rt.set_status st) j d) k -> is_published d k.
Proof.
  intros [r [Hr Hp]]. destruct (decide (j = k)) as [->|Hne].
  - rewrite lookup_alter_eq in Hr. destruct (d !! k) as [r0|] eqn:E; [|done].
    injection Hr as <-. by exists r0.
  - rewrite lookup_alter_ne in Hr by done. by exists r.
Qed.

Lemma bot_owed_decision (cfg : Bot.config) (e : Rt.env) (upd : Rt.update)
    (k : Z) (n0 : nat) (w : Bot.W) :
  bot_owed k n0 w ->
  bot_owed k n0 (snd (Bot.admin_callback_handler cfg e upd w)).
Proof.
  intros [Hn Hp].
  destruct (bot_decision_cases cfg e upd w) as [Hdb (evs & Hs & Hev)].
  assert (Hc : count (bot_posted k)
                 (Rt.sent (snd (Bot.admin_callback_handler cfg e upd w)))
               = count (bot_posted k) (Rt.sent w)).
  { rewrite Hs, count_app, (count_none _ evs); [lia|].
    eapply Forall_impl; [exact Hev|]. intros ev H. unfold bot_posted.
    by rewrite H. }
  split; rewrite Hc; [done|]. intros Hpub. apply Hp.
  destruct Hdb as [Hdb|(app & r & st & _ & _ & _ & _ & Hdb)];
    rewrite Hdb in Hpub; [done|].
  by eapply is_published_set_status.
Qed.

Lemma bot_owed_publish (cfg : Bot.config) (e : Rt.env) (j k : Z)
    (n0 : nat) (w : Bot.W) :
  bot_owed k n0 w ->
  bot_owed k n0 (snd (Bot.publish_to_channel cfg e j w)).
Proof.
  intros [Hn Hp].
  destruct (bot_publish_cases cfg e j w)
    as [[Hdb Hs]|(ch & r & ok & Hr & Hs & Hdb)].
  { split; rewrite Hs; [done|]. by rewrite Hdb. }
  split; rewrite Hs, count_app.
  - lia.
  - intros Hpub. destruct Hdb as [Hdb|[-> Hdb]]; rewrite Hdb in Hpub.
    + specialize (Hp Hpub). lia.
    + destruct (decide (j = k)) as [->|Hne].
      * assert (count (bot_posted k)
                  [Rt.SendMessage ch (Bot.ChannelPost k (Rt.text r)) true]
                = 1%nat) as ->; [|lia].
        unfold count, bot_posted. cbn [List.filter bot_post_of delivered].
        by rewrite Z.eqb_refl.
      * assert (is_published (Rt.db w) k) as Hw.
        { destruct Hpub as [r' [Hr' Hp']].
          rewrite lookup_alter_ne in Hr' by done. by exists r'. }
        specialize (Hp Hw). lia.
Qed.

Lemma bot_owed_cycle (cfg : Bot.config) (e : Rt.env) (k : Z) (n0 : nat)
    (w : Bot.W) :
  bot_owed k n0 w ->
  bot_owed k n0 (snd (Bot.check_pending_applications cfg e w)).
Proof.
  intros Hw. unfold Bot.check_pending_applications.
  rewrite bind_run, (bot_selected cfg). cbn [fst snd].
  apply (for_each_inv (bot_owed k n0)); [|by destruct w].
  intros app w1 _ H1.
  destruct (Bot.due e app) as [[]|]; try exact H1.
  rewrite bind_run. cbn [Rt.ret snd]. by apply bot_owed_publish.
Qed.

Lemma bot_owed_run (cfg : Bot.config) (tr : list (Rt.env * op)) (k : Z)
    (n0 : nat) (w : Bot.W) :
  bot_owed k n0 w -> bot_owed k n0 (bot_run cfg tr w).
Proof.
  revert w. induction tr as [|[e o] tr IH]; intros w H0; [exact H0|].
  unfold bot_run. cbn [fold_left]. apply IH.
  unfold bot_op. cbn [fst snd]. destruct o.
  - by apply bot_owed_cycle.
  - by apply bot_owed_decision.
Qed.

(** X7: in bot.py a row gets its publication time only once its text
    has been delivered to the channel: over any sequence of publisher
    runs and moderation callbacks, in whatever environments, a row that
    had no publication time and has one at the end was broadcast, with
    success, in between. *)
Theorem bot_published_after_delivery (cfg : Bot.config)
    (tr : list (Rt.env * op)) (w : Bot.W) (k : Z) :
  ~ is_published (Rt.db w) k ->
  is_published (Rt.db (bot_run cfg tr w)) k ->
  (count (bot_posted k) (Rt.sent w)
   < count (bot_posted k) (Rt.sent (bot_run cfg tr w)))%nat.
Proof.
  intros Hno Hyes.
  apply (bot_owed_run cfg tr k (count (bot_posted k) (Rt.sent w)) w);
    [|exact Hyes].
  split; [lia | done].
Qed.

(** X7 on an approved news item and one run of the publisher in which
    every call succeeds. *)
Lemma bot_published_after_delivery_witness :
  let w := bot_world [news_row 1 (u "approved") None] in
  let w' := bot_run bot_cfg [(fair, Cycle)] w in
  is_published (Rt.db w') 1
  /\ (count (bot_posted 1) (Rt.sent w)
      < count (bot_posted 1) (Rt.sent w'))%nat.
Proof.
  intros w w'.
  assert (Hno : ~ is_published (Rt.db w) 1).
  { intros (r & Hr & Hp). vm_compute in Hr. injection Hr as <-.
    by apply Hp. }
  assert (Hyes : is_published (Rt.db w') 1).
  { eexists. split; [vm_compute; reflexivity | discriminate]. }
  split; [exact Hyes|].
  exact (bot_published_after_delivery bot_cfg [(fair, Cycle)] w 1 Hno Hyes).
Defined.

(** *** Strangers (bot.py) *)

(** X8: callbacks of people who are not the moderator, however many and
    whatever their data, leave the table of bot.py as it is and make it
    broadcast nothing. *)
Theorem bot_strangers_change_nothing (cfg : Bot.config)
    (tr : list (Rt.env * op)) (w : Bot.W) :
  forallb (from_stranger cfg) tr = true ->
  Rt.db (bot_run cfg tr w) = Rt.db w
  /\ forall k, count (bot_post_of k) (Rt.sent (bot_run cfg tr w))
               = count (bot_post_of k) (Rt.sent w).
Proof.
  revert w. induction tr as [|[e o] tr IH]; intros w Htr; [done|].
  cbn [forallb] in Htr. apply andb_true_iff in Htr as [Hx Htr].
  unfold bot_run. cbn [fold_left].
  destruct o as [|upd]; [discriminate Hx|].
  unfold from_stranger in Hx. cbn [snd] in Hx. apply negb_true_iff in Hx.
  unfold bot_op at 2 4. cbn [fst snd].
  destruct (IH (snd (Bot.admin_callback_handler cfg e upd w)) Htr)
    as [Hdb Hcount].
  unfold bot_run in Hdb, Hcount. rewrite Hdb.
  split; [exact (proj1 (bot_refuses_strangers cfg e upd w Hx))|].
  intros k. rewrite Hcount.
  destruct (bot_decision_cases cfg e upd w) as [_ (evs & -> & Hev)].
  rewrite count_app, (count_none _ evs); [lia|].
  eapply Forall_impl; [exact Hev|]. intros ev H. apply H.
Qed.

(** X8 on two callbacks of user 7, the moderator being user 1. *)
Lemma bot_strangers_change_nothing_witness :
  let tr := [(fair, Callback (press 7 (u "admin_approve_1")));
             (fair, Callback (press 7 (u "admin_reject_1")))] in
  let w := bot_world [news_row 1 (u "pending") None] in
  Rt.db (bot_run bot_cfg tr w) = Rt.db w
  /\ forall k, count (bot_post_of k) (Rt.sent (bot_run bot_cfg tr w))
               = count (bot_post_of k) (Rt.sent w).
Proof.
  intros tr w. exact (bot_strangers_change_nothing bot_cfg tr w eq_refl).
Defined.

(** *** Nothing is broadcast early *)

Lemma bot_publish_channel (cfg : Bot.config) (e : Rt.env) (j : Z)
    (w : Bot.W) :
  let w' := snd (Bot.publish_to_channel cfg e j w) in
  Rt.sent w' = Rt.sent w
  \/ exists ch r ok,
       Bot.CHANNEL_ID cfg = Some ch /\ Rt.db w !! j = Some r
       /\ Rt.sent w'
          = Rt.sent w ++ [Rt.SendMessage ch (Bot.ChannelPost j (Rt.text r)) ok].
Proof.
  destruct w as [d n t s ud]. run_bot. branch.
  all: try (left; reflexivity).
  all: right; eexists _, _, _; split; [reflexivity|]; split; reflexivity.
Qed.

(** X9: one run of the publisher of bot.py sends nothing but broadcasts
    to the channel, each of the text of a row that was approved and had
    no publication time when the run started, and that is a news item,
    an announcement, or has a publication date that is not after today.
    No pending or rejected row and no congratulation before its date is
    ever broadcast. *)
Theorem bot_cycle_posts_due_rows (cfg : Bot.config) (e : Rt.env)
    (w : Bot.W) :
  keyed (Rt.db w) ->
  exists evs,
    Rt.sent (snd (Bot.check_pending_applications cfg e w)) = Rt.sent w ++ evs
    /\ Forall (bot_due_post cfg e (Rt.db w)) evs.
Proof.
  intros Hd.
  set (P := fun w1 : Bot.W =>
    advanced (Rt.db w) (Rt.db w1)
    /\ exists evs, Rt.sent w1 = Rt.sent w ++ evs
                   /\ Forall (bot_due_post cfg e (Rt.db w)) evs).
  assert (HP : P (snd (Bot.check_pending_applications cfg e w))).
  2:{ exact (proj2 HP). }
  unfold Bot.check_pending_applications.
  rewrite bind_run, (bot_selected cfg). cbn [fst snd].
  apply (for_each_inv P).
  2:{ destruct w. split; [apply advanced_refl|]. exists [].
      split; [symmetry; apply app_nil_r | constructor]. }
  intros app w1 Hin [Hadv (evs & Hs & Hev)].
  assert (Happ : Rt.db w !! Rt.app_id app = Some app
                 /\ Rt.status app = u "approved"
                 /\ Rt.published_at app = None).
  { destruct (Rt.db_ok e (Rt.tick w)); [|done].
    apply (selected_rows _ _ _ Hd) in Hin as [Hl Hsel].
    by apply bot_approved_unpublished in Hsel as [? ?]. }
  destruct Happ as (Hl & Hst & Hpa).
  destruct (Bot.due e app) as [[]|] eqn:Hdue; try (split; [done | by exists evs]).
  rewrite bind_run. cbn [Rt.ret snd]. split.
  - destruct (bot_publish_cases cfg e (Rt.app_id app) w1)
      as [[-> _]|(ch & r1 & ok & Hr1 & _ & [->|[_ ->]])]; try exact Hadv.
    eapply advanced_trans; [exact Hadv|]. apply advanced_alter.
    intros r Hr. split; [apply same_request_set_published|].
    pose proof (Hadv (Rt.app_id app)) as Hk. rewrite Hl in Hk.
    destruct Hk as (r2 & E2 & _ & Hreach). rewrite Hr in E2.
    injection E2 as <-. rewrite Hst in Hreach.
    destruct Hreach as [->|[[H _]|[_ ->]]].
    + right. right. by split.
    + vm_compute in H. discriminate H.
    + by left.
  - destruct (bot_publish_channel cfg e (Rt.app_id app) w1)
      as [->|(ch & r1 & ok & Hch & Hr1 & ->)]; [by exists evs|].
    exists (evs ++ [Rt.SendMessage ch
                      (Bot.ChannelPost (Rt.app_id app) (Rt.text r1)) ok]).
    rewrite Hs, <- app_assoc. split; [done|].
    apply Forall_app. split; [done|]. constructor; [|constructor].
    cbn [bot_due_post]. split; [done|]. exists app.
    pose proof (Hadv (Rt.app_id app)) as Hk. rewrite Hl in Hk.
    destruct Hk as (r2 & E2 & Hsame & _). rewrite Hr1 in E2.
    injection E2 as <-.
    repeat split; try done. by destruct Hsame as (_&_&_&_&_&_&_&->&_).
Qed.

(** X9 on a table with an approved news item, a pending one and a
    congratulation for next year. *)
Lemma bot_cycle_posts_due_rows_witness :
  let w := bot_world [news_row 1 (u "approved") None;
                      news_row 2 (u "pending") None;
                      sample_row 3 (u "congrat") (u "approved")
                        (Some (u "2026-01-01")) None] in
  exists evs,
    Rt.sent (snd (Bot.check_pending_applications bot_cfg fair w))
    = Rt.sent w ++ evs
    /\ Forall (bot_due_post bot_cfg fair (Rt.db w)) evs.
Proof.
  intros w. exact (bot_cycle_posts_due_rows bot_cfg fair w (keyed_rows _)).
Defined.

Lemma main_publish_events (cfg : Main.config) (e : Rt.env)
    (app_data : Rt.application) (w : Main.W) :
  let w' := snd (Main.publish_application_to_channel cfg e app_data w) in
  exists evs,
    Rt.sent w' = Rt.sent w ++ evs
    /\ Forall (fun ev =>
         exists ch ok,
           (ev = Rt.SendMessage ch (Main.ChannelPost app_data) ok
            /\ Main.GROUP_ID cfg = Some ch)
           \/ (ev = Rt.SendMessage ch
                      (Main.UserPublished (Rt.app_id app_data)) ok
               /\ Rt.user_id app_data = ch)) evs.
Proof.
  destruct w as [d n t s ud]. run_main. branch.
  all: log_tail.
  all: repeat constructor.
  all: eexists _, _; first [ left; split; reflexivity
                           | right; split; reflexivity ].
Qed.

(** X10: one run of the publisher of main.py sends nothing but
    broadcasts to the channel and notifications to authors, each for a
    row that was approved and had no publication time when the run
    started, and whose publication date is not after today.  Nothing is
    broadcast before its date, whatever its type. *)
Theorem main_cycle_posts_due_rows (cfg : Main.config) (e : Rt.env)
    (w : Main.W) :
  keyed (Rt.db w) ->
  exists evs,
    Rt.sent (snd (Main.scheduled_publication_check cfg e w))
    = Rt.sent w ++ evs
    /\ Forall (main_due_post cfg e (Rt.db w)) evs.
Proof.
  intros Hd.
  set (P := fun w1 : Main.W =>
    exists evs, Rt.sent w1 = Rt.sent w ++ evs
                /\ Forall (main_due_post cfg e (Rt.db w)) evs).
  assert (H0 : P w).
  { exists []. split; [symmetry; apply app_nil_r | constructor]. }
  unfold Main.scheduled_publication_check.
  destruct (negb (Main.IS_PUBLISHING_ENABLED cfg)); [exact H0|].
  rewrite bind_run, (main_selected cfg). cbn [fst snd].
  apply (for_each_inv P); [|by destruct w].
  intros app w1 Hin (evs & Hs & Hev).
  assert (Happ : Rt.db w !! Rt.app_id app = Some app
                 /\ Rt.status app = u "approved"
                 /\ Rt.published_at app = None).
  { destruct (Rt.db_ok e (Rt.tick w)); [|done].
    apply (selected_rows _ _ _ Hd) in Hin as [Hl Hsel].
    by apply main_approved_unpublished in Hsel as [? ?]. }
  destruct Happ as (Hl & Hst & Hpa).
  unfold Main.publish_if_due.
  destruct (negb _ || _); [by exists evs|].
  destruct (Rt.publish_date app) as [s|] eqn:Hpd; [|by exists evs].
  destruct (negb (Py.truthy s)); [by exists evs|].
  destruct (Dt.strptime_Ymd s) as [day|] eqn:Hday; [|by exists evs].
  destruct (Dt.le day (Rt.today e)) eqn:Hle; [|by exists evs].
  rewrite bind_run. cbn [Rt.ret snd].
  destruct (main_publish_events cfg e app w1) as (evs' & Hs' & Hev').
  exists (evs ++ evs'). rewrite Hs', Hs, <- app_assoc. split; [done|].
  apply Forall_app. split; [done|].
  assert (Hrow : main_due_row e (Rt.db w) app).
  { repeat split; try done. by exists s, day. }
  eapply Forall_impl; [exact Hev'|].
  intros ev (ch & ok & [[-> Hg]|[-> Hu]]); cbn [main_due_post].
  - by split.
  - by exists app.
Qed.

(** X10 on a table with a congratulation that is due, one for next year
    and a pending news item. *)
Lemma main_cycle_posts_due_rows_witness :
  let w := main_world [sample_row 1 (u "congrat") (u "approved")
                         (Some (u "2025-06-01")) None;
                       sample_row 2 (u "congrat") (u "approved")
                         (Some (u "2026-01-01")) None;
                       news_row 3 (u "pending") None] in
  exists evs,
    Rt.sent (snd (Main.scheduled_publication_check main_cfg fair w))
    = Rt.sent w ++ evs
    /\ Forall (main_due_post main_cfg fair (Rt.db w)) evs.
Proof.
  intros w. exact (main_cycle_posts_due_rows main_cfg fair w (keyed_rows _)).
Defined.

(** *** Everything due is published when nothing fails (bot.py) *)

Lemma bot_publish_fair (cfg : Bot.config) (e : Rt.env) (ch j : Z)
    (w : Bot.W) :
  Bot.CHANNEL_ID cfg = Some ch -> ch <> 0 ->
  (forall n, Rt.db_ok e n = true) -> (forall n, Rt.send_ok e n = true) ->
  Rt.db (snd (Bot.publish_to_channel cfg e j w))
  = match Rt.db w !! j with
    | Some _ => alter (Rt.set_published (Rt.now e)) j (Rt.db w)
    | None => Rt.db w
    end.
Proof.
  intros Hch Hne Hdb Hsend. destruct w as [d n t s ud].
  apply Z.eqb_neq in Hne.
  unfold Bot.publish_to_channel. rewrite Hch, Hne. run_bot. run_rt.
  rewrite !Hdb. run_rt. destruct (d !! j); run_rt; [|done].
  rewrite Hsend. run_rt. by rewrite Hdb.
Qed.

Lemma bot_loop_fair (cfg : Bot.config) (e : Rt.env) (ch : Z)
    (l : list Rt.application) :
  Bot.CHANNEL_ID cfg = Some ch -> ch <> 0 ->
  (forall n, Rt.db_ok e n = true) -> (forall n, Rt.send_ok e n = true) ->
  Forall (fun app => Bot.due e app <> None) l ->
  forall w : Bot.W,
    let body := fun app : Rt.application =>
      match Bot.due e app with
      | None => Rt.ret false
      | Some true =>
          Rt.bind (Bot.publish_to_channel cfg e (Rt.app_id app))
            (fun _ => Rt.ret true)
      | Some false => Rt.ret true
      end in
    let w' := snd (Rt.for_each l body w) in
    (forall k r, Rt.db w !! k = Some r ->
       exists r', Rt.db w' !! k = Some r'
                  /\ (Rt.published_at r = Some (Rt.now e) ->
                      Rt.published_at r' = Some (Rt.now e))
                  /\ (Rt.status r = u "published" ->
                      Rt.status r' = u "published"))
    /\ (forall app, In app l -> Bot.due e app = Some true ->
        Rt.db w !! Rt.app_id app <> None ->
        exists r', Rt.db w' !! Rt.app_id app = Some r'
                   /\ Rt.published_at r' = Some (Rt.now e)
                   /\ Rt.status r' = u "published").
Proof.
  intros Hch Hne Hdb Hsend. induction 1 as [|x l Hx _ IH]; intros w body w'.
  { split; [|intros app []]. intros k r Hr. by exists r. }
  subst w'. cbn [Rt.for_each]. rewrite bind_run.
  assert (Hcont : fst (body x w) = true).
  { unfold body. destruct (Bot.due e x) as [[]|]; [|done|done].
    rewrite bind_run. done. }
  rewrite Hcont.
  set (w1 := snd (body x w)).
  assert (Hstep : Rt.db w1
                  = if Bot.due e x is Some true
                    then match Rt.db w !! Rt.app_id x with
                         | Some _ => alter (Rt.set_published (Rt.now e))
                                       (Rt.app_id x) (Rt.db w)
                         | None => Rt.db w
                         end
                    else Rt.db w).
  { unfold w1, body. destruct (Bot.due e x) as [[]|]; [|done|done].
    rewrite bind_run. cbn [Rt.ret snd]. by eapply bot_publish_fair. }
  destruct (IH w1) as [Hkeep Hpub]. fold body in Hkeep, Hpub.
  assert (Hfirst : forall k r, Rt.db w !! k = Some r ->
            exists r1, Rt.db w1 !! k = Some r1
                  /\ (Rt.published_at r = Some (Rt.now e) ->
                      Rt.published_at r1 = Some (Rt.now e))
                  /\ (Rt.status r = u "published" ->
                      Rt.status r1 = u "published")
                  /\ (Bot.due e x = Some true -> k = Rt.app_id x ->
                      Rt.published_at r1 = Some (Rt.now e)
                      /\ Rt.status r1 = u "published")).
  { intros k r Hr. rewrite Hstep.
    destruct (Bot.due e x) as [[]|]; [|by exists r|by exists r].
    destruct (Rt.db w !! Rt.app_id x) as [rx|] eqn:Ex.
    - destruct (decide (Rt.app_id x = k)) as [<-|Hk].
      + exists (Rt.set_published (Rt.now e) r).
        rewrite lookup_alter_eq, Hr. by repeat split.
      + exists r. rewrite lookup_alter_ne by done. by repeat split.
    - exists r. split; [done|]. split; [done|]. split; [done|].
      intros _ ->. congruence. }
  split.
  - intros k r Hr. destruct (Hfirst k r Hr) as (r1 & E1 & Hp1 & Hs1 & _).
    destruct (Hkeep k r1 E1) as (r' & E' & Hp' & Hs'). exists r'. auto.
  - intros app [<-|Hin] Hdue Hex.
    + destruct (Rt.db w !! Rt.app_id x) as [r|] eqn:Er; [|done].
      destruct (Hfirst _ r Er) as (r1 & E1 & _ & _ & Hnow).
      destruct (Hnow Hdue eq_refl) as [Hp1 Hs1].
      destruct (Hkeep _ r1 E1) as (r' & E' & Hp' & Hs'). exists r'. auto.
    + apply (Hpub app Hin Hdue).
      destruct (Rt.db w !! Rt.app_id app) as [r|] eqn:Er; [|done].
      destruct (Hfirst _ r Er) as (r1 & E1 & _). by rewrite E1.
Qed.

(** X11: when the channel is configured and no call fails, and no
    selected row has a publication date that cannot be read, one run of
    the publisher of bot.py publishes every row that is approved,
    without a publication time, and due: afterwards each has the status
    published and the publication time of the run. *)
Theorem bot_cycle_publishes_all_due (cfg : Bot.config) (e : Rt.env)
    (ch : Z) (w : Bot.W) :
  keyed (Rt.db w) ->
  Bot.CHANNEL_ID cfg = Some ch -> ch <> 0 ->
  (forall n, Rt.db_ok e n = true) -> (forall n, Rt.send_ok e n = true) ->
  (forall k r, Rt.db w !! k = Some r -> Bot.approved_unpublished r = true ->
     Bot.due e r <> None) ->
  forall k r,
    Rt.db w !! k = Some r -> Bot.approved_unpublished r = true ->
    Bot.due e r = Some true ->
    exists r',
      Rt.db (snd (Bot.check_pending_applications cfg e w)) !! k = Some r'
      /\ Rt.published_at r' = Some (Rt.now e)
      /\ Rt.status r' = u "published".
Proof.
  intros Hd Hch Hne Hdb Hsend Hread k r Hr Hsel Hdue.
  unfold Bot.check_pending_applications.
  rewrite bind_run, (bot_selected cfg), Hdb. cbn [fst snd].
  set (l := List.filter Bot.approved_unpublished
              (snd <$> map_to_list (Rt.db w))).
  assert (Hl : Forall (fun app => Bot.due e app <> None) l).
  { apply Forall_forall. intros app Hin%list_elem_of_In.
    apply (selected_rows _ _ _ Hd) in Hin as [Hin Hs]. by eapply Hread. }
  destruct (bot_loop_fair cfg e ch l Hch Hne Hdb Hsend Hl (bump w))
    as [_ Hpub].
  assert (Hin : In r l).
  { apply List.filter_In. split; [|done].
    apply list_elem_of_In, list_elem_of_fmap. exists (k, r).
    split; [done|]. by apply elem_of_map_to_list. }
  rewrite <- (Hd k r Hr). apply (Hpub r Hin Hdue).
  destruct w. cbn [bump Rt.db]. rewrite (Hd k r Hr). cbn [Rt.db] in Hr.
  by rewrite Hr.
Qed.

Lemma rows_lookup (rows : list Rt.application) (k : Z)
    (r : Rt.application) :
  (list_to_map ((fun r => (Rt.app_id r, r)) <$> rows)
     : gmap Z Rt.application) !! k = Some r ->
  In r rows.
Proof.
  induction rows as [|r0 rows IH].
  - by rewrite fmap_nil, list_to_map_nil, lookup_empty.
  - rewrite fmap_cons, list_to_map_cons. cbn [fst snd].
    intros [[_ <-]|[_ H]]%lookup_insert_Some; [by left | right; by apply IH].
Qed.

(** X11 on a table with an approved news item and an approved
    congratulation for next year: the news item is published. *)
Lemma bot_cycle_publishes_all_due_witness :
  let w := bot_world [news_row 1 (u "approved") None;
                      sample_row 3 (u "congrat") (u "approved")
                        (Some (u "2026-01-01")) None] in
  exists r',
    Rt.db (snd (Bot.check_pending_applications bot_cfg fair w)) !! 1
    = Some r'
    /\ Rt.published_at r' = Some (Rt.now fair)
    /\ Rt.status r' = u "published".
Proof.
  intros w.
  assert (Hread : forall k r, Rt.db w !! k = Some r ->
            Bot.approved_unpublished r = true -> Bot.due fair r <> None).
  { intros k r Hr _. apply rows_lookup in Hr.
    destruct Hr as [<-|[<-|[]]]; vm_compute; discriminate. }
  apply (bot_cycle_publishes_all_due bot_cfg fair (-100) w (keyed_rows _)
           eq_refl ltac:(lia) (fun _ => eq_refl) (fun _ => eq_refl) Hread
           1 (news_row 1 (u "approved") None)).
  all: vm_compute; reflexivity.
Defined.

(** *** Insertion and lookup (main.py) *)

(** X12: [add_application] of main.py refuses, without touching the
    table, a request with a name of more than 50 characters or a text of
    more than 4000, and any request when the database fails.  Otherwise
    it stores the request as a pending row without a publication time
    under the next key and returns that key; [get_application_details]
    then returns this very row, and the rows under other keys are as
    before. *)
Theorem main_add_application_round_trip (e e' : Rt.env)
    (data : Rt.app_data) (w : Main.W) :
  let r := Main.add_application e data w in
  let key := Rt.next_id w in
  if Main.insertable data && Rt.db_ok e (Rt.tick w) then
    fst r = Some key
    /\ fst (Main.get_application_details e' key (snd r))
       = (if Rt.db_ok e' (Rt.tick (snd r))
          then Some (Rt.new_row key (Rt.now e) data) else None)
    /\ Rt.status (Rt.new_row key (Rt.now e) data) = u "pending"
    /\ Rt.published_at (Rt.new_row key (Rt.now e) data) = None
    /\ forall k, k <> key -> Rt.db (snd r) !! k = Rt.db w !! k
  else fst r = None /\ Rt.db (snd r) = Rt.db w.
Proof.
  destruct w as [d n t s ud]. cbv zeta.
  unfold Main.add_application, Main.get_application_details. run_rt.
  destruct (Main.insertable data); cbn [negb andb]; [|done].
  destruct (Rt.db_ok e t); [|done].
  split; [done|]. split.
  - destruct (Rt.db_ok e' (S t)); [|done]. cbn [fst].
    by rewrite lookup_insert_eq.
  - repeat split. intros k Hk. by rewrite lookup_insert_ne.
Qed.

(** *** What was submitted stays (main.py) *)

Lemma kept_requests_refl (d : gmap Z Rt.application) : kept_requests d d.
Proof.
  intros k. destruct (d !! k) as [r|] eqn:E; [|done].
  exists r. split; [done | apply same_request_refl].
Qed.

Lemma kept_requests_alter (f : Rt.application -> Rt.application) (j : Z)
    (d0 d : gmap Z Rt.application) :
  (forall r, same_request r (f r)) ->
  kept_requests d0 d -> kept_requests d0 (alter f j d).
Proof.
  intros Hf Hk k. specialize (Hk k).
  destruct (decide (j = k)) as [->|Hne].
  - rewrite lookup_alter_eq. destruct (d0 !! k) as [r|].
    + destruct Hk as (r' & -> & Hs). exists (f r'). split; [done|].
      eapply same_request_trans; [exact Hs | apply Hf].
    + by rewrite Hk.
  - by rewrite lookup_alter_ne.
Qed.

Lemma kept_requests_frame (d0 d d' : gmap Z Rt.application) :
  kept_requests d0 d ->
  (d' = d \/ exists st j, d' = alter (Rt.set_status st) j d) ->
  kept_requests d0 d'.
Proof.
  intros Hk [->|(st & j & ->)]; [done|].
  apply kept_requests_alter; [apply same_request_set_status | done].
Qed.

Lemma main_publish_keeps_requests (cfg : Main.config) (e : Rt.env)
    (app_data : Rt.application) (d0 : gmap Z Rt.application) (w : Main.W) :
  kept_requests d0 (Rt.db w) ->
  kept_requests d0
    (Rt.db (snd (Main.publish_application_to_channel cfg e app_data w))).
Proof.
  intros Hk.
  destruct (main_publish_cases cfg e app_data w) as [[->|[->| ->]] _];
    [done | |]; by apply kept_requests_alter.
Qed.

Lemma main_cycle_keeps_requests (cfg : Main.config) (e : Rt.env)
    (d0 : gmap Z Rt.application) (w : Main.W) :
  kept_requests d0 (Rt.db w) ->
  kept_requests d0 (Rt.db (snd (Main.scheduled_publication_check cfg e w))).
Proof.
  intros Hk. unfold Main.scheduled_publication_check.
  destruct (negb (Main.IS_PUBLISHING_ENABLED cfg)); [exact Hk|].
  rewrite bind_run, (main_selected cfg). cbn [fst snd].
  apply (for_each_inv (fun w1 : Main.W => kept_requests d0 (Rt.db w1)));
    [|by destruct w].
  intros app w1 _ Hk1.
  destruct (main_publish_if_due_cases cfg e app w1) as [_ [->| ->]];
    [done|]. by apply main_publish_keeps_requests.
Qed.

Lemma main_publish_now_keeps_requests (cfg : Main.config) (e : Rt.env)
    (app : Z) (r : Rt.application) (d0 : gmap Z Rt.application)
    (w : Main.W) :
  kept_requests d0 (Rt.db w) ->
  kept_requests d0 (Rt.db (snd (Main.publish_now cfg e app r w))).
Proof.
  intros Hk. unfold Main.publish_now.
  destruct (Rt.publish_date r) as [publish_date_str|]; [|exact Hk].
  destruct (Rt.published_at r) eqn:Hp; [exact Hk|].
  destruct (_ && _); [|exact Hk].
  destruct (Dt.strptime_Ymd _) as [publish_date_obj|]; [|exact Hk].
  destruct (Dt.le _ _); [|exact Hk].
  rewrite bind_run, main_details. cbn [fst snd].
  assert (Hb : kept_requests d0 (Rt.db (bump w))) by by destruct w.
  destruct (Rt.db_ok e (Rt.tick w)); [|exact Hb].
  destruct (Rt.db w !! app) as [fresh|] eqn:Hf; [|exact Hb].
  by apply main_publish_keeps_requests.
Qed.

Lemma main_decision_keeps_requests (cfg : Main.config) (e : Rt.env)
    (upd : Rt.update) (d0 : gmap Z Rt.application) (w : Main.W) :
  kept_requests d0 (Rt.db w) ->
  kept_requests d0 (Rt.db (snd (Main.handle_admin_decision cfg e upd w))).
Proof.
  intros Hk. destruct w as [d n t s ud]. cbn [Rt.db] in Hk.
  unfold Main.handle_admin_decision. run_main. branch.
  all: try match goal with
       | |- context [Main.publish_now ?c ?e0 ?a ?r ?w0] =>
           assert (Hnow : kept_requests d0
                            (Rt.db (snd (Main.publish_now c e0 a r w0))));
           [ apply main_publish_now_keeps_requests; cbn [Rt.db];
             eapply kept_requests_frame; [exact Hk | eauto]
           | destruct (Main.publish_now c e0 a r w0) as [[] [d2 n2 t2 s2 ud2]];
             cbn [snd Rt.db] in Hnow; branch;
             (eapply kept_requests_frame; [exact Hnow | eauto]) ]
       end.
  all: eapply kept_requests_frame; [exact Hk | eauto].
Qed.

(** X22: whatever the moderator and the publisher of main.py do, in any
    order and whatever fails, no row appears or disappears and what was
    submitted in a row (author, type, names, text, publication date)
    stays as it was; only the status and the publication time change. *)
Theorem main_requests_never_change (cfg : Main.config)
    (tr : list (Rt.env * op)) (w : Main.W) :
  kept_requests (Rt.db w) (Rt.db (main_run cfg tr w)).
Proof.
  assert (H : forall d0 w, kept_requests d0 (Rt.db w) ->
              kept_requests d0 (Rt.db (main_run cfg tr w))).
  2:{ apply H, kept_requests_refl. }
  clear w. induction tr as [|[e o] tr IH]; intros d0 w Hk; [exact Hk|].
  unfold main_run. cbn [fold_left]. apply IH.
  unfold main_op. cbn [fst snd]. destruct o.
  - by apply main_cycle_keeps_requests.
  - by apply main_decision_keeps_requests.
Qed.

(** *** Everything due is published when the database works (main.py) *)

Lemma main_publish_fair (cfg : Main.config) (e : Rt.env) (g : Z)
    (app : Rt.application) (w : Main.W) :
  Main.GROUP_ID cfg = Some g -> g <> 0 ->
  (forall n, Rt.db_ok e n = true) ->
  Rt.status app = u "approved" -> Rt.published_at app = None ->
  Main.known_type (Rt.type app) = true ->
  Rt.db (snd (Main.publish_application_to_channel cfg e app w))
  = alter (Rt.set_published (Rt.now e)) (Rt.app_id app) (Rt.db w).
Proof.
  intros Hg Hne Hdb Hst Hpa Hty. destruct w as [d n t s ud].
  apply Z.eqb_neq in Hne.
  unfold Main.publish_application_to_channel, Main.IS_PUBLISHING_ENABLED,
    truthy_id.
  rewrite Hg, Hne, Hst, Hpa, Hty. cbn [negb orb].
  replace (Py.str_eqb (u "approved") (u "approved")) with true
    by (symmetry; by apply bool_decide_eq_true).
  cbn [negb]. run_main. run_rt. rewrite Hdb. run_rt.
  by destruct (negb (Rt.user_id app =? 0)).
Qed.

Lemma main_step_preserves (cfg : Main.config) (e : Rt.env)
    (app : Rt.application) (w : Main.W) (k : Z) (r : Rt.application) :
  Rt.db w !! k = Some r ->
  exists r',
    Rt.db (snd (Main.publish_if_due cfg e app w)) !! k = Some r'
    /\ (Rt.published_at r = Some (Rt.now e) ->
        Rt.published_at r' = Some (Rt.now e))
    /\ (Rt.status r = u "published" -> Rt.status r' = u "published").
Proof.
  intros Hr.
  destruct (main_publish_if_due_cases cfg e app w) as [_ [->| ->]];
    [by exists r|].
  destruct (main_publish_cases cfg e app w) as [[->|[->| ->]] _];
    [by exists r | |].
  all: destruct (decide (Rt.app_id app = k)) as [<-|Hk];
    [rewrite lookup_alter_eq, Hr | rewrite lookup_alter_ne, Hr by done];
    eexists; (split; [reflexivity|]); by split.
Qed.

Lemma main_loop_fair (cfg : Main.config) (e : Rt.env) (g : Z)
    (l : list Rt.application) :
  Main.GROUP_ID cfg = Some g -> g <> 0 ->
  (forall n, Rt.db_ok e n = true) ->
  forall w : Main.W,
    let w' := snd (Rt.for_each l (Main.publish_if_due cfg e) w) in
    (forall k r, Rt.db w !! k = Some r ->
       exists r', Rt.db w' !! k = Some r'
                  /\ (Rt.published_at r = Some (Rt.now e) ->
                      Rt.published_at r' = Some (Rt.now e))
                  /\ (Rt.status r = u "published" ->
                      Rt.status r' = u "published"))
    /\ (forall app, In app l -> main_due e app = true ->
        Rt.db w !! Rt.app_id app <> None ->
        exists r', Rt.db w' !! Rt.app_id app = Some r'
                   /\ Rt.published_at r' = Some (Rt.now e)
                   /\ Rt.status r' = u "published").
Proof.
  intros Hg Hne Hdb. induction l as [|x l IH]; intros w w'.
  { split; [|intros app []]. intros k r Hr. by exists r. }
  subst w'. cbn [Rt.for_each]. rewrite bind_run.
  rewrite (proj1 (main_publish_if_due_cases cfg e x w)).
  set (w1 := snd (Main.publish_if_due cfg e x w)).
  destruct (IH w1) as [Hkeep Hpub].
  pose proof (main_step_preserves cfg e x w) as Hfirst. fold w1 in Hfirst.
  split.
  - intros k r Hr. destruct (Hfirst k r Hr) as (r1 & E1 & Hp1 & Hs1).
    destruct (Hkeep k r1 E1) as (r' & E' & Hp' & Hs'). exists r'. auto.
  - intros app [<-|Hin] Hdue Hex.
    + destruct (Rt.db w !! Rt.app_id x) as [r|] eqn:Er; [|done].
      assert (E1 : Rt.db w1 !! Rt.app_id x
                   = Some (Rt.set_published (Rt.now e) r)).
      { unfold w1, Main.publish_if_due.
        unfold main_due, Main.approved_unpublished in Hdue.
        rewrite !andb_true_iff in Hdue.
        destruct Hdue as [[[Hst Hpa] Hty] Hdate].
        rewrite Hst. destruct (Rt.published_at x) eqn:Epa; [done|].
        cbn [negb orb].
        destruct (Rt.publish_date x) as [s|]; [|done].
        apply andb_true_iff in Hdate as [Hs Hdate]. rewrite Hs.
        cbn [negb].
        destruct (Dt.strptime_Ymd s) as [d|]; [|done]. rewrite Hdate.
        rewrite bind_run. cbn [Rt.ret snd].
        rewrite (main_publish_fair cfg e g x w Hg Hne Hdb); try done.
        - by rewrite lookup_alter_eq, Er.
        - by apply bool_decide_eq_true in Hst. }
      destruct (Hkeep _ _ E1) as (r' & E' & Hp' & Hs'). exists r'.
      split; [done|]. split; [by apply Hp' | by apply Hs'].
    + apply (Hpub app Hin Hdue).
      destruct (Rt.db w !! Rt.app_id app) as [r|] eqn:Er; [|done].
      destruct (Hfirst _ r Er) as (r1 & E1 & _). by rewrite E1.
Qed.

(** X24: when the channel is configured and the database works, one run
    of the publisher of main.py publishes every row that is approved,
    without a publication time, of a known type and with a publication
    date that is not after today: afterwards each has the status
    published and the publication time of the run.  Whether Telegram
    accepted the broadcast plays no part in this. *)
Theorem main_cycle_publishes_all_due (cfg : Main.config) (e : Rt.env)
    (g : Z) (w : Main.W) :
  keyed (Rt.db w) ->
  Main.GROUP_ID cfg = Some g -> g <> 0 ->
  (forall n, Rt.db_ok e n = true) ->
  forall k r,
    Rt.db w !! k = Some r -> main_due e r = true ->
    exists r',
      Rt.db (snd (Main.scheduled_publication_check cfg e w)) !! k = Some r'
      /\ Rt.published_at r' = Some (Rt.now e)
      /\ Rt.status r' = u "published".
Proof.
  intros Hd Hg Hne Hdb k r Hr Hdue.
  unfold Main.scheduled_publication_check, Main.IS_PUBLISHING_ENABLED.
  rewrite Hg. cbn [negb].
  rewrite bind_run, (main_selected cfg), Hdb. cbn [fst snd].
  set (l := List.filter Main.approved_unpublished
              (snd <$> map_to_list (Rt.db w))).
  destruct (main_loop_fair cfg e g l Hg Hne Hdb (bump w)) as [_ Hpub].
  assert (Hin : In r l).
  { apply List.filter_In. split.
    - apply list_elem_of_In, list_elem_of_fmap. exists (k, r).
      split; [done|]. by apply elem_of_map_to_list.
    - unfold main_due in Hdue. rewrite !andb_true_iff in Hdue. tauto. }
  rewrite <- (Hd k r Hr). apply (Hpub r Hin Hdue).
  destruct w. cbn [bump Rt.db]. rewrite (Hd k r Hr). cbn [Rt.db] in Hr.
  by rewrite Hr.
Qed.

(** X24 on an approved congratulation that is due, with Telegram
    refusing every call. *)
Lemma main_cycle_publishes_all_due_witness :
  let w := main_world [sample_row 1 (u "congrat") (u "approved")
                         (Some (u "2025-06-01")) None] in
  exists r',
    Rt.db (snd (Main.scheduled_publication_check main_cfg telegram_down w))
      !! 1 = Some r'
    /\ Rt.published_at r' = Some (Rt.now telegram_down)
    /\ Rt.status r' = u "published".
Proof.
  intros w.
  apply (main_cycle_publishes_all_due main_cfg telegram_down (-100) w
           (keyed_rows _) eq_refl ltac:(lia) (fun _ => eq_refl) 1
           (sample_row 1 (u "congrat") (u "approved")
              (Some (u "2025-06-01")) None)).
  all: vm_compute; reflexivity.
Defined.

(** ** What the conversation stores *)

(** the argument of [add_application] that [complete_request] of main.py
    builds from [user_data] and the censored text *)
Lemma main_complete_stores (cfg : Main.config) (e : Rt.env)
    (upd : Rt.update) (w : Main.W) :
  let r := Main.complete_request cfg e upd w in
  Rt.db (snd r) = Rt.db w
  \/ exists text ty,
       Rt.user_data w !! "text" = Some (VStr text)
       /\ snd (Main.censor_text cfg text) = false
       /\ get_str (Rt.user_data w) "type" = Some ty
       /\ let ud := Rt.user_data w in
          let data :=
            Rt.AppData (Rt.from_id upd) (Rt.from_username upd) ty
              (get_str ud "subtype") (get_str ud "from_name")
              (get_str ud "to_name") (fst (Main.censor_text cfg text))
              (get_str ud "publish_date") (get_str ud "congrat_type") in
          Main.insertable data = true
          /\ Rt.db (snd r)
             = <[Rt.next_id w := Rt.new_row (Rt.next_id w) (Rt.now e) data]>
                 (Rt.db w)
          /\ Rt.user_data (snd r) = ∅.
Proof.
  destruct w as [d n t s ud]. destruct upd as [a un fn cb qm mt].
  unfold Main.complete_request, Main.add_application,
    Main.send_to_admin_for_moderation, Main.safe_send_message,
    Main.safe_reply_text, Main.safe_edit_message_text.
  cbv zeta. run_rt.
  destruct (ud !! "text") as [[text| |]|] eqn:Htext.
  2-4: walk idtac; by left.
  destruct (Main.censor_text cfg text) as [censored bad] eqn:Hc.
  walk ltac:(ud_facts); try (by left).
  all: right; eexists _, _; rewrite Hc; cbn [fst snd].
  all: split; [reflexivity|]; split; [reflexivity|].
  all: split; [reflexivity|]; split; [eassumption|].
  all: split; reflexivity.
Qed.

(** the same for bot.py, where the text is stored as [user_data] has
    it and [user_data] is emptied whatever the outcome *)
Lemma bot_complete_stores (cfg : Bot.config) (e : Rt.env)
    (upd : Rt.update) (w : Bot.W) :
  let r := Bot.complete_request cfg e upd w in
  (fst r = None /\ Rt.db (snd r) = Rt.db w
   /\ Rt.user_data (snd r) = Rt.user_data w)
  \/ (fst r = Some END /\ Rt.user_data (snd r) = ∅
      /\ (Rt.db (snd r) = Rt.db w
          \/ exists rt text,
               get_str (Rt.user_data w) "request_type" = Some rt
               /\ get_str (Rt.user_data w) "text" = Some text
               /\ let ud := Rt.user_data w in
                  let data :=
                    Rt.AppData (Rt.from_id upd)
                      (match Rt.from_username upd with
                       | Some n => if Py.truthy n then Some n
                                   else Some (Rt.from_full_name upd)
                       | None => Some (Rt.from_full_name upd)
                       end)
                      rt (get_str ud "subtype") (get_str ud "from_name")
                      (get_str ud "to_name") text
                      (get_str ud "publish_date") None in
                  Rt.db (snd r)
                  = <[Rt.next_id w
                      := Rt.new_row (Rt.next_id w) (Rt.now e) data]>
                      (Rt.db w))).
Proof.
  destruct w as [d n t s ud]. destruct upd as [a un fn cb qm mt].
  open_bot. cbv zeta. run_rt.
  destruct (get_str ud "request_type") as [rt|] eqn:Hrt.
  2:{ left. by destruct (get_str ud "text"). }
  destruct (get_str ud "text") as [text|] eqn:Htext; [|by left].
  right.
  walk idtac.
  all: split; [reflexivity|]; split; [reflexivity|].
  all: first [ by left | right; eexists _, _; split; [reflexivity|];
               split; reflexivity ].
Qed.

Lemma insert_new_row (d : gmap Z Rt.application) (key k : Z)
    (r row : Rt.application) :
  d !! k = None -> <[key := r]> d !! k = Some row -> k = key /\ row = r.
Proof.
  intros Hnone [[<- <-]|[_ H]]%lookup_insert_Some; [done | congruence].
Qed.

(** X13: a row that [complete_request] of main.py adds to the table
    (with the default list of words) is pending and has no publication
    time, belongs to the sender of the update, and has a text that
    went through the censor: no listed word occurs in it, the contact
    pattern matches nowhere in it, and it has at most 4000 characters;
    the names in it have at most 50. *)
Theorem main_stored_row_is_clean (admin group : option Z) (e : Rt.env)
    (upd : Rt.update) (w : Main.W) (k : Z) (row : Rt.application) :
  let cfg := Main.Config admin group Main.DEFAULT_BAD_WORDS in
  Rt.db w !! k = None ->
  Rt.db (snd (Main.complete_request cfg e upd w)) !! k = Some row ->
  (Rt.app_id row = k /\ Rt.user_id row = Rt.from_id upd
   /\ Rt.status row = u "pending" /\ Rt.published_at row = None)
  /\ (occurs Main.DEFAULT_BAD_WORDS (Rt.text row) = false
      /\ contact_search (Rt.text row) = false
      /\ (Py.len (Rt.text row) <= Main.MAX_DB_TEXT_LENGTH)%nat)
  /\ (forall n, Rt.from_name row = Some n \/ Rt.to_name row = Some n ->
      (Py.len n <= MAX_NAME_LENGTH)%nat).
Proof.
  intros cfg Hnone Hrow.
  destruct (main_complete_stores cfg e upd w)
    as [Hdb|(text & ty & Htext & Hclean & Hty & Hins & Hdb & _)];
    rewrite Hdb in Hrow; [congruence|].
  destruct (insert_new_row _ _ _ _ _ Hnone Hrow) as [-> ->].
  cbn [Rt.new_row Rt.app_id Rt.user_id Rt.status Rt.published_at Rt.text
       Rt.from_name Rt.to_name Rt.d_user_id Rt.d_text Rt.d_from_name
       Rt.d_to_name].
  split; [done|].
  unfold Main.insertable in Hins.
  cbn [Rt.d_from_name Rt.d_to_name Rt.d_text] in Hins.
  apply andb_true_iff in Hins as [[Hf Ht]%andb_true_iff Hlen].
  apply Nat.leb_le in Hlen.
  destruct (main_censored_clean admin group text) as [Hw Hc].
  split; [done|].
  intros n [Hn|Hn]; rewrite Hn in *; by apply Nat.leb_le.
Qed.

(** X13 on a news item "привет" of user 7. *)
Lemma main_stored_row_is_clean_witness :
  let w : Main.W :=
    Rt.World ∅ 100 0 []
      (<["text" := VStr (u "привет")]> (<["type" := VStr (u "news")]> ∅)) in
  exists row,
    Rt.db (snd (Main.complete_request main_cfg fair (say 7 (u "привет")) w))
      !! 100 = Some row
    /\ occurs Main.DEFAULT_BAD_WORDS (Rt.text row) = false
    /\ contact_search (Rt.text row) = false
    /\ (Py.len (Rt.text row) <= Main.MAX_DB_TEXT_LENGTH)%nat.
Proof.
  intros w.
  assert (Hrow : { row | Rt.db (snd (Main.complete_request main_cfg fair
                                       (say 7 (u "привет")) w)) !! 100
                         = Some row })
    by (eexists; vm_compute; reflexivity).
  destruct Hrow as [row Hrow]. exists row. split; [exact Hrow|].
  exact (proj1 (proj2 (main_stored_row_is_clean (Some 1) (Some (-100)) fair
                         (say 7 (u "привет")) w 100 row eq_refl Hrow))).
Defined.

Lemma strptime_dmY_valid (sep : Z) (s : str) (d : Dt.date) :
  Dt.strptime_dmY sep s = Some d -> Dt.valid d = true.
Proof.
  unfold Dt.strptime_dmY.
  repeat match goal with
         | |- context [match ?x with _ => _ end] =>
             destruct x eqn:?; try discriminate
         end.
  by intros [= <-].
Qed.

(** a valid date that is not before a day of a year of four digits is
    itself in a year of four digits *)
Lemma not_past_year (d today : Dt.date) :
  Dt.valid d = true -> Dt.valid today = true -> 1000 <= Dt.year today ->
  Dt.lt d today = false -> 1000 <= Dt.year d.
Proof.
  unfold Dt.valid, Dt.MINYEAR, Dt.MAXYEAR.
  rewrite !andb_true_iff, !Z.leb_le.
  intros [[[[[Hy1 _] Hm1] Hm12] Hd1] Hdn] [[[[[_ Hmax] Hn1] Hn12] He1] _] Hy.
  unfold Dt.lt, Dt.toordinal. rewrite Z.ltb_ge. intros Hle.
  destruct (Z.le_gt_cases 1000 (Dt.year d)) as [|Hlow]; [done|]. exfalso.
  pose proof (days_before_month_table (Dt.year d) (Dt.month d)
                (conj Hm1 Hm12)) as Ht. cbv zeta in Ht.
  pose proof (days_before_month_table (Dt.year today) (Dt.month today)
                (conj Hn1 Hn12)) as Hu. cbv zeta in Hu.
  assert (Hto : 364877 <= Dt.days_before_year (Dt.year today)).
  { destruct (Z.eq_dec (Dt.year today) 1000) as [->|]; [by vm_compute|].
    unfold Dt.days_before_year. cbv zeta. zdiv. }
  assert (Hd : Dt.days_before_year (Dt.year d)
               + (if Dt.is_leap (Dt.year d) then 1 else 0) <= 364512).
  { destruct (Z.eq_dec (Dt.year d) 999) as [->|]; [by vm_compute|].
    assert (Dt.days_before_year (Dt.year d) <= 364200)
      by (unfold Dt.days_before_year; cbv zeta; zdiv).
    destruct (Dt.is_leap _); lia. }
  destruct (Dt.is_leap (Dt.year d)), (Dt.is_leap (Dt.year today)); lia.
Qed.

(** X14: a row that main.py adds to the table when the user answers the
    question for the date of a congratulation carries a publication date
    in the form year-month-day that the publisher reads back as the very
    date it was written from, and this date is not before the day of the
    answer: it is that day (for the word "сегодня") or the date the user
    typed as day-month-year, read as [strptime] reads it (after a 1 or a
    2 the second digit of the day, and every digit of the year, may be
    a decimal digit of any script). *)
Theorem main_date_reads_back (cfg : Main.config) (e : Rt.env) (actor : Z)
    (t : str) (w : Main.W) (k : Z) (row : Rt.application) :
  Dt.valid (Rt.today e) = true -> 1000 <= Dt.year (Rt.today e) ->
  Rt.db w !! k = None ->
  Rt.db (snd (Main.process_congrat_date cfg e (say actor t) w)) !! k
  = Some row ->
  exists d,
    Rt.publish_date row = Some (Dt.strftime_Ymd d)
    /\ Dt.strptime_Ymd (Dt.strftime_Ymd d) = Some d
    /\ Dt.le (Rt.today e) d = true
    /\ (d = Rt.today e
        \/ Dt.strptime_dmY HYPHEN (Py.lower (Py.strip t)) = Some d).
Proof.
  intros Hv Hy Hnone. destruct w as [db n tk s ud]. cbn [Rt.db] in Hnone.
  assert (Hstored : forall d w1 upd,
    Dt.valid d = true -> 1000 <= Dt.year d ->
    Dt.le (Rt.today e) d = true ->
    (d = Rt.today e
     \/ Dt.strptime_dmY HYPHEN (Py.lower (Py.strip t)) = Some d) ->
    Rt.db w1 = db ->
    get_str (Rt.user_data w1) "publish_date" = Some (Dt.strftime_Ymd d) ->
    Rt.db (snd (Main.complete_request cfg e upd w1)) !! k = Some row ->
    exists d,
      Rt.publish_date row = Some (Dt.strftime_Ymd d)
      /\ Dt.strptime_Ymd (Dt.strftime_Ymd d) = Some d
      /\ Dt.le (Rt.today e) d = true
      /\ (d = Rt.today e
          \/ Dt.strptime_dmY HYPHEN (Py.lower (Py.strip t)) = Some d)).
  { intros d w1 upd Hvd Hyd Hle Hsrc Hdb Hpd Hrow.
    destruct (main_complete_stores cfg e upd w1)
      as [Hsame|(text & ty & _ & _ & _ & _ & Hins & _)].
    { rewrite Hsame, Hdb in Hrow. congruence. }
    rewrite Hins, Hdb in Hrow.
    destruct (insert_new_row _ _ _ _ _ Hnone Hrow) as [_ ->].
    exists d. cbn [Rt.new_row Rt.publish_date Rt.d_publish_date].
    split; [exact Hpd|]. split; [by apply strptime_strftime|]. done. }
  assert (Htoday : Dt.le (Rt.today e) (Rt.today e) = true)
    by apply Z.leb_refl.
  unfold Main.process_congrat_date, Main.incoming_text.
  open_main. walk idtac; try congruence.
  - intros Hrow.
    match type of Hrow with
    | context [Main.complete_request _ _ ?upd ?w1] =>
        refine (Hstored (Rt.today e) w1 upd Hv Hy Htoday (or_introl eq_refl)
                  eq_refl _ Hrow)
    end.
    cbn [Rt.user_data]. by ud_facts.
  - intros Hrow. pose proof (strptime_dmY_valid _ _ _ Heqo) as Hvd.
    assert (Hle : Dt.le (Rt.today e) d = true).
    { unfold Dt.le. unfold Dt.lt in Heqb2.
      apply Z.leb_le. apply Z.ltb_ge in Heqb2. lia. }
    match type of Hrow with
    | context [Main.complete_request _ _ ?upd ?w1] =>
        refine (Hstored d w1 upd Hvd (not_past_year _ _ Hvd Hv Hy Heqb2) Hle
                  (or_intror eq_refl) eq_refl _ Hrow)
    end.
    cbn [Rt.user_data]. by ud_facts.
Qed.

(** X14 on the answers "15-06-2025" and "1٥-06-٢٠٢٥" (with
    Arabic-Indic digits) given on 15 June 2025, for a custom
    congratulation of user 7: both are stored as "2025-06-15". *)
Lemma main_date_reads_back_witness :
  let w : Main.W :=
    Rt.World ∅ 100 0 []
      (<["text" := VStr (u "с праздником")]>
         (<["type" := VStr (u "congrat")]> ∅)) in
  (exists row d,
     Rt.db (snd (Main.process_congrat_date main_cfg fair
                   (say 7 (u "15-06-2025")) w)) !! 100 = Some row
     /\ Rt.publish_date row = Some (Dt.strftime_Ymd d)
     /\ Dt.strptime_Ymd (Dt.strftime_Ymd d) = Some d
     /\ Dt.le (Rt.today fair) d = true)
  /\ (exists row d,
        Rt.db (snd (Main.process_congrat_date main_cfg fair
                      (say 7 (u "1٥-06-٢٠٢٥")) w)) !! 100 = Some row
        /\ Rt.publish_date row = Some (u "2025-06-15")
        /\ Rt.publish_date row = Some (Dt.strftime_Ymd d)
        /\ Dt.strptime_Ymd (Dt.strftime_Ymd d) = Some d
        /\ Dt.le (Rt.today fair) d = true).
Proof.
  intros w. split.
  - assert (Hrow : { row | Rt.db (snd (Main.process_congrat_date main_cfg
                                         fair (say 7 (u "15-06-2025")) w))
                             !! 100 = Some row })
      by (eexists; vm_compute; reflexivity).
    destruct Hrow as [row Hrow].
    destruct (main_date_reads_back main_cfg fair 7 (u "15-06-2025") w 100
                row eq_refl ltac:(cbn; lia) eq_refl Hrow)
      as (d & Hpd & Hrt & Hle & _).
    exists row, d. by repeat split.
  - assert (Hrow : { row | Rt.db (snd (Main.process_congrat_date main_cfg
                                         fair (say 7 (u "1٥-06-٢٠٢٥")) w))
                             !! 100 = Some row
                           /\ Rt.publish_date row = Some (u "2025-06-15") })
      by (eexists; split; vm_compute; reflexivity).
    destruct Hrow as [row [Hrow Hdate]].
    destruct (main_date_reads_back main_cfg fair 7 (u "1٥-06-٢٠٢٥") w 100
                row eq_refl ltac:(cbn; lia) eq_refl Hrow)
      as (d & Hpd & Hrt & Hle & _).
    exists row, d. by repeat split.
Defined.

(** [process_announce_text] of bot.py leaves the table as it is, or
    goes on with [complete_request] for a text that the censor lets
    through *)
Lemma bot_announce_cases (cfg : Bot.config) (e : Rt.env) (actor : Z)
    (text : str) (w : Bot.W) :
  let r := Bot.process_announce_text cfg e (say actor text) w in
  Rt.db (snd r) = Rt.db w
  \/ exists rt censored,
       get_str (Rt.user_data w) "request_type" = Some rt
       /\ (Py.len text <= Bot.max_len_of rt)%nat
       /\ Bot.censor_text text = (censored, false)
       /\ r = Bot.complete_request cfg e (say actor text)
                (Rt.World (Rt.db w) (Rt.next_id w) (Rt.tick w) (Rt.sent w)
                   (<["has_bad_words" := VBool false]>
                      (<["censored_text" := VStr censored]>
                         (<["text" := VStr text]> (Rt.user_data w))))).
Proof.
  destruct w as [db n tk s ud].
  unfold Bot.process_announce_text, Bot.censor_and_confirm,
    Bot.safe_reply_text, Bot.safe_edit_message_text.
  walk ud_facts; try (left; reflexivity).
  arith_hyps. right. eexists _, _.
  split; [reflexivity|]. split; [eassumption|]. split; reflexivity.
Qed.

Lemma bot_censor_lets_through (text censored : str) :
  Bot.censor_text text = (censored, false) ->
  censored = text /\ occurs Bot.DEFAULT_BAD_WORDS text = false.
Proof.
  intros Hc.
  assert (Hsnd : snd (Bot.censor_text text) = false) by by rewrite Hc.
  unfold Bot.censor_text, Bot.load_bad_words in Hsnd, Hc.
  rewrite censor_pass_flag in Hsnd.
  rewrite censor_pass_id in Hc by (by apply occurs_false).
  by injection Hc as <-.
Qed.

(** X15: a row that bot.py adds to the table when the user sends the
    text of an announcement or of a news item holds this text exactly as
    it was typed; no word of the list occurs in it, and its length,
    counted with the blanks around it, is within the limit of the type
    of the request (300 for news, 500 otherwise).  The row is pending,
    without a publication time, and belongs to the sender. *)
Theorem bot_announcement_stored_as_typed (cfg : Bot.config) (e : Rt.env)
    (actor : Z) (text : str) (w : Bot.W) (k : Z) (row : Rt.application) :
  Rt.db w !! k = None ->
  Rt.db (snd (Bot.process_announce_text cfg e (say actor text) w)) !! k
  = Some row ->
  Rt.text row = text
  /\ occurs Bot.DEFAULT_BAD_WORDS text = false
  /\ get_str (Rt.user_data w) "request_type" = Some (Rt.type row)
  /\ (Py.len text <= Bot.max_len_of (Rt.type row))%nat
  /\ Rt.user_id row = actor /\ Rt.status row = u "pending"
  /\ Rt.published_at row = None.
Proof.
  intros Hnone Hrow.
  destruct (bot_announce_cases cfg e actor text w)
    as [Hdb|(rt & censored & Hrt & Hlen & Hc & Heq)].
  { rewrite Hdb in Hrow. congruence. }
  rewrite Heq in Hrow.
  destruct (bot_censor_lets_through _ _ Hc) as [-> Hocc].
  match type of Hrow with
  | context [Bot.complete_request _ _ ?upd ?w1] =>
      destruct (bot_complete_stores cfg e upd w1)
        as [(_ & Hdb & _)|(_ & _ & [Hdb|(rt' & tx & Hrt' & Htx & Hdb)])]
  end.
  1, 2: rewrite Hdb in Hrow; cbn [Rt.db] in Hrow; congruence.
  cbv zeta in Hdb. rewrite Hdb in Hrow.
  cbn [Rt.db Rt.next_id Rt.user_data] in Hrow, Hrt', Htx.
  revert Hrt' Htx Hrow. ud_facts. rewrite Hrt. intros [= <-] [= <-] Hrow.
  destruct (insert_new_row _ _ _ _ _ Hnone Hrow) as [-> ->].
  by repeat split.
Qed.

(** X15 on the news item "привет" of user 7. *)
Lemma bot_announcement_stored_as_typed_witness :
  exists row,
    Rt.db (snd (Bot.process_announce_text bot_cfg fair
                  (say 7 (u "привет")) (bot_chat (u "news")))) !! 100
    = Some row
    /\ Rt.text row = u "привет"
    /\ occurs Bot.DEFAULT_BAD_WORDS (u "привет") = false.
Proof.
  assert (Hrow : { row | Rt.db (snd (Bot.process_announce_text bot_cfg fair
                                       (say 7 (u "привет"))
                                       (bot_chat (u "news")))) !! 100
                         = Some row })
    by (eexists; vm_compute; reflexivity).
  destruct Hrow as [row Hrow]. exists row. split; [exact Hrow|].
  destruct (bot_announcement_stored_as_typed bot_cfg fair 7 (u "привет")
              (bot_chat (u "news")) 100 row eq_refl Hrow) as (Ht & Ho & _).
  by split.
Defined.

(** when [process_announce_text] of bot.py leads to the approval state,
    it has kept the masked text and left the table as it was *)
Lemma bot_announce_wait (cfg : Bot.config) (e : Rt.env) (actor : Z)
    (text : str) (w : Bot.W) :
  let r := Bot.process_announce_text cfg e (say actor text) w in
  fst r = Some WAIT_CENSOR_APPROVAL ->
  Rt.db (snd r) = Rt.db w
  /\ get_str (Rt.user_data (snd r)) "censored_text"
     = Some (fst (Bot.censor_text text)).
Proof.
  destruct w as [db n tk s ud].
  unfold Bot.process_announce_text, Bot.censor_and_confirm,
    Bot.safe_reply_text, Bot.safe_edit_message_text.
  walk ud_facts; try discriminate.
  - intros _. split; [reflexivity|]. by ud_facts.
  - bot_completed; settle idtac; discriminate.
Qed.

(** the button that accepts the masked text leaves the table as it is,
    or goes on with [complete_request] for the masked text *)
Lemma bot_approve_cases (cfg : Bot.config) (e : Rt.env) (actor : Z)
    (w : Bot.W) :
  let r := Bot.handle_censor_approval cfg e
             (press actor (u "approve_censor")) w in
  Rt.db (snd r) = Rt.db w
  \/ exists masked,
       get_str (Rt.user_data w) "censored_text" = Some masked
       /\ r = Bot.complete_request cfg e (press actor (u "approve_censor"))
                (Rt.World (Rt.db w) (Rt.next_id w) (S (Rt.tick w))
                   (Rt.sent w ++ [Rt.AnswerQuery true])
                   (<["text" := VStr masked]> (Rt.user_data w))).
Proof.
  destruct w as [db n tk s ud].
  unfold Bot.handle_censor_approval, Bot.answer.
  walk idtac; try (left; reflexivity).
  right. eexists. split; reflexivity.
Qed.

(** X16: when the censor of bot.py finds a listed word in an
    announcement or a news item and the user then accepts the masked
    version, the row that is added to the table holds the masked text:
    no listed word occurs in it, and it is not longer than what the user
    typed. *)
Theorem bot_approved_text_is_masked (cfg : Bot.config) (e1 e2 : Rt.env)
    (actor : Z) (text : str) (w : Bot.W) (k : Z) (row : Rt.application) :
  let r1 := Bot.process_announce_text cfg e1 (say actor text) w in
  let r2 := Bot.handle_censor_approval cfg e2
              (press actor (u "approve_censor")) (snd r1) in
  fst r1 = Some WAIT_CENSOR_APPROVAL ->
  Rt.db w !! k = None ->
  Rt.db (snd r2) !! k = Some row ->
  Rt.text row = fst (Bot.censor_text text)
  /\ occurs Bot.DEFAULT_BAD_WORDS (Rt.text row) = false
  /\ (Py.len (Rt.text row) <= Py.len text)%nat.
Proof.
  intros r1 r2 Hwait Hnone Hrow.
  destruct (bot_announce_wait cfg e1 actor text w Hwait) as [Hdb1 Hmask].
  fold r1 in Hdb1, Hmask. rewrite <- Hdb1 in Hnone.
  assert (Ht : Rt.text row = fst (Bot.censor_text text)).
  { subst r2.
    destruct (bot_approve_cases cfg e2 actor (snd r1))
      as [Hdb|(masked & Hm & Heq)].
    { rewrite Hdb in Hrow. congruence. }
    rewrite Hmask in Hm. apply (inj Some) in Hm. subst masked.
    rewrite Heq in Hrow.
    match type of Hrow with
    | context [Bot.complete_request _ _ ?upd ?w1] =>
        destruct (bot_complete_stores cfg e2 upd w1)
          as [(_ & Hdb & _)|(_ & _ & [Hdb|(rt' & tx & Hrt' & Htx & Hdb)])]
    end.
    1, 2: rewrite Hdb in Hrow; cbn [Rt.db] in Hrow; congruence.
    cbv zeta in Hdb. rewrite Hdb in Hrow.
    cbn [Rt.db Rt.next_id Rt.user_data] in Hrow, Htx.
    revert Htx Hrow. ud_facts. intros Htx%(inj Some) Hrow. subst tx.
    by destruct (insert_new_row _ _ _ _ _ Hnone Hrow) as [_ ->]. }
  rewrite Ht. split; [done|]. split; [apply bot_censored_clean|].
  unfold Bot.censor_text, Bot.load_bad_words, Py.len.
  apply censor_pass_length; [vm_compute; reflexivity | vm_compute; lia].
Qed.

(** X16 on the announcement "мой номер 5" of user 7: the word "номер"
    is on the list of bot.py. *)
Lemma bot_approved_text_is_masked_witness :
  let r1 := Bot.process_announce_text bot_cfg fair
              (say 7 (u "мой номер 5")) (bot_chat (u "announcement")) in
  let r2 := Bot.handle_censor_approval bot_cfg fair
              (press 7 (u "approve_censor")) (snd r1) in
  exists row,
    Rt.db (snd r2) !! 100 = Some row
    /\ Rt.text row = u "мой *** 5"
    /\ occurs Bot.DEFAULT_BAD_WORDS (Rt.text row) = false.
Proof.
  intros r1 r2.
  assert (Hrow : { row | Rt.db (snd r2) !! 100 = Some row })
    by (eexists; vm_compute; reflexivity).
  destruct Hrow as [row Hrow]. exists row. split; [exact Hrow|].
  destruct (bot_approved_text_is_masked bot_cfg fair fair 7
              (u "мой номер 5") (bot_chat (u "announcement")) 100 row
              ltac:(vm_compute; reflexivity) eq_refl Hrow) as (Ht & Ho & _).
  split; [|exact Ho]. rewrite Ht. vm_compute. reflexivity.
Defined.

(** *** Names in main.py *)

Lemma lstrip_idem (s : str) : Py.lstrip (Py.lstrip s) = Py.lstrip s.
Proof.
  induction s as [|c s IH]; [done|]. cbn [Py.lstrip].
  destruct (Py.isspace c) eqn:E; [done|]. cbn [Py.lstrip]. by rewrite E.
Qed.

Lemma lstrip_suffix (s : str) : exists sp, s = sp ++ Py.lstrip s.
Proof.
  induction s as [|c s [sp IH]]; [by exists []|]. cbn [Py.lstrip].
  destruct (Py.isspace c).
  - exists (c :: sp). cbn [app]. by rewrite <- IH.
  - by exists [].
Qed.

Lemma lstrip_prefix (a b : str) :
  Py.lstrip (a ++ b) = a ++ b -> Py.lstrip a = a.
Proof.
  destruct a as [|c a]; [done|]. cbn [app Py.lstrip].
  destruct (Py.isspace c) eqn:E; [|done].
  intros H. exfalso.
  destruct (lstrip_suffix (a ++ b)) as [sp Hsp].
  rewrite H in Hsp. apply (f_equal (@List.length Z)) in Hsp.
  rewrite !length_app in Hsp. cbn [List.length] in Hsp.
  rewrite ?length_app in Hsp. lia.
Qed.

Lemma strip_idem (s : str) : Py.strip (Py.strip s) = Py.strip s.
Proof.
  unfold Py.strip, Py.rstrip.
  set (a := Py.lstrip s). set (b := Py.lstrip (rev a)).
  assert (Hb : Py.lstrip b = b) by apply lstrip_idem.
  assert (Ha : Py.lstrip (rev b) = rev b).
  { destruct (lstrip_suffix (rev a)) as [sp Hsp]. fold b in Hsp.
    apply (f_equal (@rev Z)) in Hsp. rewrite rev_involutive, rev_app_distr in Hsp.
    apply (lstrip_prefix (rev b) (rev sp)). rewrite <- Hsp. apply lstrip_idem. }
  by rewrite Ha, rev_involutive, Hb.
Qed.

Lemma main_validate_name_kept (cfg : Main.config) (n : str) :
  Main.validate_name (Py.strip n) = true ->
  snd (Main.censor_text cfg (Py.strip n)) = false ->
  kept_name (Main.BAD_WORDS_LIST cfg) (Py.strip n).
Proof.
  unfold Main.validate_name. rewrite strip_idem.
  rewrite !andb_true_iff, !Nat.leb_le, forallb_forall.
  intros [[[_ H2] H50] Hall] Hc. split; [done|]. split.
  - apply Forall_forall. intros c Hc'%list_elem_of_In.
    apply name_charb_spec. rewrite <- char_in_allowed. by apply Hall.
  - rewrite <- Hc. unfold Main.censor_text. rewrite main_fold_censor_eq.
    rewrite <- (censor_pass_flag (Main.BAD_WORDS_LIST cfg) (Py.strip n)).
    by destruct (fold_left _ _ _).
Qed.

(** X17: main.py keeps a name only trimmed and checked.  When the
    handler of the sender's name goes on to the recipient, what it has
    put into [user_data] under [from_name] is the typed text without the
    blanks around it, of two to fifty Russian letters, spaces and
    hyphens, and without a listed word; likewise for the handler of the
    recipient's name and [to_name].  So the names pass the length check
    of [add_application]. *)
Theorem main_names_kept_trimmed (cfg : Main.config) (e : Rt.env)
    (actor : Z) (t : str) (w : Main.W) :
  let s := Main.get_sender_name cfg e (say actor t) w in
  let r := Main.get_recipient_name cfg e (say actor t) w in
  (fst s = Some RECIPIENT_NAME_INPUT ->
   Rt.user_data (snd s)
   = <["from_name" := VStr (Py.strip t)]> (Rt.user_data w)
   /\ kept_name (Main.BAD_WORDS_LIST cfg) (Py.strip t))
  /\ (fst r = Some CONGRAT_HOLIDAY_CHOICE ->
      Rt.user_data (snd r)
      = <["to_name" := VStr (Py.strip t)]> (Rt.user_data w)
      /\ kept_name (Main.BAD_WORDS_LIST cfg) (Py.strip t)).
Proof.
  destruct w as [db n tk sn ud]. cbv zeta.
  pose proof (main_validate_name_kept cfg t) as Hk.
  split.
  - unfold Main.get_sender_name, Main.incoming_text. open_main.
    walk idtac; try discriminate.
    intros _. split; [reflexivity|]. by apply Hk.
  - unfold Main.get_recipient_name, Main.edit_sender_name,
      Main.incoming_text. open_main.
    walk idtac; try discriminate.
    intros _. split; [reflexivity|]. by apply Hk.
Qed.

(** X17 on the name " Внук Виталий ", typed with blanks around it. *)
Lemma main_names_kept_trimmed_witness :
  let s := Main.get_sender_name main_cfg fair (say 7 (u " Внук Виталий "))
             (main_chat (u "congrat")) in
  fst s = Some RECIPIENT_NAME_INPUT
  /\ get_str (Rt.user_data (snd s)) "from_name" = Some (u "Внук Виталий")
  /\ kept_name Main.DEFAULT_BAD_WORDS (Py.strip (u " Внук Виталий ")).
Proof.
  intros s.
  assert (Hs : fst s = Some RECIPIENT_NAME_INPUT)
    by (vm_compute; reflexivity).
  split; [exact Hs|]. split; [vm_compute; reflexivity|].
  exact (proj2 (proj1 (main_names_kept_trimmed main_cfg fair 7
                         (u " Внук Виталий ") (main_chat (u "congrat")))
                  Hs)).
Defined.

(** *** The button "back to start" in main.py *)

(** X18: in main.py the button "back to start" does not lead back to
    the start.  Whichever handler receives it, the conversation ends:
    nothing is shown to the user, who has to type /start to go on;
    [user_data] and the table stay as they are, and all that is sent is
    the answer to the callback query. *)
Theorem main_back_to_start_ends (cfg : Main.config) (e : Rt.env)
    (actor : Z) (w : Main.W) :
  Forall (fun h =>
            let r := h (press actor (u "back_to_start")) w in
            fst r = Some END
            /\ Rt.user_data (snd r) = Rt.user_data w
            /\ Rt.db (snd r) = Rt.db w
            /\ exists evs, Rt.sent (snd r) = Rt.sent w ++ evs
                           /\ forallb is_answer evs = true)
    (main_back_handlers cfg e).
Proof.
  destruct w as [db n tk s ud]. unfold main_back_handlers.
  repeat constructor.
  all: unfold Main.get_sender_name, Main.get_recipient_name,
         Main.handle_congrat_holiday_choice,
         Main.process_custom_congrat_message, Main.process_congrat_date,
         Main.handle_announce_subtype_selection,
         Main.process_announce_news_text, Main.handle_censor_choice;
       open_main; walk idtac.
  all: try reflexivity.
  all: try (exists []; split; [symmetry; apply app_nil_r | reflexivity]).
  all: eexists; split; reflexivity.
Qed.

(** *** The text of a congratulation in bot.py *)

Lemma get_truthy_str (d : gmap string value) (k : string) (s : str) :
  get_str d k = Some s -> get_truthy d k = Py.truthy s.
Proof.
  unfold get_str, get_truthy. destruct (d !! k) as [[]|]; congruence.
Qed.

Lemma get_truthy_insert_ne (d : gmap string value) (k k' : string)
    (v : value) :
  k' <> k -> get_truthy (<[k' := v]> d) k = get_truthy d k.
Proof. intros H. unfold get_truthy. by rewrite lookup_insert_ne. Qed.

Lemma bot_valid_name_truthy (name : str) :
  Bot.validate_name name = true -> Py.truthy name = true.
Proof.
  unfold Bot.validate_name. by destruct (Py.truthy name).
Qed.

(** X19: bot.py signs a congratulation when the name of the recipient
    is accepted: the text kept for the request becomes the text so far,
    a line with the name of the sender and a line with the name of the
    recipient, both names as they were typed.  The limit of 500
    characters was checked on the text alone, before the two lines were
    added. *)
Theorem bot_congratulation_is_signed (e : Rt.env) (actor : Z)
    (to_ text from : str) (w : Bot.W) :
  Bot.validate_name to_ = true ->
  get_str (Rt.user_data w) "text" = Some text -> Py.truthy text = true ->
  get_str (Rt.user_data w) "from_name" = Some from ->
  Py.truthy from = true ->
  let r := Bot.process_recipient_name e (say actor to_) w in
  fst r = Some CONGRAT_DATE_INPUT
  /\ get_str (Rt.user_data (snd r)) "text"
     = Some (text ++ [NL] ++ u "От: " ++ from ++ [NL] ++ u "Для: " ++ to_)
  /\ get_str (Rt.user_data (snd r)) "to_name" = Some to_
  /\ Rt.db (snd r) = Rt.db w.
Proof.
  intros Hv Ht Htt Hf Hft. pose proof (bot_valid_name_truthy _ Hv) as Hto.
  destruct w as [db n tk s ud]. cbn [Rt.user_data] in Ht, Hf.
  pose proof (get_truthy_str _ _ _ Ht) as Hgt. rewrite Htt in Hgt.
  unfold Bot.process_recipient_name, Bot.safe_reply_text,
    Bot.safe_edit_message_text.
  walk ltac:(rewrite ?Hv, ?Hto, ?Hft;
             rewrite ?get_truthy_insert_ne by discriminate;
             rewrite ?Hgt; ud_facts; rewrite ?Ht, ?Hf).
  all: repeat split; try reflexivity.
  all: ud_facts; rewrite <- ?app_assoc; reflexivity.
Qed.

(** X19 on the text "С праздником", from "Внук Виталий" to
    "Бабушку Вику". *)
Lemma bot_congratulation_is_signed_witness :
  let w : Bot.W :=
    Rt.World ∅ 100 0 []
      (<["from_name" := VStr (u "Внук Виталий")]>
         (<["text" := VStr (u "С праздником")]> ∅)) in
  let r := Bot.process_recipient_name fair (say 7 (u "Бабушку Вику")) w in
  fst r = Some CONGRAT_DATE_INPUT
  /\ get_str (Rt.user_data (snd r)) "text"
     = Some (u "С праздником" ++ [NL] ++ u "От: " ++ u "Внук Виталий"
             ++ [NL] ++ u "Для: " ++ u "Бабушку Вику").
Proof.
  intros w r.
  destruct (bot_congratulation_is_signed fair 7 (u "Бабушку Вику")
              (u "С праздником") (u "Внук Виталий") w)
    as (Hs & Ht & _); try (vm_compute; reflexivity).
  by split.
Defined.

(** *** A holiday congratulation in main.py *)

Lemma holidays_ok : forallb holiday_entry_ok HOLIDAYS = true.
Proof. vm_compute. reflexivity. Qed.

Lemma main_censor_text_words (cfg cfg' : Main.config) (t : str) :
  Main.BAD_WORDS_LIST cfg = Main.BAD_WORDS_LIST cfg' ->
  Main.censor_text cfg t = Main.censor_text cfg' t.
Proof. unfold Main.censor_text. by intros ->. Qed.

Lemma some_vstr_inj (a b : str) : Some (VStr a) = Some (VStr b) -> a = b.
Proof. by intros [= ->]. Qed.

Lemma str_eqb_eq (a b : str) : Py.str_eqb a b = true -> a = b.
Proof. apply bool_decide_eq_true. Qed.

(** X20: in main.py the choice of a holiday completes the request at
    once.  A row that is added then is for a holiday that is active
    today; its text is the template of the holiday, unchanged by the
    censor, its kind of congratulation is the name of the holiday, and
    its publication date is the date of the holiday in the current
    year, which may lie up to five days back or ahead. *)
Theorem main_holiday_request (admin group : option Z) (e : Rt.env)
    (actor : Z) (name date : str) (w : Main.W) (k : Z)
    (row : Rt.application) :
  let cfg := Main.Config admin group Main.DEFAULT_BAD_WORDS in
  Dt.valid (Rt.today e) = true -> 1000 <= Dt.year (Rt.today e) ->
  In (name, date) HOLIDAYS ->
  Rt.db w !! k = None ->
  Rt.db (snd (Main.handle_congrat_holiday_choice cfg e (press actor name) w))
    !! k = Some row ->
  Main.is_holiday_active (Rt.today e) date = true
  /\ Rt.text row = Main.template_of name
  /\ Rt.congrat_type row = Some name
  /\ Rt.publish_date row
     = Some (Py.str_of_int (Dt.year (Rt.today e)) ++ [HYPHEN] ++ date)
  /\ Rt.status row = u "pending".
Proof.
  intros cfg Hv Hy Hin Hnone.
  pose proof holidays_ok as Hok. rewrite forallb_forall in Hok.
  specialize (Hok _ Hin). unfold holiday_entry_ok in Hok.
  destruct (Py.dict_get name HOLIDAYS) as [d0|] eqn:Hget;
    [|by rewrite !andb_false_r in Hok].
  destruct (Dt.split_at HYPHEN date) as [[ms ds]|] eqn:Hsplit;
    [|by rewrite !andb_false_r in Hok].
  destruct (Dt.field12 12 ms) as [m|] eqn:Hm;
    [|by rewrite !andb_false_r in Hok].
  destruct (Dt.field_day ds) as [d|] eqn:Hd;
    [|by rewrite !andb_false_r in Hok].
  rewrite !andb_true_iff, !negb_true_iff, !Z.leb_le in Hok.
  destruct Hok as [[[[[[[[[Hname Hb1] Hb2] Hb3] Hb4] Hd0] Htt] Hc1] Hc2]
                     [[Hm11 Hd28] Hfmt]].
  apply str_eqb_eq in Hd0, Hc1, Hfmt. subst d0.
  assert (Hyear : 1000 <= Dt.year (Rt.today e) <= 9999).
  { unfold Dt.valid, Dt.MAXYEAR in Hv.
    rewrite !andb_true_iff, !Z.leb_le in Hv. lia. }
  assert (Hparse : Dt.strptime_Ymd
                     (Py.str_of_int (Dt.year (Rt.today e)) ++ [HYPHEN] ++ date)
                   = Some (Dt.Date (Dt.year (Rt.today e)) m d)).
  { apply strptime_holiday; [done|].
    rewrite Hsplit, Hm, Hd, !Z.eqb_refl. cbn [andb]. by apply Z.leb_le. }
  assert (Hfmt' : Dt.strftime_Ymd (Dt.Date (Dt.year (Rt.today e)) m d)
                  = Py.str_of_int (Dt.year (Rt.today e)) ++ [HYPHEN] ++ date).
  { unfold Dt.strftime_Ymd. cbn [Dt.year Dt.month Dt.day].
    by rewrite str_of_int_pad4, <- Hfmt. }
  assert (Hcensor : Main.censor_text cfg (Main.template_of name)
                    = (Main.template_of name, false)).
  { rewrite (main_censor_text_words cfg
               (Main.Config None None Main.DEFAULT_BAD_WORDS)) by done.
    destruct (Main.censor_text _ _) as [c b]. cbn [fst snd] in Hc1, Hc2.
    by subst. }
  intros Hrow.
  assert (Hcases :
    let r := Main.handle_congrat_holiday_choice cfg e (press actor name) w in
    Rt.db (snd r) = Rt.db w
    \/ (Main.is_holiday_active (Rt.today e) date = true
        /\ exists w1,
             r = Main.complete_request cfg e (press actor name) w1
             /\ Rt.db w1 = Rt.db w
             /\ Rt.user_data w1
                = <["publish_date"
                    := VStr (Dt.strftime_Ymd
                               (Dt.Date (Dt.year (Rt.today e)) m d))]>
                    (<["text" := VStr (Main.template_of name)]>
                       (<["congrat_type" := VStr name]> (Rt.user_data w))))).
  { clear Hrow. destruct w as [db n tk s ud].
    unfold Main.handle_congrat_holiday_choice, Main.answer,
      Main.safe_edit_message_text.
    walk ltac:(rewrite ?Hname, ?Hb1, ?Hb2, ?Hb3, ?Hb4, ?Hget, ?Hparse);
      try (left; reflexivity).
    right. split; [reflexivity|]. eexists. split; [reflexivity|].
    split; reflexivity. }
  destruct Hcases as [Hdb|(Hact & w1 & Heq & Hdb1 & Hud1)].
  { rewrite Hdb in Hrow. congruence. }
  rewrite Heq in Hrow. rewrite <- Hdb1 in Hnone.
  destruct (main_complete_stores cfg e (press actor name) w1)
    as [Hdb|(text & ty & Htext & _ & Hty & _ & Hdb & _)];
    rewrite Hdb in Hrow; [congruence|].
  rewrite Hud1 in Htext, Hrow.
  rewrite lookup_insert_ne, lookup_insert_eq in Htext by done.
  apply some_vstr_inj in Htext. subst text.
  destruct (insert_new_row _ _ _ _ _ Hnone Hrow) as [_ ->].
  cbn [Rt.new_row Rt.text Rt.congrat_type Rt.publish_date Rt.status
       Rt.d_text Rt.d_congrat_type Rt.d_publish_date].
  rewrite Hcensor. ud_facts. rewrite Hfmt'. by repeat split.
Qed.

(** X20 on 20 February 2025, for the holiday of 23 February. *)
Lemma main_holiday_request_witness :
  let e := on_day (Dt.Date 2025 2 20) in
  exists row,
    Rt.db (snd (Main.handle_congrat_holiday_choice main_cfg e
                  (press 7 (u "🪖 23 Февраля")) (main_chat (u "congrat"))))
      !! 100 = Some row
    /\ Rt.text row = Main.template_of (u "🪖 23 Февраля")
    /\ Rt.publish_date row = Some (u "2025-02-23").
Proof.
  intros e.
  assert (Hrow : { row | Rt.db (snd (Main.handle_congrat_holiday_choice
                                       main_cfg e
                                       (press 7 (u "🪖 23 Февраля"))
                                       (main_chat (u "congrat")))) !! 100
                         = Some row })
    by (eexists; vm_compute; reflexivity).
  destruct Hrow as [row Hrow]. exists row. split; [exact Hrow|].
  destruct (main_holiday_request (Some 1) (Some (-100)) e 7
              (u "🪖 23 Февраля") (u "02-23") (main_chat (u "congrat"))
              100 row eq_refl ltac:(cbn; lia)
              ltac:(right; left; reflexivity) eq_refl Hrow)
    as (_ & Ht & _ & Hp & _).
  split; [exact Ht|]. rewrite Hp. vm_compute. reflexivity.
Defined.

(** *** The moderator is told *)

(** X21: a request that is stored is put before the moderator.  When
    [complete_request] adds a row and a moderator is configured, it
    sends to the moderator's chat the notice of the new application,
    with the key of the row and the data the row was made from (in
    bot.py provided the key is not 0, which the program takes for a
    failure). *)
Theorem stored_request_reaches_moderator (k admin : Z)
    (row : Rt.application) :
  admin <> 0 ->
  (forall cfg e upd (w : Main.W),
     Main.ADMIN_CHAT_ID cfg = Some admin ->
     Rt.db w !! k = None ->
     Rt.db (snd (Main.complete_request cfg e upd w)) !! k = Some row ->
     exists data ok evs,
       row = Rt.new_row k (Rt.now e) data
       /\ Rt.sent (snd (Main.complete_request cfg e upd w))
          = Rt.sent w ++ evs
       /\ In (Rt.SendMessage admin (Main.NewApplication k data) ok) evs)
  /\ (forall cfg e upd (w : Bot.W),
        Bot.ADMIN_CHAT_ID cfg = Some admin -> k <> 0 ->
        Rt.db w !! k = None ->
        Rt.db (snd (Bot.complete_request cfg e upd w)) !! k = Some row ->
        exists data ok evs,
          row = Rt.new_row k (Rt.now e) data
          /\ Rt.sent (snd (Bot.complete_request cfg e upd w))
             = Rt.sent w ++ evs
          /\ In (Rt.SendMessage admin (Bot.NewApplication k data) ok) evs).
Proof.
  intros Hadmin. apply Z.eqb_neq in Hadmin. split.
  - intros cfg e upd w Ha Hnone.
    destruct w as [d n t s ud]. destruct upd as [a un fn cb qm mt].
    cbn [Rt.db] in Hnone.
    unfold Main.complete_request, Main.add_application,
      Main.send_to_admin_for_moderation, Main.safe_send_message,
      Main.safe_reply_text, Main.safe_edit_message_text.
    cbv zeta. run_rt.
    destruct (ud !! "text") as [[text| |]|] eqn:Htext.
    2-4: walk idtac; congruence.
    destruct (Main.censor_text cfg text) as [censored bad] eqn:Hc.
    unfold truthy_id. rewrite Ha, Hadmin.
    walk ltac:(ud_facts); try congruence.
    all: intros Hrow;
      destruct (insert_new_row _ _ _ _ _ Hnone Hrow) as [-> ->].
    all: eexists _, _, _; split; [reflexivity|].
    all: rewrite <- ?app_assoc; split; [reflexivity|].
    all: cbn [app In]; auto.
  - intros cfg e upd w Ha Hk Hnone. apply Z.eqb_neq in Hk.
    destruct w as [d n t s ud]. destruct upd as [a un fn cb qm mt].
    cbn [Rt.db] in Hnone.
    open_bot. cbv zeta. run_rt. unfold truthy_id. rewrite Ha, Hadmin.
    destruct (get_str ud "request_type") as [rt|] eqn:Hrt.
    2:{ destruct (get_str ud "text"); cbn; congruence. }
    destruct (get_str ud "text") as [text|] eqn:Htext; [|cbn; congruence].
    walk idtac; try congruence.
    all: intros Hrow;
      destruct (insert_new_row _ _ _ _ _ Hnone Hrow) as [-> ->].
    all: try (rewrite Hk in *; discriminate).
    all: eexists _, _, _; split; [reflexivity|].
    all: rewrite <- ?app_assoc; split; [reflexivity|].
    all: cbn [app In]; auto.
Qed.

(** *** Dates in the past *)

(** X23: a publication date that lies before today is refused by both
    programs: the user is told so and asked again, and nothing is kept
    of the answer.  (bot.py reads the date as day.month.year, main.py
    as day-month-year, after trimming.) *)
Theorem past_date_is_refused (e : Rt.env) (actor : Z) (t : str)
    (d : Dt.date) :
  Dt.lt d (Rt.today e) = true ->
  (forall cfg (w : Bot.W),
     Dt.strptime_dmY 46 t = Some d ->
     let r := Bot.process_congrat_date cfg e (say actor t) w in
     asks_again CONGRAT_DATE_INPUT w r
     /\ Rt.sent (snd r)
        = Rt.sent w ++ [Rt.ReplyText Bot.DateInPast (Rt.send_ok e (Rt.tick w))])
  /\ (forall cfg (w : Main.W),
        Dt.strptime_dmY HYPHEN (Py.lower (Py.strip t)) = Some d ->
        Py.startswith t (u "/start") = false ->
        let r := Main.process_congrat_date cfg e (say actor t) w in
        asks_again CONGRAT_DATE_INPUT w r
        /\ Rt.sent (snd r)
           = Rt.sent w
             ++ [Rt.ReplyText Main.DateInPast (Rt.send_ok e (Rt.tick w))]).
Proof.
  intros Hlt. split.
  - intros cfg w Hp. destruct w as [db n tk s ud].
    unfold asks_again, Bot.process_congrat_date, Bot.safe_reply_text.
    walk ltac:(rewrite ?Hp, ?Hlt). by repeat split.
  - intros cfg w Hp Hstart. destruct w as [db n tk s ud].
    assert (Ht : Py.truthy t = true).
    { destruct t; [|done]. vm_compute in Hp. discriminate Hp. }
    assert (Hne : Py.str_eqb (Py.lower (Py.strip t)) (u "сегодня") = false).
    { apply not_true_is_false. intros H%str_eqb_eq. rewrite H in Hp.
      vm_compute in Hp. discriminate Hp. }
    unfold asks_again, Main.process_congrat_date, Main.incoming_text.
    open_main.
    walk ltac:(rewrite ?Ht, ?Hstart, ?Hne, ?Hp, ?Hlt). by repeat split.
Qed.

(** X23 on the first of January 2020, answered on 15 June 2025. *)
Lemma past_date_is_refused_witness :
  fst (Bot.process_congrat_date bot_cfg fair (say 7 (u "01.01.2020"))
         (bot_chat (u "congrat")))
  = Some CONGRAT_DATE_INPUT
  /\ fst (Main.process_congrat_date main_cfg fair (say 7 (u "01-01-2020"))
            (main_chat (u "congrat")))
     = Some CONGRAT_DATE_INPUT.
Proof.
  split.
  - exact (proj1 (proj1 (proj1 (past_date_is_refused fair 7 (u "01.01.2020")
                                  (Dt.Date 2020 1 1) eq_refl)
                           bot_cfg (bot_chat (u "congrat")) eq_refl))).
  - exact (proj1 (proj1 (proj2 (past_date_is_refused fair 7 (u "01-01-2020")
                                  (Dt.Date 2020 1 1) eq_refl)
                           main_cfg (main_chat (u "congrat")) eq_refl
                           eq_refl))).
Defined.

(** X21 on the news item "привет" of user 7 in main.py, the moderator
    being user 1. *)
Lemma stored_request_reaches_moderator_witness :
  let w : Main.W :=
    Rt.World ∅ 100 0 []
      (<["text" := VStr (u "привет")]> (<["type" := VStr (u "news")]> ∅)) in
  let r := Main.complete_request main_cfg fair (say 7 (u "привет")) w in
  exists row data ok evs,
    Rt.db (snd r) !! 100 = Some row
    /\ row = Rt.new_row 100 (Rt.now fair) data
    /\ Rt.sent (snd r) = Rt.sent w ++ evs
    /\ In (Rt.SendMessage 1 (Main.NewApplication 100 data) ok) evs.
Proof.
  intros w r.
  assert (Hrow : { row | Rt.db (snd r) !! 100 = Some row })
    by (eexists; vm_compute; reflexivity).
  destruct Hrow as [row Hrow].
  destruct (proj1 (stored_request_reaches_moderator 100 1 row ltac:(lia))
              main_cfg fair (say 7 (u "привет")) w eq_refl eq_refl Hrow)
    as (data & ok & evs & H1 & H2 & H3).
  exists row, data, ok, evs.
  split; [exact Hrow|]. split; [exact H1|]. split; [exact H2 | exact H3].
Defined.

(** *** Announcements and news in main.py *)

(** X28: a row that main.py adds when the user sends the text of an
    announcement or of a news item holds the text without the blanks
    around it, exactly as typed otherwise: the filter left it as it
    was and reported nothing, and it has at most 300 characters.  Its
    publication date is the day of the message, in a form that the
    publisher reads back as that day, so the row is due as soon as it
    is approved. *)
Theorem main_news_is_due_at_once (cfg : Main.config) (e : Rt.env)
    (actor : Z) (t : str) (w : Main.W) (k : Z) (row : Rt.application) :
  Dt.valid (Rt.today e) = true -> 1000 <= Dt.year (Rt.today e) ->
  Rt.db w !! k = None ->
  Rt.db (snd (Main.process_announce_news_text cfg e (say actor t) w)) !! k
  = Some row ->
  Rt.text row = Py.strip t
  /\ Main.censor_text cfg (Py.strip t) = (Py.strip t, false)
  /\ (Py.len (Py.strip t) <= MAX_ANNOUNCE_NEWS_TEXT_LENGTH)%nat
  /\ Rt.publish_date row = Some (Dt.strftime_Ymd (Rt.today e))
  /\ Dt.strptime_Ymd (Dt.strftime_Ymd (Rt.today e)) = Some (Rt.today e)
  /\ Rt.status row = u "pending".
Proof.
  intros Hv Hy Hnone Hrow.
  assert (Hcases :
    let r := Main.process_announce_news_text cfg e (say actor t) w in
    Rt.db (snd r) = Rt.db w
    \/ (Main.censor_text cfg (Py.strip t) = (Py.strip t, false)
        /\ (Py.len (Py.strip t) <= MAX_ANNOUNCE_NEWS_TEXT_LENGTH)%nat
        /\ exists w1,
             r = Main.complete_request cfg e (say actor t) w1
             /\ Rt.db w1 = Rt.db w
             /\ Rt.user_data w1 !! "text" = Some (VStr (Py.strip t))
             /\ get_str (Rt.user_data w1) "publish_date"
                = Some (Dt.strftime_Ymd (Rt.today e)))).
  { clear Hrow. destruct w as [db n tk s ud].
    unfold Main.process_announce_news_text, Main.incoming_text.
    open_main. walk idtac; try (left; reflexivity).
    right. arith_hyps.
    match goal with
    | H : Py.str_eqb _ (Py.strip t) = true |- _ =>
        apply str_eqb_eq in H; subst
    end.
    split; [reflexivity|]. split; [assumption|].
    eexists. split; [reflexivity|]. split; [reflexivity|].
    cbn [Rt.user_data]. split; [|by ud_facts].
    by rewrite lookup_insert_ne, lookup_insert_eq. }
  destruct Hcases as [Hdb|(Hc & Hlen & w1 & Heq & Hdb1 & Htext1 & Hpd1)].
  { rewrite Hdb in Hrow. congruence. }
  rewrite Heq in Hrow. rewrite <- Hdb1 in Hnone.
  destruct (main_complete_stores cfg e (say actor t) w1)
    as [Hdb|(text & ty & Htext & _ & Hty & _ & Hdb & _)];
    rewrite Hdb in Hrow; [congruence|].
  rewrite Htext1 in Htext. apply some_vstr_inj in Htext. subst text.
  destruct (insert_new_row _ _ _ _ _ Hnone Hrow) as [_ ->].
  cbn [Rt.new_row Rt.text Rt.publish_date Rt.status Rt.d_text
       Rt.d_publish_date].
  rewrite Hc, Hpd1. cbn [fst]. repeat split; try done.
  by apply strptime_strftime.
Qed.

(** X28 on the news item " привет " of user 7. *)
Lemma main_news_is_due_at_once_witness :
  exists row,
    Rt.db (snd (Main.process_announce_news_text main_cfg fair
                  (say 7 (u " привет ")) (main_chat (u "news")))) !! 100
    = Some row
    /\ Rt.text row = u "привет"
    /\ Rt.publish_date row = Some (u "2025-06-15").
Proof.
  assert (Hrow : { row | Rt.db (snd (Main.process_announce_news_text
                                       main_cfg fair (say 7 (u " привет "))
                                       (main_chat (u "news")))) !! 100
                         = Some row })
    by (eexists; vm_compute; reflexivity).
  destruct Hrow as [row Hrow]. exists row. split; [exact Hrow|].
  destruct (main_news_is_due_at_once main_cfg fair 7 (u " привет ")
              (main_chat (u "news")) 100 row eq_refl ltac:(cbn; lia)
              eq_refl Hrow) as (Ht & _ & _ & Hp & _).
  split; [rewrite Ht | rewrite Hp]; vm_compute; reflexivity.
Defined.

(** *** The choice of a holiday in bot.py *)

Lemma bot_holidays_ok : forallb bot_holiday_entry_ok HOLIDAYS = true.
Proof. vm_compute. reflexivity. Qed.

(** X29: in bot.py the button of a holiday leads on exactly when the
    holiday is active today.  Then the kind of congratulation is set to
    the name of the holiday and the text to its template, and the
    sender's name is asked for; otherwise only the kind is set and the
    user stays at the choice of the holiday.  The table is not
    touched. *)
Theorem bot_holiday_choice (e : Rt.env) (actor : Z) (name date : str)
    (w : Bot.W) :
  In (name, date) HOLIDAYS ->
  Rt.send_ok e (Rt.tick w) = true ->
  let r := Bot.select_congrat_holiday e (press actor (u "holiday_" ++ date))
             w in
  let chosen := <["congrat_type" := VStr name]> (Rt.user_data w) in
  Rt.db (snd r) = Rt.db w
  /\ if Bot.is_holiday_active (Rt.today e) date
     then fst r = Some SENDER_NAME_INPUT
          /\ Rt.user_data (snd r)
             = <["text" := VStr (Bot.template_of name)]> chosen
     else fst r = Some CONGRAT_HOLIDAY_CHOICE
          /\ Rt.user_data (snd r) = chosen.
Proof.
  intros Hin Hok.
  pose proof bot_holidays_ok as Hall. rewrite forallb_forall in Hall.
  specialize (Hall _ Hin). unfold bot_holiday_entry_ok in Hall.
  rewrite !andb_true_iff, negb_true_iff in Hall.
  destruct Hall as [[[[Hcustom Hstart] Hrep] Hname] _].
  apply str_eqb_eq in Hrep, Hname.
  destruct w as [db n tk s ud]. cbn [Rt.tick] in Hok.
  unfold Bot.select_congrat_holiday, Bot.answer, Bot.safe_edit_message_text.
  walk ltac:(rewrite ?Hok, ?Hcustom, ?Hstart, ?Hrep, ?Hname).
  all: by repeat split.
Qed.

(** X29 for the holiday of 23 February, on 20 February 2025 and on 15
    June 2025. *)
Lemma bot_holiday_choice_witness :
  fst (Bot.select_congrat_holiday (on_day (Dt.Date 2025 2 20))
         (press 7 (u "holiday_" ++ u "02-23")) (bot_chat (u "congrat")))
  = Some SENDER_NAME_INPUT
  /\ fst (Bot.select_congrat_holiday fair
            (press 7 (u "holiday_" ++ u "02-23")) (bot_chat (u "congrat")))
     = Some CONGRAT_HOLIDAY_CHOICE.
Proof.
  split.
  - exact (proj1 (proj2 (bot_holiday_choice (on_day (Dt.Date 2025 2 20)) 7
                           (u "🪖 23 Февраля") (u "02-23")
                           (bot_chat (u "congrat"))
                           ltac:(right; left; reflexivity) eq_refl))).
  - exact (proj1 (proj2 (bot_holiday_choice fair 7
                           (u "🪖 23 Февраля") (u "02-23")
                           (bot_chat (u "congrat"))
                           ltac:(right; left; reflexivity) eq_refl))).
Defined.

(** *** A text that the filter of main.py changed *)

(** when [process_announce_news_text] of main.py leads to the approval
    state, the filter has changed the text; the filtered text is kept,
    and the table is as it was *)
Lemma main_announce_wait (cfg : Main.config) (e : Rt.env) (actor : Z)
    (t : str) (w : Main.W) :
  let r := Main.process_announce_news_text cfg e (say actor t) w in
  let c := fst (Main.censor_text cfg (Py.strip t)) in
  fst r = Some WAIT_CENSOR_APPROVAL ->
  Rt.db (snd r) = Rt.db w
  /\ c <> Py.strip t
  /\ Rt.user_data (snd r)
     = <["text" := VStr c]>
         (<["censored_text" := VStr c]>
            (<["original_text" := VStr (Py.strip t)]> (Rt.user_data w))).
Proof.
  destruct w as [db n tk s ud]. cbv zeta.
  unfold Main.process_announce_news_text, Main.incoming_text.
  open_main. walk idtac; try discriminate.
  - main_completed; settle idtac; discriminate.
  - intros _. split; [reflexivity|]. split; [|reflexivity].
    intros ->.
    match goal with
    | H : Py.str_eqb _ _ = false |- _ =>
        apply bool_decide_eq_false in H; by apply H
    end.
Qed.

(** X30: when the filter of main.py changes the text of an announcement
    or of a news item (it hides contact details) and the user then
    presses the button that accepts the change, the row that is added
    holds the filtered text, which differs from what was typed; with
    the default list no listed word occurs in it and the contact
    pattern matches nowhere in it.  Its publication date is the day the
    button was pressed. *)
Theorem main_accepted_text_is_filtered (admin group : option Z)
    (e1 e2 : Rt.env) (actor : Z) (t ty : str) (w : Main.W) (k : Z)
    (row : Rt.application) :
  let cfg := Main.Config admin group Main.DEFAULT_BAD_WORDS in
  let r1 := Main.process_announce_news_text cfg e1 (say actor t) w in
  let r2 := Main.handle_censor_choice cfg e2
              (press actor (u "accept_censor")) (snd r1) in
  fst r1 = Some WAIT_CENSOR_APPROVAL ->
  get_str (Rt.user_data w) "type" = Some ty ->
  ty = u "announcement" \/ ty = u "news" ->
  Rt.db w !! k = None ->
  Rt.db (snd r2) !! k = Some row ->
  Rt.text row = fst (Main.censor_text cfg (Py.strip t))
  /\ Rt.text row <> Py.strip t
  /\ occurs Main.DEFAULT_BAD_WORDS (Rt.text row) = false
  /\ contact_search (Rt.text row) = false
  /\ Rt.publish_date row = Some (Dt.strftime_Ymd (Rt.today e2)).
Proof.
  intros cfg r1 r2 Hwait Hty Hcase Hnone Hrow.
  destruct (main_announce_wait cfg e1 actor t w Hwait) as (Hdb1 & Hne & Hud1).
  fold r1 in Hdb1, Hud1. rewrite <- Hdb1 in Hnone.
  assert (Hty1 : get_str (Rt.user_data (snd r1)) "type" = Some ty).
  { rewrite Hud1. by ud_facts. }
  destruct (main_censor_choice_announce cfg e2 actor ty (snd r1) Hty1 Hcase)
    as [Heq _].
  subst r2. rewrite Heq in Hrow.
  match type of Hrow with
  | context [Main.complete_request _ _ ?upd ?w1] =>
      destruct (main_complete_stores cfg e2 upd w1)
        as [Hdb|(text & ty' & Htext & _ & _ & _ & Hdb & _)]
  end; rewrite Hdb in Hrow; cbn [Rt.db] in Hrow; [congruence|].
  cbn [Rt.user_data Rt.next_id] in Htext, Hrow. rewrite Hud1 in Htext, Hrow.
  rewrite lookup_insert_ne, lookup_insert_eq in Htext by done.
  apply some_vstr_inj in Htext. subst text.
  destruct (insert_new_row _ _ _ _ _ Hnone Hrow) as [_ ->].
  cbn [Rt.new_row Rt.text Rt.publish_date Rt.d_text Rt.d_publish_date].
  rewrite (main_censor_twice cfg (Py.strip t) main_words_maskable
             main_words_apart).
  cbn [fst]. ud_facts.
  destruct (main_censored_clean admin group (Py.strip t)) as [Ho Hc].
  by repeat split.
Qed.

(** X30 on the news item "звоните 89991234567" of user 7. *)
Lemma main_accepted_text_is_filtered_witness :
  let r1 := Main.process_announce_news_text main_cfg fair
              (say 7 (u "звоните 89991234567")) (main_chat (u "news")) in
  let r2 := Main.handle_censor_choice main_cfg fair
              (press 7 (u "accept_censor")) (snd r1) in
  exists row,
    Rt.db (snd r2) !! 100 = Some row
    /\ Rt.text row = Main.CONTACT_HIDDEN
    /\ contact_search (Rt.text row) = false.
Proof.
  intros r1 r2.
  assert (Hrow : { row | Rt.db (snd r2) !! 100 = Some row })
    by (eexists; vm_compute; reflexivity).
  destruct Hrow as [row Hrow]. exists row. split; [exact Hrow|].
  destruct (main_accepted_text_is_filtered (Some 1) (Some (-100)) fair fair
              7 (u "звоните 89991234567") (u "news") (main_chat (u "news"))
              100 row ltac:(vm_compute; reflexivity) eq_refl
              ltac:(right; reflexivity) eq_refl Hrow)
    as (Ht & _ & _ & Hc & _).
  split; [|exact Hc]. rewrite Ht. vm_compute. reflexivity.
Defined.

(** ** The keys on the moderator's buttons *)

Lemma digits_value_uint (d : Decimal.uint) (acc : Z) :
  Py.digits_value acc (bytes_of (NilEmpty.string_of_uint d))
  = Some (uint_value acc d).
Proof.
  revert acc. induction d; intros acc; [done|..].
  all: cbn [NilEmpty.string_of_uint bytes_of uint_value].
  all: match goal with
       | |- context [Py.digits_value _ (?c :: _)] =>
           let v := eval vm_compute in (c - 48) in
           change c with (48 + v)
       end.
  all: rewrite digits_value_digit by lia; apply IHd.
Qed.

Lemma uint_digits (d : Decimal.uint) :
  Forall (fun c => 48 <= c <= 57) (bytes_of (NilEmpty.string_of_uint d)).
Proof.
  induction d; cbn [NilEmpty.string_of_uint bytes_of]; constructor;
    try done; vm_compute; split; discriminate.
Qed.

Lemma uint_value_acc (d : Decimal.uint) (p : positive) :
  uint_value (Z.pos p) d = Z.pos (Pos.of_uint_acc d p).
Proof.
  revert p. induction d; intros p; cbn [uint_value Pos.of_uint_acc];
    [done|..].
  all: rewrite <- IHd; f_equal; lia.
Qed.

Lemma uint_value_0 (d : Decimal.uint) : uint_value 0 d = Z.of_uint d.
Proof.
  unfold Z.of_uint. induction d; cbn [uint_value Pos.of_uint]; [done|..].
  all: first [ exact IHd | apply uint_value_acc ].
Qed.

(** [int(str(k))] is [k] *)
Lemma int_str_of_int (k : Z) :
  0 <= k ->
  Py.int (Py.str_of_int k) = Some k
  /\ Forall (fun c => 48 <= c <= 57) (Py.str_of_int k).
Proof.
  intros Hk. unfold Py.str_of_int.
  pose proof (DecimalZ.of_to k) as Hof.
  destruct (Z.to_int k) as [d|d] eqn:Ed.
  2:{ destruct k; try discriminate Ed. lia. }
  cbn [NilEmpty.string_of_int]. cbn [Z.of_int] in Hof.
  split; [|apply uint_digits].
  unfold Py.int.
  destruct (bytes_of (NilEmpty.string_of_uint d)) as [|c s] eqn:Es.
  - destruct d; try discriminate Es.
    destruct k; try discriminate Ed. cbn in Ed.
    injection Ed as Ed. by destruct p.
  - rewrite <- Es, digits_value_uint, uint_value_0. by rewrite Hof.
Qed.

Lemma split_whole (sep : Z) (s : str) :
  Forall (fun c => c <> sep) s -> Py.split sep s = [s].
Proof.
  induction 1 as [|c s Hc _ IH]; [done|]. cbn [Py.split].
  apply Z.eqb_neq in Hc. by rewrite Hc, IH.
Qed.

Lemma split_app (sep : Z) (a b : str) :
  Forall (fun c => c <> sep) a ->
  Py.split sep (a ++ sep :: b) = a :: Py.split sep b.
Proof.
  induction 1 as [|c a Hc _ IH]; cbn [app Py.split].
  - by rewrite Z.eqb_refl.
  - apply Z.eqb_neq in Hc. by rewrite Hc, IH.
Qed.

Lemma split1_app (sep : Z) (a b : str) :
  Forall (fun c => c <> sep) a ->
  Py.split1 sep (a ++ sep :: b) = [a; b].
Proof.
  induction 1 as [|c a Hc _ IH]; cbn [app Py.split1].
  - by rewrite Z.eqb_refl.
  - apply Z.eqb_neq in Hc. by rewrite Hc, IH.
Qed.

Lemma letters_no_underscore (s : str) :
  forallb (fun c => negb (c =? 95)) s = true ->
  Forall (fun c => c <> 95) s.
Proof.
  rewrite forallb_forall. intros H. apply Forall_forall.
  intros c Hc%list_elem_of_In. specialize (H c Hc).
  apply negb_true_iff in H. by apply Z.eqb_neq.
Qed.

Lemma bot_parse_button (action : str) (k : Z) :
  0 <= k -> forallb (fun c => negb (c =? 95)) action = true ->
  Bot.parse_admin_data (u "admin" ++ 95 :: action ++ 95 :: Py.str_of_int k)
  = Some (action, k).
Proof.
  intros Hk Ha. destruct (int_str_of_int k Hk) as [Hint Hdig].
  assert (Hno : Forall (fun c => c <> 95) (Py.str_of_int k)).
  { eapply Forall_impl; [exact Hdig|]. intros c Hc. cbv beta in Hc. lia. }
  unfold Bot.parse_admin_data.
  rewrite !split_app, split_whole, Hint
    by first [done | apply letters_no_underscore; done
             | apply letters_no_underscore; vm_compute; reflexivity].
  done.
Qed.

Lemma main_parse_button (action : str) (k : Z) :
  0 <= k -> forallb (fun c => negb (c =? 95)) action = true ->
  Main.parse_admin_data (action ++ 95 :: Py.str_of_int k) = Some (action, k).
Proof.
  intros Hk Ha. destruct (int_str_of_int k Hk) as [Hint Hdig].
  unfold Main.parse_admin_data.
  rewrite split1_app, Hint by (by apply letters_no_underscore).
  done.
Qed.

(** X25: the key that the programs write on the moderator's buttons is
    the key that the moderation handler reads from the callback: the
    data [admin_approve_<id>] and [admin_reject_<id>] of bot.py, and
    [approve_<id>] and [reject_<id>] of main.py, are taken apart into
    the action and the number [id] again, for every key from 0 on. *)
Theorem moderation_buttons_round_trip (k : Z) :
  0 <= k ->
  Bot.parse_admin_data (u "admin_approve_" ++ Py.str_of_int k)
  = Some (u "approve", k)
  /\ Bot.parse_admin_data (u "admin_reject_" ++ Py.str_of_int k)
     = Some (u "reject", k)
  /\ Main.parse_admin_data (u "approve_" ++ Py.str_of_int k)
     = Some (u "approve", k)
  /\ Main.parse_admin_data (u "reject_" ++ Py.str_of_int k)
     = Some (u "reject", k).
Proof.
  intros Hk. repeat split.
  - apply (bot_parse_button (u "approve") k Hk). vm_compute. reflexivity.
  - apply (bot_parse_button (u "reject") k Hk). vm_compute. reflexivity.
  - apply (main_parse_button (u "approve") k Hk). vm_compute. reflexivity.
  - apply (main_parse_button (u "reject") k Hk). vm_compute. reflexivity.
Qed.

(** X25 for the key 42. *)
Lemma moderation_buttons_round_trip_witness :
  Bot.parse_admin_data (u "admin_approve_" ++ Py.str_of_int 42)
  = Some (u "approve", 42)
  /\ Main.parse_admin_data (u "reject_" ++ Py.str_of_int 42)
     = Some (u "reject", 42).
Proof.
  destruct (moderation_buttons_round_trip 42 ltac:(lia)) as (H1 & _ & _ & H4).
  by split.
Defined.

Lemma str_eqb_refl (a : str) : Py.str_eqb a a = true.
Proof. by apply bool_decide_eq_true. Qed.

(** X26: in main.py an approval through the moderator's button takes
    effect at once.  With the channel configured and the database
    working, the approval of a pending, unpublished row of a known type
    whose publication date is not after today publishes it in the same
    step: the row ends with the status published and the publication
    time of the step; when the date is still ahead the row ends
    approved and unpublished, left to the publisher.  The row is
    otherwise unchanged. *)
Theorem main_approval_publishes_due (cfg : Main.config) (e : Rt.env)
    (g actor k : Z) (r : Rt.application) (s : str) (d : Dt.date)
    (w : Main.W) :
  Main.GROUP_ID cfg = Some g -> g <> 0 ->
  (forall n, Rt.db_ok e n = true) ->
  0 <= k -> Rt.db w !! k = Some r -> Rt.app_id r = k ->
  Rt.status r = u "pending" -> Rt.published_at r = None ->
  Main.known_type (Rt.type r) = true ->
  Rt.publish_date r = Some s -> Py.truthy s = true ->
  Dt.strptime_Ymd s = Some d ->
  Rt.db (snd (Main.handle_admin_decision cfg e
                (press actor (u "approve_" ++ Py.str_of_int k)) w)) !! k
  = Some (if Dt.le d (Rt.today e)
          then Rt.set_published (Rt.now e) (Rt.set_status (u "approved") r)
          else Rt.set_status (u "approved") r).
Proof.
  intros Hg Hne Hdb Hk Hr Hid Hst Hpa Hty Hpd Hs Hd.
  change (u "approve_" ++ Py.str_of_int k)
    with (u "approve" ++ 95 :: Py.str_of_int k).
  destruct w as [db n tk sn ud]. cbn [Rt.db] in Hr.
  pose proof (main_parse_button (u "approve") k Hk
                ltac:(vm_compute; reflexivity)) as Hparse.
  apply Z.eqb_neq in Hne.
  assert (Hfresh : forall st : str,
            alter (Rt.set_status st) k db !! k = Some (Rt.set_status st r))
    by (intros st; by rewrite lookup_alter_eq, Hr).
  assert (Hdata : Py.truthy (u "approve" ++ 95 :: Py.str_of_int k) = true)
    by reflexivity.
  unfold Main.handle_admin_decision, Main.publish_now,
    Main.publish_application_to_channel, Main.IS_PUBLISHING_ENABLED,
    truthy_id.
  run_main.
  walk ltac:(rewrite ?Hdata, ?Hparse, ?Hg, ?Hdb, ?Hr, ?Hfresh, ?Hne;
             cbn [Rt.set_status Rt.status Rt.published_at Rt.type Rt.app_id
                  Rt.user_id Rt.publish_date];
             rewrite ?Hst, ?Hpd, ?Hpa, ?Hs, ?Hd, ?Hty, ?Hid).
  all: rewrite ?lookup_alter_eq, ?Hr; try reflexivity.
Qed.

(** X26 on a pending congratulation that is due and one that is for
    next year, both approved on 15 June 2025. *)
Lemma main_approval_publishes_due_witness :
  let due := sample_row 1 (u "congrat") (u "pending")
               (Some (u "2025-06-01")) None in
  let later := sample_row 2 (u "congrat") (u "pending")
                 (Some (u "2026-01-01")) None in
  let w := main_world [due; later] in
  Rt.db (snd (Main.handle_admin_decision main_cfg fair
                (press 1 (u "approve_" ++ Py.str_of_int 1)) w)) !! 1
  = Some (Rt.set_published (Rt.now fair) (Rt.set_status (u "approved") due))
  /\ Rt.db (snd (Main.handle_admin_decision main_cfg fair
                   (press 1 (u "approve_" ++ Py.str_of_int 2)) w)) !! 2
     = Some (Rt.set_status (u "approved") later).
Proof.
  intros due later w. split.
  - exact (main_approval_publishes_due main_cfg fair (-100) 1 1 due
             (u "2025-06-01") (Dt.Date 2025 6 1) w eq_refl ltac:(lia)
             (fun _ => eq_refl) ltac:(lia) eq_refl eq_refl eq_refl eq_refl
             eq_refl eq_refl eq_refl eq_refl).
  - exact (main_approval_publishes_due main_cfg fair (-100) 1 2 later
             (u "2026-01-01") (Dt.Date 2026 1 1) w eq_refl ltac:(lia)
             (fun _ => eq_refl) ltac:(lia) eq_refl eq_refl eq_refl eq_refl
             eq_refl eq_refl eq_refl eq_refl).
Defined.

(** X27: in bot.py an approval through the moderator's button, by the
    moderator and with the database working, sets the status of a
    pending row to approved and changes nothing else in the table; the
    moderator's message is edited and the author is told, and nothing
    is broadcast: publication is left to the next run of the
    publisher.  A rejection does the same with the status rejected. *)
Theorem bot_decision_by_button (cfg : Bot.config) (e : Rt.env)
    (actor k : Z) (r : Rt.application) (w : Bot.W) :
  Bot.is_admin cfg actor = true ->
  Rt.send_ok e (Rt.tick w) = true ->
  (forall n, Rt.db_ok e n = true) ->
  0 <= k -> Rt.db w !! k = Some r -> Rt.status r = u "pending" ->
  let a := snd (Bot.admin_callback_handler cfg e
                  (press actor (u "admin_approve_" ++ Py.str_of_int k)) w) in
  let b := snd (Bot.admin_callback_handler cfg e
                  (press actor (u "admin_reject_" ++ Py.str_of_int k)) w) in
  (Rt.db a = alter (Rt.set_status (u "approved")) k (Rt.db w)
   /\ exists ok1 ok2,
        Rt.sent a
        = Rt.sent w ++ [Rt.AnswerQuery true;
                        Rt.EditMessage (Bot.Approved k) ok1;
                        Rt.SendMessage (Rt.user_id r) (Bot.UserApproved k)
                          ok2])
  /\ (Rt.db b = alter (Rt.set_status (u "rejected")) k (Rt.db w)
      /\ exists ok1 ok2,
           Rt.sent b
           = Rt.sent w ++ [Rt.AnswerQuery true;
                           Rt.EditMessage (Bot.Rejected k) ok1;
                           Rt.SendMessage (Rt.user_id r) (Bot.UserRejected k)
                             ok2]).
Proof.
  intros Ha Hok Hdb Hk Hr Hst.
  change (u "admin_approve_" ++ Py.str_of_int k)
    with (u "admin" ++ 95 :: u "approve" ++ 95 :: Py.str_of_int k).
  change (u "admin_reject_" ++ Py.str_of_int k)
    with (u "admin" ++ 95 :: u "reject" ++ 95 :: Py.str_of_int k).
  pose proof (bot_parse_button (u "approve") k Hk
                ltac:(vm_compute; reflexivity)) as Hpa.
  pose proof (bot_parse_button (u "reject") k Hk
                ltac:(vm_compute; reflexivity)) as Hpr.
  destruct w as [db n tk sn ud]. cbn [Rt.db Rt.tick] in Hr, Hok.
  cbv zeta. split.
  - run_bot.
    walk ltac:(rewrite ?Ha, ?Hok, ?Hpa, ?Hdb, ?Hr, ?Hst).
    split; [reflexivity|]. rewrite <- !app_assoc. by eexists _, _.
  - run_bot.
    walk ltac:(rewrite ?Ha, ?Hok, ?Hpr, ?Hdb, ?Hr, ?Hst).
    split; [reflexivity|]. rewrite <- !app_assoc. by eexists _, _.
Qed.

(** X27 for the moderator, user 1, and the pending news item 1. *)
Lemma bot_decision_by_button_witness :
  let w := bot_world [news_row 1 (u "pending") None] in
  Rt.db (snd (Bot.admin_callback_handler bot_cfg fair
                (press 1 (u "admin_approve_" ++ Py.str_of_int 1)) w))
  = alter (Rt.set_status (u "approved")) 1 (Rt.db w).
Proof.
  intros w.
  exact (proj1 (proj1 (bot_decision_by_button bot_cfg fair 1 1
                         (news_row 1 (u "pending") None) w eq_refl eq_refl
                         (fun _ => eq_refl) ltac:(lia) eq_refl eq_refl))).
Defined.
